(** * ContextForge: the compression and merge engine

    A shallow embedding of the compression code of ContextForgeTS:

    - [convex/lib/tokenizer.ts]                     (module [Tokenizer]),
    - [src/lib/compression/strategies/semantic.ts]  (module [Semantic]),
    - [src/lib/compression/types.ts]                (module [Types]),
    - [src/lib/compression/compressionService.ts]   (module [CompressionService]),
    - [convex/compression.ts]                       (module [Compression]),
    - [src/hooks/useCompression.ts]                 (module [UseCompression]),

    with the two mutations of [convex/blocks.ts] that these call (module
    [Blocks]), followed by the properties of the specification that
    concern them.

    Modelling conventions.

    - A JavaScript string is a [string]: a sequence of code units.  The
      model covers the code units below 256 (Latin-1); [length] is the
      number of code units, as [String.prototype.length] is.
    - A JavaScript number that holds a token count or a length is an
      integer of [Z].  A quotient of two such integers is kept exact, as a
      [jsnum]: a rational, an infinity or NaN.  The code compares such
      quotients with [1.2] and [0.6] only; the exact quotient and the
      IEEE-754 double give the same answer there as long as the operands
      stay below 2^50, which token counts and lengths of strings do.  The
      examples [exact_ratio_is_ieee_ratio] and [exact_quality_is_ieee_quality]
      compare the two on a range of operands.
    - Promises are run to completion.  A computation takes the world (the
      table of blocks and the trace of the calls made so far) and returns
      a [result], [Ok] for a value and [Err] for a rejected promise or a
      thrown [Error], with the world it leaves.  Logging ([console.*]) and
      the LangFuse trace do not influence any result and are left out, as
      are the wall-clock fields ([durationMs], [compressedAt]). *)

From Stdlib Require Import ZArith QArith Qround Ascii String DecimalString Lia.
From Stdlib Require Import Floats Uint63.
From stdpp Require Import base option list gmap strings.

Set Warnings "-abstract-large-number".

Local Open Scope Z_scope.

(* ================================================================== *)
(** * JavaScript primitives *)
(* ================================================================== *)

Module Js.

(** ** Numbers *)

Inductive jsnum : Type :=
| JFin (q : Q)
| JPosInf
| JNegInf
| JNaN.

(** [a / b] for integer operands: IEEE division, exact on the finite
    results. *)
Definition div (a b : Z) : jsnum :=
  if b =? 0 then
    (if a =? 0 then JNaN else if 0 <? a then JPosInf else JNegInf)
  else JFin (inject_Z a / inject_Z b)%Q.

Definition Qltb (p q : Q) : bool := negb (Qle_bool q p).

(** [x < q] for a finite constant [q]; every comparison with NaN is
    false. *)
Definition lt (x : jsnum) (q : Q) : bool :=
  match x with
  | JFin p => Qltb p q
  | JPosInf => false
  | JNegInf => true
  | JNaN => false
  end.

(** [Math.ceil] on a finite number. *)
Definition ceil (q : Q) : Z := Qceiling q.

(** [String(n)] and [`${n}`] for an integer [n]. *)
Definition toString (n : Z) : string :=
  NilZero.string_of_int (Z.to_int n).

(** ** Strings *)

Definition code (c : ascii) : Z := Z.of_nat (nat_of_ascii c).

Definition in_range (lo hi : Z) (c : ascii) : bool :=
  (lo <=? code c) && (code c <=? hi).

Definition isDigit (c : ascii) : bool := in_range 48 57 c.
Definition isUpper (c : ascii) : bool := in_range 65 90 c.
Definition isLower (c : ascii) : bool := in_range 97 122 c.

(** The class [\w] of a regular expression without the [u] flag. *)
Definition isWord (c : ascii) : bool :=
  isDigit c || isUpper c || isLower c || (code c =? 95).

(** White space and line terminators, as [trim] strips them: TAB, LF, VT,
    FF, CR, SP and NBSP. *)
Definition isWhitespace (c : ascii) : bool :=
  in_range 9 13 c || (code c =? 32) || (code c =? 160).

Definition len (s : string) : Z := Z.of_nat (String.length s).

Definition isEmpty (s : string) : bool :=
  match s with EmptyString => true | String _ _ => false end.

Fixpoint trimStart (s : string) : string :=
  match s with
  | EmptyString => EmptyString
  | String c r => if isWhitespace c then trimStart r else s
  end.

Fixpoint trimEnd (s : string) : string :=
  match s with
  | EmptyString => EmptyString
  | String c r =>
      let r' := trimEnd r in
      if isWhitespace c && isEmpty r' then EmptyString else String c r'
  end.

Definition trim (s : string) : string := trimEnd (trimStart s).

(** [toLowerCase] of one code unit: A-Z and the Latin-1 capitals. *)
Definition lowerChar (c : ascii) : ascii :=
  if isUpper c || (in_range 192 222 c && negb (code c =? 215))
  then ascii_of_nat (nat_of_ascii c + 32)
  else c.

Fixpoint toLowerCase (s : string) : string :=
  match s with
  | EmptyString => EmptyString
  | String c r => String (lowerChar c) (toLowerCase r)
  end.

(** [s.includes(w)]. *)
Fixpoint includes (s w : string) : bool :=
  String.prefix w s ||
  match s with
  | EmptyString => false
  | String _ r => includes r w
  end.

(** [Math.min(a, b)] on finite numbers. *)
Definition min (a b : Q) : Q := if Qle_bool a b then a else b.

(** [parts.join(sep)]. *)
Definition join (sep : string) (parts : list string) : string :=
  String.concat sep parts.

(** ** Regular expressions

    The fragment of the regular-expression language that the sources use,
    with the backtracking semantics of the engine: a repetition is greedy
    and gives characters back one at a time, an optional group is tried
    before it is skipped. *)

Inductive regex : Type :=
| RChar (c : ascii)                         (* a literal character      *)
| RClass (p : ascii -> bool)                (* [...] and \d            *)
| RWordB                                    (* \b                      *)
| RSeq (r1 r2 : regex)                      (* r1 r2                    *)
| ROpt (r : regex)                          (* (?:r)?                   *)
| RRep (p : ascii -> bool) (min : nat).     (* [...]{min,}; + is {1,}   *)

Definition isWordOpt (c : option ascii) : bool :=
  match c with Some c => isWord c | None => false end.

Definition head (s : string) : option ascii :=
  match s with EmptyString => None | String c _ => Some c end.

(** [\b] holds between [prev] and the first character of [s]. *)
Definition atBoundary (prev : option ascii) (s : string) : bool :=
  xorb (isWordOpt prev) (isWordOpt (head s)).

(** A continuation receives the character before the position, the
    characters matched so far (last first) and the rest of the input. *)
Definition cont : Type :=
  option ascii -> list ascii -> string -> option (list ascii).

Fixpoint rep (p : ascii -> bool) (min : nat) (prev : option ascii)
    (acc : list ascii) (s : string) (k : cont) {struct s} : option (list ascii) :=
  let stop := match min with O => k prev acc s | S _ => None end in
  match s with
  | EmptyString => stop
  | String c r =>
      if p c then
        match rep p (Nat.pred min) (Some c) (c :: acc) r k with
        | Some m => Some m
        | None => stop
        end
      else stop
  end.

Fixpoint run (r : regex) (prev : option ascii) (acc : list ascii)
    (s : string) (k : cont) {struct r} : option (list ascii) :=
  match r with
  | RChar c0 =>
      match s with
      | String c s' => if Ascii.eqb c c0 then k (Some c) (c :: acc) s' else None
      | EmptyString => None
      end
  | RClass p =>
      match s with
      | String c s' => if p c then k (Some c) (c :: acc) s' else None
      | EmptyString => None
      end
  | RWordB => if atBoundary prev s then k prev acc s else None
  | RSeq r1 r2 => run r1 prev acc s (fun prev' acc' s' => run r2 prev' acc' s' k)
  | ROpt r1 =>
      match run r1 prev acc s k with
      | Some m => Some m
      | None => k prev acc s
      end
  | RRep p min => rep p min prev acc s k
  end.

(** The match that starts exactly at the current position, if any. *)
Definition matchAt (r : regex) (prev : option ascii) (s : string) : option string :=
  match run r prev [] s (fun _ acc _ => Some acc) with
  | Some acc => Some (string_of_list_ascii (rev acc))
  | None => None
  end.

(** [s.match(/r/g) || []]: the successive matches, left to right; after a
    match the search resumes where the match ended ([skip] counts the
    characters of the last match still to be passed over). *)
Fixpoint scan (r : regex) (prev : option ascii) (s : string) (skip : nat)
    {struct s} : list string :=
  let here := match skip with O => matchAt r prev s | S _ => None end in
  match here with
  | Some m =>
      m :: match s with
           | EmptyString => []
           | String c rest => scan r (Some c) rest (Nat.pred (String.length m))
           end
  | None =>
      match s with
      | EmptyString => []
      | String c rest => scan r (Some c) rest (Nat.pred skip)
      end
  end.

Definition matchAll (r : regex) (s : string) : list string := scan r None s 0.

(** [s.replace(/r/g, f)]: every match is replaced by [f] of it, the other
    characters are copied. *)
Fixpoint replaceFrom (r : regex) (f : string -> string) (prev : option ascii)
    (s : string) (skip : nat) {struct s} : string :=
  let here := match skip with O => matchAt r prev s | S _ => None end in
  match here, s with
  | Some m, EmptyString => f m
  | Some m, String c rest =>
      String.append (f m)
        (String.append (if isEmpty m then String c EmptyString else EmptyString)
           (replaceFrom r f (Some c) rest (Nat.pred (String.length m))))
  | None, EmptyString => EmptyString
  | None, String c rest =>
      String.append (match skip with O => String c EmptyString | S _ => EmptyString end)
        (replaceFrom r f (Some c) rest (Nat.pred skip))
  end.

Definition replaceAll (r : regex) (f : string -> string) (s : string) : string :=
  replaceFrom r f None s 0.

(** [array.slice(0, n)] *)
Definition slice0 {A : Type} (n : nat) (l : list A) : list A := firstn n l.

(** [[...new Set(l)]]: the first occurrence of each element, in order. *)
Fixpoint unique (l : list string) (seen : list string) : list string :=
  match l with
  | [] => []
  | x :: r =>
      if existsb (String.eqb x) seen then unique r seen
      else x :: unique r (x :: seen)
  end.

End Js.

(* ================================================================== *)
(** * convex/lib/tokenizer.ts *)
(* ================================================================== *)

Module Tokenizer.

(** [Math.ceil(text.length / 4)] *)
Definition estimateTokens (text : string) : Z :=
  Js.ceil (inject_Z (Js.len text) / 4)%Q.

End Tokenizer.

(* ================================================================== *)
(** * Errors, collaborators and effects *)
(* ================================================================== *)

(** The messages of the [Error]s that the code throws or returns.  The
    numbers interpolated into a message are kept as arguments. *)
Inductive Error : Type :=
| TooFewTokens (tokens : Z)
    (* "Block has only ${tokens} tokens (minimum: 100)" *)
| CombinedTooFewTokens (tokens : Z)
    (* "Combined blocks have only ${tokens} tokens (minimum: 100)" *)
| NoContent
    (* "Block has no content" *)
| RatioBelowMinimum (ratio : Js.jsnum)
    (* "Compression ratio ${ratio.toFixed(2)}x is below minimum 1.2x" *)
| QualityTooLow (quality : Q)
    (* "Compression quality ${(quality * 100).toFixed(0)}% is too low" *)
| NotImplemented (strategy : string)
    (* "Structural compression not yet implemented", and Statistical *)
| MustUseConvexAction
    (* "Claude Code compression must be called via Convex action" *)
| BlockNotFound
    (* "Block not found" *)
| BlocksNotFound
    (* "One or more blocks not found" *)
| EmptyResponse
    (* "Claude Code returned empty response" *)
| TimedOut
    (* "Compression timed out after 5 minutes" *)
| Thrown (message : string)
    (* an error raised by a collaborator: the LLM client, the SDK, the store *)
| ClaudeCodeFailed (cause : Error)
    (* "Claude Code compression failed: ${errorMessage}" *)
| NoBlocksToMerge
    (* "No blocks to merge" *)
| ActionFailed.
    (* "Compression action failed" *)

(** The message of the error is the empty string: only an error raised by
    a collaborator can have one, every other message is a fixed text that
    is not empty. *)
Definition messageIsEmpty (e : Error) : bool :=
  match e with
  | Thrown message => Js.isEmpty message
  | _ => false
  end.

Inductive result (A : Type) : Type :=
| Ok (a : A)
| Err (e : Error).
Arguments Ok {A} a.
Arguments Err {A} e.

Definition isErr {A : Type} (r : result A) : bool :=
  match r with Ok _ => false | Err _ => true end.

Inductive Provider : Type := ollama | openrouter | claude_code.

Inductive Strategy : Type := semantic | structural | statistical.

Definition strategyName (s : Strategy) : string :=
  match s with
  | semantic => "semantic"
  | structural => "structural"
  | statistical => "statistical"
  end.

Definition BlockId : Type := N.

(** A document of the [blocks] table ([Doc<"blocks">]), with the fields
    that the compression code reads and the compression metadata of the
    specification. *)
Record Doc : Type := mkDoc {
  content : string;
  type : string;
  zone : string;
  sessionId : N;
  tokens : option Z;
  isCompressed : bool;
  originalTokens : option Z;
  compressionRatio : option Js.jsnum;
  compressionStrategy : option string;
  mergedFromCount : option Z
}.

(** The arguments of the mutation [api.blocks.compress]. *)
Record CompressArgs : Type := mkCompressArgs {
  ca_blockId : BlockId;
  ca_compressedContent : string;
  ca_originalTokens : Z;
  ca_compressedTokens : Z;
  ca_compressionRatio : Js.jsnum;
  ca_strategy : string
}.

(** The arguments of the mutation [api.blocks.compressAndMerge]. *)
Record MergeArgs : Type := mkMergeArgs {
  ma_blockIds : list BlockId;
  ma_compressedContent : string;
  ma_originalTokens : Z;
  ma_compressedTokens : Z;
  ma_compressionRatio : Js.jsnum;
  ma_strategy : string;
  ma_targetZone : string;
  ma_targetType : string;
  ma_targetPosition : Z
}.

(** What a compression attempt does to the outside world. *)
Inductive Event : Type :=
| EvStreamChat (p : Provider) (prompt : string)
| EvClaudeQuery (prompt : string)
| EvCompress (args : CompressArgs)
| EvCompressAndMerge (args : MergeArgs).

Definition isBackendCall (e : Event) : bool :=
  match e with
  | EvStreamChat _ _ | EvClaudeQuery _ => true
  | _ => false
  end.

Definition isMutation (e : Event) : bool :=
  match e with
  | EvCompress _ | EvCompressAndMerge _ => true
  | _ => false
  end.

(** The messages of the Claude Agent SDK, as far as the code looks at
    them. *)
Inductive ContentPart : Type :=
| TextPart (text : string)          (* type === "text", text a string *)
| OtherPart.

Inductive SdkMessage : Type :=
| AssistantMessage (parts : option (list ContentPart))
| ResultMessage
| OtherMessage.

(** One run of [claudeQuery]: it completes after [elapsed] milliseconds
    having yielded its messages, throws after [elapsed] milliseconds, or
    never settles. *)
Inductive SdkRun : Type :=
| RunCompletes (elapsed : Z) (messages : list SdkMessage)
| RunThrows (elapsed : Z) (message : string)
| RunHangs.

(** What a call of a collaborator does: it returns, or it throws an
    error with a message. *)
Inductive outcome (A : Type) : Type :=
| Returns (a : A)
| Throws (message : string).
Arguments Returns {A} a.
Arguments Throws {A} message.

(** The collaborators: the streaming chat clients of [@/lib/llm/ollama]
    and [@/lib/llm/openrouter] (the chunks that the generator yields, or
    the error it throws), the SDK's [query], and the two mutations of
    [convex/blocks.ts] that store a compression.  A Convex mutation is a
    transaction: it commits its writes, or it throws and leaves the table
    as it was. *)
Record Env : Type := mkEnv {
  streamChat : Provider -> string -> outcome (list string);
  claudeQuery : string -> SdkRun;
  compressMutation : CompressArgs -> gmap N Doc -> outcome (gmap N Doc);
  compressAndMergeMutation :
    MergeArgs -> gmap N Doc -> outcome (BlockId * gmap N Doc)
}.

Record World : Type := mkWorld {
  store : gmap N Doc;
  trace : list Event
}.

(** Computations that read and write the world and may throw. *)
Definition M (A : Type) : Type := World -> result A * World.

Definition ret {A : Type} (a : A) : M A := fun w => (Ok a, w).

Definition throw {A : Type} (e : Error) : M A := fun w => (Err e, w).

Definition bind {A B : Type} (m : M A) (f : A -> M B) : M B :=
  fun w =>
    match m w with
    | (Ok a, w') => f a w'
    | (Err e, w') => (Err e, w')
    end.

(** [try { m } catch (error) { h error }] *)
Definition tryCatch {A : Type} (m : M A) (h : Error -> M A) : M A :=
  fun w =>
    match m w with
    | (Ok a, w') => (Ok a, w')
    | (Err e, w') => h e w'
    end.

Definition emit (e : Event) : M unit :=
  fun w => (Ok tt, mkWorld (store w) (trace w ++ [e])).

(** The call of a collaborator that does not touch the world. *)
Definition call {A : Type} (o : outcome A) : M A :=
  fun w =>
    match o with
    | Returns a => (Ok a, w)
    | Throws message => (Err (Thrown message), w)
    end.

Notation "'await' x ':=' m 'in' k" := (bind m (fun x => k))
  (at level 10, x name, m at level 100, k at level 200, only parsing).
Notation "'perform' m 'in' k" := (bind m (fun _ => k))
  (at level 10, m at level 100, k at level 200, only parsing).

(** [a || b] on numbers: [b] when [a] is [undefined] or [0]. *)
Definition orElse (a : option Z) (b : Z) : Z :=
  match a with
  | Some n => if n =? 0 then b else n
  | None => b
  end.

Definition LF : string := String (ascii_of_nat 10) EmptyString.
Definition DQUOTE : string := String (ascii_of_nat 34) EmptyString.

(** The content of the blocks of a merge, as both [convex/compression.ts]
    and [useCompression.ts] combine it: each block becomes
    [`## Block ${index + 1} (${block.type})\n\n${block.content}`], and the
    pieces are joined by ["\n\n---\n\n"].  A block is given by its type
    and its content. *)
Definition combine (blocks : list (string * string)) : string :=
  Js.join (LF +:+ LF +:+ "---" +:+ LF +:+ LF)
    (imap
       (fun index '(type, content) =>
          "## Block " +:+ Js.toString (Z.of_nat index + 1) +:+ " (" +:+ type +:+ ")"
          +:+ LF +:+ LF +:+ content)
       blocks).

(* ================================================================== *)
(** * src/lib/compression/strategies/semantic.ts *)
(* ================================================================== *)

Module Semantic.

Record CompressionPromptVars : Type := mkVars {
  v_content : string;
  v_originalTokens : Z;
  v_targetRatio : Z;
  v_contentType : string
}.

Definition SEMANTIC_PROMPT_TEMPLATE : string :=
  "You are a compression specialist. Compress the following {contentType} content from {originalTokens} tokens to approximately {originalTokens}/{targetRatio} tokens while preserving all critical information." +:+ LF +:+
  LF +:+
  "CRITICAL RULES:" +:+ LF +:+
  "- Keep ALL specific names, numbers, dates, and decisions" +:+ LF +:+
  "- Maintain chronological order" +:+ LF +:+
  "- Preserve technical terms and key concepts" +:+ LF +:+
  "- Remove redundant explanations and examples" +:+ LF +:+
  "- Keep conclusions and results" +:+ LF +:+
  "- Output ONLY the compressed content (no meta-commentary)" +:+ LF +:+
  "- If the same phrase is repeated, keep only the first occurrence" +:+ LF +:+
  LF +:+
  "CONTENT TO COMPRESS:" +:+ LF +:+
  "{content}" +:+ LF +:+
  LF +:+
  "COMPRESSED VERSION:".

(** [/\{(\w+)\}/g] *)
Definition placeholder : Js.regex :=
  Js.RSeq (Js.RChar "{") (Js.RSeq (Js.RRep Js.isWord 1) (Js.RChar "}")).

(** The capture group of a match of [placeholder]. *)
Definition keyOf (m : string) : string :=
  String.substring 1 (String.length m - 2) m.

(** [String(n || "")] *)
Definition numOrEmpty (n : Z) : string :=
  if n =? 0 then "" else Js.toString n.

(** [String(vars[key] || "")], for the properties that [vars] owns. *)
Definition lookup (vars : CompressionPromptVars) (key : string) : string :=
  if String.eqb key "content" then v_content vars
  else if String.eqb key "originalTokens" then numOrEmpty (v_originalTokens vars)
  else if String.eqb key "targetRatio" then numOrEmpty (v_targetRatio vars)
  else if String.eqb key "contentType" then v_contentType vars
  else "".

Definition formatPrompt (vars : CompressionPromptVars) : string :=
  Js.replaceAll placeholder (fun m => lookup vars (keyOf m))
    SEMANTIC_PROMPT_TEMPLATE.

(** [Math.ceil(content.length / 4)] *)
Definition estimateTokens (content : string) : Z :=
  Js.ceil (inject_Z (Js.len content) / 4)%Q.

(** [/\b\d+(?:\.\d+)?\b/g] *)
Definition numbersRe : Js.regex :=
  Js.RSeq Js.RWordB
    (Js.RSeq (Js.RRep Js.isDigit 1)
       (Js.RSeq (Js.ROpt (Js.RSeq (Js.RChar ".") (Js.RRep Js.isDigit 1)))
          Js.RWordB)).

(** [/\b[A-Z][a-z]+\b/g] *)
Definition properNounsRe : Js.regex :=
  Js.RSeq Js.RWordB
    (Js.RSeq (Js.RClass Js.isUpper) (Js.RSeq (Js.RRep Js.isLower 1) Js.RWordB)).

(** [/\b[A-Z]{2,}\b/g] *)
Definition technicalRe : Js.regex :=
  Js.RSeq Js.RWordB (Js.RSeq (Js.RRep Js.isUpper 2) Js.RWordB).

Definition extractImportantWords (text : string) : list string :=
  let important := [] in
  let numbers := Js.matchAll numbersRe text in
  let important := important ++ numbers in
  let properNouns := Js.matchAll properNounsRe text in
  let important := important ++ Js.slice0 10 properNouns in
  let technical := Js.matchAll technicalRe text in
  let important := important ++ Js.slice0 5 technical in
  important.

Definition estimateQuality (original compressed : string) : Q :=
  let importantWords := extractImportantWords original in
  if (length importantWords =? 0)%nat then 0.8%Q
  else
    let compressedLower := Js.toLowerCase compressed in
    let preserved :=
      length (List.filter
                (fun word => Js.includes compressedLower (Js.toLowerCase word))
                importantWords) in
    Js.min 1 (inject_Z (Z.of_nat preserved) / inject_Z (Z.of_nat (length importantWords)))%Q.

(** [compressWithOllama] and [compressWithOpenRouter]: the chunks of the
    stream are concatenated and the result is trimmed. *)
Definition compressWithStream (env : Env) (p : Provider) (prompt : string) : M string :=
  perform emit (EvStreamChat p prompt) in
  await chunks := call (streamChat env p prompt) in
  let compressed := fold_left String.append chunks "" in
  ret (Js.trim compressed).

Definition compressSemantic (env : Env) (content : string)
    (provider : Provider) (targetRatio : option Z) (contentType : option string)
    : M string :=
  let targetRatio := orElse targetRatio 2 in
  let contentType :=
    match contentType with
    | Some t => if Js.isEmpty t then "text" else t
    | None => "text"
    end in
  let prompt :=
    formatPrompt (mkVars content (estimateTokens content) targetRatio contentType) in
  match provider with
  | ollama => compressWithStream env ollama prompt
  | openrouter => compressWithStream env openrouter prompt
  | claude_code => throw MustUseConvexAction
  end.

End Semantic.

(* ================================================================== *)
(** * src/lib/compression/types.ts *)
(* ================================================================== *)

Module Types.

Record CompressionResult : Type := mkResult {
  success : bool;
  blockId : option BlockId;
  newBlockId : option BlockId;
  error : option Error;
  originalTokens : Z;
  compressedTokens : Z;
  compressionRatio : Js.jsnum;
  tokensSaved : Z;
  compressedContent : option string;
  strategy : Strategy;
  provider : option Provider
}.

End Types.

(* ================================================================== *)
(** * src/lib/compression/compressionService.ts *)
(* ================================================================== *)

Module CompressionService.

(** Block interface (subset of the Convex block type). *)
Record Block : Type := mkBlock {
  _id : BlockId;
  content : string;
  type : string;
  tokens : option Z;
  isCompressed : option bool
}.

Definition MIN_TOKENS_FOR_COMPRESSION : Z := 100.

Definition MIN_COMPRESSION_RATIO : Q := 1.2%Q.

Record Validation : Type := mkValidation {
  valid : bool;
  reason : option Error
}.

Definition validateBlock (block : Block) : Validation :=
  let tokens := orElse (tokens block) (Semantic.estimateTokens (content block)) in
  if tokens <? MIN_TOKENS_FOR_COMPRESSION then
    mkValidation false (Some (TooFewTokens tokens))
  else if Js.isEmpty (content block)
          || (String.length (Js.trim (content block)) =? 0)%nat then
    mkValidation false (Some NoContent)
  else mkValidation true None.

Definition compressContent (provider : Provider) (env : Env)
    (content : string) (strategy : Strategy) (contentType : string) : M string :=
  match strategy with
  | semantic =>
      Semantic.compressSemantic env content provider (Some 2) (Some contentType)
  | structural => throw (NotImplemented "Structural")
  | statistical => throw (NotImplemented "Statistical")
  end.

Definition failure (e : Error) (originalTokens compressedTokens : Z)
    (ratio : Js.jsnum) (strategy : Strategy) : Types.CompressionResult :=
  Types.mkResult false None None (Some e) originalTokens compressedTokens
    ratio 0 None strategy None.

Definition compressBlock (provider : Provider) (env : Env)
    (block : Block) (strategy : Strategy) : M Types.CompressionResult :=
  let validation := validateBlock block in
  if negb (valid validation) then
    ret (failure
           (match reason validation with
            | Some r => r
            | None => Thrown "Block validation failed"
            end)
           (orElse (tokens block) 0) 0 (Js.JFin 1) strategy)
  else
    tryCatch
      (await compressedContent :=
         compressContent provider env (content block) strategy (type block) in
       let originalTokens :=
         orElse (tokens block) (Semantic.estimateTokens (content block)) in
       let compressedTokens := Semantic.estimateTokens compressedContent in
       let compressionRatio := Js.div originalTokens compressedTokens in
       if Js.lt compressionRatio MIN_COMPRESSION_RATIO then
         ret (failure (RatioBelowMinimum compressionRatio)
                originalTokens compressedTokens compressionRatio strategy)
       else
         let quality := Semantic.estimateQuality (content block) compressedContent in
         if Js.Qltb quality 0.6%Q then
           ret (failure (QualityTooLow quality)
                  originalTokens compressedTokens compressionRatio strategy)
         else
           ret (Types.mkResult true (Some (_id block)) None None
                  originalTokens compressedTokens compressionRatio
                  (originalTokens - compressedTokens)
                  (Some compressedContent) strategy (Some provider)))
      (fun error =>
         ret (failure error (orElse (tokens block) 0) 0 (Js.JFin 1) strategy)).

Record TextResult : Type := mkTextResult {
  t_compressedContent : string;
  t_originalTokens : Z;
  t_compressedTokens : Z;
  t_compressionRatio : Js.jsnum
}.

Definition compressText (provider : Provider) (env : Env)
    (content : string) (strategy : Strategy) (contentType : string) : M TextResult :=
  await compressedContent :=
    compressContent provider env content strategy contentType in
  let originalTokens := Semantic.estimateTokens content in
  let compressedTokens := Semantic.estimateTokens compressedContent in
  let compressionRatio := Js.div originalTokens compressedTokens in
  ret (mkTextResult compressedContent originalTokens compressedTokens compressionRatio).

End CompressionService.

(* ================================================================== *)
(** * convex/blocks.ts: the compression mutations *)
(* ================================================================== *)

Module Blocks.

(** [ctx.db.get(id)] *)
Definition get (id : BlockId) : M (option Doc) :=
  fun w => (Ok (store w !! id), w).

(** Modelled from the spec: the mutation [blocks.compress] of
    [convex/blocks.ts], known only through its callers.  The single-block path
    "patches [the block] in place"; "re-compression is allowed and
    overwrites prior compression metadata, preserving originalTokenCount
    provenance".  The architecture notes of the repository quote the patch
    as [content: args.compressedContent, isCompressed: true,
    compressionStrategy, compressionRatio, tokens: args.compressedTokens,
    originalTokens: block.originalTokens || args.originalTokens]. *)
Definition compress (args : CompressArgs) (s : gmap N Doc) : outcome (gmap N Doc) :=
  match s !! ca_blockId args with
  | None => Throws "Block not found"
  | Some block =>
      Returns (<[ca_blockId args :=
              mkDoc (ca_compressedContent args)
                (type block) (zone block) (sessionId block)
                (Some (ca_compressedTokens args))
                true
                (Some (orElse (originalTokens block) (ca_originalTokens args)))
                (Some (ca_compressionRatio args))
                (Some (ca_strategy args))
                (mergedFromCount block)]> s)
  end.

(** Modelled from the spec: the mutation [blocks.compressAndMerge] of
    [convex/blocks.ts], known only through its callers.  "Insert exactly one new
    block carrying the compacted content, mergedFromCount = N, and
    compression metadata; then delete all N source blocks."  The mutation
    is one transaction: it fails as a whole when a source block is
    missing. *)
Definition compressAndMerge (args : MergeArgs) (s : gmap N Doc)
    : outcome (BlockId * gmap N Doc) :=
  match mapM (fun id => s !! id) (ma_blockIds args) with
  | None => Throws "Block not found"
  | Some [] => Throws "No blocks to merge"
  | Some (first :: others) =>
      let newBlockId := fresh (dom s) in
      let merged :=
        mkDoc (ma_compressedContent args)
          (ma_targetType args) (ma_targetZone args) (sessionId first)
          (Some (ma_compressedTokens args))
          true
          (Some (ma_originalTokens args))
          (Some (ma_compressionRatio args))
          (Some (ma_strategy args))
          (Some (Z.of_nat (length (ma_blockIds args)))) in
      Returns (newBlockId,
          foldr (fun id acc => delete id acc) (<[newBlockId := merged]> s)
            (ma_blockIds args))
  end.

(** [ctx.runMutation(api.blocks.compress, args)] and the client's
    [compressMutation(args)]. *)
Definition runCompress (env : Env) (args : CompressArgs) : M unit :=
  fun w =>
    let tr := trace w ++ [EvCompress args] in
    match compressMutation env args (store w) with
    | Returns s' => (Ok tt, mkWorld s' tr)
    | Throws message => (Err (Thrown message), mkWorld (store w) tr)
    end.

(** The client's [compressAndMergeMutation(args)]. *)
Definition runCompressAndMerge (env : Env) (args : MergeArgs) : M BlockId :=
  fun w =>
    let tr := trace w ++ [EvCompressAndMerge args] in
    match compressAndMergeMutation env args (store w) with
    | Returns (id, s') => (Ok id, mkWorld s' tr)
    | Throws message => (Err (Thrown message), mkWorld (store w) tr)
    end.

End Blocks.

(* ================================================================== *)
(** * convex/compression.ts *)
(* ================================================================== *)

Module Compression.

(** [Math.ceil(content.length / 4)] *)
Definition estimateTokens (content : string) : Z :=
  Js.ceil (inject_Z (Js.len content) / 4)%Q.

Definition stopWords : list string :=
  [ "the"; "is"; "at"; "which"; "on"; "a"; "an"; "and"; "or"; "but"; "in";
    "with"; "to"; "for"; "of"; "as"; "by"; "from"; "that"; "this"; "these";
    "those"; "it"; "are"; "was"; "were"; "be"; "been"; "being"; "have";
    "has"; "had"; "do"; "does"; "did"; "will"; "would"; "should"; "could";
    "may"; "might"; "can" ].

(** [stopWords.has(word)] *)
Definition isStopWord (word : string) : bool :=
  existsb (String.eqb word) stopWords.

(** [/\b[a-z0-9]+\b/g] *)
Definition wordsRe : Js.regex :=
  Js.RSeq Js.RWordB
    (Js.RSeq (Js.RRep (fun c => Js.isLower c || Js.isDigit c) 1) Js.RWordB).

Definition extractImportantWords (content : string) : list string :=
  let words := Js.matchAll wordsRe (Js.toLowerCase content) in
  let important :=
    Js.slice0 50
      (List.filter
         (fun word => negb (isStopWord word) && (3 <? String.length word)%nat)
         (Js.unique words [])) in
  important.

Definition estimateQuality (original compressed : string) : Q :=
  let importantWords := extractImportantWords original in
  if (length importantWords =? 0)%nat then 0.8%Q
  else
    let compressedLower := Js.toLowerCase compressed in
    let preserved :=
      length (List.filter
                (fun word => Js.includes compressedLower (Js.toLowerCase word))
                importantWords) in
    Js.min 1 (inject_Z (Z.of_nat preserved) / inject_Z (Z.of_nat (length importantWords)))%Q.

Definition buildCompressionPrompt (content : string) (strategy : string)
    (originalTokens : Z) (contentType : string) : string :=
  let targetRatio := 2 in
  let targetTokens := Js.ceil (inject_Z originalTokens / inject_Z targetRatio)%Q in
  "You are a compression specialist. Your task is to compress the following " +:+ contentType +:+ " content while preserving all essential information." +:+ LF +:+
  LF +:+
  "ORIGINAL CONTENT (" +:+ Js.toString originalTokens +:+ " tokens):" +:+ LF +:+
  "---" +:+ LF +:+
  content +:+ LF +:+
  "---" +:+ LF +:+
  LF +:+
  "COMPRESSION REQUIREMENTS:" +:+ LF +:+
  "- Target length: ~" +:+ Js.toString targetTokens +:+ " tokens (" +:+ Js.toString targetRatio +:+ "x compression ratio)" +:+ LF +:+
  "- Preserve all key information, facts, and important details" +:+ LF +:+
  "- Remove redundancy, filler words, and verbose explanations" +:+ LF +:+
  "- Maintain technical accuracy and specificity" +:+ LF +:+
  "- Keep the compressed version coherent and readable" +:+ LF +:+
  "- DO NOT add commentary or meta-text (no " +:+ DQUOTE +:+ "Here's the compressed version..." +:+ DQUOTE +:+ " etc.)" +:+ LF +:+
  LF +:+
  "COMPRESSED VERSION:".

Definition timeoutMs : Z := 300000.

(** The text parts of the assistant messages, concatenated. *)
Definition textOfParts (parts : list ContentPart) : string :=
  fold_left
    (fun acc part =>
       match part with
       | TextPart text => acc +:+ text
       | OtherPart => acc
       end)
    parts "".

Definition textOfMessages (messages : list SdkMessage) : string :=
  fold_left
    (fun acc message =>
       match message with
       | AssistantMessage (Some parts) => acc +:+ textOfParts parts
       | _ => acc
       end)
    messages "".

(** [await Promise.race([consume(claudeQuery({prompt, ...})), timeoutPromise])]:
    the promise that settles first decides; the timer settles after
    [timeoutMs] milliseconds.  Yields the text accumulated by the loop. *)
Definition raceWithTimeout (env : Env) (prompt : string) : M string :=
  perform emit (EvClaudeQuery prompt) in
  match claudeQuery env prompt with
  | RunCompletes elapsed messages =>
      if elapsed <? timeoutMs then ret (textOfMessages messages)
      else throw TimedOut
  | RunThrows elapsed message =>
      if elapsed <? timeoutMs then throw (Thrown message)
      else throw TimedOut
  | RunHangs => throw TimedOut
  end.

Record SingleResult : Type := mkSingleResult {
  s_success : bool;
  s_blockId : BlockId;
  s_originalTokens : Z;
  s_compressedTokens : Z;
  s_compressionRatio : Js.jsnum;
  s_tokensSaved : Z
}.

Definition compressWithClaudeCode (env : Env) (blockId : BlockId)
    (strategy : string) : M SingleResult :=
  await found := Blocks.get blockId in
  match found with
  | None => throw BlockNotFound
  | Some block =>
      let originalTokens := orElse (tokens block) (estimateTokens (content block)) in
      if originalTokens <? 100 then throw (TooFewTokens originalTokens)
      else if Js.isEmpty (content block)
              || (String.length (Js.trim (content block)) =? 0)%nat then
        throw NoContent
      else
        let prompt :=
          buildCompressionPrompt (content block) strategy originalTokens (type block) in
        tryCatch
          (await compressedContent := raceWithTimeout env prompt in
           let compressedContent := Js.trim compressedContent in
           if Js.isEmpty compressedContent then throw EmptyResponse
           else
             let compressedTokens := estimateTokens compressedContent in
             let compressionRatio := Js.div originalTokens compressedTokens in
             if Js.lt compressionRatio 1.2%Q then
               throw (RatioBelowMinimum compressionRatio)
             else
               (* a quality below 0.6 is logged with console.warn *)
               let quality := estimateQuality (content block) compressedContent in
               perform
                 Blocks.runCompress env
                   (mkCompressArgs blockId compressedContent originalTokens
                      compressedTokens compressionRatio strategy) in
               ret (mkSingleResult true blockId originalTokens compressedTokens
                      compressionRatio (originalTokens - compressedTokens)))
          (fun error => throw (ClaudeCodeFailed error))
  end.

Record MergeResult : Type := mkMergeResult {
  m_success : bool;
  m_compressedContent : string;
  m_originalTokens : Z;
  m_compressedTokens : Z;
  m_compressionRatio : Js.jsnum;
  m_tokensSaved : Z
}.

Definition compressAndMergeWithClaudeCode (env : Env) (blockIds : list BlockId)
    (strategy : string) : M MergeResult :=
  await blocks := (fun w => (Ok (List.map (fun id => store w !! id) blockIds), w)) in
  if existsb (fun b => negb (bool_decide (is_Some b))) blocks then
    throw BlocksNotFound
  else
    let validBlocks := omap id blocks in
    let combinedContent :=
      combine (List.map (fun b => (type b, content b)) validBlocks) in
    let originalTokens :=
      fold_left
        (fun sum b => sum + orElse (tokens b) (estimateTokens (content b)))
        validBlocks 0 in
    if originalTokens <? 100 then throw (CombinedTooFewTokens originalTokens)
    else
      let prompt :=
        buildCompressionPrompt combinedContent strategy originalTokens "merged_blocks" in
      tryCatch
        (await compressedContent := raceWithTimeout env prompt in
         let compressedContent := Js.trim compressedContent in
         if Js.isEmpty compressedContent then throw EmptyResponse
         else
           let compressedTokens := estimateTokens compressedContent in
           let compressionRatio := Js.div originalTokens compressedTokens in
           if Js.lt compressionRatio 1.2%Q then
             throw (RatioBelowMinimum compressionRatio)
           else
             (* a quality below 0.6 is logged with console.warn *)
             let quality := estimateQuality combinedContent compressedContent in
             ret (mkMergeResult true compressedContent originalTokens
                    compressedTokens compressionRatio
                    (originalTokens - compressedTokens)))
        (fun error => throw (ClaudeCodeFailed error)).

End Compression.

(* ================================================================== *)
(** * src/hooks/useCompression.ts *)
(* ================================================================== *)

Module UseCompression.

Record MergeOptions : Type := mkMergeOptions {
  strategy : option Strategy;
  targetZone : string;
  targetType : string
}.

(** The state that the hook exposes when the operation has returned. *)
Record HookState : Type := mkHookState {
  isCompressing : bool;
  error : option Error;
  result : option Types.CompressionResult
}.

(** [useState(false)], [useState(null)], [useState(null)] *)
Definition initial : HookState := mkHookState false None None.

(** [try { ... setResult(r) } catch (err) { setError(message) }
     finally { setIsCompressing(false) }] *)
Definition settle (m : M Types.CompressionResult) : World -> HookState * World :=
  fun w =>
    match m w with
    | (Ok r, w') => (mkHookState false None (Some r), w')
    | (Err e, w') => (mkHookState false (Some e) None, w')
    end.

(** [compressSingle]; [compressionProvider] is the provider that
    [compressionSettings.getProvider()] returns. *)
Definition compressSingle (compressionProvider : Provider) (env : Env)
    (block : CompressionService.Block) (strategy : Strategy)
    : World -> HookState * World :=
  settle
    (match compressionProvider with
     | claude_code =>
         await actionResult :=
           Compression.compressWithClaudeCode env
             (CompressionService._id block) (strategyName strategy) in
         ret (Types.mkResult
                (Compression.s_success actionResult)
                (Some (Compression.s_blockId actionResult))
                None None
                (Compression.s_originalTokens actionResult)
                (Compression.s_compressedTokens actionResult)
                (Compression.s_compressionRatio actionResult)
                (Compression.s_tokensSaved actionResult)
                None strategy (Some claude_code))
     | _ =>
         await compressionResult :=
           CompressionService.compressBlock compressionProvider env block strategy in
         if negb (Types.success compressionResult) then
           (* compressionResult.error || "Compression failed" *)
           throw (match Types.error compressionResult with
                  | Some e =>
                      if messageIsEmpty e then Thrown "Compression failed" else e
                  | None => Thrown "Compression failed"
                  end)
         else
           perform
             Blocks.runCompress env
               (mkCompressArgs (CompressionService._id block)
                  (match Types.compressedContent compressionResult with
                   | Some c => c
                   | None => ""
                   end)
                  (Types.originalTokens compressionResult)
                  (Types.compressedTokens compressionResult)
                  (Types.compressionRatio compressionResult)
                  (strategyName strategy)) in
           ret compressionResult
     end).

Definition compressAndMerge (compressionProvider : Provider) (env : Env)
    (blocks : list CompressionService.Block) (options : MergeOptions)
    (previous : HookState) : World -> HookState * World :=
  if (length blocks =? 0)%nat then
    (* setError(message) and return: [isCompressing] and [result] stay *)
    fun w =>
      (mkHookState (isCompressing previous) (Some NoBlocksToMerge) (result previous), w)
  else
    settle
      (let strategy :=
         match strategy options with Some s => s | None => semantic end in
       await compressed :=
         match compressionProvider with
         | claude_code =>
             await actionResult :=
               Compression.compressAndMergeWithClaudeCode env
                 (List.map CompressionService._id blocks) (strategyName strategy) in
             if negb (Compression.m_success actionResult) then throw ActionFailed
             else
               ret (CompressionService.mkTextResult
                      (Compression.m_compressedContent actionResult)
                      (Compression.m_originalTokens actionResult)
                      (Compression.m_compressedTokens actionResult)
                      (Compression.m_compressionRatio actionResult))
         | _ =>
             let combinedContent :=
               combine
                 (List.map
                    (fun b => (CompressionService.type b, CompressionService.content b))
                    blocks) in
             CompressionService.compressText compressionProvider env
               combinedContent strategy "merged_blocks"
         end in
       let compressedContent := CompressionService.t_compressedContent compressed in
       let originalTokens := CompressionService.t_originalTokens compressed in
       let compressedTokens := CompressionService.t_compressedTokens compressed in
       let compressionRatio := CompressionService.t_compressionRatio compressed in
       if Js.lt compressionRatio 1.2%Q then
         throw (RatioBelowMinimum compressionRatio)
       else
         await newBlockId :=
           Blocks.runCompressAndMerge env
             (mkMergeArgs (List.map CompressionService._id blocks)
                compressedContent originalTokens compressedTokens
                compressionRatio (strategyName strategy)
                (targetZone options) (targetType options) 0) in
         ret (Types.mkResult true None (Some newBlockId) None
                originalTokens compressedTokens compressionRatio
                (originalTokens - compressedTokens)
                None strategy (Some compressionProvider))).

End UseCompression.

(* ================================================================== *)
(** * src/lib/llm/settings.ts *)
(* ================================================================== *)

Module Settings.

(** [localStorage]: [getItem] gives [null] for a key that is not set. *)
Definition getItem (storage : gmap string string) (key : string) : option string :=
  storage !! key.

Definition setItem (storage : gmap string string) (key value : string)
    : gmap string string :=
  <[key := value]> storage.

Definition removeItem (storage : gmap string string) (key : string)
    : gmap string string :=
  delete key storage.

Definition OPENROUTER_API_KEY : string := "contextforge-openrouter-api-key".
Definition OPENROUTER_MODEL : string := "contextforge-openrouter-model".
Definition OLLAMA_URL : string := "contextforge-ollama-url".
Definition OLLAMA_MODEL : string := "contextforge-ollama-model".
Definition COMPRESSION_PROVIDER : string := "contextforge-compression-provider".

(** [Object.values(KEYS)] *)
Definition KEYS : list string :=
  [OPENROUTER_API_KEY; OPENROUTER_MODEL; OLLAMA_URL; OLLAMA_MODEL;
   COMPRESSION_PROVIDER].

Definition DEFAULT_OPENROUTER_MODEL : string := "anthropic/claude-sonnet-4".
Definition DEFAULT_OLLAMA_URL : string := "http://localhost:11434".
Definition DEFAULT_OLLAMA_MODEL : string := "llama3.2:latest".
Definition DEFAULT_COMPRESSION_PROVIDER : string := "claude-code".

(** [a || b] on strings: [b] when [a] is [null] or empty. *)
Definition orDefault (a : option string) (b : string) : string :=
  match a with
  | Some x => if Js.isEmpty x then b else x
  | None => b
  end.

(** [!!a] on a string or [null]. *)
Definition truthy (a : option string) : bool :=
  match a with
  | Some x => negb (Js.isEmpty x)
  | None => false
  end.

(** The object [openrouter]. *)
Definition openrouter_getApiKey (storage : gmap string string) : option string :=
  getItem storage OPENROUTER_API_KEY.

Definition openrouter_setApiKey (storage : gmap string string) (key : string)
    : gmap string string :=
  setItem storage OPENROUTER_API_KEY key.

Definition openrouter_clearApiKey (storage : gmap string string)
    : gmap string string :=
  removeItem storage OPENROUTER_API_KEY.

Definition openrouter_getModel (storage : gmap string string) : string :=
  orDefault (getItem storage OPENROUTER_MODEL) DEFAULT_OPENROUTER_MODEL.

Definition openrouter_setModel (storage : gmap string string) (model : string)
    : gmap string string :=
  setItem storage OPENROUTER_MODEL model.

Definition openrouter_isConfigured (storage : gmap string string) : bool :=
  truthy (openrouter_getApiKey storage).

(** The object [ollama]. *)
Definition ollama_getUrl (storage : gmap string string) : string :=
  orDefault (getItem storage OLLAMA_URL) DEFAULT_OLLAMA_URL.

Definition ollama_setUrl (storage : gmap string string) (url : string)
    : gmap string string :=
  setItem storage OLLAMA_URL url.

Definition ollama_getModel (storage : gmap string string) : string :=
  orDefault (getItem storage OLLAMA_MODEL) DEFAULT_OLLAMA_MODEL.

Definition ollama_setModel (storage : gmap string string) (model : string)
    : gmap string string :=
  setItem storage OLLAMA_MODEL model.

(** The object [compression].  The stored string is cast to
    [CompressionProvider], not checked. *)
Definition compression_getProvider (storage : gmap string string) : string :=
  let provider := getItem storage COMPRESSION_PROVIDER in
  orDefault provider DEFAULT_COMPRESSION_PROVIDER.

Definition compression_setProvider (storage : gmap string string) (provider : string)
    : gmap string string :=
  setItem storage COMPRESSION_PROVIDER provider.

Record AllSettings : Type := mkAllSettings {
  openrouterApiKey : option string;
  openrouterModel : option string;
  ollamaUrl : option string;
  ollamaModel : option string;
  compressionProvider : option string
}.

Definition getAllSettings (storage : gmap string string) : AllSettings :=
  mkAllSettings
    (if truthy (openrouter_getApiKey storage) then Some "[CONFIGURED]" else None)
    (Some (openrouter_getModel storage))
    (Some (ollama_getUrl storage))
    (Some (ollama_getModel storage))
    (Some (compression_getProvider storage)).

(** [Object.values(KEYS).forEach((key) => localStorage.removeItem(key))] *)
Definition clearAllSettings (storage : gmap string string) : gmap string string :=
  fold_left removeItem KEYS storage.

End Settings.

(* ================================================================== *)
(** * src/lib/compression/compressionService.ts: the construction *)
(* ================================================================== *)

Module Service.

(** [Partial<ProviderConfig>], as far as the constructor reads it. *)
Record PartialConfig : Type := mkPartialConfig {
  p_ollamaUrl : option string;
  p_ollamaModel : option string;
  p_openrouterModel : option string
}.

Record ProviderConfig : Type := mkProviderConfig {
  c_provider : Provider;
  c_ollamaUrl : string;
  c_ollamaModel : string;
  c_openrouterModel : string
}.

(** The two private fields of a [CompressionService]. *)
Record CompressionService : Type := mkService {
  provider : Provider;
  providerConfig : ProviderConfig
}.

Definition detectProvider (storage : gmap string string) : Provider :=
  if Settings.openrouter_isConfigured storage then openrouter
  else ollama.

(** [config?.field || fallback] *)
Definition configured (config : option PartialConfig)
    (field : PartialConfig -> option string) (fallback : string) : string :=
  Settings.orDefault
    (match config with Some c => field c | None => None end) fallback.

(** [new CompressionService(provider, config)] *)
Definition construct (storage : gmap string string)
    (provider : option Provider) (config : option PartialConfig)
    : CompressionService :=
  let provider :=
    match provider with
    | Some p => p
    | None => detectProvider storage
    end in
  mkService provider
    (mkProviderConfig provider
       (configured config p_ollamaUrl (Settings.ollama_getUrl storage))
       (configured config p_ollamaModel (Settings.ollama_getModel storage))
       (configured config p_openrouterModel (Settings.openrouter_getModel storage))).

Definition getProvider (service : CompressionService) : Provider :=
  provider service.

Definition getProviderConfig (service : CompressionService) : ProviderConfig :=
  providerConfig service.

Definition createCompressionService (storage : gmap string string)
    (provider : option Provider) (config : option PartialConfig)
    : CompressionService :=
  construct storage provider config.

End Service.

(* ================================================================== *)
(** * convex/compression.ts: the path of the executable *)
(* ================================================================== *)

Module Host.

(** What [getClaudeCodePath] asks its host: the environment variable
    [CLAUDE_CODE_PATH], the output of [execSync("which claude")] (or the
    error it throws), [fs.existsSync] (or the error it throws) and
    [os.homedir()]. *)
Record Host : Type := mkHost {
  CLAUDE_CODE_PATH : option string;
  whichClaude : outcome string;
  existsSync : string -> outcome bool;
  homedir : string
}.

(** [try { if (fs.existsSync(path)) return path } catch {}] over the
    paths, in order. *)
Fixpoint firstExisting (host : Host) (paths : list string) : option string :=
  match paths with
  | [] => None
  | path :: rest =>
      match existsSync host path with
      | Returns true => Some path
      | _ => firstExisting host rest
      end
  end.

Definition commonPaths (host : Host) : list string :=
  [ homedir host +:+ "/.local/bin/claude";
    "/usr/local/bin/claude";
    "/usr/bin/claude" ].

Definition getClaudeCodePath (host : Host) : option string :=
  if Settings.truthy (CLAUDE_CODE_PATH host) then CLAUDE_CODE_PATH host
  else
    let found :=
      match whichClaude host with
      | Returns result =>
          let path := Js.trim result in
          if negb (Js.isEmpty path) then
            match existsSync host path with
            | Returns true => Some path
            | _ => None
            end
          else None
      | Throws _ => None
      end in
    match found with
    | Some path => Some path
    | None => firstExisting host (commonPaths host)
    end.

End Host.

(* ================================================================== *)
(** * convex/lib/tokenizer.ts: the encodings *)
(* ================================================================== *)

Module Encoding.

Inductive Encoding : Type := cl100k_base | p50k_base | r50k_base.

Definition getEncodingForModel (model : option string) : Encoding :=
  match model with
  | None => cl100k_base
  | Some model =>
      if Js.isEmpty model then cl100k_base
      else if Js.includes model "claude" then cl100k_base
      else if Js.includes model "gpt-4" then cl100k_base
      else if Js.includes model "gpt-3.5" then cl100k_base
      else if Js.includes model "davinci" || Js.includes model "curie" then p50k_base
      else cl100k_base
  end.

Definition encodingName (e : Encoding) : string :=
  match e with
  | cl100k_base => "cl100k_base"
  | p50k_base => "p50k_base"
  | r50k_base => "r50k_base"
  end.

Definition getTokenModel (model : option string) : string :=
  encodingName (getEncodingForModel model).

Definition DEFAULT_TOKEN_MODEL : string := "cl100k_base".

End Encoding.

(* ================================================================== *)
(** * convex/blocks.ts: the table functions *)
(* ================================================================== *)

Module Table.

(** A document of the table [blocks] as [create] writes it, with the
    identifier that the database gives it. *)
Record Row : Type := mkRow {
  _id : N;
  content : string;
  type : string;
  createdAt : Z;
  updatedAt : Z;
  testData : option bool
}.

(** The database, as far as these functions use it.  The table is the
    list of its documents in the order of their creation, which is the
    order of [collect()]; [insert] gives the new document an identifier
    that no document of the table has; [delete] throws when no document
    has the identifier. *)
Definition db_collect (rows : list Row) : list Row := rows.

Definition db_get (rows : list Row) (id : N) : option Row :=
  List.find (fun row => N.eqb (_id row) id) rows.

Definition freshId (rows : list Row) : N :=
  N.succ (fold_right N.max 0%N (List.map _id rows)).

Definition db_insert (rows : list Row) (content type : string)
    (createdAt updatedAt : Z) (testData : option bool) : N * list Row :=
  let id := freshId rows in
  (id, rows ++ [mkRow id content type createdAt updatedAt testData]).

Definition db_delete (rows : list Row) (id : N) : outcome (list Row) :=
  if existsb (fun row => N.eqb (_id row) id) rows then
    Returns (List.filter (fun row => negb (N.eqb (_id row) id)) rows)
  else Throws "Delete on nonexistent document".

(** [listAll]: [ctx.db.query("blocks").collect()] *)
Definition listAll (rows : list Row) : list Row := db_collect rows.

(** [removeInternal] *)
Definition removeInternal (id : N) (rows : list Row) : outcome (list Row) :=
  db_delete rows id.

(** [get] *)
Definition get (id : N) (rows : list Row) : option Row := db_get rows id.

(** [create]; [now] is [Date.now()]. *)
Definition create (now : Z) (content type : string) (testData : option bool)
    (rows : list Row) : N * list Row :=
  db_insert rows content type now now testData.

(** [remove] *)
Definition remove (id : N) (rows : list Row) : outcome (list Row) :=
  db_delete rows id.

(** [list]: [ctx.db.query("blocks").order("desc").collect()], the newest
    first. *)
Definition list (rows : Datatypes.list Row) : Datatypes.list Row :=
  rev (db_collect rows).

End Table.

(* ================================================================== *)
(** * convex/testing.ts *)
(* ================================================================== *)

Module Testing.

(** [b.testData === true || b.content.startsWith("E2E Test:")] *)
Definition isTestBlock (b : Table.Row) : bool :=
  match Table.testData b with
  | Some true => true
  | _ => false
  end
  || String.prefix "E2E Test:" (Table.content b).

(** [for (const block of testBlocks)
       await ctx.runMutation(internal.blocks.removeInternal, { id: block._id })] *)
Fixpoint removeEach (testBlocks : list Table.Row) (rows : list Table.Row)
    : outcome (list Table.Row) :=
  match testBlocks with
  | [] => Returns rows
  | block :: rest =>
      match Table.removeInternal (Table._id block) rows with
      | Returns rows' => removeEach rest rows'
      | Throws message => Throws message
      end
  end.

(** [resetBlocks]: the number of deleted blocks and the table it leaves;
    the mutation is a transaction, so that a throw leaves the table as it
    was. *)
Definition resetBlocks (rows : list Table.Row) : outcome (nat * list Table.Row) :=
  let blocks := Table.listAll rows in
  let testBlocks := List.filter isTestBlock blocks in
  match removeEach testBlocks rows with
  | Returns rows' => Returns (length testBlocks, rows')
  | Throws message => Throws message
  end.

(** [resetAll] *)
Definition resetAll (rows : list Table.Row) : outcome (nat * list Table.Row) :=
  let result := resetBlocks rows in
  result.

End Testing.

(* ================================================================== *)
(** * src/hooks/useConfirmDelete.ts *)
(* ================================================================== *)

Module UseConfirmDelete.

(** The two state variables of the hook.  The items are values of any
    type [T]; [truthy] below says which of them JavaScript takes for true
    in a condition (all but [0], [""], [false], [NaN], [undefined]). *)
Record State (T : Type) : Type := mkState {
  itemToDelete : option T;
  isDeleting : bool
}.
Arguments mkState {T} itemToDelete isDeleting.
Arguments itemToDelete {T} s.
Arguments isDeleting {T} s.

(** [useState(null)], [useState(false)] *)
Definition initial {T : Type} : State T := mkState None false.

(** A condition on [itemToDelete]: [null] is false, an item is what
    [truthy] says. *)
Definition holds {T : Type} (truthy : T -> bool) (s : State T) : option T :=
  match itemToDelete s with
  | Some item => if truthy item then Some item else None
  | None => None
  end.

Definition requestDelete {T : Type} (item : T) (s : State T) : State T :=
  mkState (Some item) (isDeleting s).

Definition cancelDelete {T : Type} (s : State T) : State T :=
  if negb (isDeleting s) then mkState None (isDeleting s) else s.

(** [confirmDelete] up to its [await]: [if (!itemToDelete) return],
    otherwise [setIsDeleting(true)] and the call [onDelete(itemToDelete)],
    of which the argument is given. *)
Definition confirmStart {T : Type} (truthy : T -> bool) (s : State T)
    : option (T * State T) :=
  match holds truthy s with
  | None => None
  | Some item => Some (item, mkState (itemToDelete s) true)
  end.

(** [confirmDelete] from the moment [onDelete] settles: [setItemToDelete(null)]
    when it returned, nothing when it threw, and [setIsDeleting(false)]
    in both cases. *)
Definition confirmEnd {T : Type} (settled : outcome unit) (s : State T) : State T :=
  match settled with
  | Returns _ => mkState None false
  | Throws _ => mkState (itemToDelete s) false
  end.

(** [confirmDelete] when nothing else happens while [onDelete] runs; the
    second component lists the calls of [onDelete]. *)
Definition confirmDelete {T : Type} (truthy : T -> bool)
    (onDelete : T -> outcome unit) (s : State T) : State T * list T :=
  match confirmStart truthy s with
  | None => (s, [])
  | Some (item, deleting) => (confirmEnd (onDelete item) deleting, [item])
  end.

(** [isOpen: itemToDelete !== null] *)
Definition isOpen {T : Type} (s : State T) : bool :=
  match itemToDelete s with Some _ => true | None => false end.

(** [title: itemToDelete ? getTitle(itemToDelete) : ""] *)
Definition title {T : Type} (truthy : T -> bool) (getTitle : T -> string)
    (s : State T) : string :=
  match holds truthy s with Some item => getTitle item | None => "" end.

(** [description: itemToDelete ? getDescription(itemToDelete) : ""] *)
Definition description {T : Type} (truthy : T -> bool)
    (getDescription : T -> string) (s : State T) : string :=
  match holds truthy s with Some item => getDescription item | None => "" end.

End UseConfirmDelete.

(* ================================================================== *)
(** * Vocabulary of the specification *)
(* ================================================================== *)

(** The two validation errors of the specification: too small, and empty
    content. *)
Definition isValidationError (e : Error) : bool :=
  match e with
  | TooFewTokens _ | NoContent => true
  | _ => false
  end.

(** Empty or made of white space only. *)
Fixpoint isBlank (s : string) : bool :=
  match s with
  | EmptyString => true
  | String c r => Js.isWhitespace c && isBlank r
  end.

(** ** The comparisons in IEEE-754 arithmetic

    The two gates as the engine evaluates them, on binary64 numbers: the
    operands are converted, divided with rounding to nearest, and compared
    with the double nearest to 1.2 (resp. to 0.6). *)

Definition toDouble (n : Z) : float := PrimFloat.of_uint63 (Uint63.of_Z n).

Definition ieeeRatioBelow (originalTokens compressedTokens : Z) : bool :=
  PrimFloat.ltb
    (PrimFloat.div (toDouble originalTokens) (toDouble compressedTokens))
    0x1.3333333333333p+0%float.

Definition ieeeQualityBelow (preserved total : Z) : bool :=
  PrimFloat.ltb
    (PrimFloat.div (toDouble preserved) (toDouble total))
    0x1.3333333333333p-1%float.

(** The integers from [lo], [n] of them. *)
Definition range (lo : Z) (n : nat) : list Z :=
  List.map (fun i => lo + Z.of_nat i) (List.seq 0 n).

(** Every character of [s] is in the class [p]. *)
Fixpoint allChars (p : ascii -> bool) (s : string) : bool :=
  match s with
  | EmptyString => true
  | String c r => p c && allChars p r
  end.

(** One digit or more. *)
Definition digits (s : string) : Prop :=
  s <> "" /\ allChars Js.isDigit s = true.

(** An integer or a decimal: digits, or digits, a point and digits. *)
Definition numericLiteral (s : string) : Prop :=
  digits s \/ exists i f, digits i /\ digits f /\ s = i +:+ "." +:+ f.

(** A capital letter followed by one small letter or more. *)
Definition capitalized (s : string) : Prop :=
  exists c rest,
    s = String c rest /\ Js.isUpper c = true /\
    rest <> "" /\ allChars Js.isLower rest = true.

(** Two capital letters or more. *)
Definition acronym (s : string) : Prop :=
  (2 <= String.length s)%nat /\ allChars Js.isUpper s = true.

(** Small letters and digits, one or more. *)
Definition lowerWord (s : string) : Prop :=
  s <> "" /\ allChars (fun c => Js.isLower c || Js.isDigit c) s = true.

(** The words that a regular expression denotes, word boundaries apart. *)
Fixpoint lang (r : Js.regex) (u : list ascii) : Prop :=
  match r with
  | Js.RChar c => u = [c]
  | Js.RClass p => exists c, u = [c] /\ p c = true
  | Js.RWordB => u = []
  | Js.RSeq r1 r2 => exists u1 u2, u = u1 ++ u2 /\ lang r1 u1 /\ lang r2 u2
  | Js.ROpt r1 => u = [] \/ lang r1 u
  | Js.RRep p min => Forall (fun c => p c = true) u /\ (min <= length u)%nat
  end.

(** The token count that the code takes for a block: the cached count
    when there is one (and it is not 0), the estimate otherwise. *)
Definition tokenCount (cached : option Z) (content : string) : Z :=
  orElse cached (Tokenizer.estimateTokens content).

(** A string of [n] copies of [c]. *)
Fixpoint repeatChar (c : ascii) (n : nat) : string :=
  match n with
  | O => EmptyString
  | S k => String c (repeatChar c k)
  end.

(** The prompt that [compressWithClaudeCode] builds for a stored block. *)
Definition promptFor (block : Doc) (strategy : string) : string :=
  Compression.buildCompressionPrompt (content block) strategy
    (tokenCount (tokens block) (content block)) (type block).

(** The prompt that [compressSemantic] builds for a content, called as
    [compressContent] calls it. *)
Definition clientPrompt (content contentType : string) : string :=
  Semantic.formatPrompt
    (Semantic.mkVars content (Semantic.estimateTokens content) 2
       (if Js.isEmpty contentType then "text" else contentType)).

(** The chunks of a stream, concatenated. *)
Definition streamed (chunks : list string) : string :=
  fold_left String.append chunks "".

(** The arguments with which [compressWithClaudeCode] calls the mutation
    [blocks.compress] once the backend has answered [text]. *)
Definition compressArgsFor (blockId : BlockId) (block : Doc) (strategy text : string)
    : CompressArgs :=
  let originalTokens := tokenCount (tokens block) (content block) in
  let compressedTokens := Tokenizer.estimateTokens (Js.trim text) in
  mkCompressArgs blockId (Js.trim text) originalTokens compressedTokens
    (Js.div originalTokens compressedTokens) strategy.

(** The SDK completes before the deadline, and the text of its assistant
    messages is [text]. *)
Definition answersInTime (run : SdkRun) (text : string) : Prop :=
  exists elapsed messages,
    run = RunCompletes elapsed messages /\
    elapsed < Compression.timeoutMs /\
    Compression.textOfMessages messages = text.

(** The SDK has not completed within the deadline. *)
Definition missesDeadline (run : SdkRun) : Prop :=
  match run with
  | RunCompletes elapsed _ => Compression.timeoutMs < elapsed
  | RunThrows elapsed _ => Compression.timeoutMs < elapsed
  | RunHangs => True
  end.

(** The [originalTokens] that the table holds for a block. *)
Definition storedOriginalTokens (w : World) (id : BlockId) : option Z :=
  match store w !! id with
  | Some block => originalTokens block
  | None => None
  end.

(** The call of the backend fails, whatever the prompt: the local agent
    throws, never settles or completes after the deadline; the chat
    client throws. *)
Definition backendFails (provider : Provider) (env : Env) : Prop :=
  match provider with
  | claude_code =>
      forall prompt,
        match claudeQuery env prompt with
        | RunCompletes elapsed _ => Compression.timeoutMs < elapsed
        | RunThrows _ _ => True
        | RunHangs => True
        end
  | _ => forall prompt, exists message, streamChat env provider prompt = Throws message
  end.

(** The hook reports an error. *)
Definition reportsFailure (h : UseCompression.HookState) : bool :=
  match UseCompression.error h with
  | Some _ => true
  | None => false
  end.

(** [w] with one more event. *)
Definition logged (w : World) (e : Event) : World :=
  mkWorld (store w) (trace w ++ [e]).

(** The events of [after] that were not yet in [before]. *)
Definition newEvents (before after : World) : list Event :=
  skipn (length (trace before)) (trace after).

(** ** Sample collaborators and blocks *)

(** A local agent that answers [text] after [elapsed] milliseconds, with
    the mutations of [Blocks]; the chat clients are offline. *)
Definition agentAnswering (text : string) (elapsed : Z) : Env :=
  mkEnv (fun _ _ => Throws "offline")
    (fun _ => RunCompletes elapsed [AssistantMessage (Some [TextPart text]); ResultMessage])
    Blocks.compress Blocks.compressAndMerge.

(** Chat clients that stream [chunks], with the mutations of [Blocks];
    the local agent never settles. *)
Definition streamAnswering (chunks : list string) : Env :=
  mkEnv (fun _ _ => Returns chunks) (fun _ => RunHangs)
    Blocks.compress Blocks.compressAndMerge.

(** A note of four important words, with a cached count of 200 tokens. *)
Definition sampleDoc : Doc :=
  mkDoc "Quarterly revenue increased substantially" "note" "WORKING" 1
    (Some 200) false None None None None.

Definition sampleWorld : World := mkWorld {[ 7%N := sampleDoc ]} [].

(** The same note as the client holds it. *)
Definition sampleBlock : CompressionService.Block :=
  CompressionService.mkBlock 7%N (content sampleDoc) (type sampleDoc)
    (tokens sampleDoc) (Some false).

(** A block of 50 characters, without a cached count: 13 tokens. *)
Definition smallBlock : CompressionService.Block :=
  CompressionService.mkBlock 7%N (repeatChar "x" 50) "note" None None.

(** A block without important words, with a cached count of 1500
    tokens. *)
Definition plainBlock : CompressionService.Block :=
  CompressionService.mkBlock 7%N "lorem ipsum dolor sit amet" "note"
    (Some 1500) None.

(** A block of 1500 cached tokens, as the three blocks of 500, 300 and
    700 tokens of the boundary scenario have together. *)
Definition boundaryBlock : CompressionService.Block :=
  CompressionService.mkBlock 7%N "lorem ipsum dolor sit amet" "note"
    (Some 1500) None.

Definition boundaryDoc : Doc :=
  mkDoc "lorem ipsum dolor sit amet" "note" "WORKING" 1
    (Some 1500) false None None None None.

Definition boundaryWorld : World := mkWorld {[ 7%N := boundaryDoc ]} [].

(** A stored note with a cached count of 1000 tokens, compressed twice by
    the local agent: to 480 characters, then to 40. *)
Definition longDoc : Doc :=
  mkDoc "Quarterly revenue increased substantially" "note" "WORKING" 1
    (Some 1000) false None None None None.

Definition longWorld : World := mkWorld {[ 7%N := longDoc ]} [].

Definition firstRun : UseCompression.HookState * World :=
  UseCompression.compressSingle claude_code
    (agentAnswering (repeatChar "a" 480) 1000) sampleBlock semantic longWorld.

Definition secondRun : UseCompression.HookState * World :=
  UseCompression.compressSingle claude_code
    (agentAnswering (repeatChar "b" 40) 1000) sampleBlock semantic (snd firstRun).

(** ** Vocabulary of the further properties *)

(** What the call of the chat client of [p] gives for a content: the
    trimmed text of the stream, or the error of the client; the call is
    logged. *)
Definition streamedAnswer (env : Env) (p : Provider) (content contentType : string)
    (w : World) : result string * World :=
  let prompt := clientPrompt content contentType in
  match streamChat env p prompt with
  | Returns chunks =>
      (Ok (Js.trim (streamed chunks)), logged w (EvStreamChat p prompt))
  | Throws message =>
      (Err (Thrown message), logged w (EvStreamChat p prompt))
  end.


(** The number of the given words that occur in a text, letter case
    apart: the count that both quality estimates take. *)
Definition preserved (words : list string) (compressed : string) : nat :=
  length
    (List.filter
       (fun word => Js.includes (Js.toLowerCase compressed) (Js.toLowerCase word))
       words).


(** The documents that the table holds for the given ids, in their
    order. *)
Definition docsOf (w : World) (blockIds : list BlockId) : list Doc :=
  omap id (List.map (fun blockId => store w !! blockId) blockIds).

(** The token count that [compressAndMergeWithClaudeCode] takes for a
    list of blocks: the cached count of each, or its estimate. *)
Definition totalTokens (docs : list Doc) : Z :=
  fold_left
    (fun sum b => sum + orElse (tokens b) (Compression.estimateTokens (content b)))
    docs 0.

(** The prompt that [compressAndMergeWithClaudeCode] builds for them. *)
Definition mergePromptFor (docs : list Doc) (strategy : string) : string :=
  Compression.buildCompressionPrompt
    (combine (List.map (fun b => (type b, content b)) docs)) strategy
    (totalTokens docs) "merged_blocks".

(** The SDK fails before the deadline: it throws, or it completes with a
    text that is empty or white space only. *)
Definition failsInTime (run : SdkRun) (cause : Error) : Prop :=
  (exists elapsed message,
      run = RunThrows elapsed message /\ elapsed < Compression.timeoutMs /\
      cause = Thrown message) \/
  (exists text,
      answersInTime run text /\ isBlank text = true /\ cause = EmptyResponse).

(** The event is a call of the backend of the provider. *)
Definition callOf (provider : Provider) (e : Event) : bool :=
  match e, provider with
  | EvClaudeQuery _, claude_code => true
  | EvStreamChat ollama _, ollama => true
  | EvStreamChat openrouter _, openrouter => true
  | _, _ => false
  end.

(** Nothing, one call of the backend of the provider, or one such call
    followed by one mutation. *)
Definition oneAttempt (provider : Provider) (evs : list Event) : Prop :=
  evs = [] \/
  (exists c, evs = [c] /\ callOf provider c = true) \/
  (exists c m, evs = [c; m] /\ callOf provider c = true /\ isMutation m = true).


(** The trace of [w'] is the trace of [w] followed by [evs]. *)
Definition extends (w w' : World) (evs : list Event) : Prop :=
  trace w' = trace w ++ evs.


(** The document has the given id. *)
Definition hasId (id : N) (row : Table.Row) : bool := N.eqb (Table._id row) id.

(** ** Words and numeric literals of a text, described directly *)

(** The longest prefix of [s] made of characters that satisfy [p], and
    what follows it. *)
Fixpoint takeWhile (p : ascii -> bool) (s : string) : string :=
  match s with
  | String c r => if p c then String c (takeWhile p r) else EmptyString
  | EmptyString => EmptyString
  end.

Fixpoint dropWhile (p : ascii -> bool) (s : string) : string :=
  match s with
  | String c r => if p c then dropWhile p r else s
  | EmptyString => EmptyString
  end.

(** The words of a text: its maximal runs of word characters (letters,
    digits and the underscore), in order and with repetitions.  [current]
    is the word being read. *)
Fixpoint wordsFrom (current : string) (s : string) : list string :=
  match s with
  | EmptyString => if Js.isEmpty current then [] else [current]
  | String c r =>
      if Js.isWord c then wordsFrom (current +:+ String c EmptyString) r
      else (if Js.isEmpty current then [] else [current]) ++ wordsFrom EmptyString r
  end.

Definition words (text : string) : list string := wordsFrom EmptyString text.

(** The word is a capital letter followed by one small letter or more. *)
Definition capitalizedb (word : string) : bool :=
  match word with
  | String c rest => Js.isUpper c && negb (Js.isEmpty rest) && allChars Js.isLower rest
  | EmptyString => false
  end.

(** The word is made of two capital letters or more. *)
Definition acronymb (word : string) : bool :=
  (2 <=? String.length word)%nat && allChars Js.isUpper word.

(** The word is made of small letters and digits. *)
Definition lowerWordb (word : string) : bool :=
  negb (Js.isEmpty word) && allChars (fun c => Js.isLower c || Js.isDigit c) word.

(** No word character stands before the position, respectively at it. *)
Definition wordStarts (prev : option ascii) : bool := negb (Js.isWordOpt prev).
Definition wordEnds (s : string) : bool := negb (Js.isWordOpt (Js.head s)).

(** The numeric literal that starts at a position: a word made of digits
    only, together with the point and the word that follow it when that
    word stands right after the point and is made of digits only. *)
Definition numberAt (prev : option ascii) (s : string) : option string :=
  let integer := takeWhile Js.isDigit s in
  let rest := dropWhile Js.isDigit s in
  let alone := if wordEnds rest then Some integer else None in
  if wordStarts prev && negb (Js.isEmpty integer) then
    match rest with
    | String c after =>
        if Ascii.eqb c "." then
          let fraction := takeWhile Js.isDigit after in
          if negb (Js.isEmpty fraction) && wordEnds (dropWhile Js.isDigit after)
          then Some (integer +:+ "." +:+ fraction)
          else alone
        else alone
    | EmptyString => alone
    end
  else None.

(** The word at a position, when a word starts there and satisfies [P]. *)
Definition wordAt (P : string -> bool) (prev : option ascii) (s : string)
    : option string :=
  let word := takeWhile Js.isWord s in
  if wordStarts prev && negb (Js.isEmpty word) && P word then Some word else None.

(** The occurrences that [find] finds in a text, from left to right: where
    one is found the reading resumes after it ([skip] counts its
    characters still to be passed over). *)
Fixpoint occurrencesFrom (find : option ascii -> string -> option string)
    (prev : option ascii) (s : string) (skip : nat) : list string :=
  let here := match skip with O => find prev s | S _ => None end in
  match s with
  | EmptyString => match here with Some m => [m] | None => [] end
  | String c rest =>
      match here with
      | Some m => m :: occurrencesFrom find (Some c) rest (Nat.pred (String.length m))
      | None => occurrencesFrom find (Some c) rest (Nat.pred skip)
      end
  end.

(** The numeric literals of a text, in order and with repetitions. *)
Definition numericLiterals (text : string) : list string :=
  occurrencesFrom numberAt None text 0.

(** The character before the position that follows [t]. *)
Definition lastOr (prev : option ascii) (t : string) : option ascii :=
  match rev (list_ascii_of_string t) with
  | c :: _ => Some c
  | [] => prev
  end.

(** The continuation of a match in front of a final [\b]. *)
Definition endOfWord : Js.cont :=
  fun prev acc s => if Js.atBoundary prev s then Some acc else None.

(** What follows the integer part of a numeric literal: the optional
    fraction, then the end of the word. *)
Definition afterInteger : Js.cont :=
  fun prev acc s =>
    match
      match s with
      | String c s' =>
          if Ascii.eqb c "." then Js.rep Js.isDigit 1 (Some c) (c :: acc) s' endOfWord
          else None
      | EmptyString => None
      end
    with
    | Some m => Some m
    | None => endOfWord prev acc s
    end.


(** The text that is left to read for words when the character before it
    is [prev]: the rest of the word that [prev] belongs to is passed
    over. *)
Definition restOfWord (prev : option ascii) (s : string) : string :=
  if Js.isWordOpt prev then dropWhile Js.isWord s else s.

(** ** Vocabulary of the merge *)

(** [options.strategy || "semantic"] *)
Definition mergeStrategy (options : UseCompression.MergeOptions) : Strategy :=
  match UseCompression.strategy options with
  | Some s => s
  | None => semantic
  end.

(** The text that the hook sends to the chat client for a merge. *)
Definition combinedOf (blocks : list CompressionService.Block) : string :=
  combine
    (List.map (fun b => (CompressionService.type b, CompressionService.content b))
       blocks).

(** The arguments with which the hook calls the mutation
    [blocks.compressAndMerge] for a compacted [text]. *)
Definition mergeArgsFor (blocks : list CompressionService.Block)
    (options : UseCompression.MergeOptions) (text : string) (originalTokens : Z)
    : MergeArgs :=
  let compressedTokens := Tokenizer.estimateTokens text in
  mkMergeArgs (List.map CompressionService._id blocks) text originalTokens
    compressedTokens (Js.div originalTokens compressedTokens)
    (strategyName (mergeStrategy options))
    (UseCompression.targetZone options) (UseCompression.targetType options) 0.

(** The result that the hook sets after the mutation of [args] has
    returned [newBlockId]. *)
Definition mergedResult (provider : Provider) (options : UseCompression.MergeOptions)
    (args : MergeArgs) (newBlockId : BlockId) : Types.CompressionResult :=
  Types.mkResult true None (Some newBlockId) None
    (ma_originalTokens args) (ma_compressedTokens args) (ma_compressionRatio args)
    (ma_originalTokens args - ma_compressedTokens args)
    None (mergeStrategy options) (Some provider).

(** The hook and the world once the hook has called the mutation of
    [args] in the world [w1]. *)
Definition afterMutation (provider : Provider) (env : Env)
    (options : UseCompression.MergeOptions) (args : MergeArgs) (w1 : World)
    : UseCompression.HookState * World :=
  match compressAndMergeMutation env args (store w1) with
  | Returns (newBlockId, s') =>
      (UseCompression.mkHookState false None
         (Some (mergedResult provider options args newBlockId)),
       mkWorld s' (trace w1 ++ [EvCompressAndMerge args]))
  | Throws message =>
      (UseCompression.mkHookState false (Some (Thrown message)) None,
       mkWorld (store w1) (trace w1 ++ [EvCompressAndMerge args]))
  end.

(** Every id is the id of a stored block. *)
Definition allStored (w : World) (blockIds : list BlockId) : Prop :=
  forall blockId, In blockId blockIds -> is_Some (store w !! blockId).

(** The three blocks of the boundary scenario, of 500, 300 and 700 cached
    tokens, as the table and as the client hold them. *)
Definition firstDoc : Doc :=
  mkDoc "Revenue grew 14 percent in Berlin" "note" "WORKING" 1
    (Some 500) false None None None None.

Definition secondDoc : Doc :=
  mkDoc "Costs fell 3 percent in Madrid" "note" "WORKING" 1
    (Some 300) false None None None None.

Definition thirdDoc : Doc :=
  mkDoc "Margins doubled in Lisbon" "note" "WORKING" 1
    (Some 700) false None None None None.

Definition threeWorld : World :=
  mkWorld {[ 1%N := firstDoc; 2%N := secondDoc; 3%N := thirdDoc ]} [].

Definition blockOf (blockId : BlockId) (doc : Doc) : CompressionService.Block :=
  CompressionService.mkBlock blockId (content doc) (type doc) (tokens doc)
    (Some (isCompressed doc)).

Definition threeBlocks : list CompressionService.Block :=
  [blockOf 1%N firstDoc; blockOf 2%N secondDoc; blockOf 3%N thirdDoc].

Definition toWorking : UseCompression.MergeOptions :=
  UseCompression.mkMergeOptions None "WORKING" "note".

(* ================================================================== *)
(** * Properties *)
(* ================================================================== *)

(** ** Numbers *)

Lemma ceil_quarter (n : Z) :
  Js.ceil (inject_Z n / 4)%Q = (n + 3) / 4.
Proof.
  unfold Js.ceil, Qceiling, Qfloor, Qdiv, Qmult, Qinv, Qopp, inject_Z. simpl.
  change (Z.pos (1 * 4)) with 4. rewrite Z.mul_1_r.
  pose proof (Z.div_mod (- n) 4 ltac:(lia)) as H1.
  pose proof (Z.mod_pos_bound (- n) 4 ltac:(lia)) as H2.
  pose proof (Z.div_mod (n + 3) 4 ltac:(lia)) as H3.
  pose proof (Z.mod_pos_bound (n + 3) 4 ltac:(lia)) as H4.
  lia.
Qed.

Lemma ceil_half (n : Z) :
  Js.ceil (inject_Z n / inject_Z 2)%Q = (n + 1) / 2.
Proof.
  unfold Js.ceil, Qceiling, Qfloor, Qdiv, Qmult, Qinv, Qopp, inject_Z. simpl.
  change (Z.pos (1 * 2)) with 2. rewrite Z.mul_1_r.
  pose proof (Z.div_mod (- n) 2 ltac:(lia)) as H1.
  pose proof (Z.mod_pos_bound (- n) 2 ltac:(lia)) as H2.
  pose proof (Z.div_mod (n + 1) 2 ltac:(lia)) as H3.
  pose proof (Z.mod_pos_bound (n + 1) 2 ltac:(lia)) as H4.
  lia.
Qed.

(** ** Strings *)

Lemma append_cons (c : ascii) (a b : string) :
  String c a +:+ b = String c (a +:+ b).
Proof. reflexivity. Qed.

Lemma length_append (a b : string) :
  String.length (a +:+ b) = (String.length a + String.length b)%nat.
Proof.
  induction a as [| c a IH]; [reflexivity |].
  rewrite append_cons. simpl. now rewrite IH.
Qed.

Lemma append_empty_r (a : string) : a +:+ "" = a.
Proof.
  induction a as [| c a IH]; [reflexivity |].
  rewrite append_cons. now rewrite IH.
Qed.

Lemma append_assoc (a b c : string) : (a +:+ b) +:+ c = a +:+ (b +:+ c).
Proof.
  induction a as [| x a IH]; [reflexivity |].
  rewrite !append_cons. now rewrite IH.
Qed.

Lemma len_append (a b : string) : Js.len (a +:+ b) = Js.len a + Js.len b.
Proof.
  unfold Js.len. rewrite length_append. lia.
Qed.

Lemma len_nonneg (s : string) : 0 <= Js.len s.
Proof. unfold Js.len. lia. Qed.

Lemma estimateTokens_closed (text : string) :
  Tokenizer.estimateTokens text = (Js.len text + 3) / 4.
Proof. apply ceil_quarter. Qed.

Lemma estimateTokens_same (text : string) :
  Semantic.estimateTokens text = Tokenizer.estimateTokens text /\
  Compression.estimateTokens text = Tokenizer.estimateTokens text.
Proof. split; reflexivity. Qed.

Lemma estimateTokens_nonneg (text : string) : 0 <= Tokenizer.estimateTokens text.
Proof.
  rewrite estimateTokens_closed. pose proof (len_nonneg text).
  apply Z.div_pos; lia.
Qed.

Lemma estimateTokens_mono (a b : string) :
  Js.len a <= Js.len b -> Tokenizer.estimateTokens a <= Tokenizer.estimateTokens b.
Proof.
  intros H. rewrite !estimateTokens_closed.
  apply Z.div_le_mono; lia.
Qed.

(** C9.  The approximate estimator is the ceiling of a quarter of the
    length: [estimateTokens text] is the least integer [e] with
    [length text <= 4 * e], in [convex/lib/tokenizer.ts] as in
    [strategies/semantic.ts]; 50 characters estimate to 13 tokens; and a
    text repeated twice never estimates to fewer tokens than the text. *)
Theorem C9_estimate_is_ceiling_and_monotone :
  (forall text : string,
      let e := Tokenizer.estimateTokens text in
      4 * (e - 1) < Js.len text <= 4 * e /\
      e = (Js.len text + 3) / 4 /\
      Semantic.estimateTokens text = e) /\
  Tokenizer.estimateTokens (repeatChar "x" 50) = 13 /\
  (forall A : string,
      Tokenizer.estimateTokens A <= Tokenizer.estimateTokens (A +:+ A)).
Proof.
  split; [| split].
  - intros text e. subst e. rewrite estimateTokens_closed.
    split; [| split; [reflexivity | apply ceil_quarter]].
    pose proof (Z.div_mod (Js.len text + 3) 4 ltac:(lia)) as H1.
    pose proof (Z.mod_pos_bound (Js.len text + 3) 4 ltac:(lia)) as H2.
    lia.
  - reflexivity.
  - intros A. apply estimateTokens_mono. rewrite len_append.
    pose proof (len_nonneg A). lia.
Qed.

Lemma includes_unfold (s w : string) :
  Js.includes s w =
  String.prefix w s ||
  match s with
  | EmptyString => false
  | String _ r => Js.includes r w
  end.
Proof. destruct s; reflexivity. Qed.

Lemma prefix_cons (c d : ascii) (w s : string) :
  String.prefix (String c w) (String d s) =
  if ascii_dec c d then String.prefix w s else false.
Proof. reflexivity. Qed.

Lemma prefix_append (w t : string) : String.prefix w (w +:+ t) = true.
Proof.
  induction w as [| c w IH].
  - destruct t; reflexivity.
  - rewrite append_cons, prefix_cons.
    destruct (ascii_dec c c) as [_ | ne]; [exact IH | now destruct ne].
Qed.

Lemma includes_prefix (w t : string) : Js.includes (w +:+ t) w = true.
Proof.
  rewrite includes_unfold, prefix_append. reflexivity.
Qed.

Lemma includes_skip (a s w : string) :
  Js.includes s w = true -> Js.includes (a +:+ s) w = true.
Proof.
  intros H. induction a as [| c a IH]; [exact H |].
  rewrite append_cons, includes_unfold, IH. apply orb_true_r.
Qed.

Lemma includes_of_prefix (a s w : string) :
  String.prefix w s = true -> Js.includes (a +:+ s) w = true.
Proof.
  intros H. apply includes_skip. rewrite includes_unfold, H. reflexivity.
Qed.

Lemma includes_split (h a s w : string) :
  h = a +:+ s -> String.prefix w s = true -> Js.includes h w = true.
Proof. intros -> H. now apply includes_of_prefix. Qed.

Lemma prefix_app_cancel (a w s : string) :
  String.prefix (a +:+ w) (a +:+ s) = String.prefix w s.
Proof.
  induction a as [| c a IH]; [reflexivity |].
  rewrite !append_cons, prefix_cons.
  destruct (ascii_dec c c) as [_ | ne]; [exact IH | now destruct ne].
Qed.

(** ** The prompt builders *)

(** The template of [strategies/semantic.ts] with its placeholders
    substituted. *)
Lemma formatPrompt_rendered (vars : Semantic.CompressionPromptVars) :
  Semantic.formatPrompt vars =
  "You are a compression specialist. Compress the following "
  +:+ Semantic.v_contentType vars +:+ " content from "
  +:+ Semantic.numOrEmpty (Semantic.v_originalTokens vars)
  +:+ " tokens to approximately "
  +:+ Semantic.numOrEmpty (Semantic.v_originalTokens vars) +:+ "/"
  +:+ Semantic.numOrEmpty (Semantic.v_targetRatio vars)
  +:+ " tokens while preserving all critical information." +:+ LF +:+
  LF +:+
  "CRITICAL RULES:" +:+ LF +:+
  "- Keep ALL specific names, numbers, dates, and decisions" +:+ LF +:+
  "- Maintain chronological order" +:+ LF +:+
  "- Preserve technical terms and key concepts" +:+ LF +:+
  "- Remove redundant explanations and examples" +:+ LF +:+
  "- Keep conclusions and results" +:+ LF +:+
  "- Output ONLY the compressed content (no meta-commentary)" +:+ LF +:+
  "- If the same phrase is repeated, keep only the first occurrence" +:+ LF +:+
  LF +:+
  "CONTENT TO COMPRESS:" +:+ LF +:+
  Semantic.v_content vars +:+ LF +:+
  LF +:+
  "COMPRESSED VERSION:".
Proof. vm_compute. reflexivity. Qed.

(** C8, as stated, fails for the client-side builder: for the request
    that [compressSemantic] makes for a 27-character note (7 tokens,
    target ratio 2) the target is [ceil(7 / 2) = 4], and the prompt
    holds no "4": it holds the unevaluated quotient "7/2". *)
Lemma C8_counterexample_formatPrompt :
  let content := "Hello world, this is a note" in
  let vars :=
    Semantic.mkVars content (Semantic.estimateTokens content) 2 "text" in
  Semantic.v_originalTokens vars = 7 /\
  Js.toString
    (Js.ceil (inject_Z (Semantic.v_originalTokens vars)
              / inject_Z (Semantic.v_targetRatio vars))%Q) = "4" /\
  Js.includes (Semantic.formatPrompt vars) "4" = false /\
  Js.includes (Semantic.formatPrompt vars) "7/2" = true.
Proof. vm_compute. repeat split; reflexivity. Qed.

(** C8, amended.  The server-side builder [buildCompressionPrompt] embeds
    the computed target [ceil(originalTokens / 2)] for every content,
    strategy, token count and content type; its target ratio is the
    constant 2, not an input.  The client-side builder [formatPrompt]
    substitutes the operands and leaves the quotient unevaluated: the
    prompt reads "<originalTokens>/<targetRatio> tokens". *)
Theorem C8_prompt_target :
  (forall (content strategy : string) (originalTokens : Z) (contentType : string),
      Js.includes
        (Compression.buildCompressionPrompt content strategy originalTokens contentType)
        ("~" +:+ Js.toString (Js.ceil (inject_Z originalTokens / inject_Z 2)%Q)
             +:+ " tokens (2x compression ratio)") = true) /\
  (forall (content : string) (originalTokens targetRatio : Z) (contentType : string),
      originalTokens <> 0 -> targetRatio <> 0 ->
      Js.includes
        (Semantic.formatPrompt
           (Semantic.mkVars content originalTokens targetRatio contentType))
        (" tokens to approximately " +:+ Js.toString originalTokens +:+ "/"
           +:+ Js.toString targetRatio +:+ " tokens ") = true).
Proof.
  split.
  - intros content strategy originalTokens contentType.
    unfold Compression.buildCompressionPrompt.
    change (Js.toString 2) with "2".
    set (target := Js.toString (Js.ceil _)).
    do 18 apply includes_skip.
    match goal with
    | |- Js.includes (_ +:+ (target +:+ ?R)) _ = true =>
        change (Js.includes ("- Target length: " +:+ ("~" +:+ (target +:+ R)))
                  ("~" +:+ (target +:+ " tokens (2x compression ratio)")) = true)
    end.
    apply includes_of_prefix. rewrite !prefix_app_cancel. reflexivity.
  - intros content originalTokens targetRatio contentType Ho Hr.
    rewrite formatPrompt_rendered. simpl Semantic.v_contentType.
    simpl Semantic.v_originalTokens. simpl Semantic.v_targetRatio.
    unfold Semantic.numOrEmpty.
    destruct (Z.eqb_spec originalTokens 0) as [E | _]; [contradiction |].
    destruct (Z.eqb_spec targetRatio 0) as [E | _]; [contradiction |].
    do 3 apply includes_skip.
    apply includes_of_prefix.
    rewrite !prefix_app_cancel. reflexivity.
Qed.

(** ** Validation *)

Lemma trimStart_blank (s : string) : isBlank s = true -> Js.trimStart s = "".
Proof.
  induction s as [| c s IH]; [reflexivity |].
  simpl. intros [Hc Hs]%andb_prop. rewrite Hc. now apply IH.
Qed.

Lemma trim_blank (s : string) : isBlank s = true -> Js.trim s = "".
Proof.
  intros H. unfold Js.trim. now rewrite trimStart_blank.
Qed.

Lemma trimEnd_empty_blank (s : string) : Js.trimEnd s = "" -> isBlank s = true.
Proof.
  induction s as [| c s IH]; [reflexivity |].
  simpl. destruct (Js.isWhitespace c) eqn:Hc; simpl; [| discriminate].
  destruct (Js.trimEnd s) eqn:E; simpl; [intros _; now apply IH | discriminate].
Qed.

Lemma trim_empty_blank (s : string) : Js.trim s = "" -> isBlank s = true.
Proof.
  unfold Js.trim. induction s as [| c s IH]; [reflexivity |].
  simpl. destruct (Js.isWhitespace c) eqn:Hc; simpl.
  - exact IH.
  - rewrite Hc. simpl. discriminate.
Qed.

Lemma validateBlock_rejects (block : CompressionService.Block) :
  tokenCount (CompressionService.tokens block) (CompressionService.content block) < 100
  \/ isBlank (CompressionService.content block) = true ->
  exists e,
    CompressionService.validateBlock block = CompressionService.mkValidation false (Some e)
    /\ isValidationError e = true.
Proof.
  intros H. unfold CompressionService.validateBlock, tokenCount in *.
  change Semantic.estimateTokens with Tokenizer.estimateTokens.
  set (t := orElse _ _) in *.
  unfold CompressionService.MIN_TOKENS_FOR_COMPRESSION.
  destruct (Z.ltb_spec t 100) as [Hlt | Hge].
  - eexists. split; reflexivity.
  - destruct H as [H | H]; [lia |].
    rewrite (trim_blank _ H). simpl. rewrite orb_true_r.
    eexists. split; reflexivity.
Qed.

Lemma validation_message (e : Error) :
  isValidationError e = true -> messageIsEmpty e = false.
Proof. destruct e; (discriminate || reflexivity). Qed.

(** C5.  A block whose token count is below 100, or whose content is
    empty or white space only, is rejected by [compressBlock] with a
    validation error; the world is returned as it was received, so no
    backend has been invoked.  The hook [compressSingle], on the
    client-side path, reports that error and no result, again without a
    call. *)
Theorem C5_validation_rejects_without_backend
    (provider : Provider) (env : Env) (block : CompressionService.Block)
    (strategy : Strategy) (w : World) :
  tokenCount (CompressionService.tokens block) (CompressionService.content block) < 100
  \/ isBlank (CompressionService.content block) = true ->
  exists r e,
    CompressionService.compressBlock provider env block strategy w = (Ok r, w)
    /\ Types.success r = false
    /\ Types.error r = Some e
    /\ isValidationError e = true
    /\ Types.compressedContent r = None
    /\ List.filter isBackendCall (newEvents w w) = []
    /\ (provider <> claude_code ->
        UseCompression.compressSingle provider env block strategy w
        = (UseCompression.mkHookState false (Some e) None, w)).
Proof.
  intros H. destruct (validateBlock_rejects block H) as (e & Hv & He).
  assert (Hb : CompressionService.compressBlock provider env block strategy w
               = (Ok (CompressionService.failure e
                        (orElse (CompressionService.tokens block) 0) 0
                        (Js.JFin 1) strategy), w)).
  { unfold CompressionService.compressBlock. rewrite Hv. reflexivity. }
  eexists _, e. split; [exact Hb |].
  repeat split; try reflexivity; try exact He.
  - unfold newEvents. now rewrite skipn_all.
  - intros Hp. unfold UseCompression.compressSingle.
    destruct provider; try contradiction;
      unfold UseCompression.settle, bind; rewrite Hb;
      cbn [CompressionService.failure Types.success Types.error negb];
      rewrite (validation_message _ He); reflexivity.
Qed.

(** ** The ratio gate *)

Lemma Qltb_true_iff (p q : Q) : Js.Qltb p q = true <-> (p < q)%Q.
Proof.
  unfold Js.Qltb. rewrite negb_true_iff. split.
  - intros H. apply Qnot_le_lt. intros Hle.
    apply Qle_bool_iff in Hle. congruence.
  - intros H. destruct (Qle_bool q p) eqn:E; [| reflexivity].
    apply Qle_bool_iff in E. exfalso. exact (Qlt_not_le _ _ H E).
Qed.

(** For token counts, "the ratio is below 1.2" is the integer inequality
    [5 * original < 6 * compressed]; a division by zero is not below. *)
Lemma ratio_below_iff (o c : Z) :
  0 < o -> 0 <= c ->
  Js.lt (Js.div o c) 1.2%Q = true <-> 0 < c /\ 5 * o < 6 * c.
Proof.
  intros Ho Hc. unfold Js.div.
  destruct (Z.eqb_spec c 0) as [-> | Hne].
  - destruct (Z.eqb_spec o 0) as [-> | _]; [lia |].
    destruct (Z.ltb_spec 0 o) as [_ | ?]; [| lia].
    simpl. split; [discriminate | lia].
  - unfold Js.lt. rewrite Qltb_true_iff.
    destruct c as [| p | p]; try lia.
    unfold Qlt, Qdiv, Qmult, Qinv, inject_Z. simpl.
    rewrite Pos.mul_1_l.
    split; intros H; [split |]; lia.
Qed.

Lemma ratio_equal_not_below (o c : Z) :
  0 < c -> 5 * o = 6 * c -> Js.lt (Js.div o c) 1.2%Q = false.
Proof.
  intros Hc H. destruct (Js.lt (Js.div o c) 1.2%Q) eqn:E; [| reflexivity].
  apply ratio_below_iff in E; lia.
Qed.

Lemma orElse_tokenCount (cached : option Z) (content : string) :
  orElse cached (Semantic.estimateTokens content) = tokenCount cached content.
Proof. reflexivity. Qed.

Lemma validateBlock_valid (block : CompressionService.Block) :
  CompressionService.valid (CompressionService.validateBlock block) = true ->
  100 <= tokenCount (CompressionService.tokens block) (CompressionService.content block)
  /\ isBlank (CompressionService.content block) = false.
Proof.
  unfold CompressionService.validateBlock. rewrite orElse_tokenCount.
  unfold CompressionService.MIN_TOKENS_FOR_COMPRESSION.
  destruct (Z.ltb_spec (tokenCount (CompressionService.tokens block)
                          (CompressionService.content block)) 100) as [? | Hge];
    [discriminate |].
  destruct (Js.isEmpty _ || _) eqn:E; [discriminate |].
  intros _. split; [exact Hge |].
  destruct (isBlank (CompressionService.content block)) eqn:B; [| reflexivity].
  apply orb_false_elim in E as [_ E]. now rewrite (trim_blank _ B) in E.
Qed.

(** What [compressBlock] returns once the block is valid and the backend
    has answered: the two gates, in order. *)
Lemma compressBlock_scored (provider : Provider) (env : Env)
    (block : CompressionService.Block) (strategy : Strategy)
    (w w' : World) (compressedContent : string) :
  CompressionService.valid (CompressionService.validateBlock block) = true ->
  CompressionService.compressContent provider env
    (CompressionService.content block) strategy (CompressionService.type block) w
    = (Ok compressedContent, w') ->
  let originalTokens :=
    tokenCount (CompressionService.tokens block) (CompressionService.content block) in
  let compressedTokens := Tokenizer.estimateTokens compressedContent in
  let ratio := Js.div originalTokens compressedTokens in
  let quality :=
    Semantic.estimateQuality (CompressionService.content block) compressedContent in
  CompressionService.compressBlock provider env block strategy w =
  (Ok (if Js.lt ratio 1.2%Q then
         CompressionService.failure (RatioBelowMinimum ratio)
           originalTokens compressedTokens ratio strategy
       else if Js.Qltb quality 0.6%Q then
         CompressionService.failure (QualityTooLow quality)
           originalTokens compressedTokens ratio strategy
       else
         Types.mkResult true (Some (CompressionService._id block)) None None
           originalTokens compressedTokens ratio
           (originalTokens - compressedTokens)
           (Some compressedContent) strategy (Some provider)),
   w').
Proof.
  intros Hv Hc. cbv zeta.
  unfold CompressionService.compressBlock. rewrite Hv.
  change (negb true) with false. cbv iota.
  unfold tryCatch, bind. rewrite Hc.
  rewrite orElse_tokenCount.
  change Semantic.estimateTokens with Tokenizer.estimateTokens.
  unfold CompressionService.MIN_COMPRESSION_RATIO, ret.
  destruct (Js.lt _ _); [reflexivity |].
  destruct (Js.Qltb _ _); reflexivity.
Qed.

Lemma blank_check (s : string) :
  Js.isEmpty s || (String.length (Js.trim s) =? 0)%nat = isBlank s.
Proof.
  destruct (isBlank s) eqn:B.
  - rewrite (trim_blank _ B). apply orb_true_r.
  - destruct s as [| c s]; [discriminate |]. simpl Js.isEmpty.
    destruct (Js.trim (String c s)) eqn:E; [| reflexivity].
    apply trim_empty_blank in E. congruence.
Qed.

Lemma raceWithTimeout_in_time (env : Env) (prompt text : string) (w : World) :
  answersInTime (claudeQuery env prompt) text ->
  Compression.raceWithTimeout env prompt w = (Ok text, logged w (EvClaudeQuery prompt)).
Proof.
  intros (elapsed & messages & Hrun & Ht & <-).
  unfold Compression.raceWithTimeout, bind, emit. rewrite Hrun.
  destruct (Z.ltb_spec elapsed Compression.timeoutMs); [reflexivity | lia].
Qed.

Lemma raceWithTimeout_late (env : Env) (prompt : string) (w : World) :
  missesDeadline (claudeQuery env prompt) ->
  Compression.raceWithTimeout env prompt w = (Err TimedOut, logged w (EvClaudeQuery prompt)).
Proof.
  unfold missesDeadline, Compression.raceWithTimeout, bind, emit.
  destruct (claudeQuery env prompt) as [elapsed messages | elapsed message |];
    intros H; try reflexivity;
    destruct (Z.ltb_spec elapsed Compression.timeoutMs); (reflexivity || lia).
Qed.

(** [compressWithClaudeCode] up to the call of the backend, for a stored
    block that passes the validation. *)
Lemma compressWithClaudeCode_valid (env : Env) (blockId : BlockId)
    (strategy : string) (w : World) (block : Doc) :
  store w !! blockId = Some block ->
  100 <= tokenCount (tokens block) (content block) ->
  isBlank (content block) = false ->
  Compression.compressWithClaudeCode env blockId strategy w =
  let originalTokens := tokenCount (tokens block) (content block) in
  tryCatch
    (await compressedContent :=
       Compression.raceWithTimeout env (promptFor block strategy) in
     let compressedContent := Js.trim compressedContent in
     if Js.isEmpty compressedContent then throw EmptyResponse
     else
       let compressedTokens := Tokenizer.estimateTokens compressedContent in
       let compressionRatio := Js.div originalTokens compressedTokens in
       if Js.lt compressionRatio 1.2%Q then
         throw (RatioBelowMinimum compressionRatio)
       else
         perform
           Blocks.runCompress env
             (mkCompressArgs blockId compressedContent originalTokens
                compressedTokens compressionRatio strategy) in
         ret (Compression.mkSingleResult true blockId originalTokens
                compressedTokens compressionRatio
                (originalTokens - compressedTokens)))
    (fun error => throw (ClaudeCodeFailed error)) w.
Proof.
  intros Hget Htok Hblank.
  unfold Compression.compressWithClaudeCode at 1.
  unfold bind at 1. unfold Blocks.get. rewrite Hget.
  change (orElse (tokens block) (Compression.estimateTokens (content block)))
    with (tokenCount (tokens block) (content block)).
  destruct (Z.ltb_spec (tokenCount (tokens block) (content block)) 100); [lia |].
  rewrite blank_check, Hblank. reflexivity.
Qed.

(** The server-side action validates the stored block the same way, and
    throws before it calls the local agent. *)
Lemma compressWithClaudeCode_rejects (env : Env) (blockId : BlockId)
    (strategy : string) (w : World) (block : Doc) :
  store w !! blockId = Some block ->
  tokenCount (tokens block) (content block) < 100
  \/ isBlank (content block) = true ->
  exists e,
    Compression.compressWithClaudeCode env blockId strategy w = (Err e, w)
    /\ isValidationError e = true.
Proof.
  intros Hget H. unfold Compression.compressWithClaudeCode.
  unfold bind at 1. unfold Blocks.get. rewrite Hget.
  change (orElse (tokens block) (Compression.estimateTokens (content block)))
    with (tokenCount (tokens block) (content block)).
  destruct (Z.ltb_spec (tokenCount (tokens block) (content block)) 100) as [| Hge].
  - eexists. split; reflexivity.
  - destruct H as [H | H]; [lia |].
    rewrite blank_check, H. eexists. split; reflexivity.
Qed.

Lemma newEvents_app (w : World) (s : gmap N Doc) (evs : list Event) :
  newEvents w (mkWorld s (trace w ++ evs)) = evs.
Proof. unfold newEvents. simpl. apply drop_app_length. Qed.

(** ** The deadline of the local agent *)

Lemma compressWithClaudeCode_late (env : Env) (blockId : BlockId)
    (strategy : string) (w : World) (block : Doc) :
  store w !! blockId = Some block ->
  100 <= tokenCount (tokens block) (content block) ->
  isBlank (content block) = false ->
  missesDeadline (claudeQuery env (promptFor block strategy)) ->
  Compression.compressWithClaudeCode env blockId strategy w =
  (Err (ClaudeCodeFailed TimedOut),
   logged w (EvClaudeQuery (promptFor block strategy))).
Proof.
  intros Hget Htok Hblank Hlate.
  rewrite (compressWithClaudeCode_valid _ _ _ _ _ Hget Htok Hblank).
  cbv zeta. unfold tryCatch, bind.
  rewrite (raceWithTimeout_late _ _ _ Hlate). reflexivity.
Qed.

(** The prompts are compared as they are written from here on. *)
Opaque Semantic.formatPrompt Compression.buildCompressionPrompt.

(** ** The attempts that reach the scoring *)

Lemma compressContent_streamed (provider : Provider) (env : Env)
    (content contentType : string) (chunks : list string) (w : World) :
  provider <> claude_code ->
  streamChat env provider (clientPrompt content contentType) = Returns chunks ->
  CompressionService.compressContent provider env content semantic contentType w =
  (Ok (Js.trim (streamed chunks)),
   logged w (EvStreamChat provider (clientPrompt content contentType))).
Proof.
  intros Hp Hs.
  unfold CompressionService.compressContent, Semantic.compressSemantic.
  change (orElse (Some 2) 2) with 2.
  fold (clientPrompt content contentType).
  destruct provider; try contradiction;
    unfold Semantic.compressWithStream, bind, emit, call;
    rewrite Hs; reflexivity.
Qed.

Lemma compressContent_store (provider : Provider) (env : Env)
    (content : string) (strategy : Strategy) (contentType : string)
    (w w' : World) (r : result string) :
  CompressionService.compressContent provider env content strategy contentType w = (r, w') ->
  store w' = store w /\ List.filter isMutation (newEvents w w') = [].
Proof.
  unfold CompressionService.compressContent, Semantic.compressSemantic.
  destruct strategy; [| intros [= <- <-] | intros [= <- <-]];
    try (split; [reflexivity | unfold newEvents; now rewrite skipn_all]).
  destruct provider;
    try (intros [= <- <-]; split; [reflexivity | unfold newEvents; now rewrite skipn_all]);
    unfold Semantic.compressWithStream, bind, emit, call, ret;
    destruct (streamChat env _ _); intros [= <- <-];
    (split; [reflexivity | now rewrite newEvents_app]).
Qed.

Lemma trim_nonblank (text : string) :
  isBlank text = false -> Js.isEmpty (Js.trim text) = false.
Proof.
  intros H. destruct (Js.trim text) eqn:E; [| reflexivity].
  apply trim_empty_blank in E. congruence.
Qed.

(** [compressWithClaudeCode] once the backend has answered in time with a
    text that is not blank: the ratio gate, then the mutation. *)
Lemma compressWithClaudeCode_answered (env : Env) (blockId : BlockId)
    (strategy : string) (w : World) (block : Doc) (text : string) :
  store w !! blockId = Some block ->
  100 <= tokenCount (tokens block) (content block) ->
  isBlank (content block) = false ->
  answersInTime (claudeQuery env (promptFor block strategy)) text ->
  isBlank text = false ->
  let args := compressArgsFor blockId block strategy text in
  let w1 := logged w (EvClaudeQuery (promptFor block strategy)) in
  Compression.compressWithClaudeCode env blockId strategy w =
  if Js.lt (ca_compressionRatio args) 1.2%Q then
    (Err (ClaudeCodeFailed (RatioBelowMinimum (ca_compressionRatio args))), w1)
  else
    match compressMutation env args (store w) with
    | Returns s' =>
        (Ok (Compression.mkSingleResult true blockId
               (ca_originalTokens args) (ca_compressedTokens args)
               (ca_compressionRatio args)
               (ca_originalTokens args - ca_compressedTokens args)),
         mkWorld s' (trace w1 ++ [EvCompress args]))
    | Throws message =>
        (Err (ClaudeCodeFailed (Thrown message)),
         mkWorld (store w) (trace w1 ++ [EvCompress args]))
    end.
Proof.
  intros Hget Htok Hblank Hans Htext.
  rewrite (compressWithClaudeCode_valid _ _ _ _ _ Hget Htok Hblank).
  cbv zeta. unfold tryCatch, bind.
  rewrite (raceWithTimeout_in_time _ _ _ _ Hans).
  rewrite (trim_nonblank _ Htext).
  unfold compressArgsFor. simpl ca_compressionRatio.
  destruct (Js.lt _ _); [reflexivity |].
  unfold Blocks.runCompress. simpl store.
  destruct (compressMutation env _ _); reflexivity.
Qed.

(** ** An empty answer of the backend *)

Lemma div_by_zero (o : Z) : 0 < o -> Js.div o 0 = Js.JPosInf.
Proof.
  intros H. unfold Js.div. simpl.
  destruct (Z.eqb_spec o 0); [lia |].
  destruct (Z.ltb_spec 0 o); [reflexivity | lia].
Qed.

(** C10.  In [compressBlock] the division [originalTokens /
    compressedTokens] is not guarded: when the block is valid and the
    stream of the backend is empty or white space only, the compressed
    content is the empty string, [compressedTokens] is 0, the ratio is
    [Infinity], the ratio gate does not reject, and when the original
    content has no important words the result has [success = true] with
    an empty compressed content. *)
Theorem C10_empty_answer_passes_the_ratio_gate
    (provider : Provider) (env : Env) (block : CompressionService.Block)
    (w : World) (chunks : list string) :
  provider <> claude_code ->
  CompressionService.valid (CompressionService.validateBlock block) = true ->
  streamChat env provider
    (clientPrompt (CompressionService.content block) (CompressionService.type block))
    = Returns chunks ->
  isBlank (streamed chunks) = true ->
  exists r w',
    CompressionService.compressBlock provider env block semantic w = (Ok r, w')
    /\ Types.compressedTokens r = 0
    /\ Types.compressionRatio r = Js.JPosInf
    /\ Js.lt (Types.compressionRatio r) CompressionService.MIN_COMPRESSION_RATIO = false
    /\ (forall x, Types.error r <> Some (RatioBelowMinimum x))
    /\ (Semantic.extractImportantWords (CompressionService.content block) = [] ->
        Types.success r = true /\ Types.error r = None
        /\ Types.compressedContent r = Some "").
Proof.
  intros Hp Hv Hs Hb.
  pose proof (compressContent_streamed provider env _ _ chunks w Hp Hs) as Hc.
  rewrite (trim_blank _ Hb) in Hc.
  destruct (validateBlock_valid _ Hv) as [Ho _].
  rewrite (compressBlock_scored _ _ _ _ _ _ _ Hv Hc).
  change (Tokenizer.estimateTokens "") with 0.
  rewrite div_by_zero by lia. simpl Js.lt. cbv iota.
  eexists _, _. split; [reflexivity |].
  destruct (Js.Qltb _ _) eqn:Q; simpl;
    (split; [reflexivity |]); (split; [reflexivity |]);
    (split; [reflexivity |]); (split; [intros x; discriminate |]);
    intros Hw; [| repeat split].
  unfold Semantic.estimateQuality in Q. rewrite Hw in Q. discriminate.
Qed.

(** ** The quality gate *)

(** C4, as stated, fails for the server-side action: the local agent
    answers "ok" to the sample note, none of the four important words of
    the note survives (quality 0, below 0.6), and the attempt is
    accepted: the action returns [success: true], it has run the mutation
    [blocks.compress], and the content of the block is now "ok". *)
Lemma C4_counterexample_server_accepts_low_quality :
  Compression.extractImportantWords (content sampleDoc)
    = ["quarterly"; "revenue"; "increased"; "substantially"] /\
  (Compression.estimateQuality (content sampleDoc) "ok" == 0)%Q /\
  Js.Qltb (Compression.estimateQuality (content sampleDoc) "ok") 0.6%Q = true /\
  (exists r w',
      Compression.compressWithClaudeCode (agentAnswering "ok" 1000) 7%N "semantic"
        sampleWorld = (Ok r, w')
      /\ Compression.s_success r = true
      /\ List.filter isMutation (newEvents sampleWorld w')
         = [EvCompress (compressArgsFor 7%N sampleDoc "semantic" "ok")]
      /\ content <$> (store sampleWorld !! 7%N)
         = Some "Quarterly revenue increased substantially"
      /\ content <$> (store w' !! 7%N) = Some "ok").
Proof.
  split; [vm_compute; reflexivity |].
  split; [vm_compute; reflexivity |].
  split; [vm_compute; reflexivity |].
  eexists _, _. split; [vm_compute; reflexivity |].
  repeat split; vm_compute; reflexivity.
Qed.

Lemma compressContent_ok_provider (provider : Provider) (env : Env)
    (content : string) (strategy : Strategy) (contentType : string)
    (w w' : World) (compressedContent : string) :
  CompressionService.compressContent provider env content strategy contentType w
    = (Ok compressedContent, w') ->
  provider <> claude_code.
Proof.
  intros H ->. unfold CompressionService.compressContent in H.
  destruct strategy; discriminate H.
Qed.

(** The hook on the client-side path: the service, then the mutation. *)
Lemma compressSingle_client (provider : Provider) (env : Env)
    (block : CompressionService.Block) (strategy : Strategy) (w w1 : World)
    (r : Types.CompressionResult) :
  provider <> claude_code ->
  CompressionService.compressBlock provider env block strategy w = (Ok r, w1) ->
  UseCompression.compressSingle provider env block strategy w =
  if Types.success r then
    UseCompression.settle
      (perform
         Blocks.runCompress env
           (mkCompressArgs (CompressionService._id block)
              (match Types.compressedContent r with Some c => c | None => "" end)
              (Types.originalTokens r) (Types.compressedTokens r)
              (Types.compressionRatio r) (strategyName strategy)) in
       ret r) w1
  else
    (UseCompression.mkHookState false
       (Some (match Types.error r with
              | Some e =>
                  if messageIsEmpty e then Thrown "Compression failed" else e
              | None => Thrown "Compression failed"
              end))
       None, w1).
Proof.
  intros Hp Hb. unfold UseCompression.compressSingle.
  destruct provider; try contradiction;
    unfold UseCompression.settle at 1; unfold bind at 1; rewrite Hb;
    destruct (Types.success r); reflexivity.
Qed.

(** C4, amended.  In the client-side service, an attempt that reaches the
    quality scoring is rejected when its quality is below 0.6: the result
    is unsuccessful, the hook reports the error, the table of blocks is as
    it was and no mutation has been run; otherwise the result is
    successful.  In the server-side action the quality is only logged: an
    attempt that has passed the ratio gate runs the mutation
    [blocks.compress] whatever its quality, and succeeds when the mutation
    does. *)
Theorem C4_quality_gate_rejects_on_the_client_only :
  (forall (provider : Provider) (env : Env) (block : CompressionService.Block)
          (strategy : Strategy) (w w' : World) (compressedContent : string),
      CompressionService.valid (CompressionService.validateBlock block) = true ->
      CompressionService.compressContent provider env
        (CompressionService.content block) strategy (CompressionService.type block) w
        = (Ok compressedContent, w') ->
      Js.lt (Js.div (tokenCount (CompressionService.tokens block)
                       (CompressionService.content block))
                    (Tokenizer.estimateTokens compressedContent)) 1.2%Q = false ->
      let quality :=
        Semantic.estimateQuality (CompressionService.content block) compressedContent in
      exists r,
        CompressionService.compressBlock provider env block strategy w = (Ok r, w') /\
        ((quality < 0.6)%Q ->
           Types.success r = false /\
           Types.error r = Some (QualityTooLow quality) /\
           UseCompression.compressSingle provider env block strategy w
           = (UseCompression.mkHookState false (Some (QualityTooLow quality)) None, w') /\
           store w' = store w /\
           List.filter isMutation (newEvents w w') = []) /\
        (~ (quality < 0.6)%Q ->
           Types.success r = true /\ Types.error r = None)) /\
  (forall (env : Env) (blockId : BlockId) (strategy : string) (w : World)
          (block : Doc) (text : string),
      store w !! blockId = Some block ->
      100 <= tokenCount (tokens block) (content block) ->
      isBlank (content block) = false ->
      answersInTime (claudeQuery env (promptFor block strategy)) text ->
      isBlank text = false ->
      let args := compressArgsFor blockId block strategy text in
      Js.lt (ca_compressionRatio args) 1.2%Q = false ->
      exists r w',
        Compression.compressWithClaudeCode env blockId strategy w = (r, w') /\
        List.filter isMutation (newEvents w w') = [EvCompress args] /\
        (forall s', compressMutation env args (store w) = Returns s' ->
           store w' = s' /\
           exists ok, r = Ok ok /\ Compression.s_success ok = true)).
Proof.
  split.
  - intros provider env block strategy w w' cc Hv Hc Hr quality.
    pose proof (compressContent_ok_provider _ _ _ _ _ _ _ _ Hc) as Hp.
    destruct (compressContent_store _ _ _ _ _ _ _ _ Hc) as [Hstore Hmut].
    pose proof (compressBlock_scored _ _ _ _ _ _ _ Hv Hc) as Hb.
    cbv zeta in Hb. rewrite Hr in Hb. fold quality in Hb.
    eexists. split; [exact Hb |]. split.
    + intros Hq. apply Qltb_true_iff in Hq. rewrite Hq.
      split; [reflexivity |]. split; [reflexivity |].
      split; [| split; assumption].
      rewrite (compressSingle_client _ _ _ _ _ _ _ Hp Hb). rewrite Hq. reflexivity.
    + intros Hq. destruct (Js.Qltb quality 0.6%Q) eqn:E.
      * apply Qltb_true_iff in E. contradiction.
      * split; reflexivity.
  - intros env blockId strategy w block text Hget Htok Hblank Hans Htext args Hr.
    rewrite (compressWithClaudeCode_answered _ _ _ _ _ _ Hget Htok Hblank Hans Htext).
    cbv zeta. fold args. rewrite Hr.
    destruct (compressMutation env args (store w)) as [s' | message] eqn:E.
    + eexists _, _. split; [reflexivity |]. split.
      * unfold logged. simpl trace. rewrite <- app_assoc, newEvents_app. reflexivity.
      * intros s'' [= <-]. split; [reflexivity |]. eexists. split; reflexivity.
    + eexists _, _. split; [reflexivity |]. split.
      * unfold logged. simpl trace. rewrite <- app_assoc, newEvents_app. reflexivity.
      * intros s'' [=].
Qed.

(** ** Provenance of the original token count *)

Lemma raceWithTimeout_world (env : Env) (prompt : string) (w w1 : World)
    (r : result string) :
  Compression.raceWithTimeout env prompt w = (r, w1) ->
  w1 = logged w (EvClaudeQuery prompt).
Proof.
  unfold Compression.raceWithTimeout, bind, emit, ret, throw.
  destruct (claudeQuery env prompt) as [elapsed messages | elapsed message |];
    try destruct (elapsed <? Compression.timeoutMs); now intros [= _ <-].
Qed.

(** A run of [compressWithClaudeCode] that returns has run the mutation
    on a stored block of at least 100 tokens, and the table is what the
    mutation committed. *)
Lemma compressWithClaudeCode_ok (env : Env) (blockId : BlockId)
    (strategy : string) (w w' : World) (r : Compression.SingleResult) :
  Compression.compressWithClaudeCode env blockId strategy w = (Ok r, w') ->
  exists block text,
    store w !! blockId = Some block /\
    100 <= tokenCount (tokens block) (content block) /\
    compressMutation env (compressArgsFor blockId block strategy text) (store w)
    = Returns (store w').
Proof.
  unfold Compression.compressWithClaudeCode.
  unfold bind at 1. unfold Blocks.get.
  destruct (store w !! blockId) as [block |] eqn:Hget; [| discriminate].
  change (orElse (tokens block) (Compression.estimateTokens (content block)))
    with (tokenCount (tokens block) (content block)).
  destruct (Z.ltb_spec (tokenCount (tokens block) (content block)) 100) as [| Htok];
    [discriminate |].
  destruct (Js.isEmpty (content block) || _); [discriminate |].
  unfold tryCatch, bind.
  destruct (Compression.raceWithTimeout env _ w) as [[text | e] w1] eqn:Hrace;
    [| discriminate].
  apply raceWithTimeout_world in Hrace. subst w1.
  destruct (Js.isEmpty (Js.trim text)); [discriminate |].
  change (Compression.estimateTokens (Js.trim text))
    with (Tokenizer.estimateTokens (Js.trim text)).
  destruct (Js.lt _ _); [discriminate |].
  unfold Blocks.runCompress. simpl store.
  fold (compressArgsFor blockId block strategy text).
  destruct (compressMutation env _ _) as [s' | message] eqn:E; [| discriminate].
  intros [= _ <-]. exists block, text. repeat split; assumption.
Qed.

(** [compressBlock] always returns; it leaves the table alone, and a
    successful result carries an original count of at least 100. *)
Lemma compressBlock_returns (provider : Provider) (env : Env)
    (block : CompressionService.Block) (strategy : Strategy) (w : World) :
  exists r w1,
    CompressionService.compressBlock provider env block strategy w = (Ok r, w1) /\
    store w1 = store w /\
    List.filter isMutation (newEvents w w1) = [] /\
    (Types.success r = true -> 100 <= Types.originalTokens r).
Proof.
  destruct (CompressionService.valid (CompressionService.validateBlock block)) eqn:Hv.
  - destruct (CompressionService.compressContent provider env
                (CompressionService.content block) strategy
                (CompressionService.type block) w) as [[cc | e] w1] eqn:Hc.
    + destruct (compressContent_store _ _ _ _ _ _ _ _ Hc) as [Hs Hm].
      destruct (validateBlock_valid _ Hv) as [Ho _].
      rewrite (compressBlock_scored _ _ _ _ _ _ _ Hv Hc).
      eexists _, w1. split; [reflexivity |]. split; [exact Hs |]. split; [exact Hm |].
      destruct (Js.lt _ _); [discriminate |].
      destruct (Js.Qltb _ _); [discriminate |]. intros _. exact Ho.
    + destruct (compressContent_store _ _ _ _ _ _ _ _ Hc) as [Hs Hm].
      unfold CompressionService.compressBlock. rewrite Hv.
      change (negb true) with false. cbv iota.
      unfold tryCatch, bind. rewrite Hc.
      eexists _, w1. split; [reflexivity |]. split; [exact Hs |]. split; [exact Hm |].
      discriminate.
  - unfold CompressionService.compressBlock. rewrite Hv.
    eexists _, w. split; [reflexivity |]. split; [reflexivity |].
    split; [unfold newEvents; now rewrite skipn_all | discriminate].
Qed.

(** A successful [compressSingle] has committed one call of the mutation
    for the block, with an original count of at least 100. *)
Lemma compressSingle_success (provider : Provider) (env : Env)
    (block : CompressionService.Block) (strategy : Strategy) (w w' : World)
    (h : UseCompression.HookState) :
  UseCompression.compressSingle provider env block strategy w = (h, w') ->
  UseCompression.error h = None ->
  exists args,
    ca_blockId args = CompressionService._id block /\
    100 <= ca_originalTokens args /\
    compressMutation env args (store w) = Returns (store w').
Proof.
  intros Hrun Herr.
  assert (provider = claude_code \/ provider <> claude_code) as [-> | Hp]
    by (destruct provider; (now left) || (now right)).
  - unfold UseCompression.compressSingle, UseCompression.settle, bind in Hrun.
    destruct (Compression.compressWithClaudeCode env _ _ w) as [[r | e] w1] eqn:E.
    + unfold ret in Hrun. injection Hrun as <- <-.
      destruct (compressWithClaudeCode_ok _ _ _ _ _ _ E) as (stored & text & _ & Htok & Hm).
      eexists. split; [| split; [| exact Hm]]; [reflexivity | exact Htok].
    + injection Hrun as <- <-. discriminate Herr.
  - destruct (compressBlock_returns provider env block strategy w)
      as (r & w1 & Hb & Hs & _ & Hsucc).
    rewrite (compressSingle_client _ _ _ _ _ _ _ Hp Hb) in Hrun.
    destruct (Types.success r).
    + unfold UseCompression.settle, bind, Blocks.runCompress, ret in Hrun.
      rewrite Hs in Hrun.
      destruct (compressMutation env _ (store w)) as [s' | message] eqn:E.
      * injection Hrun as <- <-.
        eexists. split; [| split; [| exact E]]; [reflexivity | now apply Hsucc].
      * injection Hrun as <- <-. discriminate Herr.
    + injection Hrun as <- <-. discriminate Herr.
Qed.

Lemma compress_original_tokens (args : CompressArgs) (s s' : gmap N Doc) :
  Blocks.compress args s = Returns s' ->
  exists block block',
    s !! ca_blockId args = Some block /\
    s' !! ca_blockId args = Some block' /\
    originalTokens block'
    = Some (orElse (originalTokens block) (ca_originalTokens args)).
Proof.
  unfold Blocks.compress.
  destruct (s !! ca_blockId args) as [block |] eqn:E; [| discriminate].
  intros [= <-]. eexists _, _. split; [reflexivity |].
  split; [apply lookup_insert_eq | reflexivity].
Qed.

(** C6.  With the mutation [blocks.compress] of the specification, a
    successful compression leaves a non-zero [originalTokens] on the
    block, and a second successful compression of the same block leaves
    that very value: the count is the one set by the first compression,
    and it does not decrease. *)
Theorem C6_recompression_keeps_the_original_token_count
    (provider1 provider2 : Provider) (env1 env2 : Env)
    (block1 block2 : CompressionService.Block) (strategy1 strategy2 : Strategy)
    (w0 w1 w2 : World) (h1 h2 : UseCompression.HookState) :
  compressMutation env1 = Blocks.compress ->
  compressMutation env2 = Blocks.compress ->
  CompressionService._id block2 = CompressionService._id block1 ->
  UseCompression.compressSingle provider1 env1 block1 strategy1 w0 = (h1, w1) ->
  UseCompression.error h1 = None ->
  UseCompression.compressSingle provider2 env2 block2 strategy2 w1 = (h2, w2) ->
  UseCompression.error h2 = None ->
  exists first,
    first <> 0 /\
    storedOriginalTokens w1 (CompressionService._id block1) = Some first /\
    storedOriginalTokens w2 (CompressionService._id block1) = Some first.
Proof.
  intros Hm1 Hm2 Hid Hrun1 Herr1 Hrun2 Herr2.
  destruct (compressSingle_success _ _ _ _ _ _ _ Hrun1 Herr1) as (a1 & Ha1 & Ho1 & Hc1).
  destruct (compressSingle_success _ _ _ _ _ _ _ Hrun2 Herr2) as (a2 & Ha2 & Ho2 & Hc2).
  rewrite Hm1 in Hc1. rewrite Hm2 in Hc2.
  destruct (compress_original_tokens _ _ _ Hc1) as (b0 & b1 & _ & Hb1 & Hv1).
  destruct (compress_original_tokens _ _ _ Hc2) as (b1' & b2 & Hb1' & Hb2 & Hv2).
  rewrite Ha1 in Hb1. rewrite Ha2, Hid in Hb1', Hb2.
  rewrite Hb1 in Hb1'. injection Hb1' as <-.
  exists (orElse (originalTokens b0) (ca_originalTokens a1)).
  assert (Hne : orElse (originalTokens b0) (ca_originalTokens a1) <> 0).
  { unfold orElse. destruct (originalTokens b0) as [n |]; [| lia].
    destruct (Z.eqb_spec n 0); lia. }
  split; [exact Hne |]. unfold storedOriginalTokens. rewrite Hb1, Hb2.
  split; [exact Hv1 |]. rewrite Hv2, Hv1. unfold orElse at 1.
  destruct (Z.eqb_spec (orElse (originalTokens b0) (ca_originalTokens a1)) 0);
    [contradiction | reflexivity].
Qed.

(** ** No partial merge *)

Lemma raceWithTimeout_fails (env : Env) (prompt : string) (w : World) :
  backendFails claude_code env ->
  exists e, Compression.raceWithTimeout env prompt w
            = (Err e, logged w (EvClaudeQuery prompt)).
Proof.
  intros H. specialize (H prompt).
  unfold Compression.raceWithTimeout, bind, emit, ret, throw.
  destruct (claudeQuery env prompt) as [elapsed messages | elapsed message |].
  - destruct (Z.ltb_spec elapsed Compression.timeoutMs); [lia |].
    eexists; reflexivity.
  - destruct (elapsed <? Compression.timeoutMs); eexists; reflexivity.
  - eexists; reflexivity.
Qed.

(** The action of the merge reads the table and calls the backend; it
    runs no mutation. *)
Lemma compressAndMergeWithClaudeCode_store (env : Env) (blockIds : list BlockId)
    (strategy : string) (w w1 : World) (r : result Compression.MergeResult) :
  Compression.compressAndMergeWithClaudeCode env blockIds strategy w = (r, w1) ->
  store w1 = store w /\
  (backendFails claude_code env -> isErr r = true).
Proof.
  unfold Compression.compressAndMergeWithClaudeCode.
  unfold bind at 1.
  destruct (existsb _ _); [intros [= <- <-]; now split |].
  destruct (_ <? 100); [intros [= <- <-]; now split |].
  unfold tryCatch, bind.
  destruct (Compression.raceWithTimeout env _ w) as [[text | e] w2] eqn:Hrace.
  - pose proof (raceWithTimeout_world _ _ _ _ _ Hrace) as ->.
    intros H. split.
    + destruct (Js.isEmpty _); [now injection H as <- <- |].
      destruct (Js.lt _ _); now injection H as <- <-.
    + intros Hf.
      match type of Hrace with
      | Compression.raceWithTimeout _ ?prompt _ = _ =>
          destruct (raceWithTimeout_fails env prompt w Hf) as [e He]
      end.
      rewrite He in Hrace. discriminate Hrace.
  - pose proof (raceWithTimeout_world _ _ _ _ _ Hrace) as ->.
    intros [= <- <-]. now split.
Qed.

Lemma compressText_store (provider : Provider) (env : Env)
    (content : string) (strategy : Strategy) (contentType : string)
    (w w1 : World) (r : result CompressionService.TextResult) :
  CompressionService.compressText provider env content strategy contentType w = (r, w1) ->
  store w1 = store w /\
  (provider <> claude_code -> backendFails provider env -> isErr r = true).
Proof.
  unfold CompressionService.compressText, bind.
  destruct (CompressionService.compressContent provider env content strategy
              contentType w) as [[cc | e] w2] eqn:Hc.
  - destruct (compressContent_store _ _ _ _ _ _ _ _ Hc) as [Hs _].
    intros [= <- <-]. split; [exact Hs |].
    intros Hp Hf. exfalso.
    unfold CompressionService.compressContent, Semantic.compressSemantic in Hc.
    destruct strategy; try discriminate Hc.
    destruct provider; try contradiction;
      unfold Semantic.compressWithStream, bind, emit, call in Hc;
      destruct (Hf (Semantic.formatPrompt
                      (Semantic.mkVars content (Semantic.estimateTokens content)
                         (orElse (Some 2) 2)
                         (if Js.isEmpty contentType then "text" else contentType))))
        as [message Hm];
      rewrite Hm in Hc; discriminate Hc.
  - destruct (compressContent_store _ _ _ _ _ _ _ _ Hc) as [Hs _].
    intros [= <- <-]. now split.
Qed.

Lemma compressAndMerge_failure (provider : Provider) (env : Env)
    (blocks : list CompressionService.Block) (options : UseCompression.MergeOptions)
    (previous : UseCompression.HookState) (w w' : World)
    (h : UseCompression.HookState) :
  UseCompression.compressAndMerge provider env blocks options previous w = (h, w') ->
  reportsFailure h = true ->
  (blocks <> [] -> UseCompression.result h = None) /\ store w' = store w.
Proof.
  unfold UseCompression.compressAndMerge.
  destruct blocks as [| b blocks'];
    [intros [= <- <-] _; split; [congruence | reflexivity] |].
  change (length (b :: blocks') =? 0)%nat with false. cbv iota.
  unfold UseCompression.settle. unfold bind at 1.
  destruct provider.
  - destruct (CompressionService.compressText ollama env _ _ _ w)
      as [[c | e] w1] eqn:E;
      destruct (compressText_store _ _ _ _ _ _ _ _ E) as [Hs _];
      [| intros [= <- <-]; now split].
    destruct (Js.lt _ _); [intros [= <- <-]; now split |].
    unfold bind, Blocks.runCompressAndMerge, ret. rewrite Hs.
    destruct (compressAndMergeMutation env _ (store w)) as [[id s'] | m];
      intros [= <- <-]; [discriminate | now split].
  - destruct (CompressionService.compressText openrouter env _ _ _ w)
      as [[c | e] w1] eqn:E;
      destruct (compressText_store _ _ _ _ _ _ _ _ E) as [Hs _];
      [| intros [= <- <-]; now split].
    destruct (Js.lt _ _); [intros [= <- <-]; now split |].
    unfold bind, Blocks.runCompressAndMerge, ret. rewrite Hs.
    destruct (compressAndMergeMutation env _ (store w)) as [[id s'] | m];
      intros [= <- <-]; [discriminate | now split].
  - unfold bind at 1.
    destruct (Compression.compressAndMergeWithClaudeCode env _ _ w)
      as [[c | e] w1] eqn:E;
      destruct (compressAndMergeWithClaudeCode_store _ _ _ _ _ _ E) as [Hs _];
      [| intros [= <- <-]; now split].
    destruct (negb (Compression.m_success c)); [intros [= <- <-]; now split |].
    unfold ret at 1. destruct (Js.lt _ _); [intros [= <- <-]; now split |].
    unfold bind, Blocks.runCompressAndMerge, ret. rewrite Hs.
    destruct (compressAndMergeMutation env _ (store w)) as [[id s'] | m];
      intros [= <- <-]; [discriminate | now split].
Qed.

Lemma compressAndMerge_backend_failure (provider : Provider) (env : Env)
    (blocks : list CompressionService.Block) (options : UseCompression.MergeOptions)
    (previous : UseCompression.HookState) (w w' : World)
    (h : UseCompression.HookState) :
  UseCompression.compressAndMerge provider env blocks options previous w = (h, w') ->
  backendFails provider env ->
  reportsFailure h = true.
Proof.
  unfold UseCompression.compressAndMerge.
  destruct (length blocks =? 0)%nat; [now intros [= <- <-] |].
  unfold UseCompression.settle. unfold bind at 1.
  destruct provider.
  - destruct (CompressionService.compressText ollama env _ _ _ w)
      as [[c | e] w1] eqn:E; [| now intros [= <- <-]].
    destruct (compressText_store _ _ _ _ _ _ _ _ E) as [_ Hr].
    intros _ Hf. discriminate (Hr ltac:(discriminate) Hf).
  - destruct (CompressionService.compressText openrouter env _ _ _ w)
      as [[c | e] w1] eqn:E; [| now intros [= <- <-]].
    destruct (compressText_store _ _ _ _ _ _ _ _ E) as [_ Hr].
    intros _ Hf. discriminate (Hr ltac:(discriminate) Hf).
  - unfold bind at 1.
    destruct (Compression.compressAndMergeWithClaudeCode env _ _ w)
      as [[c | e] w1] eqn:E; [| now intros [= <- <-]].
    destruct (compressAndMergeWithClaudeCode_store _ _ _ _ _ _ E) as [_ Hr].
    intros _ Hf. discriminate (Hr Hf).
Qed.

(** ** The regular expressions *)

Lemma rep_sound (p : ascii -> bool) (s : string) :
  forall (min : nat) (prev : option ascii) (acc : list ascii) (k : Js.cont)
         (m : list ascii),
    Js.rep p min prev acc s k = Some m ->
    exists u prev' s',
      Forall (fun c => p c = true) u /\ (min <= length u)%nat /\
      k prev' (rev u ++ acc) s' = Some m.
Proof.
  induction s as [| c s IH]; intros min prev acc k m H.
  - simpl in H. destruct min; [| discriminate].
    exists [], prev, EmptyString. repeat split; [constructor | lia | exact H].
  - simpl in H.
    assert (Stop : match min with O => k prev acc (String c s) | S _ => None end = Some m ->
                   exists u prev' s',
                     Forall (fun c => p c = true) u /\ (min <= length u)%nat /\
                     k prev' (rev u ++ acc) s' = Some m).
    { intros E. destruct min; [| discriminate].
      exists [], prev, (String c s). repeat split; [constructor | lia | exact E]. }
    destruct (p c) eqn:Pc; [| exact (Stop H)].
    destruct (Js.rep p (Nat.pred min) (Some c) (c :: acc) s k) as [m' |] eqn:E;
      [| exact (Stop H)].
    injection H as ->.
    destruct (IH _ _ _ _ _ E) as (u & prev' & s' & Hu & Hmin & Hk).
    exists (c :: u), prev', s'. split; [now constructor |]. split; [simpl; lia |].
    simpl. now rewrite <- app_assoc.
Qed.

Lemma run_sound (r : Js.regex) :
  forall (prev : option ascii) (acc : list ascii) (s : string) (k : Js.cont)
         (m : list ascii),
    Js.run r prev acc s k = Some m ->
    exists u prev' s', lang r u /\ k prev' (rev u ++ acc) s' = Some m.
Proof.
  induction r as [c0 | p | | r1 IH1 r2 IH2 | r1 IH1 | p min];
    intros prev acc s k m H; simpl in H.
  - destruct s as [| c s]; [discriminate |].
    destruct (Ascii.eqb_spec c c0) as [-> | _]; [| discriminate].
    exists [c0], (Some c0), s. split; [reflexivity | exact H].
  - destruct s as [| c s]; [discriminate |].
    destruct (p c) eqn:Pc; [| discriminate].
    exists [c], (Some c), s. split; [now exists c | exact H].
  - destruct (Js.atBoundary prev s); [| discriminate].
    exists [], prev, s. split; [reflexivity | exact H].
  - destruct (IH1 _ _ _ _ _ H) as (u1 & p1 & s1 & L1 & H1).
    destruct (IH2 _ _ _ _ _ H1) as (u2 & p2 & s2 & L2 & H2).
    exists (u1 ++ u2), p2, s2. split; [now exists u1, u2 |].
    now rewrite rev_app_distr, <- app_assoc.
  - destruct (Js.run r1 prev acc s k) as [m' |] eqn:E.
    + injection H as ->.
      destruct (IH1 _ _ _ _ _ E) as (u & p1 & s1 & L & Hk).
      exists u, p1, s1. split; [now right | exact Hk].
    + exists [], prev, s. split; [now left | exact H].
  - destruct (rep_sound _ _ _ _ _ _ _ H) as (u & p1 & s1 & Hu & Hmin & Hk).
    exists u, p1, s1. split; [now split | exact Hk].
Qed.

Lemma matchAt_sound (r : Js.regex) (prev : option ascii) (s x : string) :
  Js.matchAt r prev s = Some x -> lang r (list_ascii_of_string x).
Proof.
  unfold Js.matchAt.
  destruct (Js.run r prev [] s _) as [acc |] eqn:E; [| discriminate].
  intros [= <-].
  destruct (run_sound _ _ _ _ _ _ E) as (u & p1 & s1 & L & Hk).
  injection Hk as <-.
  now rewrite app_nil_r, rev_involutive, list_ascii_of_string_of_list_ascii.
Qed.

Lemma scan_sound (r : Js.regex) (s : string) :
  forall (prev : option ascii) (skip : nat),
    Forall (fun x => lang r (list_ascii_of_string x)) (Js.scan r prev s skip).
Proof.
  induction s as [| c s IH]; intros prev skip; simpl.
  - destruct skip; [| constructor].
    destruct (Js.matchAt r prev "") as [x |] eqn:E; [| constructor].
    constructor; [exact (matchAt_sound _ _ _ _ E) | constructor].
  - destruct skip.
    + destruct (Js.matchAt r prev (String c s)) as [x |] eqn:E; [| apply IH].
      constructor; [exact (matchAt_sound _ _ _ _ E) | apply IH].
    + apply IH.
Qed.

Lemma matchAll_sound (r : Js.regex) (s : string) :
  Forall (fun x => lang r (list_ascii_of_string x)) (Js.matchAll r s).
Proof. apply scan_sound. Qed.

Lemma of_list_app (a b : list ascii) :
  string_of_list_ascii (a ++ b) = string_of_list_ascii a +:+ string_of_list_ascii b.
Proof.
  induction a as [| c a IH]; [reflexivity |].
  simpl. rewrite IH. reflexivity.
Qed.

Lemma of_list_length (u : list ascii) :
  String.length (string_of_list_ascii u) = length u.
Proof.
  induction u as [| c u IH]; [reflexivity |]. simpl. now rewrite IH.
Qed.

Lemma of_list_allChars (p : ascii -> bool) (u : list ascii) :
  Forall (fun c => p c = true) u -> allChars p (string_of_list_ascii u) = true.
Proof.
  induction 1 as [| c u Hc _ IH]; [reflexivity |]. simpl. now rewrite Hc, IH.
Qed.

Lemma of_list_nonempty (u : list ascii) :
  (1 <= length u)%nat -> string_of_list_ascii u <> "".
Proof. destruct u; simpl; [lia | discriminate]. Qed.

Lemma of_list_digits (u : list ascii) :
  Forall (fun c => Js.isDigit c = true) u -> (1 <= length u)%nat ->
  digits (string_of_list_ascii u).
Proof.
  intros Hu Hl. split; [now apply of_list_nonempty | now apply of_list_allChars].
Qed.

Lemma numbersRe_literal (x : string) :
  lang Semantic.numbersRe (list_ascii_of_string x) -> numericLiteral x.
Proof.
  rewrite <- (string_of_list_ascii_of_string x) at 2.
  intros (u1 & u2 & -> & -> & d1 & u3 & -> & [Hd1 Hl1] & o & u4 & -> & Ho & ->).
  simpl app. rewrite app_nil_r.
  destruct Ho as [-> | (p & d2 & -> & -> & [Hd2 Hl2])].
  - left. rewrite app_nil_r. now apply of_list_digits.
  - right. exists (string_of_list_ascii d1), (string_of_list_ascii d2).
    split; [now apply of_list_digits |]. split; [now apply of_list_digits |].
    rewrite !of_list_app. reflexivity.
Qed.

Lemma properNounsRe_capitalized (x : string) :
  lang Semantic.properNounsRe (list_ascii_of_string x) -> capitalized x.
Proof.
  rewrite <- (string_of_list_ascii_of_string x) at 2.
  intros (u1 & u2 & -> & -> & h & u3 & -> & (c & -> & Hc) & t & u4 & -> & [Ht Hl] & ->).
  simpl app. rewrite app_nil_r. simpl.
  exists c, (string_of_list_ascii t).
  split; [reflexivity |]. split; [exact Hc |].
  split; [now apply of_list_nonempty | now apply of_list_allChars].
Qed.

Lemma technicalRe_acronym (x : string) :
  lang Semantic.technicalRe (list_ascii_of_string x) -> acronym x.
Proof.
  rewrite <- (string_of_list_ascii_of_string x) at 2.
  intros (u1 & u2 & -> & -> & t & u4 & -> & [Ht Hl] & ->).
  simpl app. rewrite app_nil_r.
  split; [now rewrite of_list_length | now apply of_list_allChars].
Qed.

Lemma wordsRe_lowerWord (x : string) :
  lang Compression.wordsRe (list_ascii_of_string x) -> lowerWord x.
Proof.
  rewrite <- (string_of_list_ascii_of_string x) at 2.
  intros (u1 & u2 & -> & -> & t & u4 & -> & [Ht Hl] & ->).
  simpl app. rewrite app_nil_r.
  split; [now apply of_list_nonempty | now apply of_list_allChars].
Qed.

(** ** The importance extractors *)

Lemma existsb_eqb_In (x : string) (l : list string) :
  existsb (String.eqb x) l = true <-> In x l.
Proof.
  rewrite existsb_exists. split.
  - intros (y & Hy & E). apply String.eqb_eq in E. now subst.
  - intros H. exists x. split; [exact H | apply String.eqb_refl].
Qed.

Lemma unique_spec (l : list string) :
  forall seen,
    List.NoDup (Js.unique l seen) /\
    (forall x, In x (Js.unique l seen) -> In x l /\ ~ In x seen).
Proof.
  induction l as [| y l IH]; intros seen; simpl.
  - split; [constructor | intros x []].
  - destruct (existsb (String.eqb y) seen) eqn:E.
    + destruct (IH seen) as [N S]. split; [exact N |].
      intros x Hx. destruct (S x Hx). split; [now right | assumption].
    + destruct (IH (y :: seen)) as [N S]. split.
      * constructor; [| exact N]. intros Hy.
        destruct (S y Hy) as [_ Hn]. apply Hn. now left.
      * intros x [<- | Hx].
        -- split; [now left |]. intros Hin.
           apply existsb_eqb_In in Hin. congruence.
        -- destruct (S x Hx) as [Hl Hn]. split; [now right |].
           intros Hin. apply Hn. now right.
Qed.

Lemma NoDup_firstn {A : Type} (n : nat) (l : list A) :
  List.NoDup l -> List.NoDup (firstn n l).
Proof.
  intros H. rewrite <- (firstn_skipn n l) in H.
  exact (NoDup_app_remove_r _ _ H).
Qed.

Lemma In_firstn {A : Type} (n : nat) (l : list A) (x : A) :
  In x (firstn n l) -> In x l.
Proof.
  intros H. rewrite <- (firstn_skipn n l). apply in_or_app. now left.
Qed.

Lemma Forall_firstn {A : Type} (P : A -> Prop) (n : nat) (l : list A) :
  Forall P l -> Forall P (firstn n l).
Proof. apply Forall_take. Qed.

Lemma Forall_lang (r : Js.regex) (P : string -> Prop) (s : string) :
  (forall x, lang r (list_ascii_of_string x) -> P x) ->
  Forall P (Js.matchAll r s).
Proof.
  intros H. eapply Forall_impl; [apply matchAll_sound | exact H].
Qed.

(** ** The regular expressions against the direct descriptions *)

Lemma digit_word (c : ascii) : Js.isDigit c = true -> Js.isWord c = true.
Proof. unfold Js.isWord. intros ->. reflexivity. Qed.

Lemma upper_word (c : ascii) : Js.isUpper c = true -> Js.isWord c = true.
Proof. unfold Js.isWord. intros ->. now rewrite orb_true_r. Qed.

Lemma lower_word (c : ascii) : Js.isLower c = true -> Js.isWord c = true.
Proof. unfold Js.isWord. intros ->. now rewrite !orb_true_r. Qed.

Lemma lower_digit_word (c : ascii) :
  Js.isLower c || Js.isDigit c = true -> Js.isWord c = true.
Proof.
  intros H. apply orb_prop in H as [H | H]; [now apply lower_word | now apply digit_word].
Qed.

Lemma lastOr_cons (prev : option ascii) (c : ascii) (t : string) :
  lastOr prev (String c t) = lastOr (Some c) t.
Proof.
  unfold lastOr. simpl.
  destruct (rev (list_ascii_of_string t)) as [| d l] eqn:E; reflexivity.
Qed.

(** A greedy repetition in front of a continuation that fails between two
    word characters takes the longest run or fails. *)
Lemma rep_maximal (p : ascii -> bool) (k : Js.cont) :
  (forall c, p c = true -> Js.isWord c = true) ->
  (forall prev acc c s,
      Js.isWordOpt prev = true -> p c = true -> k prev acc (String c s) = None) ->
  forall (s : string) (min : nat) (prev : option ascii) (acc : list ascii),
    Js.isWordOpt prev = true \/ (1 <= min)%nat ->
    Js.rep p min prev acc s k
    = if (min <=? String.length (takeWhile p s))%nat
      then k (lastOr prev (takeWhile p s))
             (rev (list_ascii_of_string (takeWhile p s)) ++ acc)
             (dropWhile p s)
      else None.
Proof.
  intros Hp Hk. induction s as [| c s IH]; intros min prev acc Hmin.
  - simpl. destruct min; reflexivity.
  - cbn [Js.rep takeWhile dropWhile]. destruct (p c) eqn:Pc.
    + rewrite IH by (left; simpl; now apply Hp).
      cbn [String.length list_ascii_of_string rev]. rewrite lastOr_cons.
      rewrite <- app_assoc. cbn [app].
      assert (E : (Nat.pred min <=? String.length (takeWhile p s))%nat
                  = (min <=? S (String.length (takeWhile p s)))%nat)
        by (destruct min; reflexivity).
      rewrite E.
      destruct (min <=? S (String.length (takeWhile p s)))%nat eqn:L.
      * destruct (k _ _ _) eqn:K; [reflexivity |].
        destruct min; [| reflexivity].
        apply Hk; [| exact Pc]. destruct Hmin as [H | H]; [exact H | lia].
      * destruct min; [discriminate L | reflexivity].
    + simpl. destruct min; reflexivity.
Qed.

(** Where a run of [p] ends a word, it is the word. *)
Lemma run_ends_word (p : ascii -> bool) :
  (forall c, p c = true -> Js.isWord c = true) ->
  forall s : string,
    wordEnds (dropWhile p s) = allChars p (takeWhile Js.isWord s) /\
    (wordEnds (dropWhile p s) = true -> takeWhile p s = takeWhile Js.isWord s).
Proof.
  intros Hp. induction s as [| c s [IH1 IH2]]; [split; reflexivity |].
  cbn [dropWhile takeWhile]. destruct (p c) eqn:Pc.
  - rewrite (Hp c Pc). cbn [allChars]. rewrite Pc. cbn [andb].
    split; [exact IH1 |]. intros H. now rewrite (IH2 H).
  - unfold wordEnds. cbn [Js.head Js.isWordOpt].
    destruct (Js.isWord c) eqn:Wc.
    + cbn [allChars]. rewrite Pc. split; [reflexivity | discriminate].
    + split; reflexivity.
Qed.

Lemma boundary_before (prev : option ascii) (c : ascii) (s : string) :
  Js.isWord c = true -> Js.atBoundary prev (String c s) = wordStarts prev.
Proof.
  intros H. unfold Js.atBoundary, wordStarts. cbn [Js.head Js.isWordOpt].
  rewrite H. now destruct (Js.isWordOpt prev).
Qed.

Lemma boundary_after (prev : option ascii) (s : string) :
  Js.isWordOpt prev = true -> Js.atBoundary prev s = wordEnds s.
Proof. intros H. unfold Js.atBoundary, wordEnds. now rewrite H. Qed.

Lemma lastOr_word (p : ascii -> bool) (prev : option ascii) (s : string) :
  (forall c, p c = true -> Js.isWord c = true) ->
  Js.isWordOpt prev = true \/ takeWhile p s <> "" ->
  Js.isWordOpt (lastOr prev (takeWhile p s)) = true.
Proof.
  intros Hp. revert prev. induction s as [| c s IH]; intros prev H.
  - destruct H as [H | H]; [exact H | now destruct H].
  - cbn [takeWhile] in *. destruct (p c) eqn:Pc.
    + rewrite lastOr_cons. apply IH. left. simpl. now apply Hp.
    + destruct H as [H | H]; [exact H | now destruct H].
Qed.

Lemma of_list_rev_rev (t : string) :
  string_of_list_ascii (rev (rev (list_ascii_of_string t) ++ [])) = t.
Proof.
  now rewrite app_nil_r, rev_involutive, string_of_list_ascii_of_string.
Qed.

Lemma endOfWord_fails (p : ascii -> bool) :
  (forall c, p c = true -> Js.isWord c = true) ->
  forall prev acc c s,
    Js.isWordOpt prev = true -> p c = true -> endOfWord prev acc (String c s) = None.
Proof.
  intros Hp prev acc c s Hprev Pc. unfold endOfWord, Js.atBoundary.
  cbn [Js.head Js.isWordOpt]. now rewrite Hprev, (Hp c Pc).
Qed.

Lemma isEmpty_length (s : string) :
  Js.isEmpty s = (String.length s =? 0)%nat.
Proof. now destruct s. Qed.

Lemma matchAt_wordsRe (prev : option ascii) (s : string) :
  Js.matchAt Compression.wordsRe prev s = wordAt lowerWordb prev s.
Proof.
  set (p := fun c => Js.isLower c || Js.isDigit c).
  assert (Hp : forall c, p c = true -> Js.isWord c = true) by exact lower_digit_word.
  unfold Js.matchAt, Compression.wordsRe. cbn [Js.run]. fold p.
  change (fun (prev' : option ascii) (acc' : list ascii) (s' : string) =>
            if Js.atBoundary prev' s' then Some acc' else None) with endOfWord.
  unfold wordAt, lowerWordb. fold p.
  destruct (run_ends_word p Hp s) as [E1 E2].
  destruct s as [| c s'].
  { unfold Js.atBoundary. simpl. rewrite !andb_false_r. now destruct (xorb _ _). }
  destruct (p c) eqn:Pc.
  - rewrite (boundary_before _ _ _ (Hp c Pc)).
    destruct (wordStarts prev); [| reflexivity].
    rewrite (rep_maximal p endOfWord Hp (endOfWord_fails p Hp)) by (right; lia).
    cbn [takeWhile dropWhile] in *. rewrite Pc in *. rewrite (Hp c Pc) in *.
    cbn [String.length Nat.leb Js.isEmpty negb andb].
    unfold endOfWord. rewrite boundary_after.
    2:{ rewrite lastOr_cons. apply lastOr_word; [exact Hp |]. left. simpl. now apply Hp. }
    rewrite E1. destruct (allChars p _) eqn:A; [| reflexivity].
    rewrite <- E2 by (now rewrite E1).
    now rewrite of_list_rev_rev.
  - cbn [Js.run takeWhile]. 
    assert (R : Js.rep p 1 prev [] (String c s') endOfWord = None).
    { cbn [Js.rep]. now rewrite Pc. }
    destruct (Js.atBoundary prev (String c s')); rewrite ?R;
      (destruct (Js.isWord c) eqn:Wc;
       [cbn [allChars]; rewrite Pc; now rewrite !andb_false_r
       | now rewrite andb_false_r]).
Qed.

Lemma of_list_rev_app (t : string) (acc : list ascii) :
  string_of_list_ascii (rev (rev (list_ascii_of_string t) ++ acc))
  = string_of_list_ascii (rev acc) +:+ t.
Proof.
  rewrite rev_app_distr, rev_involutive, of_list_app.
  now rewrite string_of_list_ascii_of_string.
Qed.

Lemma matchAt_properNounsRe (prev : option ascii) (s : string) :
  Js.matchAt Semantic.properNounsRe prev s = wordAt capitalizedb prev s.
Proof.
  assert (Hp : forall c, Js.isLower c = true -> Js.isWord c = true) by exact lower_word.
  unfold Js.matchAt, Semantic.properNounsRe. cbn [Js.run].
  change (fun (prev' : option ascii) (acc' : list ascii) (s' : string) =>
            if Js.atBoundary prev' s' then Some acc' else None) with endOfWord.
  unfold wordAt.
  destruct s as [| c s'].
  { simpl. rewrite !andb_false_r. now destruct (Js.atBoundary _ _). }
  cbn [takeWhile]. destruct (Js.isUpper c) eqn:Uc.
  - rewrite (boundary_before _ _ _ (upper_word c Uc)), (upper_word c Uc).
    cbn [Js.isEmpty negb capitalizedb]. rewrite Uc, andb_true_r.
    destruct (wordStarts prev); [| reflexivity]. cbn [andb].
    rewrite (rep_maximal Js.isLower endOfWord Hp (endOfWord_fails _ Hp)) by (right; lia).
    destruct (run_ends_word Js.isLower Hp s') as [E1 E2].
    unfold endOfWord. rewrite boundary_after
      by (apply lastOr_word; [exact Hp | left; simpl; now apply upper_word]).
    destruct (wordEnds (dropWhile Js.isLower s')) eqn:We.
    + rewrite (E2 eq_refl), <- E1. rewrite andb_true_r.
      rewrite isEmpty_length.
      destruct (takeWhile Js.isWord s') as [| d w]; [reflexivity |].
      cbn [String.length Nat.leb Nat.eqb negb].
      rewrite of_list_rev_app. reflexivity.
    + rewrite <- E1, andb_false_r. now destruct (1 <=? _)%nat.
  - assert (R : (if Js.atBoundary prev (String c s') then None else None)
                = @None (list ascii)) by now destruct (Js.atBoundary _ _).
    rewrite R.
    destruct (Js.isWord c); [| now rewrite andb_false_r].
    cbn [capitalizedb]. rewrite Uc. now rewrite !andb_false_r.
Qed.

Lemma matchAt_technicalRe (prev : option ascii) (s : string) :
  Js.matchAt Semantic.technicalRe prev s = wordAt acronymb prev s.
Proof.
  assert (Hp : forall c, Js.isUpper c = true -> Js.isWord c = true) by exact upper_word.
  unfold Js.matchAt, Semantic.technicalRe. cbn [Js.run].
  change (fun (prev' : option ascii) (acc' : list ascii) (s' : string) =>
            if Js.atBoundary prev' s' then Some acc' else None) with endOfWord.
  unfold wordAt, acronymb.
  destruct (run_ends_word Js.isUpper Hp s) as [E1 E2].
  destruct s as [| c s'].
  { simpl. rewrite !andb_false_r. now destruct (Js.atBoundary _ _). }
  destruct (Js.isUpper c) eqn:Uc.
  - rewrite (boundary_before _ _ _ (Hp c Uc)).
    destruct (wordStarts prev); [| reflexivity].
    rewrite (rep_maximal Js.isUpper endOfWord Hp (endOfWord_fails _ Hp)) by (right; lia).
    unfold endOfWord. rewrite boundary_after.
    2:{ apply lastOr_word; [exact Hp |]. right. cbn [takeWhile]. now rewrite Uc. }
    rewrite E1.
    destruct (allChars Js.isUpper (takeWhile Js.isWord (String c s'))) eqn:A.
    + rewrite E2 by (now rewrite E1).
      cbn [takeWhile]. rewrite (Hp c Uc). cbn [Js.isEmpty negb andb].
      rewrite andb_true_r.
      destruct (2 <=? _)%nat; [| reflexivity].
      rewrite app_nil_r, rev_involutive, string_of_list_ascii_of_string. reflexivity.
    + rewrite !andb_false_r. now destruct (2 <=? _)%nat.
  - assert (R : Js.rep Js.isUpper 2 prev [] (String c s') endOfWord = None)
      by (cbn [Js.rep]; now rewrite Uc).
    rewrite R. cbn [takeWhile].
    assert (N : match (if Js.atBoundary prev (String c s') then None else None) with
                | Some acc => Some (string_of_list_ascii (rev acc))
                | None => None
                end = @None string) by now destruct (Js.atBoundary _ _).
    rewrite N.
    destruct (Js.isWord c); [| now rewrite andb_false_r].
    cbn [allChars]. rewrite Uc. now rewrite !andb_false_r.
Qed.

Lemma digit_not_point (c : ascii) : Js.isDigit c = true -> Ascii.eqb c "." = false.
Proof.
  intros H. destruct (Ascii.eqb_spec c "."); [subst; discriminate H | reflexivity].
Qed.

Lemma run_numbersRe (prev : option ascii) (s : string) :
  Js.run Semantic.numbersRe prev [] s (fun _ acc _ => Some acc)
  = if Js.atBoundary prev s then Js.rep Js.isDigit 1 prev [] s afterInteger else None.
Proof. reflexivity. Qed.

Lemma matchAt_numbersRe (prev : option ascii) (s : string) :
  Js.matchAt Semantic.numbersRe prev s = numberAt prev s.
Proof.
  assert (Hp : forall c, Js.isDigit c = true -> Js.isWord c = true) by exact digit_word.
  unfold Js.matchAt. rewrite run_numbersRe.
  assert (Hk : forall prev acc c s,
             Js.isWordOpt prev = true -> Js.isDigit c = true ->
             afterInteger prev acc (String c s) = None).
  { intros prev0 acc c s0 Hprev Dc. unfold afterInteger.
    rewrite (digit_not_point c Dc). now apply (endOfWord_fails Js.isDigit Hp). }
  unfold numberAt. cbv zeta.
  destruct s as [| c s'].
  { simpl. rewrite andb_false_r. now destruct (Js.atBoundary _ _). }
  destruct (Js.isDigit c) eqn:Dc.
  2:{ assert (R : Js.rep Js.isDigit 1 prev [] (String c s') afterInteger = None)
        by (cbn [Js.rep]; now rewrite Dc).
      rewrite R. cbn [takeWhile]. rewrite Dc. cbn [Js.isEmpty negb].
      rewrite andb_false_r. now destruct (Js.atBoundary _ _). }
  rewrite (boundary_before _ _ _ (Hp c Dc)).
  destruct (wordStarts prev); [| reflexivity].
  rewrite (rep_maximal Js.isDigit afterInteger Hp Hk) by (right; lia).
  set (integer := takeWhile Js.isDigit (String c s')).
  set (rest := dropWhile Js.isDigit (String c s')).
  assert (Hint : integer <> "") by (unfold integer; cbn [takeWhile]; now rewrite Dc).
  assert (Hlen : (1 <=? String.length integer)%nat = true)
    by (destruct integer; [congruence | reflexivity]).
  assert (Hne : negb (Js.isEmpty integer) = true)
    by (destruct integer; [congruence | reflexivity]).
  rewrite Hlen, Hne. cbn [andb].
  assert (Hlast : Js.isWordOpt (lastOr prev integer) = true)
    by (apply lastOr_word; [exact Hp | now right]).
  assert (Alone : endOfWord (lastOr prev integer)
                    (rev (list_ascii_of_string integer) ++ []) rest
                  = if wordEnds rest then Some (rev (list_ascii_of_string integer) ++ [])
                    else None)
    by (unfold endOfWord; now rewrite boundary_after).
  unfold afterInteger. rewrite Alone.
  destruct rest as [| d after].
  { destruct (wordEnds ""); [| reflexivity].
    rewrite app_nil_r, rev_involutive, string_of_list_ascii_of_string. reflexivity. }
  destruct (Ascii.eqb d ".") eqn:Ed.
  - rewrite (rep_maximal Js.isDigit endOfWord Hp (endOfWord_fails _ Hp)) by (right; lia).
    rewrite isEmpty_length.
    destruct (takeWhile Js.isDigit after) as [| f fraction] eqn:F.
    + cbn [String.length Nat.leb Nat.eqb negb andb].
      destruct (wordEnds (String d after)); [| reflexivity].
      rewrite app_nil_r, rev_involutive, string_of_list_ascii_of_string. reflexivity.
    + cbn [String.length Nat.leb Nat.eqb negb andb].
      unfold endOfWord. rewrite boundary_after.
      2:{ rewrite <- F. apply lastOr_word; [exact Hp |]. right. rewrite F. discriminate. }
      destruct (wordEnds (dropWhile Js.isDigit after)).
      * rewrite of_list_rev_app. cbn [rev]. rewrite app_nil_r.
        rewrite rev_involutive. apply Ascii.eqb_eq in Ed. subst d.
        rewrite of_list_app, string_of_list_ascii_of_string.
        cbn [string_of_list_ascii]. now rewrite <- append_assoc.
      * destruct (wordEnds (String d after)); [| reflexivity].
        rewrite app_nil_r, rev_involutive, string_of_list_ascii_of_string. reflexivity.
  - destruct (wordEnds (String d after)); [| reflexivity].
    rewrite app_nil_r, rev_involutive, string_of_list_ascii_of_string. reflexivity.
Qed.

(** The search of the engine is the search for occurrences. *)
Lemma scan_occurrences (r : Js.regex) (s : string) :
  forall prev skip,
    Js.scan r prev s skip = occurrencesFrom (Js.matchAt r) prev s skip.
Proof.
  induction s as [| c rest IH]; intros prev skip.
  - cbn [Js.scan occurrencesFrom]. now destruct skip; [destruct (Js.matchAt r prev "") |].
  - cbn [Js.scan occurrencesFrom].
    destruct skip as [| n]; [destruct (Js.matchAt r prev (String c rest)) |];
      now rewrite IH.
Qed.

Lemma occurrencesFrom_ext (p : ascii -> bool)
    (f g : option ascii -> string -> option string) :
  (forall prev s, allChars p s = true -> f prev s = g prev s) ->
  forall s prev skip,
    allChars p s = true ->
    occurrencesFrom f prev s skip = occurrencesFrom g prev s skip.
Proof.
  intros E s. induction s as [| c rest IH]; intros prev skip Hs.
  - cbn [occurrencesFrom]. now rewrite (E prev "" Hs).
  - cbn [occurrencesFrom]. rewrite (E prev (String c rest) Hs).
    cbn [allChars] in Hs. apply andb_prop in Hs as [_ Hs].
    destruct skip; [destruct (g prev (String c rest)) |]; now rewrite IH.
Qed.

Lemma matchAll_occurrences (r : Js.regex)
    (find : option ascii -> string -> option string) (s : string) :
  (forall prev s, Js.matchAt r prev s = find prev s) ->
  Js.matchAll r s = occurrencesFrom find None s 0.
Proof.
  intros E. unfold Js.matchAll. rewrite scan_occurrences.
  apply (occurrencesFrom_ext (fun _ => true)).
  - intros prev s0 _. apply E.
  - clear. induction s as [| c s IH]; [reflexivity | exact IH].
Qed.

(** The word being read is completed by the word characters that follow. *)
Lemma wordsFrom_head (s : string) :
  forall current,
    current <> "" ->
    wordsFrom current s
    = (current +:+ takeWhile Js.isWord s) :: tl (wordsFrom current s).
Proof.
  induction s as [| c rest IH]; intros current Hc.
  - cbn [wordsFrom takeWhile]. rewrite append_empty_r.
    destruct current; [congruence | reflexivity].
  - cbn [wordsFrom takeWhile]. destruct (Js.isWord c).
    + rewrite IH at 1 by (destruct current; discriminate).
      cbn [tl]. now rewrite append_assoc.
    + rewrite append_empty_r. destruct current; [congruence | reflexivity].
Qed.

Lemma wordAt_empty (P : string -> bool) (prev : option ascii) :
  wordAt P prev "" = None.
Proof.
  unfold wordAt. cbn [takeWhile Js.isEmpty negb]. now rewrite andb_false_r.
Qed.

(** The occurrences of the words that satisfy [P] are the words of the
    text that satisfy [P]. *)
Lemma occurrences_words (P : string -> bool) (s : string) :
  (forall prev,
      Js.isWordOpt prev = false ->
      occurrencesFrom (wordAt P) prev s 0 = List.filter P (wordsFrom "" s)) /\
  (forall prev current skip,
      Js.isWordOpt prev = true -> current <> "" ->
      (skip <= String.length (takeWhile Js.isWord s))%nat ->
      occurrencesFrom (wordAt P) prev s skip
      = List.filter P (tl (wordsFrom current s))).
Proof.
  induction s as [| c rest [IHa IHb]]; split.
  - intros prev _. cbn [occurrencesFrom]. now rewrite wordAt_empty.
  - intros prev current skip Hp Hc Hs. cbn [takeWhile String.length] in Hs.
    assert (skip = 0)%nat as -> by lia.
    cbn [occurrencesFrom wordsFrom]. rewrite wordAt_empty.
    destruct current; [congruence | reflexivity].
  - intros prev Hp. cbn [occurrencesFrom wordsFrom].
    unfold wordAt at 1, wordStarts. rewrite Hp. cbn [takeWhile negb andb].
    destruct (Js.isWord c) eqn:Wc.
    + cbn [Js.isEmpty negb].
      change ("" +:+ String c "") with (String c "").
      rewrite wordsFrom_head by discriminate.
      change (String c "" +:+ takeWhile Js.isWord rest)
        with (String c (takeWhile Js.isWord rest)).
      cbn [List.filter andb].
      destruct (P (String c (takeWhile Js.isWord rest))).
      * f_equal. apply IHb; [exact Wc | discriminate |].
        cbn [String.length Nat.pred]. lia.
      * apply IHb; [exact Wc | discriminate | lia].
    + cbn [Js.isEmpty negb app]. apply IHa. cbn [Js.isWordOpt]. exact Wc.
  - intros prev current skip Hp Hc Hs. cbn [occurrencesFrom wordsFrom].
    assert (H : match skip with
                | O => wordAt P prev (String c rest)
                | S _ => None
                end = None).
    { destruct skip; [| reflexivity]. unfold wordAt, wordStarts. now rewrite Hp. }
    rewrite H. cbn [takeWhile] in Hs.
    destruct (Js.isWord c) eqn:Wc.
    + apply IHb; [exact Wc | destruct current; discriminate |].
      cbn [String.length] in Hs. lia.
    + cbn [String.length] in Hs. assert (skip = 0)%nat as -> by lia.
      destruct current; [congruence |]. cbn [Js.isEmpty app tl Nat.pred].
      apply IHa. exact Wc.
Qed.

Lemma matchAll_words (r : Js.regex) (P : string -> bool) (s : string) :
  (forall prev s, Js.matchAt r prev s = wordAt P prev s) ->
  Js.matchAll r s = List.filter P (words s).
Proof.
  intros E. rewrite (matchAll_occurrences r (wordAt P) s E).
  now apply (proj1 (occurrences_words P s)).
Qed.

(** In a text without a point the numeric literals are the words made of
    digits. *)
Lemma head_dropWhile (p q : ascii -> bool) (s : string) :
  allChars q s = true ->
  match dropWhile p s with
  | String c _ => q c = true
  | EmptyString => True
  end.
Proof.
  induction s as [| c s IH]; intros H; [exact I |].
  cbn [allChars] in H. apply andb_prop in H as [Hc Hs].
  cbn [dropWhile]. destruct (p c); [now apply IH | exact Hc].
Qed.

Lemma numberAt_without_point (prev : option ascii) (s : string) :
  allChars (fun c => negb (Ascii.eqb c ".")) s = true ->
  numberAt prev s = wordAt (allChars Js.isDigit) prev s.
Proof.
  intros Hs. unfold numberAt, wordAt. cbv zeta.
  destruct (run_ends_word Js.isDigit digit_word s) as [E1 E2].
  pose proof (head_dropWhile Js.isDigit _ s Hs) as Hd.
  assert (R : match dropWhile Js.isDigit s with
              | String c after =>
                  if Ascii.eqb c "." then
                    if negb (Js.isEmpty (takeWhile Js.isDigit after))
                       && wordEnds (dropWhile Js.isDigit after)
                    then Some (takeWhile Js.isDigit s +:+ "."
                               +:+ takeWhile Js.isDigit after)
                    else if wordEnds (dropWhile Js.isDigit s)
                         then Some (takeWhile Js.isDigit s) else None
                  else if wordEnds (dropWhile Js.isDigit s)
                       then Some (takeWhile Js.isDigit s) else None
              | EmptyString => if wordEnds (dropWhile Js.isDigit s)
                               then Some (takeWhile Js.isDigit s) else None
              end
              = if wordEnds (dropWhile Js.isDigit s)
                then Some (takeWhile Js.isDigit s) else None).
  { destruct (dropWhile Js.isDigit s) as [| c after]; [reflexivity |].
    apply negb_true_iff in Hd. now rewrite Hd. }
  rewrite R, E1.
  destruct (allChars Js.isDigit (takeWhile Js.isWord s)) eqn:A.
  - rewrite (E2 E1), andb_true_r. reflexivity.
  - rewrite andb_false_r. now destruct (_ && _).
Qed.

Lemma numericLiterals_without_point (text : string) :
  allChars (fun c => negb (Ascii.eqb c ".")) text = true ->
  numericLiterals text = List.filter (allChars Js.isDigit) (words text).
Proof.
  intros H. unfold numericLiterals.
  rewrite (occurrencesFrom_ext _ numberAt (wordAt (allChars Js.isDigit))
             (fun prev s Hs => numberAt_without_point prev s Hs) text None 0%nat H).
  now apply (proj1 (occurrences_words _ text)).
Qed.

Lemma isEmpty_false (s : string) : negb (Js.isEmpty s) = true <-> s <> "".
Proof. destruct s; simpl; split; congruence. Qed.

Lemma capitalizedb_spec (word : string) :
  capitalizedb word = true <-> capitalized word.
Proof.
  unfold capitalized. split.
  - destruct word as [| c rest]; [discriminate |]. cbn [capitalizedb]. intros H.
    apply andb_prop in H as [H Ha]. apply andb_prop in H as [Hu He].
    exists c, rest. now rewrite <- isEmpty_false.
  - intros (c & rest & -> & Hu & He & Ha). cbn [capitalizedb].
    apply isEmpty_false in He. now rewrite Hu, He, Ha.
Qed.

Lemma acronymb_spec (word : string) : acronymb word = true <-> acronym word.
Proof.
  unfold acronymb, acronym. rewrite andb_true_iff, Nat.leb_le. reflexivity.
Qed.

Lemma lowerWordb_spec (word : string) : lowerWordb word = true <-> lowerWord word.
Proof.
  unfold lowerWordb, lowerWord. rewrite andb_true_iff, isEmpty_false. reflexivity.
Qed.

(** [[...new Set(l)]] keeps one copy of each element of [l], in the order
    of [l]. *)
Lemma unique_complete (l : list string) :
  forall seen x, In x l -> ~ In x seen -> In x (Js.unique l seen).
Proof.
  induction l as [| y l IH]; intros seen x Hin Hn; [destruct Hin |].
  cbn [Js.unique]. destruct (existsb (String.eqb y) seen) eqn:E.
  - apply existsb_eqb_In in E. destruct Hin as [<- | Hin]; [contradiction |].
    now apply IH.
  - destruct (String.eqb_spec y x) as [-> | Hne]; [now left |].
    right. destruct Hin as [-> | Hin]; [congruence |].
    apply IH; [exact Hin |]. intros [-> | H]; [congruence | contradiction].
Qed.

Lemma unique_ext (l : list string) :
  forall seen seen',
    (forall z, existsb (String.eqb z) seen = existsb (String.eqb z) seen') ->
    Js.unique l seen = Js.unique l seen'.
Proof.
  induction l as [| y l IH]; intros seen seen' H; [reflexivity |].
  cbn [Js.unique]. rewrite <- (H y).
  destruct (existsb (String.eqb y) seen); [now apply IH |].
  f_equal. apply IH. intros z. cbn [existsb]. now rewrite H.
Qed.

(** [[...new Set(l)]] keeps the first element and goes on without its
    later copies. *)
Lemma unique_first (x : string) (l : list string) :
  forall seen,
    Js.unique l (x :: seen)
    = Js.unique (List.filter (fun y => negb (String.eqb y x)) l) seen.
Proof.
  induction l as [| y l IH]; intros seen; [reflexivity |].
  cbn [Js.unique List.filter existsb].
  destruct (String.eqb y x) eqn:E; cbn [orb negb]; [apply IH |].
  cbn [Js.unique]. destruct (existsb (String.eqb y) seen); [apply IH |].
  f_equal. rewrite <- IH. apply unique_ext. intros z. cbn [existsb].
  now destruct (String.eqb z y), (String.eqb z x).
Qed.

Lemma unique_sublist (l : list string) :
  forall seen, sublist (Js.unique l seen) l.
Proof.
  induction l as [| y l IH]; intros seen; cbn [Js.unique]; [constructor |].
  destruct (existsb (String.eqb y) seen).
  - apply sublist_cons, IH.
  - apply sublist_skip, IH.
Qed.

Lemma filter_sublist {A : Type} (f : A -> bool) (l : list A) :
  sublist (List.filter f l) l.
Proof.
  induction l as [| x l IH]; cbn [List.filter]; [constructor |].
  destruct (f x); [now apply sublist_skip | now apply sublist_cons].
Qed.

(** ** The numeric literals and the words made of digits *)

Lemma take_drop (p : ascii -> bool) (s : string) :
  takeWhile p s +:+ dropWhile p s = s.
Proof.
  induction s as [| c s IH]; [reflexivity |].
  cbn [takeWhile dropWhile]. destruct (p c); [| reflexivity].
  now rewrite append_cons, IH.
Qed.

Lemma allChars_takeWhile (p : ascii -> bool) (s : string) :
  allChars p (takeWhile p s) = true.
Proof.
  induction s as [| c s IH]; [reflexivity |].
  cbn [takeWhile]. destruct (p c) eqn:Pc; [| reflexivity].
  cbn [allChars]. now rewrite Pc.
Qed.

Lemma allChars_impl (p q : ascii -> bool) (s : string) :
  (forall c, p c = true -> q c = true) ->
  allChars p s = true -> allChars q s = true.
Proof.
  intros H. induction s as [| c s IH]; [reflexivity |].
  cbn [allChars]. intros Hs. apply andb_prop in Hs as [Hc Hs].
  now rewrite (H c Hc), IH.
Qed.

Lemma ends_dropWhile (s : string) : wordEnds (dropWhile Js.isWord s) = true.
Proof.
  induction s as [| c s IH]; [reflexivity |].
  cbn [dropWhile]. destruct (Js.isWord c) eqn:Wc; [exact IH |].
  unfold wordEnds. cbn [Js.head Js.isWordOpt]. now rewrite Wc.
Qed.

Lemma dropWhile_ends (s : string) :
  wordEnds s = true -> dropWhile Js.isWord s = s.
Proof.
  destruct s as [| c s]; [reflexivity |].
  unfold wordEnds. cbn [Js.head Js.isWordOpt dropWhile].
  now destruct (Js.isWord c).
Qed.

Lemma wordsFrom_run (w : string) :
  allChars Js.isWord w = true ->
  forall current t, wordsFrom current (w +:+ t) = wordsFrom (current +:+ w) t.
Proof.
  induction w as [| c w IH]; intros Hw current t.
  - now rewrite append_empty_r.
  - cbn [allChars] in Hw. apply andb_prop in Hw as [Hc Hw].
    change (String c w +:+ t) with (String c (w +:+ t)).
    cbn [wordsFrom]. rewrite Hc, (IH Hw).
    now rewrite append_assoc.
Qed.

Lemma words_nonword (c : ascii) (r : string) :
  Js.isWord c = false -> words (String c r) = words r.
Proof. intros H. unfold words. cbn [wordsFrom]. now rewrite H. Qed.

Lemma wordsFrom_ends (current t : string) :
  current <> "" -> wordEnds t = true -> wordsFrom current t = current :: words t.
Proof.
  intros Hc Ht. destruct t as [| c r].
  - cbn. destruct current; [congruence | reflexivity].
  - unfold wordEnds in Ht. cbn [Js.head Js.isWordOpt] in Ht.
    apply negb_true_iff in Ht. rewrite (words_nonword _ _ Ht).
    cbn [wordsFrom]. rewrite Ht. destruct current; [congruence | reflexivity].
Qed.

(** A run of word characters in front of the end of a word is a word of
    the text. *)
Lemma words_run (w t : string) :
  allChars Js.isWord w = true -> w <> "" -> wordEnds t = true ->
  words (w +:+ t) = w :: words t.
Proof.
  intros Hw Hne Ht. unfold words at 1.
  rewrite (wordsFrom_run w Hw). now apply wordsFrom_ends.
Qed.

Lemma words_word (w : string) :
  allChars Js.isWord w = true -> w <> "" -> words w = [w].
Proof.
  intros Hw Hne. rewrite <- (append_empty_r w) at 1.
  now rewrite (words_run w "" Hw Hne).
Qed.

Lemma words_take_drop (s : string) :
  takeWhile Js.isWord s <> "" ->
  words s = takeWhile Js.isWord s :: words (dropWhile Js.isWord s).
Proof.
  intros H. rewrite <- (take_drop Js.isWord s) at 1.
  apply words_run; [apply allChars_takeWhile | exact H | apply ends_dropWhile].
Qed.

Lemma lastOr_app (prev : option ascii) (a b : string) :
  lastOr prev (a +:+ b) = lastOr (lastOr prev a) b.
Proof.
  revert prev. induction a as [| c a IH]; intros prev; [reflexivity |].
  change (String c a +:+ b) with (String c (a +:+ b)).
  now rewrite !lastOr_cons, IH.
Qed.

Lemma lastOr_run (prev : option ascii) (w : string) :
  allChars Js.isWord w = true -> w <> "" -> Js.isWordOpt (lastOr prev w) = true.
Proof.
  revert prev. induction w as [| c w IH]; intros prev Hw Hne; [congruence |].
  cbn [allChars] in Hw. apply andb_prop in Hw as [Hc Hw].
  rewrite lastOr_cons. destruct w as [| d w]; [exact Hc |].
  apply IH; [exact Hw | discriminate].
Qed.

Lemma occurrences_skip (find : option ascii -> string -> option string)
    (a s : string) :
  forall prev,
    occurrencesFrom find prev (a +:+ s) (String.length a)
    = occurrencesFrom find (lastOr prev a) s 0.
Proof.
  induction a as [| c a IH]; intros prev; [reflexivity |].
  change (String c a +:+ s) with (String c (a +:+ s)).
  cbn [occurrencesFrom String.length Nat.pred]. now rewrite IH, lastOr_cons.
Qed.

(** Where an occurrence is found, the reading resumes behind it. *)
Lemma occurrences_found (find : option ascii -> string -> option string)
    (prev : option ascii) (m tail : string) :
  m <> "" ->
  find prev (m +:+ tail) = Some m ->
  occurrencesFrom find prev (m +:+ tail) 0
  = m :: occurrencesFrom find (lastOr prev m) tail 0.
Proof.
  intros Hne Hfind. destruct m as [| c m]; [congruence |].
  change (String c m +:+ tail) with (String c (m +:+ tail)) in *.
  cbn [occurrencesFrom]. rewrite Hfind. cbn [String.length Nat.pred].
  now rewrite occurrences_skip, lastOr_cons.
Qed.

Lemma occurrences_not_found (find : option ascii -> string -> option string)
    (prev : option ascii) (c : ascii) (rest : string) :
  find prev (String c rest) = None ->
  occurrencesFrom find prev (String c rest) 0
  = occurrencesFrom find (Some c) rest 0.
Proof. intros H. cbn [occurrencesFrom]. now rewrite H. Qed.

(** What [numberAt] finds where a word may start. *)
Lemma numberAt_spec (prev : option ascii) (s : string) :
  Js.isWordOpt prev = false ->
  match numberAt prev s with
  | None =>
      allChars Js.isDigit (takeWhile Js.isWord s) = false \/ takeWhile Js.isWord s = ""
  | Some m =>
      exists integer tail,
        integer <> "" /\ allChars Js.isDigit integer = true /\ wordEnds tail = true /\
        ((m = integer /\ s = integer +:+ tail) \/
         (exists fraction,
             fraction <> "" /\ allChars Js.isDigit fraction = true /\
             m = integer +:+ "." +:+ fraction /\
             s = integer +:+ "." +:+ fraction +:+ tail))
  end.
Proof.
  intros Hprev. unfold numberAt, wordStarts. rewrite Hprev. cbn [negb andb]. cbv zeta.
  destruct (run_ends_word Js.isDigit digit_word s) as [E1 E2].
  pose proof (take_drop Js.isDigit s) as Hs.
  pose proof (allChars_takeWhile Js.isDigit s) as Hd.
  destruct (takeWhile Js.isDigit s) as [| i integer] eqn:Hint.
  { cbn [Js.isEmpty negb]. destruct s as [| c r]; [now right |].
    cbn [takeWhile] in *. destruct (Js.isDigit c) eqn:Dc; [discriminate |].
    destruct (Js.isWord c); [left | now right]. cbn [allChars]. now rewrite Dc. }
  cbn [Js.isEmpty negb].
  assert (Alone : match (if wordEnds (dropWhile Js.isDigit s)
                         then Some (String i integer) else None) with
                  | None =>
                      allChars Js.isDigit (takeWhile Js.isWord s) = false
                      \/ takeWhile Js.isWord s = ""
                  | Some m =>
                      exists integer0 tail,
                        integer0 <> "" /\ allChars Js.isDigit integer0 = true /\
                        wordEnds tail = true /\
                        ((m = integer0 /\ s = integer0 +:+ tail) \/
                         (exists fraction,
                             fraction <> "" /\ allChars Js.isDigit fraction = true /\
                             m = integer0 +:+ "." +:+ fraction /\
                             s = integer0 +:+ "." +:+ fraction +:+ tail))
                  end).
  { destruct (wordEnds (dropWhile Js.isDigit s)) eqn:We.
    - exists (String i integer), (dropWhile Js.isDigit s).
      split; [discriminate |]. split; [exact Hd |]. split; [exact We |].
      left. split; [reflexivity | now rewrite Hs].
    - left. now rewrite <- E1. }
  destruct (dropWhile Js.isDigit s) as [| d after] eqn:Hrest; [exact Alone |].
  destruct (Ascii.eqb d ".") eqn:Ed; [| exact Alone].
  destruct (negb (Js.isEmpty (takeWhile Js.isDigit after))
            && wordEnds (dropWhile Js.isDigit after)) eqn:Hf; [| exact Alone].
  apply andb_prop in Hf as [Hne We].
  apply Ascii.eqb_eq in Ed. subst d.
  exists (String i integer), (dropWhile Js.isDigit after).
  split; [discriminate |]. split; [exact Hd |]. split; [exact We |].
  right. exists (takeWhile Js.isDigit after).
  split; [now apply isEmpty_false |].
  split; [apply allChars_takeWhile |]. split; [reflexivity |].
  rewrite (take_drop Js.isDigit after). exact (eq_sym Hs).
Qed.

Lemma numberAt_inside (prev : option ascii) (s : string) :
  Js.isWordOpt prev = true -> numberAt prev s = None.
Proof. intros H. unfold numberAt, wordStarts. now rewrite H. Qed.

Lemma literals_cover (n : nat) :
  forall (s : string) (prev : option ascii),
    (String.length s <= n)%nat ->
    flat_map words (occurrencesFrom numberAt prev s 0)
    = List.filter (allChars Js.isDigit) (words (restOfWord prev s)).
Proof.
  induction n as [| n IH]; intros s prev Hlen.
  { destruct s; [| cbn in Hlen; lia].
    cbn [occurrencesFrom]. unfold restOfWord.
    destruct (Js.isWordOpt prev) eqn:Hp.
    - now rewrite (numberAt_inside _ _ Hp).
    - unfold numberAt. cbn. now rewrite andb_false_r. }
  destruct s as [| c rest].
  { cbn [occurrencesFrom]. unfold restOfWord.
    destruct (Js.isWordOpt prev) eqn:Hp.
    - now rewrite (numberAt_inside _ _ Hp).
    - unfold numberAt. cbn. now rewrite andb_false_r. }
  cbn [String.length] in Hlen.
  assert (Hrest : (String.length rest <= n)%nat) by lia.
  assert (Hnext : Js.isWord c = true ->
                  restOfWord (Some c) rest = dropWhile Js.isWord (String c rest)).
  { intros Wc. unfold restOfWord. cbn [Js.isWordOpt dropWhile]. now rewrite Wc. }
  assert (Hgap : Js.isWord c = false -> restOfWord (Some c) rest = rest).
  { intros Wc. unfold restOfWord. cbn [Js.isWordOpt]. now rewrite Wc. }
  unfold restOfWord at 1. destruct (Js.isWordOpt prev) eqn:Hp.
  - rewrite (occurrences_not_found _ _ _ _ (numberAt_inside _ _ Hp)).
    rewrite (IH rest (Some c) Hrest).
    destruct (Js.isWord c) eqn:Wc.
    + now rewrite (Hnext eq_refl).
    + rewrite (Hgap eq_refl). cbn [dropWhile]. rewrite Wc.
      now rewrite (words_nonword _ _ Wc).
  - pose proof (numberAt_spec prev (String c rest) Hp) as Hspec.
    destruct (numberAt prev (String c rest)) as [m |] eqn:Hnum.
    + destruct Hspec as (integer & tail & Hne & Hd & We & Hm).
      assert (Hw : allChars Js.isWord integer = true)
        by (apply (allChars_impl Js.isDigit); [exact digit_word | exact Hd]).
      destruct Hm as [[-> Hs] | (fraction & Hfne & Hfd & -> & Hs)].
      * rewrite Hs in Hnum |- *.
        rewrite (occurrences_found _ _ _ _ Hne Hnum). cbn [flat_map].
        rewrite (IH tail (lastOr prev integer)).
        2:{ assert (L : String.length (String c rest)
                        = (String.length integer + String.length tail)%nat)
              by (rewrite Hs; apply length_append).
            cbn [String.length] in L.
            destruct integer; [congruence | cbn [String.length] in L; lia]. }
        unfold restOfWord. rewrite (lastOr_run _ _ Hw Hne), (dropWhile_ends _ We).
        rewrite (words_word _ Hw Hne), (words_run _ _ Hw Hne We).
        cbn [List.filter app]. now rewrite Hd.
      * assert (Hfw : allChars Js.isWord fraction = true)
          by (apply (allChars_impl Js.isDigit); [exact digit_word | exact Hfd]).
        assert (Hs' : String c rest = (integer +:+ "." +:+ fraction) +:+ tail)
          by (rewrite Hs; now rewrite !append_assoc).
        rewrite Hs' in Hnum |- *.
        assert (Hmne : integer +:+ "." +:+ fraction <> "")
          by (destruct integer; [congruence | discriminate]).
        rewrite (occurrences_found _ _ _ _ Hmne Hnum). cbn [flat_map].
        rewrite (IH tail (lastOr prev (integer +:+ "." +:+ fraction))).
        2:{ assert (L : String.length (String c rest)
                        = (String.length (integer +:+ "." +:+ fraction)
                           + String.length tail)%nat)
              by (rewrite Hs'; apply length_append).
            cbn [String.length] in L. rewrite length_append in L.
            destruct integer; [congruence | cbn [String.length] in L; lia]. }
        unfold restOfWord.
        rewrite 2!lastOr_app, (lastOr_run _ _ Hfw Hfne), (dropWhile_ends _ We).
        assert (Point : forall t, words ("." +:+ t) = words t)
          by (intros t; now apply words_nonword).
        assert (Hpoint : forall t, wordEnds ("." +:+ t) = true) by reflexivity.
        rewrite (words_run integer ("." +:+ fraction) Hw Hne (Hpoint _)).
        rewrite Point, (words_word _ Hfw Hfne).
        rewrite <- Hs', Hs.
        rewrite (words_run integer ("." +:+ fraction +:+ tail) Hw Hne (Hpoint _)).
        rewrite Point, (words_run _ _ Hfw Hfne We).
        cbn [List.filter app]. now rewrite Hd, Hfd.
    + rewrite (occurrences_not_found _ _ _ _ Hnum).
      rewrite (IH rest (Some c) Hrest).
      destruct (Js.isWord c) eqn:Wc.
      * rewrite (Hnext eq_refl).
        assert (Hword : takeWhile Js.isWord (String c rest) <> "")
          by (cbn [takeWhile]; now rewrite Wc).
        rewrite (words_take_drop _ Hword). cbn [List.filter].
        destruct Hspec as [-> | Hempty]; [reflexivity | congruence].
      * rewrite (Hgap eq_refl). now rewrite (words_nonword _ _ Wc).
Qed.

(** The numeric literals hold the words of the text that are made of
    digits, each of them once and in order. *)
Lemma literals_hold_the_digit_words (text : string) :
  flat_map words (numericLiterals text)
  = List.filter (allChars Js.isDigit) (words text).
Proof. exact (literals_cover (String.length text) text None (Nat.le_refl _)). Qed.

(** The words and the numeric literals of a sample text, and what the two
    extractors take from it. *)
Example words_of_a_sample :
  words "In 2024, Ada_L paid 12.50 USD (v1.2.3)"
  = ["In"; "2024"; "Ada_L"; "paid"; "12"; "50"; "USD"; "v1"; "2"; "3"] /\
  numericLiterals "In 2024, Ada_L paid 12.50 USD (v1.2.3)" = ["2024"; "12.50"; "2.3"] /\
  Semantic.extractImportantWords "In 2024, Ada_L paid 12.50 USD (v1.2.3)"
  = ["2024"; "12.50"; "2.3"; "In"; "USD"] /\
  Compression.extractImportantWords "In 2024, Ada_L paid 12.50 USD (v1.2.3) paid twice"
  = ["2024"; "paid"; "twice"].
Proof. repeat split; vm_compute; reflexivity. Qed.

(** C7, amended.  The client-side extractor returns a list, in this order
    and with repetitions: every numeric literal of the text (read from
    left to right: a word made of digits, together with the point and the
    next word when that word follows the point at once and is made of
    digits; every word of the text that is made of digits is in one
    literal, and in a text without a point the literals are exactly these
    words), then the first 10 of the words that are capitalized, then the
    first 5 of the words that are acronyms of two capital letters or more.
    It removes no stop word, and the only bound on its size is the number
    of numeric literals plus 15.  The server-side extractor returns the
    first 50 of the kept words, where the kept words are the words of the
    lower-cased text that are made of small letters and digits, are
    longer than 3 characters and are no stop word, each of them once, in
    the order of their first occurrence (a list without repetitions is
    its first element followed by the rest without the copies of that
    element, and so on). *)
Theorem C7_importance_extractors :
  (forall text : string,
      let important := Semantic.extractImportantWords text in
      important
      = numericLiterals text
        ++ firstn 10 (List.filter capitalizedb (words text))
        ++ firstn 5 (List.filter acronymb (words text)) /\
      Forall numericLiteral (numericLiterals text) /\
      flat_map words (numericLiterals text)
      = List.filter (allChars Js.isDigit) (words text) /\
      (allChars (fun c => negb (Ascii.eqb c ".")) text = true ->
       numericLiterals text = List.filter (allChars Js.isDigit) (words text)) /\
      (length important <= length (numericLiterals text) + 15)%nat) /\
  (forall content : string,
      let candidates := List.filter lowerWordb (words (Js.toLowerCase content)) in
      let kept :=
        List.filter
          (fun word => negb (Compression.isStopWord word)
                       && (3 <? String.length word)%nat)
          (Js.unique candidates []) in
      Compression.extractImportantWords content = firstn 50 kept /\
      List.NoDup kept /\
      sublist kept candidates /\
      (forall word,
          In word kept <->
          In word candidates /\ (3 < String.length word)%nat /\
          ~ In word Compression.stopWords)) /\
  (forall (first : string) (others : list string),
      Js.unique (first :: others) []
      = first :: Js.unique
                   (List.filter (fun word => negb (String.eqb word first)) others) []) /\
  (forall word : string,
      (capitalizedb word = true <-> capitalized word) /\
      (acronymb word = true <-> acronym word) /\
      (lowerWordb word = true <-> lowerWord word)).
Proof.
  split; [| split; [| split]].
  - intros text important.
    assert (N : Js.matchAll Semantic.numbersRe text = numericLiterals text)
      by (apply matchAll_occurrences, matchAt_numbersRe).
    assert (E : important
                = numericLiterals text
                  ++ firstn 10 (List.filter capitalizedb (words text))
                  ++ firstn 5 (List.filter acronymb (words text))).
    { subst important. unfold Semantic.extractImportantWords, Js.slice0.
      rewrite N.
      rewrite (matchAll_words _ capitalizedb text matchAt_properNounsRe).
      rewrite (matchAll_words _ acronymb text matchAt_technicalRe).
      cbn [app]. now rewrite <- app_assoc. }
    split; [exact E |].
    split; [rewrite <- N; apply Forall_lang, numbersRe_literal |].
    split; [apply literals_hold_the_digit_words |].
    split; [apply numericLiterals_without_point |].
    rewrite E, !length_app.
    pose proof (firstn_le_length 10 (List.filter capitalizedb (words text))).
    pose proof (firstn_le_length 5 (List.filter acronymb (words text))). lia.
  - intros content candidates kept.
    destruct (unique_spec candidates []) as [N S].
    split; [| split; [| split]].
    + unfold Compression.extractImportantWords, Js.slice0.
      now rewrite (matchAll_words _ lowerWordb _ matchAt_wordsRe).
    + apply List.NoDup_filter, N.
    + etransitivity; [apply filter_sublist | apply unique_sublist].
    + intros word. unfold kept. rewrite filter_In, andb_true_iff, Nat.ltb_lt.
      unfold Compression.isStopWord. rewrite negb_true_iff.
      split.
      * intros [Hin [Hstop Hlen]]. destruct (S word Hin) as [Hc _].
        split; [exact Hc |]. split; [exact Hlen |].
        intros Hs. apply existsb_eqb_In in Hs. congruence.
      * intros [Hc [Hlen Hs]]. split; [apply unique_complete; [exact Hc | intros []] |].
        split; [| exact Hlen].
        destruct (existsb _ _) eqn:E; [| reflexivity].
        apply existsb_eqb_In in E. contradiction.
  - intros first others. cbn [Js.unique existsb]. f_equal. apply unique_first.
  - intros word.
    split; [apply capitalizedb_spec |].
    split; [apply acronymb_spec | apply lowerWordb_spec].
Qed.

(** C7, as stated, fails for both extractors.  The client-side one keeps
    repetitions ("7 7" gives "7" twice), has no cap (51 numbers give 51
    entries) and removes no stop word ("The" is kept); the server-side
    one returns lower-cased words longer than 3 characters, so that it
    drops the number 42 and keeps "launched", which is neither a number,
    a capitalized word nor an acronym. *)
Lemma C7_counterexample_extractors :
  Semantic.extractImportantWords "7 7" = ["7"; "7"] /\
  ~ List.NoDup (Semantic.extractImportantWords "7 7") /\
  length (Semantic.extractImportantWords
            (String.concat " " (repeat "7" 51))) = 51%nat /\
  Semantic.extractImportantWords "The cat" = ["The"] /\
  Compression.extractImportantWords "NASA launched 42 rockets"
    = ["nasa"; "launched"; "rockets"].
Proof.
  split; [vm_compute; reflexivity |].
  split.
  - intros H. change (List.NoDup ["7"; "7"]) in H.
    inversion H as [| x l Hn _]. apply Hn. now left.
  - repeat split; vm_compute; reflexivity.
Qed.

(** ** The properties at sample inputs *)

Lemma C5_sample_small_block :
  tokenCount (CompressionService.tokens smallBlock)
    (CompressionService.content smallBlock) = 13 /\
  exists r e,
    CompressionService.compressBlock ollama (streamAnswering ["summary"])
      smallBlock semantic sampleWorld = (Ok r, sampleWorld)
    /\ Types.success r = false
    /\ Types.error r = Some e
    /\ isValidationError e = true
    /\ Types.compressedContent r = None
    /\ List.filter isBackendCall (newEvents sampleWorld sampleWorld) = []
    /\ (ollama <> claude_code ->
        UseCompression.compressSingle ollama (streamAnswering ["summary"])
          smallBlock semantic sampleWorld
        = (UseCompression.mkHookState false (Some e) None, sampleWorld)).
Proof.
  split; [reflexivity |].
  apply (C5_validation_rejects_without_backend ollama (streamAnswering ["summary"])
           smallBlock semantic sampleWorld).
  left. vm_compute. reflexivity.
Defined.

Lemma C7_sample_report :
  Semantic.extractImportantWords "In 2024 Ada paid 12.50 USD, not 7 EUR"
  = ["2024"; "12.50"; "7"; "In"; "Ada"; "USD"; "EUR"] /\
  numericLiterals "Ada has 3 cats and 14 mice"
  = List.filter (allChars Js.isDigit) (words "Ada has 3 cats and 14 mice") /\
  Compression.extractImportantWords "Mars rover, the rover of 2024"
  = ["mars"; "rover"; "2024"].
Proof.
  destruct C7_importance_extractors as (Hclient & Hserver & _).
  split; [| split].
  - rewrite (proj1 (Hclient _)). vm_compute. reflexivity.
  - apply (proj1 (proj2 (proj2 (proj2 (Hclient "Ada has 3 cats and 14 mice"))))).
    vm_compute. reflexivity.
  - rewrite (proj1 (Hserver _)). vm_compute. reflexivity.
Defined.

Lemma C8_sample_prompts :
  Js.includes (Compression.buildCompressionPrompt "abc" "semantic" 777 "note")
    "~389 tokens (2x compression ratio)" = true /\
  Js.includes (Semantic.formatPrompt (Semantic.mkVars "abc" 777 2 "note"))
    " tokens to approximately 777/2 tokens " = true.
Proof.
  split.
  - exact (proj1 C8_prompt_target "abc" "semantic" 777 "note").
  - apply (proj2 C8_prompt_target "abc" 777 2 "note"); lia.
Defined.

Lemma C10_sample_blank_answer :
  exists r w',
    CompressionService.compressBlock ollama (streamAnswering ["  "; LF])
      plainBlock semantic sampleWorld = (Ok r, w')
    /\ Types.compressedTokens r = 0
    /\ Types.compressionRatio r = Js.JPosInf
    /\ Js.lt (Types.compressionRatio r) CompressionService.MIN_COMPRESSION_RATIO = false
    /\ (forall x, Types.error r <> Some (RatioBelowMinimum x))
    /\ (Semantic.extractImportantWords (CompressionService.content plainBlock) = [] ->
        Types.success r = true /\ Types.error r = None
        /\ Types.compressedContent r = Some "").
Proof.
  apply (C10_empty_answer_passes_the_ratio_gate ollama (streamAnswering ["  "; LF])
           plainBlock sampleWorld ["  "; LF]).
  - discriminate.
  - vm_compute. reflexivity.
  - reflexivity.
  - vm_compute. reflexivity.
Defined.

Lemma C6_sample_two_compressions :
  UseCompression.error (fst firstRun) = None /\
  UseCompression.error (fst secondRun) = None /\
  exists first,
    first <> 0 /\
    storedOriginalTokens (snd firstRun) 7%N = Some first /\
    storedOriginalTokens (snd secondRun) 7%N = Some first.
Proof.
  assert (H1 : UseCompression.error (fst firstRun) = None) by (vm_compute; reflexivity).
  assert (H2 : UseCompression.error (fst secondRun) = None) by (vm_compute; reflexivity).
  split; [exact H1 |]. split; [exact H2 |].
  apply (C6_recompression_keeps_the_original_token_count
           claude_code claude_code
           (agentAnswering (repeatChar "a" 480) 1000)
           (agentAnswering (repeatChar "b" 40) 1000)
           sampleBlock sampleBlock semantic semantic
           longWorld (snd firstRun) (snd secondRun) (fst firstRun) (fst secondRun)).
  - reflexivity.
  - reflexivity.
  - reflexivity.
  - unfold firstRun. apply surjective_pairing.
  - exact H1.
  - unfold secondRun. apply surjective_pairing.
  - exact H2.
Defined.

Lemma C4_sample_low_quality :
  (exists r,
      CompressionService.compressBlock ollama (streamAnswering ["ok"])
        sampleBlock semantic sampleWorld
      = (Ok r, logged sampleWorld
                 (EvStreamChat ollama
                    (clientPrompt (CompressionService.content sampleBlock) "note")))
      /\ Types.success r = false
      /\ Types.error r = Some (QualityTooLow
                                (Semantic.estimateQuality
                                   (CompressionService.content sampleBlock) "ok"))) /\
  (exists r w',
      Compression.compressWithClaudeCode (agentAnswering "ok" 1000) 7%N "semantic"
        sampleWorld = (r, w')
      /\ List.filter isMutation (newEvents sampleWorld w')
         = [EvCompress (compressArgsFor 7%N sampleDoc "semantic" "ok")]).
Proof.
  split.
  - destruct (proj1 C4_quality_gate_rejects_on_the_client_only
                ollama (streamAnswering ["ok"]) sampleBlock semantic sampleWorld
                (logged sampleWorld
                   (EvStreamChat ollama
                      (clientPrompt (CompressionService.content sampleBlock) "note")))
                "ok"
                ltac:(vm_compute; reflexivity) ltac:(vm_compute; reflexivity)
                ltac:(vm_compute; reflexivity))
      as (r & Hr & Hlow & _).
    exists r. split; [exact Hr |].
    destruct (Hlow ltac:(vm_compute; reflexivity)) as (S1 & S2 & _).
    split; assumption.
  - destruct (proj2 C4_quality_gate_rejects_on_the_client_only
                (agentAnswering "ok" 1000) 7%N "semantic" sampleWorld sampleDoc "ok"
                ltac:(reflexivity) ltac:(vm_compute; discriminate) ltac:(reflexivity)
                ltac:(exists 1000, [AssistantMessage (Some [TextPart "ok"]); ResultMessage];
                      repeat split; vm_compute; reflexivity)
                ltac:(vm_compute; reflexivity) ltac:(vm_compute; reflexivity))
      as (r & w' & Hrun & Hev & _).
    exists r, w'. split; assumption.
Defined.

(** ** The scenarios of the specification *)

(** A block of 50 characters is estimated at 13 tokens and rejected as
    too small. *)
Example scenario_too_small :
  fst (CompressionService.compressBlock ollama (streamAnswering ["summary"])
         smallBlock semantic sampleWorld)
  = Ok (CompressionService.failure (TooFewTokens 13) 0 0 (Js.JFin 1) semantic).
Proof. vm_compute. reflexivity. Qed.

(** The three blocks of 500, 300 and 700 tokens: 1500 tokens against
    1250 pass the ratio gate of the merge, 1500 against 1251 do not. *)
Example scenario_boundary :
  reportsFailure
    (fst (UseCompression.compressAndMerge claude_code
            (agentAnswering (repeatChar "x" 5000) 1000) threeBlocks toWorking
            UseCompression.initial threeWorld))
  = false /\
  UseCompression.error
    (fst (UseCompression.compressAndMerge claude_code
            (agentAnswering (repeatChar "x" 5004) 1000) threeBlocks toWorking
            UseCompression.initial threeWorld))
  = Some (ClaudeCodeFailed (RatioBelowMinimum (Js.div 1500 1251))).
Proof. split; vm_compute; reflexivity. Qed.

(** The two compressions of the sample note: the original count stays at
    1000 while the current count goes from 1000 to 120 and then to 10. *)
Example scenario_recompression :
  storedOriginalTokens (snd firstRun) 7%N = Some 1000 /\
  storedOriginalTokens (snd secondRun) 7%N = Some 1000 /\
  (tokens <$> store (snd firstRun) !! 7%N) = Some (Some 120) /\
  (tokens <$> store (snd secondRun) !! 7%N) = Some (Some 10).
Proof. repeat split; vm_compute; reflexivity. Qed.

(** A successful merge inserts one block and deletes the sources. *)
Example scenario_merge :
  map_to_list
    (content <$> store
       (snd (UseCompression.compressAndMerge claude_code
               (agentAnswering (repeatChar "x" 5000) 1000) threeBlocks toWorking
               UseCompression.initial threeWorld)))
  = [(4%N, repeatChar "x" 5000)] /\
  (mergedFromCount <$> store
     (snd (UseCompression.compressAndMerge claude_code
             (agentAnswering (repeatChar "x" 5000) 1000) threeBlocks toWorking
             UseCompression.initial threeWorld)) !! 4%N)
  = Some (Some 3).
Proof. split; vm_compute; reflexivity. Qed.

(** ** The exact quotients against IEEE-754

    The model compares exact quotients where the engine compares
    doubles.  The two agree: on every pair of token counts up to 300 for
    the ratio gate (a division by zero included), and on every pair
    [preserved <= total <= 65] for the quality gate, which covers every
    list of the server-side extractor (at most 50 words). *)
Example exact_ratio_is_ieee_ratio :
  forallb
    (fun o =>
       forallb
         (fun c => Bool.eqb (ieeeRatioBelow o c) (Js.lt (Js.div o c) 1.2%Q))
         (range 0 301))
    (range 1 300) = true /\
  ieeeRatioBelow 1500 1250 = false /\
  ieeeRatioBelow 1500 1251 = true /\
  ieeeRatioBelow 100 0 = false.
Proof. split; [| split; [| split]]; vm_compute; reflexivity. Qed.

Example exact_quality_is_ieee_quality :
  forallb
    (fun n =>
       forallb
         (fun p =>
            Bool.eqb (ieeeQualityBelow p n)
              (Js.Qltb (Js.min 1 (inject_Z p / inject_Z n)) 0.6%Q))
         (List.filter (fun p => p <=? n) (range 0 66)))
    (range 1 65) = true.
Proof. vm_compute. reflexivity. Qed.

(* ================================================================== *)
(** * Further properties of the code *)
(* ================================================================== *)

(** ** The estimator *)

Lemma len_zero_empty (s : string) : Js.len s = 0 -> s = "".
Proof.
  destruct s; [reflexivity |]. unfold Js.len. simpl. lia.
Qed.

(** X1.  The estimate of a concatenation is at least the estimate of each
    part and at most their sum, so that the estimate of a merged text
    never exceeds the sum of the estimates of its pieces; and only the
    empty string is estimated at 0 tokens. *)
Theorem X1_estimate_of_a_concatenation (a b : string) :
  Tokenizer.estimateTokens a <= Tokenizer.estimateTokens (a +:+ b) /\
  Tokenizer.estimateTokens b <= Tokenizer.estimateTokens (a +:+ b) /\
  Tokenizer.estimateTokens (a +:+ b)
    <= Tokenizer.estimateTokens a + Tokenizer.estimateTokens b /\
  (Tokenizer.estimateTokens a = 0 <-> a = "").
Proof.
  pose proof (len_nonneg a) as Ha. pose proof (len_nonneg b) as Hb.
  split; [| split; [| split]].
  - apply estimateTokens_mono. rewrite len_append. lia.
  - apply estimateTokens_mono. rewrite len_append. lia.
  - rewrite !estimateTokens_closed, len_append.
    pose proof (Z.div_mod (Js.len a + 3) 4 ltac:(lia)).
    pose proof (Z.mod_pos_bound (Js.len a + 3) 4 ltac:(lia)).
    pose proof (Z.div_mod (Js.len b + 3) 4 ltac:(lia)).
    pose proof (Z.mod_pos_bound (Js.len b + 3) 4 ltac:(lia)).
    pose proof (Z.div_mod (Js.len a + Js.len b + 3) 4 ltac:(lia)).
    pose proof (Z.mod_pos_bound (Js.len a + Js.len b + 3) 4 ltac:(lia)).
    lia.
  - split.
    + intros H. apply len_zero_empty. rewrite estimateTokens_closed in H.
      pose proof (Z.div_mod (Js.len a + 3) 4 ltac:(lia)).
      pose proof (Z.mod_pos_bound (Js.len a + 3) 4 ltac:(lia)).
      lia.
    + intros ->. reflexivity.
Qed.

(** ** Validation, again *)

(** X2.  [validateBlock] accepts exactly the blocks of at least 100
    tokens whose content is not blank; the token check comes first, so a
    blank block of fewer than 100 tokens is reported as too small; and the
    verdict does not look at the identifier, the type or the
    [isCompressed] flag: an already compressed block is validated like any
    other. *)
Theorem X2_validateBlock_characterised (block : CompressionService.Block) :
  let count :=
    tokenCount (CompressionService.tokens block) (CompressionService.content block) in
  CompressionService.validateBlock block
  = (if count <? 100 then
       CompressionService.mkValidation false (Some (TooFewTokens count))
     else if isBlank (CompressionService.content block) then
       CompressionService.mkValidation false (Some NoContent)
     else CompressionService.mkValidation true None) /\
  (CompressionService.valid (CompressionService.validateBlock block) = true
   <-> 100 <= count /\ isBlank (CompressionService.content block) = false) /\
  (forall (id : BlockId) (type : string) (flag : option bool),
      CompressionService.validateBlock
        (CompressionService.mkBlock id (CompressionService.content block) type
           (CompressionService.tokens block) flag)
      = CompressionService.validateBlock block).
Proof.
  intros count.
  assert (E : CompressionService.validateBlock block
              = (if count <? 100 then
                   CompressionService.mkValidation false (Some (TooFewTokens count))
                 else if isBlank (CompressionService.content block) then
                   CompressionService.mkValidation false (Some NoContent)
                 else CompressionService.mkValidation true None)).
  { unfold CompressionService.validateBlock.
    rewrite orElse_tokenCount, blank_check. reflexivity. }
  split; [exact E |]. split.
  - rewrite E. destruct (Z.ltb_spec count 100).
    + split; [discriminate | lia].
    + destruct (isBlank _); split; try discriminate; try tauto.
      intros [_ H']. discriminate H'.
  - intros id type flag. reflexivity.
Qed.

(** ** The client-side service *)

(** [compressContent], case by case. *)
Lemma compressContent_cases (provider : Provider) (env : Env)
    (content : string) (strategy : Strategy) (contentType : string) (w : World) :
  CompressionService.compressContent provider env content strategy contentType w =
  match strategy with
  | semantic =>
      match provider with
      | ollama => streamedAnswer env ollama content contentType w
      | openrouter => streamedAnswer env openrouter content contentType w
      | claude_code => (Err MustUseConvexAction, w)
      end
  | structural => (Err (NotImplemented "Structural"), w)
  | statistical => (Err (NotImplemented "Statistical"), w)
  end.
Proof.
  unfold CompressionService.compressContent, Semantic.compressSemantic.
  destruct strategy; try reflexivity.
  destruct provider; try reflexivity;
    unfold Semantic.compressWithStream, streamedAnswer, clientPrompt, bind, emit,
      call, ret;
    change (orElse (Some 2) 2) with 2;
    destruct (streamChat env _ _); reflexivity.
Qed.

(** [compressBlock] on a valid block when the compression throws. *)
Lemma compressBlock_thrown (provider : Provider) (env : Env)
    (block : CompressionService.Block) (strategy : Strategy)
    (w w' : World) (e : Error) :
  CompressionService.valid (CompressionService.validateBlock block) = true ->
  CompressionService.compressContent provider env
    (CompressionService.content block) strategy (CompressionService.type block) w
    = (Err e, w') ->
  CompressionService.compressBlock provider env block strategy w
  = (Ok (CompressionService.failure e
           (orElse (CompressionService.tokens block) 0) 0 (Js.JFin 1) strategy), w').
Proof.
  intros Hv Hc. unfold CompressionService.compressBlock. rewrite Hv.
  change (negb true) with false. cbv iota.
  unfold tryCatch, bind. rewrite Hc. reflexivity.
Qed.

(** The hook after a failure of the service. *)
Lemma compressSingle_client_failure (provider : Provider) (env : Env)
    (block : CompressionService.Block) (strategy : Strategy) (w w1 : World)
    (e : Error) (o c : Z) (ratio : Js.jsnum) :
  provider <> claude_code ->
  CompressionService.compressBlock provider env block strategy w
  = (Ok (CompressionService.failure e o c ratio strategy), w1) ->
  UseCompression.compressSingle provider env block strategy w
  = (UseCompression.mkHookState false
       (Some (if messageIsEmpty e then Thrown "Compression failed" else e)) None, w1).
Proof.
  intros Hp Hb. rewrite (compressSingle_client _ _ _ _ _ _ _ Hp Hb). reflexivity.
Qed.


(** X4.  The service cannot compress with the provider "claude-code":
    [compressSemantic] throws "Claude Code compression must be called via
    Convex action" before any call, and [compressBlock] turns it into an
    unsuccessful result; [compressText] throws it. *)
Theorem X4_service_refuses_claude_code
    (env : Env) (block : CompressionService.Block) (w : World)
    (content contentType : string) :
  CompressionService.valid (CompressionService.validateBlock block) = true ->
  CompressionService.compressBlock claude_code env block semantic w
  = (Ok (CompressionService.failure MustUseConvexAction
           (orElse (CompressionService.tokens block) 0) 0 (Js.JFin 1) semantic), w)
  /\ CompressionService.compressText claude_code env content semantic contentType w
     = (Err MustUseConvexAction, w).
Proof.
  intros Hv. split.
  - apply (compressBlock_thrown _ _ _ _ _ _ _ Hv). now rewrite compressContent_cases.
  - unfold CompressionService.compressText, bind.
    now rewrite compressContent_cases.
Qed.

(** [compressContent] that returns has made one call, to the selected
    chat client. *)
Lemma compressContent_ok_inv (provider : Provider) (env : Env)
    (content : string) (strategy : Strategy) (contentType : string)
    (w w' : World) (compressedContent : string) :
  CompressionService.compressContent provider env content strategy contentType w
    = (Ok compressedContent, w') ->
  strategy = semantic /\ provider <> claude_code /\
  w' = logged w (EvStreamChat provider (clientPrompt content contentType)) /\
  exists chunks,
    streamChat env provider (clientPrompt content contentType) = Returns chunks /\
    compressedContent = Js.trim (streamed chunks).
Proof.
  rewrite compressContent_cases.
  destruct strategy; try discriminate.
  destruct provider; try discriminate; unfold streamedAnswer;
    destruct (streamChat env _ _) as [chunks | message] eqn:E; try discriminate;
    intros [= <- <-]; (split; [reflexivity |]); (split; [discriminate |]);
    (split; [reflexivity |]); exists chunks; now split.
Qed.

Lemma not_below_means_ratio (o c : Z) :
  100 <= o -> 0 <= c -> Js.lt (Js.div o c) 1.2%Q = false ->
  6 * c <= 5 * o /\ 17 <= o - c.
Proof.
  intros Ho Hc H.
  assert (~ (0 < c /\ 5 * o < 6 * c)) as N.
  { intros G. apply (ratio_below_iff o c ltac:(lia) Hc) in G. congruence. }
  lia.
Qed.

Lemma Qltb_false_iff (p q : Q) : Js.Qltb p q = false <-> (q <= p)%Q.
Proof.
  unfold Js.Qltb. rewrite negb_false_iff. apply Qle_bool_iff.
Qed.

(** X5.  A successful result of [compressBlock] is well formed: the
    strategy was "semantic", exactly one call was made, to the chat client
    of the selected provider; the result names the block and the provider
    and carries the compressed content; its token counts are the count of
    the block (at least 100) and the estimate of the compressed content;
    the ratio is at least 1.2, the quality at least 0.6, and at least 17
    tokens are saved. *)
Theorem X5_successful_result_is_well_formed
    (provider : Provider) (env : Env) (block : CompressionService.Block)
    (strategy : Strategy) (w w' : World) (r : Types.CompressionResult) :
  CompressionService.compressBlock provider env block strategy w = (Ok r, w') ->
  Types.success r = true ->
  strategy = semantic /\ provider <> claude_code /\
  newEvents w w'
  = [EvStreamChat provider
       (clientPrompt (CompressionService.content block) (CompressionService.type block))] /\
  Types.error r = None /\
  Types.blockId r = Some (CompressionService._id block) /\
  Types.provider r = Some provider /\
  Types.originalTokens r
  = tokenCount (CompressionService.tokens block) (CompressionService.content block) /\
  100 <= Types.originalTokens r /\
  (exists compressedContent,
      Types.compressedContent r = Some compressedContent /\
      Types.compressedTokens r = Tokenizer.estimateTokens compressedContent /\
      (0.6 <= Semantic.estimateQuality (CompressionService.content block)
                compressedContent)%Q) /\
  6 * Types.compressedTokens r <= 5 * Types.originalTokens r /\
  Types.tokensSaved r = Types.originalTokens r - Types.compressedTokens r /\
  17 <= Types.tokensSaved r.
Proof.
  intros Hrun Hsucc.
  destruct (CompressionService.valid (CompressionService.validateBlock block)) eqn:Hv.
  2: { unfold CompressionService.compressBlock in Hrun. rewrite Hv in Hrun.
       injection Hrun as <- <-. discriminate Hsucc. }
  destruct (CompressionService.compressContent provider env
              (CompressionService.content block) strategy
              (CompressionService.type block) w) as [[cc | e] w1] eqn:Hc.
  2: { rewrite (compressBlock_thrown _ _ _ _ _ _ _ Hv Hc) in Hrun.
       injection Hrun as <- <-. discriminate Hsucc. }
  destruct (compressContent_ok_inv _ _ _ _ _ _ _ _ Hc) as (Hs & Hp & Hw & _).
  destruct (validateBlock_valid _ Hv) as [Ho _].
  rewrite (compressBlock_scored _ _ _ _ _ _ _ Hv Hc) in Hrun.
  destruct (Js.lt _ _) eqn:Hratio.
  { injection Hrun as <- <-. discriminate Hsucc. }
  destruct (Js.Qltb _ _) eqn:Hq.
  { injection Hrun as <- <-. discriminate Hsucc. }
  injection Hrun as <- <-.
  destruct (not_below_means_ratio _ _ Ho (estimateTokens_nonneg cc) Hratio) as [R S].
  split; [exact Hs |]. split; [exact Hp |].
  split; [subst w1; unfold logged; now rewrite newEvents_app |].
  simpl. repeat split; try assumption.
  exists cc. repeat split. now apply Qltb_false_iff.
Qed.

(** X6.  When the chat client throws, [compressBlock] does not throw: it
    returns an unsuccessful result that carries the message of the client;
    the original count it reports is the cached count of the block, or 0
    when there is none, not the estimate.  The hook reports the message,
    or "Compression failed" when the message is the empty string
    ([compressionResult.error || "Compression failed"]), and runs no
    mutation. *)
Theorem X6_backend_error_becomes_a_result
    (provider : Provider) (env : Env) (block : CompressionService.Block)
    (w : World) (message : string) :
  provider <> claude_code ->
  CompressionService.valid (CompressionService.validateBlock block) = true ->
  streamChat env provider
    (clientPrompt (CompressionService.content block) (CompressionService.type block))
    = Throws message ->
  let w' :=
    logged w
      (EvStreamChat provider
         (clientPrompt (CompressionService.content block)
            (CompressionService.type block))) in
  CompressionService.compressBlock provider env block semantic w
  = (Ok (CompressionService.failure (Thrown message)
           (orElse (CompressionService.tokens block) 0) 0 (Js.JFin 1) semantic), w')
  /\ UseCompression.compressSingle provider env block semantic w
     = (UseCompression.mkHookState false
          (Some (Thrown (if Js.isEmpty message then "Compression failed"
                         else message)))
          None, w').
Proof.
  intros Hp Hv Hs w'.
  assert (Hc : CompressionService.compressContent provider env
                 (CompressionService.content block) semantic
                 (CompressionService.type block) w
               = (Err (Thrown message), w')).
  { rewrite compressContent_cases.
    destruct provider; try contradiction; unfold streamedAnswer; now rewrite Hs. }
  pose proof (compressBlock_thrown _ _ _ _ _ _ _ Hv Hc) as Hb.
  split; [exact Hb |].
  rewrite (compressSingle_client_failure _ _ _ _ _ _ _ _ _ _ Hp Hb).
  cbn [messageIsEmpty]. now destruct (Js.isEmpty message).
Qed.

(** ** Substrings *)

Lemma prefix_split (w s : string) :
  String.prefix w s = true -> exists t, s = w +:+ t.
Proof.
  revert s. induction w as [| c w IH]; intros s H.
  - exists s. reflexivity.
  - destruct s as [| d s]; [discriminate H |].
    rewrite prefix_cons in H. destruct (ascii_dec c d) as [-> | _]; [| discriminate H].
    destruct (IH _ H) as [t ->]. exists t. reflexivity.
Qed.

Lemma includes_iff (s w : string) :
  Js.includes s w = true <-> exists a b, s = a +:+ w +:+ b.
Proof.
  split.
  - induction s as [| c s IH]; rewrite includes_unfold; intros H.
    + rewrite orb_false_r in H. destruct (prefix_split _ _ H) as [t Ht].
      exists "", t. exact Ht.
    + apply orb_prop in H as [H | H].
      * destruct (prefix_split _ _ H) as [t Ht]. exists "", t. exact Ht.
      * destruct (IH H) as (a & b & ->). exists (String c a), b. reflexivity.
  - intros (a & b & ->). apply includes_skip, includes_prefix.
Qed.

Lemma includes_trans (a b c : string) :
  Js.includes a b = true -> Js.includes b c = true -> Js.includes a c = true.
Proof.
  rewrite !includes_iff. intros (x & y & ->) (u & v & ->).
  exists (x +:+ u), (v +:+ y). now rewrite !append_assoc.
Qed.

Lemma toLowerCase_append (a b : string) :
  Js.toLowerCase (a +:+ b) = Js.toLowerCase a +:+ Js.toLowerCase b.
Proof.
  induction a as [| c a IH]; [reflexivity |].
  rewrite append_cons. simpl. now rewrite IH.
Qed.

Lemma includes_toLowerCase (s w : string) :
  Js.includes s w = true ->
  Js.includes (Js.toLowerCase s) (Js.toLowerCase w) = true.
Proof.
  rewrite !includes_iff. intros (a & b & ->).
  exists (Js.toLowerCase a), (Js.toLowerCase b).
  now rewrite !toLowerCase_append.
Qed.

Lemma lowerChar_idempotent (c : ascii) :
  Js.lowerChar (Js.lowerChar c) = Js.lowerChar c.
Proof.
  destruct c as [[] [] [] [] [] [] [] []]; vm_compute; reflexivity.
Qed.

Lemma toLowerCase_idempotent (s : string) :
  Js.toLowerCase (Js.toLowerCase s) = Js.toLowerCase s.
Proof.
  induction s as [| c s IH]; [reflexivity |].
  simpl. now rewrite lowerChar_idempotent, IH.
Qed.

(** A match is a piece of the text. *)
Lemma rep_consumes (p : ascii -> bool) (s : string) :
  forall (min : nat) (prev : option ascii) (acc : list ascii) (k : Js.cont)
         (m : list ascii),
    Js.rep p min prev acc s k = Some m ->
    exists u prev' s',
      list_ascii_of_string s = u ++ list_ascii_of_string s' /\
      k prev' (rev u ++ acc) s' = Some m.
Proof.
  induction s as [| c s IH]; intros min prev acc k m H.
  - simpl in H. destruct min; [| discriminate].
    exists [], prev, EmptyString. split; [reflexivity | exact H].
  - simpl in H.
    assert (Stop : match min with O => k prev acc (String c s) | S _ => None end = Some m ->
                   exists u prev' s',
                     list_ascii_of_string (String c s) = u ++ list_ascii_of_string s' /\
                     k prev' (rev u ++ acc) s' = Some m).
    { intros E. destruct min; [| discriminate].
      exists [], prev, (String c s). split; [reflexivity | exact E]. }
    destruct (p c) eqn:Pc; [| exact (Stop H)].
    destruct (Js.rep p (Nat.pred min) (Some c) (c :: acc) s k) as [m' |] eqn:E;
      [| exact (Stop H)].
    injection H as ->.
    destruct (IH _ _ _ _ _ E) as (u & prev' & s' & Hu & Hk).
    exists (c :: u), prev', s'. split; [simpl; now rewrite Hu |].
    simpl. now rewrite <- app_assoc.
Qed.

Lemma run_consumes (r : Js.regex) :
  forall (prev : option ascii) (acc : list ascii) (s : string) (k : Js.cont)
         (m : list ascii),
    Js.run r prev acc s k = Some m ->
    exists u prev' s',
      list_ascii_of_string s = u ++ list_ascii_of_string s' /\
      k prev' (rev u ++ acc) s' = Some m.
Proof.
  induction r as [c0 | p | | r1 IH1 r2 IH2 | r1 IH1 | p min];
    intros prev acc s k m H; simpl in H.
  - destruct s as [| c s]; [discriminate |].
    destruct (Ascii.eqb c c0); [| discriminate].
    exists [c], (Some c), s. split; [reflexivity | exact H].
  - destruct s as [| c s]; [discriminate |].
    destruct (p c); [| discriminate].
    exists [c], (Some c), s. split; [reflexivity | exact H].
  - destruct (Js.atBoundary prev s); [| discriminate].
    exists [], prev, s. split; [reflexivity | exact H].
  - destruct (IH1 _ _ _ _ _ H) as (u1 & p1 & s1 & L1 & H1).
    destruct (IH2 _ _ _ _ _ H1) as (u2 & p2 & s2 & L2 & H2).
    exists (u1 ++ u2), p2, s2. split.
    + now rewrite L1, L2, <- app_assoc.
    + now rewrite rev_app_distr, <- app_assoc.
  - destruct (Js.run r1 prev acc s k) as [m' |] eqn:E.
    + injection H as ->. exact (IH1 _ _ _ _ _ E).
    + exists [], prev, s. split; [reflexivity | exact H].
  - exact (rep_consumes _ _ _ _ _ _ _ H).
Qed.

Lemma matchAt_prefix (r : Js.regex) (prev : option ascii) (s x : string) :
  Js.matchAt r prev s = Some x -> exists rest, s = x +:+ rest.
Proof.
  unfold Js.matchAt.
  destruct (Js.run r prev [] s _) as [acc |] eqn:E; [| discriminate].
  intros [= <-].
  destruct (run_consumes _ _ _ _ _ _ E) as (u & p1 & s1 & L & Hk).
  injection Hk as <-. exists s1.
  rewrite app_nil_r, rev_involutive.
  rewrite <- (string_of_list_ascii_of_string s), L, of_list_app.
  now rewrite string_of_list_ascii_of_string.
Qed.

Lemma scan_substrings (r : Js.regex) (s : string) :
  forall (prev : option ascii) (skip : nat),
    Forall (fun x => exists a b, s = a +:+ x +:+ b) (Js.scan r prev s skip).
Proof.
  induction s as [| c s IH]; intros prev skip; simpl.
  - destruct skip; [| constructor].
    destruct (Js.matchAt r prev "") as [x |] eqn:E; [| constructor].
    constructor; [| constructor].
    destruct (matchAt_prefix _ _ _ _ E) as [rest Hr].
    exists "", rest. exact Hr.
  - assert (Tail : forall prev' skip',
               Forall (fun x => exists a b, String c s = a +:+ x +:+ b)
                 (Js.scan r prev' s skip')).
    { intros prev' skip'. eapply Forall_impl; [apply IH |].
      intros x (a & b & ->). exists (String c a), b. reflexivity. }
    destruct skip; [| apply Tail].
    destruct (Js.matchAt r prev (String c s)) as [x |] eqn:E; [| apply Tail].
    constructor; [| apply Tail].
    destruct (matchAt_prefix _ _ _ _ E) as [rest Hr].
    exists "", rest. exact Hr.
Qed.

Lemma matchAll_substrings (r : Js.regex) (s : string) :
  Forall (fun x => Js.includes s x = true) (Js.matchAll r s).
Proof.
  eapply Forall_impl; [apply scan_substrings |].
  intros x H. now apply includes_iff.
Qed.

(** ** The quality estimate *)

Lemma fraction_score (p n : nat) :
  (p <= n)%nat -> (0 < n)%nat ->
  let q := Js.min 1 (inject_Z (Z.of_nat p) / inject_Z (Z.of_nat n))%Q in
  (0 <= q)%Q /\ (q <= 1)%Q /\
  (Js.Qltb q 0.6%Q = true <-> (5 * p < 3 * n)%nat) /\
  (p = n -> q = 1%Q) /\
  (p = 0%nat -> (q == 0)%Q).
Proof.
  intros Hp Hn. cbv zeta.
  destruct n as [| m]; [lia |].
  assert (Hk : Z.pos (Pos.of_succ_nat m) = Z.of_nat (S m)) by reflexivity.
  change (Z.of_nat (S m)) with (Z.pos (Pos.of_succ_nat m)).
  set (k := Pos.of_succ_nat m) in *.
  assert (V : (inject_Z (Z.of_nat p) / inject_Z (Z.pos k))%Q
              = (Z.of_nat p * 1 # 1 * k)%Q) by reflexivity.
  rewrite V. rewrite Z.mul_1_r, Pos.mul_1_l.
  unfold Js.min.
  destruct (Qle_bool 1 _) eqn:E.
  - apply Qle_bool_iff in E. unfold Qle in E. simpl in E.
    split; [unfold Qle; simpl; lia |].
    split; [unfold Qle; simpl; lia |].
    split; [| split; [reflexivity |]].
    + split; [intros H; vm_compute in H; discriminate | lia].
    + intros ->. lia.
  - assert (L : ~ (1 <= Z.of_nat p # k)%Q).
    { intros H. apply Qle_bool_iff in H. congruence. }
    unfold Qle in L. simpl in L.
    split; [unfold Qle; simpl; lia |].
    split; [unfold Qle; simpl; lia |].
    split; [| split].
    + rewrite Qltb_true_iff. unfold Qlt. simpl. lia.
    + intros ->. lia.
    + intros ->. reflexivity.
Qed.

Lemma preserved_le (words : list string) (compressed : string) :
  (preserved words compressed <= length words)%nat.
Proof. apply List.filter_length_le. Qed.

Lemma includes_empty (w : string) : w <> "" -> Js.includes "" w = false.
Proof.
  intros H. destruct (Js.includes "" w) eqn:E; [| reflexivity].
  apply includes_iff in E as (a & b & E).
  destruct a; [| discriminate E]. destruct w; [congruence | discriminate E].
Qed.

Lemma toLowerCase_nonempty (w : string) : w <> "" -> Js.toLowerCase w <> "".
Proof. destruct w; [congruence | discriminate]. Qed.

Lemma preserved_none (words : list string) :
  Forall (fun w => w <> "") words -> preserved words "" = 0%nat.
Proof.
  unfold preserved. induction 1 as [| w ws Hw _ IH]; [reflexivity |].
  assert (E : Js.includes (Js.toLowerCase "") (Js.toLowerCase w) = false)
    by exact (includes_empty _ (toLowerCase_nonempty _ Hw)).
  cbn [List.filter]. rewrite E. exact IH.
Qed.

Lemma preserved_all (words : list string) (compressed : string) :
  Forall (fun w => Js.includes (Js.toLowerCase compressed) (Js.toLowerCase w) = true)
    words ->
  preserved words compressed = length words.
Proof.
  unfold preserved. induction 1 as [| w ws Hw _ IH]; [reflexivity |].
  cbn [List.filter]. rewrite Hw. cbn [length]. now rewrite IH.
Qed.

Lemma numericLiteral_nonempty (x : string) : numericLiteral x -> x <> "".
Proof.
  intros [[H _] | (i & f & [Hi _] & _ & ->)]; [exact H |].
  destruct i; [congruence | discriminate].
Qed.

Lemma capitalized_nonempty (x : string) : capitalized x -> x <> "".
Proof. intros (c & rest & -> & _). discriminate. Qed.

Lemma acronym_nonempty (x : string) : acronym x -> x <> "".
Proof. intros [H _] ->. simpl in H. lia. Qed.

Lemma matchAll_pieces (r : Js.regex) (P : string -> Prop) (s : string) :
  (forall x, lang r (list_ascii_of_string x) -> P x) ->
  Forall (fun x => P x /\ Js.includes s x = true) (Js.matchAll r s).
Proof.
  intros H. apply List.Forall_forall. intros x Hx. split.
  - exact (proj1 (List.Forall_forall _ _) (Forall_lang r P s H) x Hx).
  - exact (proj1 (List.Forall_forall _ _) (matchAll_substrings r s) x Hx).
Qed.

(** The important words of the client are non-empty pieces of the text. *)
Lemma client_words_are_pieces (text : string) :
  Forall (fun w => w <> "" /\ Js.includes text w = true)
    (Semantic.extractImportantWords text).
Proof.
  unfold Semantic.extractImportantWords, Js.slice0. cbv zeta.
  rewrite app_nil_l. apply Forall_app. split; [apply Forall_app; split |].
  - apply matchAll_pieces. intros x H. exact (numericLiteral_nonempty _ (numbersRe_literal _ H)).
  - apply Forall_take, matchAll_pieces. intros x H.
    exact (capitalized_nonempty _ (properNounsRe_capitalized _ H)).
  - apply Forall_take, matchAll_pieces. intros x H.
    exact (acronym_nonempty _ (technicalRe_acronym _ H)).
Qed.

(** The important words of the server are non-empty pieces of the text in
    small letters. *)
Lemma server_words_are_pieces (content : string) :
  Forall (fun w => w <> "" /\ Js.includes (Js.toLowerCase content) w = true)
    (Compression.extractImportantWords content).
Proof.
  unfold Compression.extractImportantWords, Js.slice0. cbv zeta.
  apply Forall_take. apply List.Forall_forall. intros x Hx.
  apply List.filter_In in Hx as [Hx _].
  apply (unique_spec _ []) in Hx as [Hx _].
  pose proof (matchAll_pieces Compression.wordsRe (fun w => w <> "")
                (Js.toLowerCase content)) as H.
  refine (proj1 (List.Forall_forall _ _) (H _) x Hx).
  intros y Hy. exact (proj1 (wordsRe_lowerWord _ Hy)).
Qed.

Lemma nonempty_length {A : Type} (l : list A) :
  l <> [] -> (length l =? 0)%nat = false /\ (0 < length l)%nat.
Proof. destruct l; [congruence |]. intros _. simpl. split; [reflexivity | lia]. Qed.

(** X7.  Both quality estimates lie between 0 and 1; without important
    words they are 0.8; otherwise the estimate is below the client's
    minimum of 0.6 exactly when fewer than three fifths of the important
    words occur in the compressed text. *)
Theorem X7_quality_estimate_is_a_bounded_fraction (original compressed : string) :
  (let words := Semantic.extractImportantWords original in
   let quality := Semantic.estimateQuality original compressed in
   (0 <= quality)%Q /\ (quality <= 1)%Q /\
   (words = [] -> quality = 0.8%Q) /\
   (words <> [] ->
    (Js.Qltb quality 0.6%Q = true
     <-> (5 * preserved words compressed < 3 * length words)%nat))) /\
  (let words := Compression.extractImportantWords original in
   let quality := Compression.estimateQuality original compressed in
   (0 <= quality)%Q /\ (quality <= 1)%Q /\
   (words = [] -> quality = 0.8%Q) /\
   (words <> [] ->
    (Js.Qltb quality 0.6%Q = true
     <-> (5 * preserved words compressed < 3 * length words)%nat))).
Proof.
  assert (G : forall words : list string,
             let quality :=
               if (length words =? 0)%nat then 0.8%Q
               else Js.min 1 (inject_Z (Z.of_nat (preserved words compressed))
                              / inject_Z (Z.of_nat (length words)))%Q in
             (0 <= quality)%Q /\ (quality <= 1)%Q /\
             (words = [] -> quality = 0.8%Q) /\
             (words <> [] ->
              (Js.Qltb quality 0.6%Q = true
               <-> (5 * preserved words compressed < 3 * length words)%nat))).
  { intros words. cbv zeta. destruct words as [| x words].
    - split; [discriminate |]. split; [discriminate |].
      split; [reflexivity | congruence].
    - destruct (nonempty_length (x :: words) ltac:(discriminate)) as [E L].
      rewrite E.
      destruct (fraction_score _ _ (preserved_le (x :: words) compressed) L)
        as (H0 & H1 & Hg & _).
      split; [exact H0 |]. split; [exact H1 |].
      split; [discriminate | intros _; exact Hg]. }
  split.
  - exact (G (Semantic.extractImportantWords original)).
  - exact (G (Compression.extractImportantWords original)).
Qed.

(** X8.  When the compressed text contains the original text, letter case
    apart, every important word is found in it: the estimate is 1 (0.8
    when there is no important word).  In particular an answer that
    repeats the original is scored 1.  Every important word is a piece of
    the text it was extracted from (of the text in small letters on the
    server) and is not empty. *)
Theorem X8_quality_of_a_text_that_contains_the_original
    (original compressed : string) :
  Js.includes (Js.toLowerCase compressed) (Js.toLowerCase original) = true ->
  Semantic.estimateQuality original compressed
    = (if (length (Semantic.extractImportantWords original) =? 0)%nat
       then 0.8%Q else 1%Q) /\
  Compression.estimateQuality original compressed
    = (if (length (Compression.extractImportantWords original) =? 0)%nat
       then 0.8%Q else 1%Q) /\
  Forall (fun word => word <> "" /\ Js.includes original word = true)
    (Semantic.extractImportantWords original) /\
  Forall (fun word => word <> "" /\ Js.includes (Js.toLowerCase original) word = true)
    (Compression.extractImportantWords original).
Proof.
  intros H.
  split; [| split; [| split;
                      [apply client_words_are_pieces | apply server_words_are_pieces]]].
  - unfold Semantic.estimateQuality. cbv zeta.
    destruct (length (Semantic.extractImportantWords original) =? 0)%nat eqn:E;
      [reflexivity |].
    fold (preserved (Semantic.extractImportantWords original) compressed).
    rewrite preserved_all.
    + apply Nat.eqb_neq in E.
      refine (proj1 (proj2 (proj2 (proj2 (fraction_score _ _ (le_n _) _)))) eq_refl).
      lia.
    + eapply Forall_impl; [apply client_words_are_pieces |].
      intros w [_ Hw]. simpl in Hw.
      exact (includes_trans _ _ _ H (includes_toLowerCase _ _ Hw)).
  - unfold Compression.estimateQuality. cbv zeta.
    destruct (length (Compression.extractImportantWords original) =? 0)%nat eqn:E;
      [reflexivity |].
    fold (preserved (Compression.extractImportantWords original) compressed).
    rewrite preserved_all.
    + apply Nat.eqb_neq in E.
      refine (proj1 (proj2 (proj2 (proj2 (fraction_score _ _ (le_n _) _)))) eq_refl).
      lia.
    + eapply Forall_impl; [apply server_words_are_pieces |].
      intros w [_ Hw]. simpl in Hw.
      apply includes_toLowerCase in Hw. rewrite toLowerCase_idempotent in Hw.
      exact (includes_trans _ _ _ H Hw).
Qed.

Lemma X8_sample_answer_that_repeats_the_note :
  Semantic.estimateQuality "Quarterly revenue increased substantially"
    "QUARTERLY REVENUE INCREASED SUBSTANTIALLY, AGAIN" = 1%Q /\
  Compression.estimateQuality "Quarterly revenue increased substantially"
    "QUARTERLY REVENUE INCREASED SUBSTANTIALLY, AGAIN" = 1%Q.
Proof.
  assert (H : Js.includes
                (Js.toLowerCase "QUARTERLY REVENUE INCREASED SUBSTANTIALLY, AGAIN")
                (Js.toLowerCase "Quarterly revenue increased substantially") = true)
    by (vm_compute; reflexivity).
  destruct (X8_quality_of_a_text_that_contains_the_original
              "Quarterly revenue increased substantially"
              "QUARTERLY REVENUE INCREASED SUBSTANTIALLY, AGAIN" H) as (Hc & Hs & _).
  split; [exact Hc | exact Hs].
Defined.

(** X9.  The quality gate of [compressBlock] is what stops a blank answer
    when the block has an important word: the stream of the backend is
    empty or white space only, the compressed content is the empty string
    and [compressedTokens] is 0; no important word occurs in it, the
    quality is 0, and the result is unsuccessful with the error
    "Compression quality 0% is too low"; the hook reports it and runs no
    mutation. *)
Theorem X9_blank_answer_is_stopped_by_the_quality_gate
    (provider : Provider) (env : Env) (block : CompressionService.Block)
    (w : World) (chunks : list string) :
  provider <> claude_code ->
  CompressionService.valid (CompressionService.validateBlock block) = true ->
  streamChat env provider
    (clientPrompt (CompressionService.content block) (CompressionService.type block))
    = Returns chunks ->
  isBlank (streamed chunks) = true ->
  Semantic.extractImportantWords (CompressionService.content block) <> [] ->
  let w' :=
    logged w
      (EvStreamChat provider
         (clientPrompt (CompressionService.content block)
            (CompressionService.type block))) in
  exists quality,
    (quality == 0)%Q /\
    CompressionService.compressBlock provider env block semantic w
    = (Ok (CompressionService.failure (QualityTooLow quality)
             (tokenCount (CompressionService.tokens block)
                (CompressionService.content block))
             0 Js.JPosInf semantic), w') /\
    UseCompression.compressSingle provider env block semantic w
    = (UseCompression.mkHookState false (Some (QualityTooLow quality)) None, w').
Proof.
  intros Hp Hv Hs Hb Hw. cbv zeta.
  pose proof (compressContent_streamed provider env _ _ chunks w Hp Hs) as Hc.
  rewrite (trim_blank _ Hb) in Hc.
  destruct (validateBlock_valid _ Hv) as [Ho _].
  pose proof (compressBlock_scored _ _ _ _ _ _ _ Hv Hc) as Hr. cbv zeta in Hr.
  change (Tokenizer.estimateTokens "") with 0 in Hr.
  rewrite div_by_zero in Hr by lia. simpl Js.lt in Hr. cbv iota in Hr.
  set (quality := Semantic.estimateQuality (CompressionService.content block) "") in *.
  assert (Hq : (quality == 0)%Q).
  { unfold quality, Semantic.estimateQuality. cbv zeta.
    destruct (nonempty_length _ Hw) as [E L]. rewrite E.
    fold (preserved (Semantic.extractImportantWords (CompressionService.content block)) "").
    apply (fraction_score _ _ (preserved_le _ _) L).
    apply preserved_none.
    eapply Forall_impl; [apply client_words_are_pieces |].
    intros x [Hx _]. exact Hx. }
  assert (Hl : Js.Qltb quality 0.6%Q = true).
  { apply Qltb_true_iff. rewrite Hq. reflexivity. }
  rewrite Hl in Hr.
  exists quality. split; [exact Hq |]. split; [exact Hr |].
  exact (compressSingle_client_failure _ _ _ _ _ _ _ _ _ _ Hp Hr).
Qed.

Lemma X9_sample_blank_answer_to_the_note :
  exists quality,
    (quality == 0)%Q /\
    CompressionService.compressBlock ollama (streamAnswering ["  "; LF]) sampleBlock
      semantic sampleWorld
    = (Ok (CompressionService.failure (QualityTooLow quality) 200 0 Js.JPosInf semantic),
       logged sampleWorld
         (EvStreamChat ollama
            (clientPrompt "Quarterly revenue increased substantially" "note"))) /\
    UseCompression.compressSingle ollama (streamAnswering ["  "; LF]) sampleBlock
      semantic sampleWorld
    = (UseCompression.mkHookState false (Some (QualityTooLow quality)) None,
       logged sampleWorld
         (EvStreamChat ollama
            (clientPrompt "Quarterly revenue increased substantially" "note"))).
Proof.
  apply (X9_blank_answer_is_stopped_by_the_quality_gate ollama
           (streamAnswering ["  "; LF]) sampleBlock sampleWorld ["  "; LF]).
  - discriminate.
  - vm_compute. reflexivity.
  - reflexivity.
  - vm_compute. reflexivity.
  - vm_compute. discriminate.
Defined.

(** ** Samples of the properties of the service *)


Lemma X4_sample_service_with_claude_code :
  CompressionService.compressBlock claude_code (streamAnswering ["short"]) sampleBlock
    semantic sampleWorld
  = (Ok (CompressionService.failure MustUseConvexAction 200 0 (Js.JFin 1) semantic),
     sampleWorld)
  /\ CompressionService.compressText claude_code (streamAnswering ["short"])
       "some text" semantic "note" sampleWorld
     = (Err MustUseConvexAction, sampleWorld).
Proof.
  apply (X4_service_refuses_claude_code (streamAnswering ["short"]) sampleBlock
           sampleWorld "some text" "note").
  vm_compute. reflexivity.
Defined.

Lemma X6_sample_offline_client :
  CompressionService.compressBlock ollama (agentAnswering "ok" 1000) sampleBlock
    semantic sampleWorld
  = (Ok (CompressionService.failure (Thrown "offline") 200 0 (Js.JFin 1) semantic),
     logged sampleWorld
       (EvStreamChat ollama
          (clientPrompt "Quarterly revenue increased substantially" "note")))
  /\ UseCompression.compressSingle ollama (agentAnswering "ok" 1000) sampleBlock
       semantic sampleWorld
     = (UseCompression.mkHookState false (Some (Thrown "offline")) None,
        logged sampleWorld
          (EvStreamChat ollama
             (clientPrompt "Quarterly revenue increased substantially" "note"))).
Proof.
  apply (X6_backend_error_becomes_a_result ollama (agentAnswering "ok" 1000)
           sampleBlock sampleWorld "offline").
  - discriminate.
  - vm_compute. reflexivity.
  - reflexivity.
Defined.

Lemma X5_sample_successful_compression :
  exists r w',
    CompressionService.compressBlock ollama (streamAnswering ["Quarterly revenue up"])
      sampleBlock semantic sampleWorld = (Ok r, w') /\
    Types.success r = true /\
    Types.originalTokens r = 200 /\
    Types.compressedTokens r = 5 /\
    Types.tokensSaved r = 195 /\
    17 <= Types.tokensSaved r.
Proof.
  eexists _, _. split; [vm_compute; reflexivity |].
  split; [reflexivity |]. split; [reflexivity |]. split; [reflexivity |].
  split; [reflexivity |].
  refine (proj2 (proj2 (proj2 (proj2 (proj2 (proj2 (proj2 (proj2 (proj2 (proj2 (proj2
    (X5_successful_result_is_well_formed ollama
       (streamAnswering ["Quarterly revenue up"]) sampleBlock semantic sampleWorld
       _ _ _ _)))))))))))).
  - vm_compute. reflexivity.
  - reflexivity.
Defined.

(** ** The actions of the server *)

Lemma newEvents_logged (w : World) (e : Event) : newEvents w (logged w e) = [e].
Proof. apply (newEvents_app w (store w) [e]). Qed.

Lemma newEvents_logged2 (w : World) (s : gmap N Doc) (e1 e2 : Event) :
  newEvents w (mkWorld s (trace (logged w e1) ++ [e2])) = [e1; e2].
Proof.
  unfold logged. simpl. rewrite <- app_assoc. apply (newEvents_app w s [e1; e2]).
Qed.

Lemma estimate_positive (s : string) : s <> "" -> 1 <= Tokenizer.estimateTokens s.
Proof.
  intros H. pose proof (estimateTokens_nonneg s).
  destruct (Z.eq_dec (Tokenizer.estimateTokens s) 0) as [E | E]; [| lia].
  rewrite estimateTokens_closed in E.
  pose proof (len_nonneg s). pose proof (len_zero_empty s) as Hz.
  apply Z.div_small_iff in E; [| lia].
  assert (Js.len s = 0) by lia. tauto.
Qed.

Lemma raceWithTimeout_ok_inv (env : Env) (prompt text : string) (w w1 : World) :
  Compression.raceWithTimeout env prompt w = (Ok text, w1) ->
  answersInTime (claudeQuery env prompt) text.
Proof.
  unfold Compression.raceWithTimeout, bind, emit.
  destruct (claudeQuery env prompt) as [elapsed messages | elapsed message |];
    try discriminate.
  - destruct (Z.ltb_spec elapsed Compression.timeoutMs); [| discriminate].
    intros [= <- _]. exists elapsed, messages. repeat split. assumption.
  - destruct (elapsed <? Compression.timeoutMs); discriminate.
Qed.

Lemma raceWithTimeout_throws (env : Env) (prompt message : string) (elapsed : Z)
    (w : World) :
  claudeQuery env prompt = RunThrows elapsed message ->
  elapsed < Compression.timeoutMs ->
  Compression.raceWithTimeout env prompt w
  = (Err (Thrown message), logged w (EvClaudeQuery prompt)).
Proof.
  intros Hq Ht. unfold Compression.raceWithTimeout, bind, emit. rewrite Hq.
  destruct (Z.ltb_spec elapsed Compression.timeoutMs); [reflexivity | lia].
Qed.

(** X10.  The outcomes of the single-block action.  It returns only after
    the agent has answered in time and the mutation [blocks.compress] has
    committed: then exactly these two calls were made, the result has
    [success: true] and carries the counts sent to the mutation, the
    original count is at least 100, the compressed one at least 1, and at
    least 17 tokens are saved.  It throws "Block not found" and the two
    validation errors without any call; every other error is thrown as
    "Claude Code compression failed: ..." after the call of the agent, a
    mutation was attempted only if the cause is its own error, and the
    table is as before. *)
Theorem X10_outcomes_of_the_single_block_action
    (env : Env) (blockId : BlockId) (strategy : string) (w : World) :
  match Compression.compressWithClaudeCode env blockId strategy w with
  | (Ok r, w') =>
      exists block text,
        store w !! blockId = Some block /\
        answersInTime (claudeQuery env (promptFor block strategy)) text /\
        let args := compressArgsFor blockId block strategy text in
        newEvents w w' = [EvClaudeQuery (promptFor block strategy); EvCompress args] /\
        compressMutation env args (store w) = Returns (store w') /\
        r = Compression.mkSingleResult true blockId (ca_originalTokens args)
              (ca_compressedTokens args) (ca_compressionRatio args)
              (ca_originalTokens args - ca_compressedTokens args) /\
        ca_originalTokens args = tokenCount (tokens block) (content block) /\
        100 <= ca_originalTokens args /\
        1 <= ca_compressedTokens args /\
        6 * ca_compressedTokens args <= 5 * ca_originalTokens args /\
        17 <= Compression.s_tokensSaved r
  | (Err e, w') =>
      store w' = store w /\
      match e with
      | BlockNotFound => store w !! blockId = None /\ w' = w
      | TooFewTokens _ | NoContent =>
          (exists block, store w !! blockId = Some block) /\ w' = w
      | ClaudeCodeFailed cause =>
          exists block,
            store w !! blockId = Some block /\
            (newEvents w w' = [EvClaudeQuery (promptFor block strategy)] \/
             exists args message,
               cause = Thrown message /\
               compressMutation env args (store w) = Throws message /\
               newEvents w w'
               = [EvClaudeQuery (promptFor block strategy); EvCompress args])
      | _ => False
      end
  end.
Proof.
  unfold Compression.compressWithClaudeCode.
  unfold bind at 1. unfold Blocks.get.
  destruct (store w !! blockId) as [block |] eqn:Hget;
    [| split; [reflexivity | split; reflexivity]].
  change (orElse (tokens block) (Compression.estimateTokens (content block)))
    with (tokenCount (tokens block) (content block)).
  destruct (Z.ltb_spec (tokenCount (tokens block) (content block)) 100) as [| Htok];
    [split; [reflexivity | split; [now exists block | reflexivity]] |].
  destruct (Js.isEmpty (content block) || _);
    [split; [reflexivity | split; [now exists block | reflexivity]] |].
  unfold tryCatch, bind.
  fold (promptFor block strategy).
  destruct (Compression.raceWithTimeout env _ w) as [[text | e] w1] eqn:Hrace;
    pose proof (raceWithTimeout_world _ _ _ _ _ Hrace) as Hw; subst w1.
  2:{ split; [reflexivity |]. exists block. split; [reflexivity |].
      left. apply newEvents_logged. }
  destruct (Js.isEmpty (Js.trim text)) eqn:Hempty.
  { split; [reflexivity |]. exists block. split; [reflexivity |].
    left. apply newEvents_logged. }
  change (Compression.estimateTokens (Js.trim text))
    with (Tokenizer.estimateTokens (Js.trim text)).
  destruct (Js.lt _ _) eqn:Hlt.
  { split; [reflexivity |]. exists block. split; [reflexivity |].
    left. apply newEvents_logged. }
  unfold Blocks.runCompress. simpl store.
  fold (compressArgsFor blockId block strategy text).
  destruct (compressMutation env _ _) as [s' | message] eqn:E.
  - exists block, text. split; [reflexivity |].
    split; [exact (raceWithTimeout_ok_inv _ _ _ _ _ Hrace) |]. cbv zeta.
    split; [apply newEvents_logged2 |]. split; [exact E |].
    split; [reflexivity |]. split; [reflexivity |].
    unfold compressArgsFor. cbv zeta. simpl.
    assert (Hc : 1 <= Tokenizer.estimateTokens (Js.trim text)).
    { apply estimate_positive. intros Ht. rewrite Ht in Hempty. discriminate. }
    assert (Hc0 : 0 <= Tokenizer.estimateTokens (Js.trim text)) by lia.
    pose proof (not_below_means_ratio _ _ Htok Hc0 Hlt).
    repeat split; lia.
  - split; [reflexivity |]. exists block. split; [reflexivity |].
    right. exists (compressArgsFor blockId block strategy text), message.
    split; [reflexivity |]. split; [exact E | apply newEvents_logged2].
Qed.

Lemma some_missing (w : World) (blockIds : list BlockId) :
  existsb (fun b : option Doc => negb (bool_decide (is_Some b)))
    (List.map (fun blockId => store w !! blockId) blockIds) = true
  <-> exists blockId, In blockId blockIds /\ store w !! blockId = None.
Proof.
  rewrite existsb_exists. split.
  - intros (b & Hb & Hn). apply in_map_iff in Hb as (i & <- & Hi).
    exists i. split; [exact Hi |].
    destruct (store w !! i); [| reflexivity].
    rewrite bool_decide_eq_true_2 in Hn by eauto. discriminate.
  - intros (i & Hi & Hn). exists (store w !! i). split.
    + apply in_map_iff. now exists i.
    + rewrite Hn. rewrite bool_decide_eq_false_2; [reflexivity |].
      intros [x Hx]. discriminate.
Qed.

(** X11.  The outcomes of the merge action.  It throws "One or more
    blocks not found" when an id is missing and "Combined blocks have only
    N tokens" when the counts of the blocks add up to less than 100, both
    without any call; otherwise it calls the agent once and throws every
    failure as "Claude Code compression failed: ...".  It returns only
    when the agent has answered in time with a text that is not blank and
    that passes the ratio gate; the result has [success: true] and the
    trimmed text.  The action itself never runs a mutation: the table is
    as before in every case. *)
Theorem X11_outcomes_of_the_merge_action
    (env : Env) (blockIds : list BlockId) (strategy : string) (w : World) :
  let docs := docsOf w blockIds in
  let query := EvClaudeQuery (mergePromptFor docs strategy) in
  match Compression.compressAndMergeWithClaudeCode env blockIds strategy w with
  | (Ok r, w') =>
      (forall blockId, In blockId blockIds -> is_Some (store w !! blockId)) /\
      w' = logged w query /\
      exists text,
        answersInTime (claudeQuery env (mergePromptFor docs strategy)) text /\
        let compressedTokens := Tokenizer.estimateTokens (Js.trim text) in
        r = Compression.mkMergeResult true (Js.trim text) (totalTokens docs)
              compressedTokens (Js.div (totalTokens docs) compressedTokens)
              (totalTokens docs - compressedTokens) /\
        100 <= totalTokens docs /\
        1 <= compressedTokens /\
        6 * compressedTokens <= 5 * totalTokens docs
  | (Err e, w') =>
      match e with
      | BlocksNotFound =>
          (exists blockId, In blockId blockIds /\ store w !! blockId = None) /\ w' = w
      | CombinedTooFewTokens n =>
          (forall blockId, In blockId blockIds -> is_Some (store w !! blockId)) /\
          n = totalTokens docs /\ n < 100 /\ w' = w
      | ClaudeCodeFailed cause =>
          (forall blockId, In blockId blockIds -> is_Some (store w !! blockId)) /\
          100 <= totalTokens docs /\
          w' = logged w query
      | _ => False
      end
  end.
Proof.
  cbv zeta.
  unfold Compression.compressAndMergeWithClaudeCode.
  unfold bind at 1.
  destruct (existsb _ _) eqn:Hmiss.
  - apply some_missing in Hmiss. split; [exact Hmiss | reflexivity].
  - assert (Hall : forall blockId, In blockId blockIds -> is_Some (store w !! blockId)).
    { intros i Hi. destruct (store w !! i) eqn:E; [eauto |].
      assert (existsb (fun b : option Doc => negb (bool_decide (is_Some b)))
                (List.map (fun blockId => store w !! blockId) blockIds) = true) as C
        by (apply some_missing; eauto).
      congruence. }
    fold (docsOf w blockIds). fold (totalTokens (docsOf w blockIds)).
    destruct (Z.ltb_spec (totalTokens (docsOf w blockIds)) 100) as [Hlow | Htok].
    + repeat split; [exact Hall | exact Hlow].
    + unfold tryCatch, bind.
      fold (mergePromptFor (docsOf w blockIds) strategy).
      destruct (Compression.raceWithTimeout env _ w) as [[text | e] w1] eqn:Hrace;
        pose proof (raceWithTimeout_world _ _ _ _ _ Hrace) as Hw; subst w1.
      2:{ repeat split; [exact Hall | exact Htok]. }
      destruct (Js.isEmpty (Js.trim text)) eqn:Hempty.
      { repeat split; [exact Hall | exact Htok]. }
      change (Compression.estimateTokens (Js.trim text))
        with (Tokenizer.estimateTokens (Js.trim text)).
      destruct (Js.lt _ _) eqn:Hlt.
      { repeat split; [exact Hall | exact Htok]. }
      split; [exact Hall |]. split; [reflexivity |].
      exists text.
      assert (Hc : 1 <= Tokenizer.estimateTokens (Js.trim text)).
      { apply estimate_positive. intros Ht. rewrite Ht in Hempty. discriminate. }
      assert (Hc0 : 0 <= Tokenizer.estimateTokens (Js.trim text)) by lia.
      pose proof (not_below_means_ratio _ _ Htok Hc0 Hlt) as [H6 _].
      split; [exact (raceWithTimeout_ok_inv _ _ _ _ _ Hrace) |].
      cbv zeta; repeat split; assumption.
Qed.

Lemma compressSingle_server_error (env : Env) (block : CompressionService.Block)
    (strategy : Strategy) (w w' : World) (e : Error) :
  Compression.compressWithClaudeCode env (CompressionService._id block)
    (strategyName strategy) w = (Err e, w') ->
  UseCompression.compressSingle claude_code env block strategy w
  = (UseCompression.mkHookState false (Some e) None, w').
Proof.
  intros H. unfold UseCompression.compressSingle, UseCompression.settle, bind.
  rewrite H. reflexivity.
Qed.

(** X12.  When the agent fails before the deadline, because the SDK throws
    or because its answer is empty or white space only ("Claude Code
    returned empty response"), the single-block action throws "Claude Code
    compression failed: ..." with that cause after the one call of the
    agent; no mutation runs, and the hook reports the error. *)
Theorem X12_agent_failure_in_time
    (env : Env) (block : CompressionService.Block) (strategy : Strategy)
    (w : World) (doc : Doc) (cause : Error) :
  store w !! CompressionService._id block = Some doc ->
  100 <= tokenCount (tokens doc) (content doc) ->
  isBlank (content doc) = false ->
  failsInTime (claudeQuery env (promptFor doc (strategyName strategy))) cause ->
  let w' := logged w (EvClaudeQuery (promptFor doc (strategyName strategy))) in
  Compression.compressWithClaudeCode env (CompressionService._id block)
    (strategyName strategy) w
  = (Err (ClaudeCodeFailed cause), w')
  /\ UseCompression.compressSingle claude_code env block strategy w
     = (UseCompression.mkHookState false (Some (ClaudeCodeFailed cause)) None, w').
Proof.
  intros Hget Htok Hblank Hfail. cbv zeta.
  assert (Hrun :
            Compression.compressWithClaudeCode env (CompressionService._id block)
              (strategyName strategy) w
            = (Err (ClaudeCodeFailed cause),
               logged w (EvClaudeQuery (promptFor doc (strategyName strategy))))).
  { rewrite (compressWithClaudeCode_valid _ _ _ _ _ Hget Htok Hblank). cbv zeta.
    unfold tryCatch, bind.
    destruct Hfail as [(elapsed & message & Hq & Ht & ->) | (text & Hq & Hb & ->)].
    - rewrite (raceWithTimeout_throws _ _ _ _ _ Hq Ht). reflexivity.
    - rewrite (raceWithTimeout_in_time _ _ _ _ Hq).
      rewrite (trim_blank _ Hb). reflexivity. }
  split; [exact Hrun |].
  exact (compressSingle_server_error _ _ _ _ _ _ Hrun).
Qed.

Lemma X12_sample_blank_answer_of_the_agent :
  Compression.compressWithClaudeCode (agentAnswering "  " 1000) 7%N "semantic" sampleWorld
  = (Err (ClaudeCodeFailed EmptyResponse),
     logged sampleWorld (EvClaudeQuery (promptFor sampleDoc "semantic")))
  /\ UseCompression.compressSingle claude_code (agentAnswering "  " 1000) sampleBlock
       semantic sampleWorld
     = (UseCompression.mkHookState false (Some (ClaudeCodeFailed EmptyResponse)) None,
        logged sampleWorld (EvClaudeQuery (promptFor sampleDoc "semantic"))).
Proof.
  apply (X12_agent_failure_in_time (agentAnswering "  " 1000) sampleBlock semantic
           sampleWorld sampleDoc EmptyResponse).
  - reflexivity.
  - vm_compute. discriminate.
  - reflexivity.
  - right. exists "  ". split; [| split; reflexivity].
    exists 1000, [AssistantMessage (Some [TextPart "  "]); ResultMessage].
    split; [reflexivity |]. split; [reflexivity | reflexivity].
Defined.

(** ** The hook *)

Ltac innermost :=
  match goal with
  | |- context [match ?x with _ => _ end] =>
      lazymatch x with
      | context [match _ with _ => _ end] => fail
      | _ => destruct x eqn:?
      end
  end.


Lemma compressContent_trace (provider : Provider) (env : Env)
    (content : string) (strategy : Strategy) (contentType : string)
    (w w' : World) (r : result string) :
  CompressionService.compressContent provider env content strategy contentType w = (r, w') ->
  w' = w \/
  (provider <> claude_code /\
   w' = logged w (EvStreamChat provider (clientPrompt content contentType))).
Proof.
  rewrite compressContent_cases. unfold streamedAnswer.
  destruct strategy; [destruct provider |..]; cbv zeta;
    try destruct (streamChat env _ _); intros [= <- <-];
    first [ left; reflexivity | right; split; [discriminate | reflexivity] ].
Qed.

Lemma compressBlock_trace (provider : Provider) (env : Env)
    (block : CompressionService.Block) (strategy : Strategy)
    (w w' : World) (r : result Types.CompressionResult) :
  CompressionService.compressBlock provider env block strategy w = (r, w') ->
  w' = w \/
  (provider <> claude_code /\
   w' = logged w
          (EvStreamChat provider
             (clientPrompt (CompressionService.content block)
                (CompressionService.type block)))).
Proof.
  unfold CompressionService.compressBlock.
  destruct (negb _).
  - intros [= <- <-]. now left.
  - unfold tryCatch, bind.
    destruct (CompressionService.compressContent _ _ _ _ _ w) as [[c | e] w1] eqn:Hc;
      apply compressContent_trace in Hc.
    + unfold ret. repeat innermost; intros [= <- <-]; exact Hc.
    + unfold ret. intros [= <- <-]; exact Hc.
Qed.


Lemma combine_nonempty (blocks : list (string * string)) :
  blocks <> [] -> combine blocks <> "".
Proof.
  destruct blocks as [| [t c] rest]; [congruence |]. intros _.
  unfold combine, Js.join. simpl imap.
  destruct rest as [| [t' c'] rest]; simpl; discriminate.
Qed.

Lemma compressText_cases (provider : Provider) (env : Env)
    (content : string) (strategy : Strategy) (contentType : string) (w : World) :
  CompressionService.compressText provider env content strategy contentType w =
  match CompressionService.compressContent provider env content strategy contentType w with
  | (Ok compressedContent, w1) =>
      (Ok (CompressionService.mkTextResult compressedContent
             (Tokenizer.estimateTokens content)
             (Tokenizer.estimateTokens compressedContent)
             (Js.div (Tokenizer.estimateTokens content)
                (Tokenizer.estimateTokens compressedContent))), w1)
  | (Err e, w1) => (Err e, w1)
  end.
Proof. reflexivity. Qed.

(** X13.  The merge on the client has one gate only.  With a chat
    provider, a list of blocks that is not empty and the strategy
    "semantic" (the default), the combined text is sent to the chat client
    whatever its size; when the ratio of the two estimates is below 1.2 the
    hook reports it and stops, otherwise the mutation
    [blocks.compressAndMerge] is called with the ids in their order, the
    trimmed answer, the two estimates, the ratio and target position 0, and
    the hook reports the outcome of the mutation.  A blank answer gives 0
    compressed tokens and the ratio [Infinity], which passes the gate: the
    mutation is called with an empty content. *)
Theorem X13_merge_on_the_client
    (provider : Provider) (env : Env) (blocks : list CompressionService.Block)
    (options : UseCompression.MergeOptions) (previous : UseCompression.HookState)
    (w : World) (chunks : list string) :
  provider <> claude_code ->
  blocks <> [] ->
  UseCompression.strategy options = None
  \/ UseCompression.strategy options = Some semantic ->
  let combined :=
    combine
      (List.map (fun b => (CompressionService.type b, CompressionService.content b))
         blocks) in
  let call := EvStreamChat provider (clientPrompt combined "merged_blocks") in
  streamChat env provider (clientPrompt combined "merged_blocks") = Returns chunks ->
  let text := Js.trim (streamed chunks) in
  let originalTokens := Tokenizer.estimateTokens combined in
  let compressedTokens := Tokenizer.estimateTokens text in
  let ratio := Js.div originalTokens compressedTokens in
  let args :=
    mkMergeArgs (List.map CompressionService._id blocks) text originalTokens
      compressedTokens ratio "semantic"
      (UseCompression.targetZone options) (UseCompression.targetType options) 0 in
  let run := UseCompression.compressAndMerge provider env blocks options previous w in
  1 <= originalTokens /\
  (Js.lt ratio 1.2%Q = true ->
   run = (UseCompression.mkHookState false (Some (RatioBelowMinimum ratio)) None,
          logged w call)) /\
  (Js.lt ratio 1.2%Q = false ->
   newEvents w (snd run) = [call; EvCompressAndMerge args] /\
   match compressAndMergeMutation env args (store w) with
   | Returns (newBlockId, s') =>
       fst run
       = UseCompression.mkHookState false None
           (Some (Types.mkResult true None (Some newBlockId) None
                    originalTokens compressedTokens ratio
                    (originalTokens - compressedTokens) None semantic (Some provider)))
       /\ store (snd run) = s'
   | Throws message =>
       fst run = UseCompression.mkHookState false (Some (Thrown message)) None
       /\ store (snd run) = store w
   end) /\
  (isBlank (streamed chunks) = true ->
   text = "" /\ compressedTokens = 0 /\ ratio = Js.JPosInf /\
   Js.lt ratio 1.2%Q = false).
Proof.
  intros Hp Hb Hs combined call Hstream text originalTokens compressedTokens ratio
    args run.
  assert (Ho : 1 <= originalTokens).
  { apply estimate_positive. apply combine_nonempty.
    destruct blocks; [congruence | discriminate]. }
  assert (Hrun :
            run =
            UseCompression.settle
              (if Js.lt ratio 1.2%Q then throw (RatioBelowMinimum ratio)
               else
                 await newBlockId := Blocks.runCompressAndMerge env args in
                 ret (Types.mkResult true None (Some newBlockId) None
                        originalTokens compressedTokens ratio
                        (originalTokens - compressedTokens) None semantic
                        (Some provider)))
              (logged w call)).
  { unfold run, UseCompression.compressAndMerge.
    destruct blocks as [| b blocks']; [congruence |].
    change (length (b :: blocks') =? 0)%nat with false. cbv iota.
    assert (Hstrat : match UseCompression.strategy options with
                     | Some s => s
                     | None => semantic
                     end = semantic) by (destruct Hs as [-> | ->]; reflexivity).
    rewrite Hstrat.
    unfold UseCompression.settle. unfold bind at 1.
    assert (Hc : CompressionService.compressText provider env combined semantic
                   "merged_blocks" w
                 = (Ok (CompressionService.mkTextResult text originalTokens
                          compressedTokens ratio), logged w call)).
    { rewrite compressText_cases.
      rewrite (compressContent_streamed _ _ _ _ _ _ Hp Hstream). reflexivity. }
    destruct provider; [| | congruence]; fold combined; rewrite Hc; reflexivity. }
  split; [exact Ho |]. split; [| split].
  - intros Hlt. rewrite Hrun. unfold UseCompression.settle. rewrite Hlt. reflexivity.
  - intros Hlt. rewrite Hrun. unfold UseCompression.settle. rewrite Hlt.
    unfold bind, Blocks.runCompressAndMerge. simpl store.
    destruct (compressAndMergeMutation env args (store w)) as [[newBlockId s'] | message];
      simpl; (split; [apply newEvents_logged2 | split; reflexivity]).
  - intros Hblank. unfold ratio, compressedTokens, text.
    rewrite (trim_blank _ Hblank).
    change (Tokenizer.estimateTokens "") with 0.
    rewrite div_by_zero by lia. repeat split.
Qed.

Lemma X13_sample_blank_answer_to_a_merge :
  let blocks := [sampleBlock; plainBlock] in
  let options := UseCompression.mkMergeOptions None "WORKING" "note" in
  let env := streamAnswering ["  "] in
  let combined :=
    combine
      (List.map (fun b => (CompressionService.type b, CompressionService.content b))
         blocks) in
  let call := EvStreamChat ollama (clientPrompt combined "merged_blocks") in
  let text := Js.trim (streamed ["  "]) in
  let originalTokens := Tokenizer.estimateTokens combined in
  let compressedTokens := Tokenizer.estimateTokens text in
  let ratio := Js.div originalTokens compressedTokens in
  let args :=
    mkMergeArgs (List.map CompressionService._id blocks) text originalTokens
      compressedTokens ratio "semantic"
      (UseCompression.targetZone options) (UseCompression.targetType options) 0 in
  let run :=
    UseCompression.compressAndMerge ollama env blocks options UseCompression.initial
      sampleWorld in
  1 <= originalTokens /\
  (Js.lt ratio 1.2%Q = true ->
   run = (UseCompression.mkHookState false (Some (RatioBelowMinimum ratio)) None,
          logged sampleWorld call)) /\
  (Js.lt ratio 1.2%Q = false ->
   newEvents sampleWorld (snd run) = [call; EvCompressAndMerge args] /\
   match compressAndMergeMutation env args (store sampleWorld) with
   | Returns (newBlockId, s') =>
       fst run
       = UseCompression.mkHookState false None
           (Some (Types.mkResult true None (Some newBlockId) None
                    originalTokens compressedTokens ratio
                    (originalTokens - compressedTokens) None semantic (Some ollama)))
       /\ store (snd run) = s'
   | Throws message =>
       fst run = UseCompression.mkHookState false (Some (Thrown message)) None
       /\ store (snd run) = store sampleWorld
   end) /\
  (isBlank (streamed ["  "]) = true ->
   text = "" /\ compressedTokens = 0 /\ ratio = Js.JPosInf /\
   Js.lt ratio 1.2%Q = false).
Proof.
  apply (X13_merge_on_the_client ollama (streamAnswering ["  "])
           [sampleBlock; plainBlock]
           (UseCompression.mkMergeOptions None "WORKING" "note")
           UseCompression.initial sampleWorld ["  "]).
  - discriminate.
  - discriminate.
  - left. reflexivity.
  - reflexivity.
Defined.

Lemma extends_newEvents (w w' : World) (evs : list Event) :
  extends w w' evs -> newEvents w w' = evs.
Proof. unfold extends, newEvents. intros ->. apply drop_app_length. Qed.

Lemma extends_same (w : World) : extends w w [].
Proof. unfold extends. now rewrite app_nil_r. Qed.

Lemma extends_logged (w : World) (e : Event) : extends w (logged w e) [e].
Proof. reflexivity. Qed.

Lemma extends_logged2 (w : World) (s : gmap N Doc) (e1 e2 : Event) :
  extends w (mkWorld s (trace (logged w e1) ++ [e2])) [e1; e2].
Proof. unfold extends, logged. simpl. now rewrite <- app_assoc. Qed.

Lemma single_action_trace (env : Env) (blockId : BlockId) (strategy : string)
    (w w' : World) (r : result Compression.SingleResult) :
  Compression.compressWithClaudeCode env blockId strategy w = (r, w') ->
  (extends w w' [] /\ isErr r = true) \/
  (exists prompt, extends w w' [EvClaudeQuery prompt] /\ isErr r = true) \/
  (exists prompt args, extends w w' [EvClaudeQuery prompt; EvCompress args]).
Proof.
  unfold Compression.compressWithClaudeCode.
  unfold bind at 1. unfold Blocks.get.
  destruct (store w !! blockId) as [block |];
    [| intros [= <- <-]; left; split; [apply extends_same | reflexivity]].
  destruct (_ <? 100);
    [intros [= <- <-]; left; split; [apply extends_same | reflexivity] |].
  destruct (Js.isEmpty (content block) || _);
    [intros [= <- <-]; left; split; [apply extends_same | reflexivity] |].
  unfold tryCatch, bind.
  destruct (Compression.raceWithTimeout env _ w) as [[text | e] w1] eqn:Hrace;
    pose proof (raceWithTimeout_world _ _ _ _ _ Hrace) as Hw; subst w1.
  2:{ intros [= <- <-]. right; left. eexists. split; [apply extends_logged | reflexivity]. }
  destruct (Js.isEmpty (Js.trim text)).
  { intros [= <- <-]. right; left. eexists. split; [apply extends_logged | reflexivity]. }
  destruct (Js.lt _ _).
  { intros [= <- <-]. right; left. eexists. split; [apply extends_logged | reflexivity]. }
  unfold Blocks.runCompress. simpl store.
  destruct (compressMutation env _ _) as [s' | message];
    intros [= <- <-]; right; right; eexists _, _; apply extends_logged2.
Qed.

Lemma merge_action_trace (env : Env) (blockIds : list BlockId) (strategy : string)
    (w w' : World) (r : result Compression.MergeResult) :
  Compression.compressAndMergeWithClaudeCode env blockIds strategy w = (r, w') ->
  match r with
  | Ok r =>
      Compression.m_success r = true /\
      Js.lt (Compression.m_compressionRatio r) 1.2%Q = false /\
      exists prompt, w' = logged w (EvClaudeQuery prompt)
  | Err e =>
      e <> ActionFailed /\ (forall x, e <> RatioBelowMinimum x) /\
      (w' = w \/ exists prompt, w' = logged w (EvClaudeQuery prompt))
  end.
Proof.
  unfold Compression.compressAndMergeWithClaudeCode.
  unfold bind at 1.
  destruct (existsb _ _);
    [intros [= <- <-]; split; [discriminate | split; [discriminate | now left]] |].
  destruct (_ <? 100);
    [intros [= <- <-]; split; [discriminate | split; [discriminate | now left]] |].
  unfold tryCatch, bind.
  destruct (Compression.raceWithTimeout env _ w) as [[text | e] w1] eqn:Hrace;
    pose proof (raceWithTimeout_world _ _ _ _ _ Hrace) as Hw; subst w1.
  2:{ intros [= <- <-]. split; [discriminate | split; [discriminate | right; eauto]]. }
  destruct (Js.isEmpty (Js.trim text)).
  { intros [= <- <-]. split; [discriminate | split; [discriminate | right; eauto]]. }
  destruct (Js.lt _ _) eqn:Hlt.
  { intros [= <- <-]. split; [discriminate | split; [discriminate | right; eauto]]. }
  intros [= <- <-]. split; [reflexivity |]. split; [exact Hlt | eauto].
Qed.

Lemma compressBlock_success_trace (provider : Provider) (env : Env)
    (block : CompressionService.Block) (strategy : Strategy)
    (w w' : World) (r : Types.CompressionResult) :
  CompressionService.compressBlock provider env block strategy w = (Ok r, w') ->
  Types.success r = true ->
  provider <> claude_code /\
  w' = logged w
         (EvStreamChat provider
            (clientPrompt (CompressionService.content block)
               (CompressionService.type block))).
Proof.
  intros Hrun Hsucc.
  destruct (CompressionService.valid (CompressionService.validateBlock block)) eqn:Hv.
  2: { unfold CompressionService.compressBlock in Hrun. rewrite Hv in Hrun.
       injection Hrun as <- <-. discriminate Hsucc. }
  destruct (CompressionService.compressContent provider env
              (CompressionService.content block) strategy
              (CompressionService.type block) w) as [[cc | e] w1] eqn:Hc.
  2: { rewrite (compressBlock_thrown _ _ _ _ _ _ _ Hv Hc) in Hrun.
       injection Hrun as <- <-. discriminate Hsucc. }
  destruct (compressContent_ok_inv _ _ _ _ _ _ _ _ Hc) as (_ & Hp & Hw & _).
  rewrite (compressBlock_scored _ _ _ _ _ _ _ Hv Hc) in Hrun.
  injection Hrun as _ <-. now split.
Qed.

Lemma callOf_stream (provider : Provider) (prompt : string) :
  provider <> claude_code -> callOf provider (EvStreamChat provider prompt) = true.
Proof. destruct provider; [reflexivity | reflexivity | congruence]. Qed.

Lemma provider_cases (provider : Provider) :
  provider = claude_code \/ provider <> claude_code.
Proof. destruct provider; (now left) || (right; discriminate). Qed.


Lemma attempt_none (provider : Provider) (w : World) (e : Error) (P : list Event -> Prop) :
  exists evs, extends w w evs /\ oneAttempt provider evs /\ (Some e = None -> P evs).
Proof.
  exists []. split; [apply extends_same |]. split; [now left | discriminate].
Qed.

Lemma attempt_call (provider : Provider) (w : World) (call : Event) (e : Error)
    (P : list Event -> Prop) :
  callOf provider call = true ->
  exists evs,
    extends w (logged w call) evs /\ oneAttempt provider evs /\ (Some e = None -> P evs).
Proof.
  intros H. exists [call]. split; [apply extends_logged |].
  split; [right; left; eexists; now split | discriminate].
Qed.

Lemma compressSingle_attempt (provider : Provider) (env : Env)
    (block : CompressionService.Block) (strategy : Strategy) (w w' : World)
    (h : UseCompression.HookState) :
  UseCompression.compressSingle provider env block strategy w = (h, w') ->
  exists evs,
    extends w w' evs /\ oneAttempt provider evs /\
    (UseCompression.error h = None -> exists call args, evs = [call; EvCompress args]).
Proof.
  destruct (provider_cases provider) as [-> | Hp].
  - unfold UseCompression.compressSingle, UseCompression.settle, bind.
    destruct (Compression.compressWithClaudeCode env _ _ w) as [[r | e] w1] eqn:Hrun;
      apply single_action_trace in Hrun
        as [[He Herr] | [(p & He & Herr) | (p & args & He)]];
      try discriminate Herr; intros [= <- <-]; eexists; (split; [exact He |]); simpl.
    + split; [right; right; eexists _, _; now repeat split | eauto].
    + split; [now left | discriminate].
    + split; [right; left; eexists; now split | discriminate].
    + split; [right; right; eexists _, _; now repeat split | discriminate].
  - destruct (compressBlock_returns provider env block strategy w)
      as (r & w1 & Hrun & _).
    rewrite (compressSingle_client _ _ _ _ _ _ _ Hp Hrun).
    destruct (Types.success r) eqn:Hsucc.
    + destruct (compressBlock_success_trace _ _ _ _ _ _ _ Hrun Hsucc) as [_ ->].
      unfold UseCompression.settle, bind, Blocks.runCompress.
      destruct (compressMutation env _ _) as [s' | message];
        intros [= <- <-]; eexists; (split; [apply extends_logged2 |]); simpl;
        (split; [right; right; eexists _, _;
                 split; [reflexivity | split; [now apply callOf_stream | reflexivity]] |]);
        [eauto | discriminate].
    + intros [= <- <-].
      apply compressBlock_trace in Hrun as [-> | [_ ->]].
      * apply attempt_none.
      * apply attempt_call. now apply callOf_stream.
Qed.

Lemma merge_step (provider : Provider) (env : Env) (args : MergeArgs)
    (r : BlockId -> Types.CompressionResult) (ratio : Js.jsnum)
    (w w' : World) (call : Event) (h : UseCompression.HookState) :
  callOf provider call = true ->
  UseCompression.settle
    (if Js.lt ratio 1.2%Q then throw (RatioBelowMinimum ratio)
     else await newBlockId := Blocks.runCompressAndMerge env args in ret (r newBlockId))
    (logged w call) = (h, w') ->
  exists evs,
    extends w w' evs /\ oneAttempt provider evs /\
    (UseCompression.error h = None ->
     exists call args, evs = [call; EvCompressAndMerge args]).
Proof.
  intros Hcall. unfold UseCompression.settle.
  destruct (Js.lt _ _).
  - intros [= <- <-]. now apply attempt_call.
  - unfold bind, Blocks.runCompressAndMerge.
    destruct (compressAndMergeMutation env _ _) as [[newBlockId s'] | message];
      intros [= <- <-]; eexists; (split; [apply extends_logged2 |]); simpl;
      (split; [right; right; eexists _, _; now repeat split |]);
      [eauto | discriminate].
Qed.

Lemma compressAndMerge_attempt (provider : Provider) (env : Env)
    (blocks : list CompressionService.Block) (options : UseCompression.MergeOptions)
    (previous : UseCompression.HookState) (w w' : World)
    (h : UseCompression.HookState) :
  UseCompression.compressAndMerge provider env blocks options previous w = (h, w') ->
  exists evs,
    extends w w' evs /\ oneAttempt provider evs /\
    (UseCompression.error h = None ->
     exists call args, evs = [call; EvCompressAndMerge args]).
Proof.
  unfold UseCompression.compressAndMerge.
  destruct (length blocks =? 0)%nat.
  { intros [= <- <-]. apply attempt_none. }
  set (strategy := match UseCompression.strategy options with
                   | Some s => s | None => semantic end).
  destruct (provider_cases provider) as [-> | Hp].
  - unfold UseCompression.settle at 1. unfold bind at 1 2.
    destruct (Compression.compressAndMergeWithClaudeCode env _ _ w)
      as [[r | e] w1] eqn:Hrun; apply merge_action_trace in Hrun.
    + destruct Hrun as (Hsucc & _ & prompt & ->). rewrite Hsucc.
      change (negb true) with false. cbv iota. unfold ret at 1.
      apply (merge_step claude_code env _
               (fun newBlockId => Types.mkResult true None (Some newBlockId) None _ _ _ _
                                    None strategy (Some claude_code))
               _ w w' (EvClaudeQuery prompt) h eq_refl).
    + destruct Hrun as (_ & _ & Hw). intros [= <- <-].
      destruct Hw as [-> | [prompt ->]]; [apply attempt_none | now apply attempt_call].
  - assert (Hclient :
              forall content,
                match provider with
                | claude_code =>
                    await actionResult :=
                      Compression.compressAndMergeWithClaudeCode env
                        (List.map CompressionService._id blocks)
                        (strategyName strategy) in
                    if negb (Compression.m_success actionResult) then throw ActionFailed
                    else
                      ret (CompressionService.mkTextResult
                             (Compression.m_compressedContent actionResult)
                             (Compression.m_originalTokens actionResult)
                             (Compression.m_compressedTokens actionResult)
                             (Compression.m_compressionRatio actionResult))
                | _ =>
                    CompressionService.compressText provider env content strategy
                      "merged_blocks"
                end
                = CompressionService.compressText provider env content strategy
                    "merged_blocks")
      by (intros content; destruct provider; [reflexivity | reflexivity | congruence]).
    rewrite Hclient.
    unfold UseCompression.settle at 1. unfold bind at 1.
    rewrite compressText_cases.
    destruct (CompressionService.compressContent provider env _ strategy _ w)
      as [[c | e] w1] eqn:Hc.
    + destruct (compressContent_ok_inv _ _ _ _ _ _ _ _ Hc) as (_ & _ & -> & _).
      apply (merge_step provider env _
               (fun newBlockId => Types.mkResult true None (Some newBlockId) None _ _ _ _
                                    None strategy (Some provider))
               _ w w' _ h (callOf_stream _ _ Hp)).
    + intros [= <- <-].
      apply compressContent_trace in Hc as [-> | [_ ->]];
        [apply attempt_none | apply attempt_call; now apply callOf_stream].
Qed.

(** X14.  One attempt per operation.  Whatever the provider, the
    collaborators and the table, [compressSingle] and [compressAndMerge]
    only add to the log of calls, and what they add is nothing, one call of
    the backend of the selected provider, or one such call followed by one
    mutation: there is no retry and no fall-back to another backend.  When
    the hook reports no error, the call was followed by the mutation
    ([blocks.compress], respectively [blocks.compressAndMerge]). *)
Theorem X14_one_attempt_per_operation (provider : Provider) (env : Env) (w : World) :
  (forall (block : CompressionService.Block) (strategy : Strategy),
      let run := UseCompression.compressSingle provider env block strategy w in
      trace (snd run) = trace w ++ newEvents w (snd run) /\
      oneAttempt provider (newEvents w (snd run)) /\
      (UseCompression.error (fst run) = None ->
       exists call args, newEvents w (snd run) = [call; EvCompress args])) /\
  (forall (blocks : list CompressionService.Block)
          (options : UseCompression.MergeOptions)
          (previous : UseCompression.HookState),
      let run :=
        UseCompression.compressAndMerge provider env blocks options previous w in
      trace (snd run) = trace w ++ newEvents w (snd run) /\
      oneAttempt provider (newEvents w (snd run)) /\
      (UseCompression.error (fst run) = None ->
       exists call args, newEvents w (snd run) = [call; EvCompressAndMerge args])).
Proof.
  split.
  - intros block strategy. cbv zeta.
    destruct (UseCompression.compressSingle provider env block strategy w)
      as [h w'] eqn:Hrun.
    destruct (compressSingle_attempt _ _ _ _ _ _ _ Hrun) as (evs & He & Ho & Hs).
    simpl fst; simpl snd. rewrite (extends_newEvents _ _ _ He).
    split; [exact He |]. split; assumption.
  - intros blocks options previous. cbv zeta.
    destruct (UseCompression.compressAndMerge provider env blocks options previous w)
      as [h w'] eqn:Hrun.
    destruct (compressAndMerge_attempt _ _ _ _ _ _ _ _ Hrun) as (evs & He & Ho & Hs).
    simpl fst; simpl snd. rewrite (extends_newEvents _ _ _ He).
    split; [exact He |]. split; assumption.
Qed.

Lemma server_merge_errors (env : Env)
    (blocks : list CompressionService.Block) (options : UseCompression.MergeOptions)
    (previous : UseCompression.HookState) (w w' : World)
    (h : UseCompression.HookState) :
  UseCompression.compressAndMerge claude_code env blocks options previous w = (h, w') ->
  UseCompression.error h <> Some ActionFailed /\
  (forall x, UseCompression.error h <> Some (RatioBelowMinimum x)).
Proof.
  unfold UseCompression.compressAndMerge.
  destruct (length blocks =? 0)%nat.
  { intros [= <- <-]. split; [discriminate | intros x; discriminate]. }
  unfold UseCompression.settle at 1. unfold bind at 1 2.
  destruct (Compression.compressAndMergeWithClaudeCode env _ _ w)
    as [[r | e] w1] eqn:Hrun; apply merge_action_trace in Hrun.
  - destruct Hrun as (Hsucc & Hlt & _). rewrite Hsucc.
    change (negb true) with false. cbv iota. unfold ret at 1.
    cbn [CompressionService.t_compressionRatio]. rewrite Hlt.
    unfold bind, Blocks.runCompressAndMerge.
    destruct (compressAndMergeMutation env _ _) as [[newBlockId s'] | message];
      intros [= <- <-]; split; try discriminate; intros x; discriminate.
  - destruct Hrun as (Ha & Hr & _). intros [= <- <-]. simpl.
    split; [congruence | intros x Hx; apply (Hr x); congruence].
Qed.

(** X15.  On the server path of [compressAndMerge] two checks of the hook
    never fire: the action returns only with [success: true] and a ratio
    that is not below 1.2, so the hook never reports "Compression action
    failed" nor a ratio below the minimum of its own (the action's ratio
    error arrives wrapped in "Claude Code compression failed: ...").  A
    result that the hook sets on this path has [success: true], the
    provider "claude-code" and no compressed content; with no block to
    merge the hook sets no result and the one of the previous operation
    stays. *)
Theorem X15_checks_of_the_hook_that_never_fire_on_the_server_path
    (env : Env) (blocks : list CompressionService.Block)
    (options : UseCompression.MergeOptions) (previous : UseCompression.HookState)
    (w : World) :
  let run :=
    UseCompression.compressAndMerge claude_code env blocks options previous w in
  UseCompression.error (fst run) <> Some ActionFailed /\
  (forall x, UseCompression.error (fst run) <> Some (RatioBelowMinimum x)) /\
  (blocks <> [] ->
   forall r, UseCompression.result (fst run) = Some r ->
             Types.success r = true /\
             Js.lt (Types.compressionRatio r) 1.2%Q = false /\
             Types.provider r = Some claude_code /\
             Types.compressedContent r = None) /\
  (blocks = [] ->
   UseCompression.result (fst run) = UseCompression.result previous /\
   UseCompression.isCompressing (fst run) = UseCompression.isCompressing previous).
Proof.
  cbv zeta.
  destruct (UseCompression.compressAndMerge claude_code env blocks options previous w)
    as [h w'] eqn:Hrun.
  destruct (server_merge_errors _ _ _ _ _ _ _ Hrun) as [Ha Hr].
  simpl fst. split; [exact Ha |]. split; [exact Hr |].
  split; [| intros ->; injection Hrun as <- _; split; reflexivity].
  intros Hne r Hres. revert Hrun.
  unfold UseCompression.compressAndMerge.
  destruct blocks as [| b blocks']; [congruence |].
  change (length (b :: blocks') =? 0)%nat with false. cbv iota.
  unfold UseCompression.settle at 1. unfold bind at 1 2.
  destruct (Compression.compressAndMergeWithClaudeCode env _ _ w)
    as [[r0 | e] w1] eqn:Hact; apply merge_action_trace in Hact.
  - destruct Hact as (Hsucc & Hlt & _). rewrite Hsucc.
    change (negb true) with false. cbv iota. unfold ret at 1.
    cbn [CompressionService.t_compressionRatio]. rewrite Hlt.
    unfold bind, Blocks.runCompressAndMerge.
    destruct (compressAndMergeMutation env _ _) as [[newBlockId s'] | message];
      intros [= <- <-]; [| discriminate Hres].
    injection Hres as <-. simpl. repeat split. exact Hlt.
  - intros [= <- <-]. discriminate Hres.
Qed.

(** ** The settings *)

Lemma getItem_setItem (storage : gmap string string) (key key' value : string) :
  Settings.getItem (Settings.setItem storage key value) key'
  = if String.eqb key key' then Some value else Settings.getItem storage key'.
Proof.
  unfold Settings.getItem, Settings.setItem.
  destruct (String.eqb_spec key key') as [-> | Hne].
  - apply lookup_insert_eq.
  - now apply lookup_insert_ne.
Qed.

Lemma getItem_removeItem (storage : gmap string string) (key key' : string) :
  Settings.getItem (Settings.removeItem storage key) key'
  = if String.eqb key key' then None else Settings.getItem storage key'.
Proof.
  unfold Settings.getItem, Settings.removeItem.
  destruct (String.eqb_spec key key') as [-> | Hne].
  - apply lookup_delete_eq.
  - now apply lookup_delete_ne.
Qed.

Lemma getItem_removeAll (keys : list string) (storage : gmap string string)
    (key : string) :
  Settings.getItem (fold_left Settings.removeItem keys storage) key
  = if existsb (String.eqb key) keys then None else Settings.getItem storage key.
Proof.
  revert storage. induction keys as [| k keys IH]; intros storage; [reflexivity |].
  cbn [fold_left existsb]. rewrite IH, getItem_removeItem.
  rewrite (String.eqb_sym key k).
  destruct (String.eqb k key); [| reflexivity].
  now destruct (existsb _ keys).
Qed.

Ltac settings_unfold :=
  unfold Settings.getAllSettings, Settings.openrouter_isConfigured,
    Settings.openrouter_getApiKey, Settings.openrouter_setApiKey,
    Settings.openrouter_clearApiKey, Settings.openrouter_getModel,
    Settings.openrouter_setModel, Settings.ollama_getUrl, Settings.ollama_setUrl,
    Settings.ollama_getModel, Settings.ollama_setModel,
    Settings.compression_getProvider, Settings.compression_setProvider,
    Settings.clearAllSettings;
  cbv zeta;
  rewrite ?getItem_setItem, ?getItem_removeItem, ?getItem_removeAll.

(** X16.  A setting that is written is read back, except the empty
    string, which reads as the default again ([getItem(...) || DEFAULT]);
    an empty API key counts as not configured.  Each setter changes the
    one setting it names and leaves the other four as they were, and
    [clearApiKey] removes the key. *)
Theorem X16_a_setting_is_read_back_or_defaulted
    (storage : gmap string string) (value : string) :
  let orDefault := fun fallback => if Js.isEmpty value then fallback else value in
  let before := Settings.getAllSettings storage in
  Settings.getAllSettings (Settings.openrouter_setModel storage value)
  = Settings.mkAllSettings (Settings.openrouterApiKey before)
      (Some (orDefault Settings.DEFAULT_OPENROUTER_MODEL))
      (Settings.ollamaUrl before) (Settings.ollamaModel before)
      (Settings.compressionProvider before) /\
  Settings.getAllSettings (Settings.ollama_setUrl storage value)
  = Settings.mkAllSettings (Settings.openrouterApiKey before)
      (Settings.openrouterModel before)
      (Some (orDefault Settings.DEFAULT_OLLAMA_URL))
      (Settings.ollamaModel before) (Settings.compressionProvider before) /\
  Settings.getAllSettings (Settings.ollama_setModel storage value)
  = Settings.mkAllSettings (Settings.openrouterApiKey before)
      (Settings.openrouterModel before) (Settings.ollamaUrl before)
      (Some (orDefault Settings.DEFAULT_OLLAMA_MODEL))
      (Settings.compressionProvider before) /\
  Settings.getAllSettings (Settings.compression_setProvider storage value)
  = Settings.mkAllSettings (Settings.openrouterApiKey before)
      (Settings.openrouterModel before) (Settings.ollamaUrl before)
      (Settings.ollamaModel before)
      (Some (orDefault Settings.DEFAULT_COMPRESSION_PROVIDER)) /\
  Settings.getAllSettings (Settings.openrouter_setApiKey storage value)
  = Settings.mkAllSettings
      (if Js.isEmpty value then None else Some "[CONFIGURED]")
      (Settings.openrouterModel before) (Settings.ollamaUrl before)
      (Settings.ollamaModel before) (Settings.compressionProvider before) /\
  Settings.openrouter_getApiKey (Settings.openrouter_setApiKey storage value)
  = Some value /\
  Settings.openrouter_isConfigured (Settings.openrouter_setApiKey storage value)
  = negb (Js.isEmpty value) /\
  Settings.openrouter_getApiKey (Settings.openrouter_clearApiKey storage) = None /\
  Settings.openrouter_isConfigured (Settings.openrouter_clearApiKey storage) = false.
Proof.
  cbv zeta.
  repeat match goal with |- _ /\ _ => split end;
    settings_unfold; cbn [String.eqb Ascii.eqb Bool.eqb Settings.OPENROUTER_API_KEY
      Settings.OPENROUTER_MODEL Settings.OLLAMA_URL Settings.OLLAMA_MODEL
      Settings.COMPRESSION_PROVIDER]; try reflexivity.
  all: unfold Settings.truthy, Settings.orDefault; cbn; try reflexivity.
  all: destruct (Js.isEmpty value); reflexivity.
Qed.

(** X17.  [clearAllSettings] removes the five keys of the settings and
    nothing else from [localStorage]; afterwards every getter gives its
    default, no API key is configured, the compression provider is
    "claude-code" again and the service would detect "ollama".  Clearing
    twice is clearing once. *)
Theorem X17_clearing_restores_the_defaults (storage : gmap string string) :
  let cleared := Settings.clearAllSettings storage in
  (forall key,
      Settings.getItem cleared key
      = if existsb (String.eqb key) Settings.KEYS then None
        else Settings.getItem storage key) /\
  Settings.getAllSettings cleared
  = Settings.mkAllSettings None
      (Some "anthropic/claude-sonnet-4") (Some "http://localhost:11434")
      (Some "llama3.2:latest") (Some "claude-code") /\
  Settings.openrouter_getApiKey cleared = None /\
  Service.detectProvider cleared = ollama /\
  Settings.clearAllSettings cleared = cleared.
Proof.
  cbv zeta.
  assert (Hget : forall key,
             Settings.getItem (Settings.clearAllSettings storage) key
             = if existsb (String.eqb key) Settings.KEYS then None
               else Settings.getItem storage key)
    by (intros key; apply getItem_removeAll).
  split; [exact Hget |].
  split; [| split; [| split]].
  - unfold Settings.getAllSettings, Settings.openrouter_getApiKey,
      Settings.openrouter_getModel, Settings.ollama_getUrl, Settings.ollama_getModel,
      Settings.compression_getProvider.
    cbv zeta. rewrite !Hget. reflexivity.
  - unfold Settings.openrouter_getApiKey. rewrite Hget. reflexivity.
  - unfold Service.detectProvider, Settings.openrouter_isConfigured,
      Settings.openrouter_getApiKey. rewrite Hget. reflexivity.
  - apply map_eq. intros key.
    pose proof (getItem_removeAll Settings.KEYS
                  (fold_left Settings.removeItem Settings.KEYS storage) key) as H2.
    pose proof (getItem_removeAll Settings.KEYS storage key) as H1.
    unfold Settings.getItem in H1, H2. unfold Settings.clearAllSettings.
    rewrite H2, H1. now destruct (existsb (String.eqb key) Settings.KEYS).
Qed.

(** X18.  [getAllSettings] does not reveal the API key: two stores that
    agree on every other key and that both hold a key (or both hold none)
    give the same settings, and the field is "[CONFIGURED]" or [null]. *)
Theorem X18_all_settings_hide_the_api_key (storage storage' : gmap string string) :
  (forall key,
      key <> Settings.OPENROUTER_API_KEY ->
      Settings.getItem storage key = Settings.getItem storage' key) ->
  Settings.openrouter_isConfigured storage = Settings.openrouter_isConfigured storage' ->
  Settings.getAllSettings storage = Settings.getAllSettings storage' /\
  (Settings.openrouterApiKey (Settings.getAllSettings storage) = None
   \/ Settings.openrouterApiKey (Settings.getAllSettings storage) = Some "[CONFIGURED]").
Proof.
  intros Hsame Hkey.
  unfold Settings.getAllSettings, Settings.openrouter_getModel, Settings.ollama_getUrl,
    Settings.ollama_getModel, Settings.compression_getProvider.
  cbv zeta. unfold Settings.openrouter_isConfigured in Hkey. rewrite Hkey.
  rewrite !Hsame by (intros E; vm_compute in E; discriminate E).
  split; [reflexivity |].
  cbn [Settings.openrouterApiKey].
  destruct (Settings.truthy (Settings.openrouter_getApiKey storage'));
    [right | left]; reflexivity.
Qed.

Lemma X18_sample_two_keys :
  Settings.getAllSettings
    (Settings.openrouter_setApiKey (Settings.ollama_setModel ∅ "mistral") "sk-one")
  = Settings.getAllSettings
      (Settings.openrouter_setApiKey (Settings.ollama_setModel ∅ "mistral") "sk-two") /\
  (Settings.openrouterApiKey
     (Settings.getAllSettings
        (Settings.openrouter_setApiKey (Settings.ollama_setModel ∅ "mistral") "sk-one"))
   = None
   \/ Settings.openrouterApiKey
        (Settings.getAllSettings
           (Settings.openrouter_setApiKey (Settings.ollama_setModel ∅ "mistral") "sk-one"))
      = Some "[CONFIGURED]").
Proof.
  apply (X18_all_settings_hide_the_api_key
           (Settings.openrouter_setApiKey (Settings.ollama_setModel ∅ "mistral") "sk-one")
           (Settings.openrouter_setApiKey (Settings.ollama_setModel ∅ "mistral") "sk-two")).
  - intros key Hkey. unfold Settings.openrouter_setApiKey.
    rewrite !getItem_setItem.
    destruct (String.eqb_spec Settings.OPENROUTER_API_KEY key); [congruence | reflexivity].
  - reflexivity.
Defined.

(** ** The construction of the service *)

Lemma orDefault_nonempty (a : option string) (b : string) :
  b <> "" -> Settings.orDefault a b <> "".
Proof.
  intros Hb. unfold Settings.orDefault.
  destruct a as [x |]; [| exact Hb].
  destruct x; [exact Hb | discriminate].
Qed.

(** X19.  A service is constructed with the provider it is given;
    without one it detects "openrouter" exactly when a non-empty API key
    is stored and "ollama" otherwise, never "claude-code".  Its
    configuration names the same provider, and none of its three strings
    is empty: a value of [config] that is not empty wins, then the stored
    setting, then the default. *)
Theorem X19_construction_of_the_service
    (storage : gmap string string) (given : option Provider)
    (config : option Service.PartialConfig) :
  let service := Service.createCompressionService storage given config in
  let cfg := Service.getProviderConfig service in
  Service.c_provider cfg = Service.getProvider service /\
  (forall p, given = Some p -> Service.getProvider service = p) /\
  (given = None ->
   Service.getProvider service <> claude_code /\
   (Service.getProvider service = openrouter
    <-> exists key, Settings.openrouter_getApiKey storage = Some key /\ key <> "")) /\
  Service.c_ollamaUrl cfg <> "" /\
  Service.c_ollamaModel cfg <> "" /\
  Service.c_openrouterModel cfg <> "" /\
  (forall c url,
      config = Some c -> Service.p_ollamaUrl c = Some url -> url <> "" ->
      Service.c_ollamaUrl cfg = url) /\
  (forall c model,
      config = Some c -> Service.p_ollamaModel c = Some model -> model <> "" ->
      Service.c_ollamaModel cfg = model) /\
  (forall c model,
      config = Some c -> Service.p_openrouterModel c = Some model -> model <> "" ->
      Service.c_openrouterModel cfg = model) /\
  (config = None ->
   Service.c_ollamaUrl cfg = Settings.ollama_getUrl storage /\
   Service.c_ollamaModel cfg = Settings.ollama_getModel storage /\
   Service.c_openrouterModel cfg = Settings.openrouter_getModel storage).
Proof.
  cbv zeta.
  unfold Service.createCompressionService, Service.construct, Service.getProviderConfig,
    Service.getProvider. cbv zeta. cbn [Service.providerConfig Service.provider
    Service.c_provider Service.c_ollamaUrl Service.c_ollamaModel Service.c_openrouterModel].
  split; [reflexivity |].
  split; [intros p ->; reflexivity |].
  split.
  { intros ->. unfold Service.detectProvider, Settings.openrouter_isConfigured,
      Settings.truthy.
    destruct (Settings.openrouter_getApiKey storage) as [key |].
    - destruct key as [| c key]; cbn.
      + split; [discriminate |]. split; [discriminate |].
        intros (key & [= <-] & Hne). congruence.
      + split; [discriminate |]. split; [| reflexivity].
        intros _. eexists. split; [reflexivity | discriminate].
    - split; [discriminate |]. split; [discriminate |].
      intros (key & Hk & _). discriminate. }
  split; [apply orDefault_nonempty; unfold Settings.ollama_getUrl;
          apply orDefault_nonempty; discriminate |].
  split; [apply orDefault_nonempty; unfold Settings.ollama_getModel;
          apply orDefault_nonempty; discriminate |].
  split; [apply orDefault_nonempty; unfold Settings.openrouter_getModel;
          apply orDefault_nonempty; discriminate |].
  split; [| split; [| split]].
  - intros c url -> Hurl Hne. unfold Service.configured. rewrite Hurl.
    unfold Settings.orDefault. destruct url; [congruence | reflexivity].
  - intros c model -> Hmodel Hne. unfold Service.configured. rewrite Hmodel.
    unfold Settings.orDefault. destruct model; [congruence | reflexivity].
  - intros c model -> Hmodel Hne. unfold Service.configured. rewrite Hmodel.
    unfold Settings.orDefault. destruct model; [congruence | reflexivity].
  - intros ->. repeat split.
Qed.

(** ** The path of the local agent *)

Lemma firstExisting_some (host : Host.Host) (paths : list string) (p : string) :
  Host.firstExisting host paths = Some p ->
  In p paths /\ Host.existsSync host p = Returns true.
Proof.
  induction paths as [| q paths IH]; [discriminate |].
  simpl. destruct (Host.existsSync host q) as [[] | message] eqn:E.
  - intros [= <-]. split; [now left | exact E].
  - intros H. destruct (IH H). split; [now right | assumption].
  - intros H. destruct (IH H). split; [now right | assumption].
Qed.

Lemma firstExisting_none (host : Host.Host) (paths : list string) :
  Host.firstExisting host paths = None <->
  forall p, In p paths -> Host.existsSync host p <> Returns true.
Proof.
  induction paths as [| q paths IH]; simpl.
  - split; [intros _ p [] | reflexivity].
  - destruct (Host.existsSync host q) as [[] | message] eqn:E.
    + split; [discriminate |]. intros H. destruct (H q (or_introl eq_refl) E).
    + rewrite IH. split.
      * intros H p [<- | Hp]; [congruence | now apply H].
      * intros H p Hp. apply H. now right.
    + rewrite IH. split.
      * intros H p [<- | Hp]; [congruence | now apply H].
      * intros H p Hp. apply H. now right.
Qed.

Lemma append_nonempty_r (a b : string) : b <> "" -> a +:+ b <> "".
Proof.
  intros Hb H. apply (f_equal String.length) in H.
  rewrite length_append in H. destruct b; [congruence |]. simpl in H. lia.
Qed.

Lemma truthy_some (a : option string) :
  Settings.truthy a = true <-> exists x, a = Some x /\ x <> "".
Proof.
  unfold Settings.truthy. destruct a as [[| c x] |]; simpl; split;
    try discriminate; try reflexivity.
  - intros (x & [= <-] & H). congruence.
  - intros _. eexists. split; [reflexivity | discriminate].
  - intros (x & H & _). discriminate.
Qed.

(** X20.  [getClaudeCodePath].  A non-empty [CLAUDE_CODE_PATH] is
    returned as it is, without looking at the file system.  Otherwise a
    path that is returned exists ([fs.existsSync] returned [true] for
    it) and is the trimmed output of [which claude] or one of the three
    common locations; the answer is [undefined] exactly when [which]
    names no existing file and none of the common locations exists,
    errors of [which] and of [existsSync] counting as absence.  The path
    returned is never the empty string. *)
Theorem X20_path_of_the_local_agent (host : Host.Host) :
  (forall p,
      Host.CLAUDE_CODE_PATH host = Some p -> p <> "" ->
      Host.getClaudeCodePath host = Some p) /\
  (Settings.truthy (Host.CLAUDE_CODE_PATH host) = false ->
   let located (p : string) :=
     exists out, Host.whichClaude host = Returns out /\ p = Js.trim out /\ p <> "" in
   (forall p,
       Host.getClaudeCodePath host = Some p ->
       Host.existsSync host p = Returns true /\
       (located p \/ In p (Host.commonPaths host))) /\
   (forall p,
       located p -> Host.existsSync host p = Returns true ->
       Host.getClaudeCodePath host = Some p) /\
   (Host.getClaudeCodePath host = None <->
    (forall p, located p -> Host.existsSync host p <> Returns true) /\
    (forall p, In p (Host.commonPaths host) ->
               Host.existsSync host p <> Returns true))) /\
  (forall p, Host.getClaudeCodePath host = Some p -> p <> "").
Proof.
  assert (Hcommon : forall p, In p (Host.commonPaths host) -> p <> "").
  { intros p [<- | [<- | [<- | []]]]; try discriminate.
    apply append_nonempty_r. discriminate. }
  split; [| split].
  - intros p Hp Hne. unfold Host.getClaudeCodePath.
    rewrite (proj2 (truthy_some _)) by eauto. exact Hp.
  - intros Henv. cbv zeta. unfold Host.getClaudeCodePath. rewrite Henv.
    destruct (Host.whichClaude host) as [out | message] eqn:Hwhich.
    + destruct (Js.isEmpty (Js.trim out)) eqn:Hempty; cbn [negb].
      * assert (Hnone : forall p,
                   ~ exists out0, Returns out = Returns out0 /\ p = Js.trim out0 /\ p <> "").
        { intros p (out0 & [= <-] & -> & Hne). destruct (Js.trim out); [congruence |].
          discriminate Hempty. }
        split; [| split].
        -- intros p Hp. apply firstExisting_some in Hp as [Hin Hex]. now split; [| right].
        -- intros p Hl. destruct (Hnone p Hl).
        -- rewrite firstExisting_none. split.
           ++ intros H. split; [intros p Hl; destruct (Hnone p Hl) | exact H].
           ++ intros [_ H]. exact H.
      * assert (Hne : Js.trim out <> "") by (intros E; rewrite E in Hempty; discriminate).
        destruct (Host.existsSync host (Js.trim out)) as [[] | message] eqn:Hex.
        -- split; [| split].
           ++ intros p [= <-]. split; [exact Hex |]. left. now exists out.
           ++ intros p (out0 & [= <-] & -> & _) _. reflexivity.
           ++ split; [discriminate |]. intros [H _].
              exfalso. apply (H (Js.trim out)); [now exists out | exact Hex].
        -- split; [| split].
           ++ intros p Hp. apply firstExisting_some in Hp as [Hin Hex']. now split; [| right].
           ++ intros p (out0 & [= <-] & -> & _) Hex'. congruence.
           ++ rewrite firstExisting_none. split.
              ** intros H. split; [| exact H].
                 intros p (out0 & [= <-] & -> & _). congruence.
              ** intros [_ H]. exact H.
        -- split; [| split].
           ++ intros p Hp. apply firstExisting_some in Hp as [Hin Hex']. now split; [| right].
           ++ intros p (out0 & [= <-] & -> & _) Hex'. congruence.
           ++ rewrite firstExisting_none. split.
              ** intros H. split; [| exact H].
                 intros p (out0 & [= <-] & -> & _). congruence.
              ** intros [_ H]. exact H.
    + split; [| split].
      * intros p Hp. apply firstExisting_some in Hp as [Hin Hex]. now split; [| right].
      * intros p (out0 & [=] & _).
      * rewrite firstExisting_none. split.
        -- intros H. split; [| exact H]. intros p (out0 & [=] & _).
        -- intros [_ H]. exact H.
  - intros p. unfold Host.getClaudeCodePath.
    destruct (Settings.truthy (Host.CLAUDE_CODE_PATH host)) eqn:Henv.
    + apply truthy_some in Henv as (x & Hx & Hne). rewrite Hx. now intros [= <-].
    + destruct (Host.whichClaude host) as [out | message].
      * destruct (Js.isEmpty (Js.trim out)) eqn:Hempty; cbn [negb].
        -- intros Hp. apply firstExisting_some in Hp as [Hin _]. now apply Hcommon.
        -- destruct (Host.existsSync host (Js.trim out)) as [[] | message].
           ++ intros [= <-] E. rewrite E in Hempty. discriminate.
           ++ intros Hp. apply firstExisting_some in Hp as [Hin _]. now apply Hcommon.
           ++ intros Hp. apply firstExisting_some in Hp as [Hin _]. now apply Hcommon.
      * intros Hp. apply firstExisting_some in Hp as [Hin _]. now apply Hcommon.
Qed.

Lemma X20_sample_host :
  let host :=
    Host.mkHost None (Returns ("/opt/bin/claude" +:+ LF))
      (fun p => if String.eqb p "/usr/bin/claude" then Returns true else Throws "EACCES")
      "/home/dev" in
  let located (p : string) :=
    exists out, Host.whichClaude host = Returns out /\ p = Js.trim out /\ p <> "" in
  (forall p,
      Host.getClaudeCodePath host = Some p ->
      Host.existsSync host p = Returns true /\
      (located p \/ In p (Host.commonPaths host))) /\
  (forall p,
      located p -> Host.existsSync host p = Returns true ->
      Host.getClaudeCodePath host = Some p) /\
  (Host.getClaudeCodePath host = None <->
   (forall p, located p -> Host.existsSync host p <> Returns true) /\
   (forall p, In p (Host.commonPaths host) ->
              Host.existsSync host p <> Returns true)).
Proof.
  apply (proj1 (proj2 (X20_path_of_the_local_agent
    (Host.mkHost None (Returns ("/opt/bin/claude" +:+ LF))
       (fun p => if String.eqb p "/usr/bin/claude" then Returns true else Throws "EACCES")
       "/home/dev")))).
  reflexivity.
Defined.

(** ** The encodings *)

(** X21.  [getEncodingForModel] never answers "r50k_base", although its
    type names it.  It answers "p50k_base" exactly for a model name that
    contains "davinci" or "curie" and none of "claude", "gpt-4" and
    "gpt-3.5"; every other name, the empty one and a missing one get the
    default "cl100k_base".  The test is on substrings: a name that
    contains "claude" gets "cl100k_base" whatever else it contains. *)
Theorem X21_encoding_of_a_model (model : option string) :
  Encoding.getEncodingForModel model <> Encoding.r50k_base /\
  (Encoding.getEncodingForModel model = Encoding.p50k_base <->
   exists name,
     model = Some name /\
     (Js.includes name "davinci" = true \/ Js.includes name "curie" = true) /\
     Js.includes name "claude" = false /\
     Js.includes name "gpt-4" = false /\
     Js.includes name "gpt-3.5" = false) /\
  (Encoding.getEncodingForModel model <> Encoding.p50k_base ->
   Encoding.getTokenModel model = Encoding.DEFAULT_TOKEN_MODEL) /\
  (forall before after,
      model = Some (before +:+ "claude" +:+ after) ->
      Encoding.getTokenModel model = "cl100k_base").
Proof.
  assert (Hempty : forall w, w <> "" -> Js.includes "" w = false)
    by (intros w; apply includes_empty).
  unfold Encoding.getTokenModel, Encoding.getEncodingForModel.
  destruct model as [name |].
  2:{ split; [discriminate |]. split; [| split; [reflexivity | discriminate]].
      split; [discriminate | intros (name & [=] & _)]. }
  destruct (Js.isEmpty name) eqn:He.
  { assert (name = "") as -> by (destruct name; [reflexivity | discriminate]).
    split; [discriminate |]. split; [| split; [reflexivity |]].
    - split; [discriminate |].
      intros (name & [= <-] & [H | H] & _); rewrite Hempty in H; discriminate.
    - intros before after [= H]. destruct before; discriminate H. }
  destruct (Js.includes name "claude") eqn:Hc.
  { split; [discriminate |]. split; [| split; [reflexivity | reflexivity]].
    split; [discriminate |]. intros (n & [= <-] & _ & H & _). congruence. }
  destruct (Js.includes name "gpt-4") eqn:H4.
  { split; [discriminate |]. split; [| split; [reflexivity | reflexivity]].
    split; [discriminate |]. intros (n & [= <-] & _ & _ & H & _). congruence. }
  destruct (Js.includes name "gpt-3.5") eqn:H3.
  { split; [discriminate |]. split; [| split; [reflexivity | reflexivity]].
    split; [discriminate |]. intros (n & [= <-] & _ & _ & _ & H). congruence. }
  assert (Hclaude : forall before after, Some name = Some (before +:+ "claude" +:+ after)
                                         -> False).
  { intros before after [= ->].
    rewrite (proj2 (includes_iff _ _)) in Hc by eauto. discriminate. }
  destruct (Js.includes name "davinci" || Js.includes name "curie") eqn:Hd.
  - split; [discriminate |]. split; [| split; [congruence |]].
    + split; [| reflexivity]. intros _. exists name.
      apply orb_prop in Hd. repeat split; assumption.
    + intros before after H. destruct (Hclaude _ _ H).
  - split; [discriminate |]. split; [| split; [reflexivity | reflexivity]].
    split; [discriminate |].
    intros (n & [= <-] & H & _). apply orb_false_elim in Hd as [Hd1 Hd2].
    destruct H; congruence.
Qed.

(** ** The reset of the test data *)

Lemma removeInternal_present (id : N) (rows : list Table.Row) :
  existsb (hasId id) rows = true ->
  Table.removeInternal id rows
  = Returns (List.filter (fun row => negb (hasId id row)) rows).
Proof.
  intros H. unfold Table.removeInternal, Table.db_delete. fold (hasId id).
  now rewrite H.
Qed.

Lemma filter_twice {A : Type} (p q : A -> bool) (l : list A) :
  List.filter p (List.filter q l) = List.filter (fun x => q x && p x) l.
Proof.
  induction l as [| x l IH]; [reflexivity |].
  simpl. destruct (q x); simpl; [destruct (p x) |]; now rewrite IH.
Qed.

Lemma removeEach_all (testBlocks rows : list Table.Row) :
  List.NoDup (List.map Table._id testBlocks) ->
  (forall b, In b testBlocks -> existsb (hasId (Table._id b)) rows = true) ->
  Testing.removeEach testBlocks rows
  = Returns
      (List.filter
         (fun row => negb (existsb (fun b => hasId (Table._id b) row) testBlocks))
         rows).
Proof.
  revert rows. induction testBlocks as [| b rest IH]; intros rows Hnd Hin.
  - simpl. f_equal. symmetry. apply List.forallb_filter_id.
    apply forallb_forall. reflexivity.
  - cbn [Testing.removeEach].
    rewrite removeInternal_present by (apply Hin; now left).
    inversion Hnd as [| ? ? Hnotin Hnd' ]; subst.
    rewrite IH.
    + f_equal. rewrite filter_twice. apply List.filter_ext.
      intros row. cbn [existsb]. now rewrite negb_orb.
    + exact Hnd'.
    + intros c Hc.
      assert (Hpresent : existsb (hasId (Table._id c)) rows = true)
        by (apply Hin; now right).
      apply existsb_exists in Hpresent as (row & Hrow & Hid).
      apply existsb_exists. exists row. split; [| exact Hid].
      apply List.filter_In. split; [exact Hrow |].
      apply negb_true_iff. unfold hasId in *. apply N.eqb_eq in Hid.
      apply N.eqb_neq. intros E. apply Hnotin. rewrite <- E, Hid.
      now apply in_map.
Qed.

Lemma NoDup_map_filter {A B : Type} (f : A -> B) (p : A -> bool) (l : list A) :
  List.NoDup (List.map f l) -> List.NoDup (List.map f (List.filter p l)).
Proof.
  induction l as [| x l IH]; [constructor |].
  simpl. intros H. inversion H as [| ? ? Hnotin Hnd]; subst.
  destruct (p x); [| now apply IH].
  simpl. constructor; [| now apply IH].
  intros Hin. apply Hnotin. apply in_map_iff in Hin as (y & Hy & Hin).
  apply List.filter_In in Hin as [Hin _]. apply in_map_iff. now exists y.
Qed.

Lemma same_id_same_row (rows : list Table.Row) (a b : Table.Row) :
  List.NoDup (List.map Table._id rows) ->
  In a rows -> In b rows -> Table._id a = Table._id b -> a = b.
Proof.
  induction rows as [| x rows IH]; [intros _ [] |].
  simpl. intros H. inversion H as [| ? ? Hnotin Hnd]; subst.
  intros [<- | Ha] [<- | Hb] E.
  - reflexivity.
  - exfalso. apply Hnotin. rewrite E. now apply in_map.
  - exfalso. apply Hnotin. rewrite <- E. now apply in_map.
  - now apply IH.
Qed.

(** X22.  [resetBlocks] on a table whose ids are unique deletes exactly
    the test blocks (those with [testData === true] or a content that
    starts with "E2E Test:"): it returns their number, the other blocks
    stay, in their order, and no deletion throws.  A second reset deletes
    nothing.  [resetAll] does the same. *)
Theorem X22_reset_deletes_exactly_the_test_blocks (rows : list Table.Row) :
  List.NoDup (List.map Table._id rows) ->
  let kept := List.filter (fun b => negb (Testing.isTestBlock b)) rows in
  Testing.resetBlocks rows
  = Returns (length (List.filter Testing.isTestBlock rows), kept) /\
  Testing.resetAll rows = Testing.resetBlocks rows /\
  (length (List.filter Testing.isTestBlock rows) + length kept = length rows)%nat /\
  List.NoDup (List.map Table._id kept) /\
  Testing.resetBlocks kept = Returns (0%nat, kept).
Proof.
  intros Hnd. cbv zeta.
  assert (Reset : forall rows0,
             List.NoDup (List.map Table._id rows0) ->
             Testing.resetBlocks rows0
             = Returns (length (List.filter Testing.isTestBlock rows0),
                        List.filter (fun b => negb (Testing.isTestBlock b)) rows0)).
  { intros rows0 Hnd0. unfold Testing.resetBlocks, Table.listAll, Table.db_collect.
    cbv zeta. rewrite removeEach_all.
    - f_equal. f_equal. apply List.filter_ext_in. intros row Hrow. f_equal.
      destruct (Testing.isTestBlock row) eqn:Ht.
      + apply existsb_exists. exists row. split.
        * apply List.filter_In. now split.
        * apply N.eqb_refl.
      + destruct (existsb _ _) eqn:Hex; [| reflexivity].
        apply existsb_exists in Hex as (b & Hb & Hid).
        apply List.filter_In in Hb as [Hb Htb]. apply N.eqb_eq in Hid.
        rewrite (same_id_same_row rows0 row b Hnd0 Hrow Hb Hid) in Ht. congruence.
    - now apply NoDup_map_filter.
    - intros b Hb. apply List.filter_In in Hb as [Hb _].
      apply existsb_exists. exists b. split; [exact Hb | apply N.eqb_refl]. }
  assert (Hkept : List.NoDup
                    (List.map Table._id
                       (List.filter (fun b => negb (Testing.isTestBlock b)) rows)))
    by now apply NoDup_map_filter.
  split; [now apply Reset |]. split; [reflexivity |].
  split; [| split; [exact Hkept |]].
  - clear. induction rows as [| x rows IH]; [reflexivity |].
    simpl. destruct (Testing.isTestBlock x); simpl; lia.
  - rewrite (Reset _ Hkept). f_equal.
    assert (Hnone : List.filter Testing.isTestBlock
                      (List.filter (fun b => negb (Testing.isTestBlock b)) rows) = []).
    { rewrite filter_twice.
      clear. induction rows as [| x rows IH]; [reflexivity |].
      simpl. destruct (Testing.isTestBlock x); simpl; exact IH. }
    rewrite Hnone. f_equal.
    rewrite filter_twice. apply List.filter_ext. intros row.
    now destruct (Testing.isTestBlock row).
Qed.

Lemma X22_sample_table :
  let rows :=
    [ Table.mkRow 1 "a note" "note" 10 10 None;
      Table.mkRow 2 "fixture" "note" 20 20 (Some true);
      Table.mkRow 3 "E2E Test: typed in the UI" "note" 30 30 None;
      Table.mkRow 4 "kept" "note" 40 40 (Some false) ] in
  let kept := List.filter (fun b => negb (Testing.isTestBlock b)) rows in
  Testing.resetBlocks rows
  = Returns (length (List.filter Testing.isTestBlock rows), kept) /\
  Testing.resetAll rows = Testing.resetBlocks rows /\
  (length (List.filter Testing.isTestBlock rows) + length kept = length rows)%nat /\
  List.NoDup (List.map Table._id kept) /\
  Testing.resetBlocks kept = Returns (0%nat, kept).
Proof.
  apply (X22_reset_deletes_exactly_the_test_blocks
           [ Table.mkRow 1 "a note" "note" 10 10 None;
             Table.mkRow 2 "fixture" "note" 20 20 (Some true);
             Table.mkRow 3 "E2E Test: typed in the UI" "note" 30 30 None;
             Table.mkRow 4 "kept" "note" 40 40 (Some false) ]).
  simpl. repeat constructor; simpl; intuition discriminate.
Defined.

(** ** The table of blocks *)

Lemma max_id_bound (ids : list N) (id : N) :
  In id ids -> (id <= fold_right N.max 0 ids)%N.
Proof.
  induction ids as [| x ids IH]; [intros [] |].
  simpl. intros [<- | H]; [lia |]. specialize (IH H). lia.
Qed.

Lemma freshId_fresh (rows : list Table.Row) :
  ~ In (Table.freshId rows) (List.map Table._id rows).
Proof.
  intros H. apply max_id_bound in H. unfold Table.freshId in H. lia.
Qed.

Lemma db_get_none (rows : list Table.Row) (id : N) :
  ~ In id (List.map Table._id rows) -> Table.db_get rows id = None.
Proof.
  intros H. unfold Table.db_get.
  destruct (List.find _ rows) as [row |] eqn:E; [| reflexivity].
  apply List.find_some in E as [Hin Hid]. apply N.eqb_eq in Hid.
  exfalso. apply H. rewrite <- Hid. now apply in_map.
Qed.

Lemma db_get_app (rows more : list Table.Row) (id : N) :
  Table.db_get (rows ++ more) id
  = match Table.db_get rows id with
    | Some row => Some row
    | None => Table.db_get more id
    end.
Proof.
  unfold Table.db_get. induction rows as [| x rows IH]; [reflexivity |].
  simpl. destruct (Table._id x =? id)%N; [reflexivity | exact IH].
Qed.

Lemma filter_all {A : Type} (p : A -> bool) (l : list A) :
  (forall x, In x l -> p x = true) -> List.filter p l = l.
Proof.
  intros H. induction l as [| x l IH]; [reflexivity |].
  simpl. rewrite (H x (or_introl eq_refl)). f_equal. apply IH.
  intros y Hy. apply H. now right.
Qed.

(** X23.  [create] on a table whose ids are unique: the id it returns was
    not in use; [get] of it gives the document with the content, type and
    [testData] of the call and [createdAt = updatedAt = now]; every other
    [get] answers as before; the ids stay unique; [list] shows the new
    block first and [listAll] shows it last; [remove] of it gives the
    table back. *)
Theorem X23_create_get_remove
    (rows : list Table.Row) (now : Z) (content type : string)
    (testData : option bool) :
  List.NoDup (List.map Table._id rows) ->
  let id := fst (Table.create now content type testData rows) in
  let rows' := snd (Table.create now content type testData rows) in
  let block := Table.mkRow id content type now now testData in
  Table.get id rows = None /\
  Table.get id rows' = Some block /\
  (forall other, other <> id -> Table.get other rows' = Table.get other rows) /\
  List.NoDup (List.map Table._id rows') /\
  Table.list rows' = block :: Table.list rows /\
  Table.listAll rows' = Table.listAll rows ++ [block] /\
  Table.remove id rows' = Returns rows.
Proof.
  intros Hnd. cbv zeta.
  unfold Table.create, Table.db_insert. cbv zeta. cbn [fst snd].
  pose proof (freshId_fresh rows) as Hfresh.
  set (id := Table.freshId rows) in *.
  set (block := Table.mkRow id content type now now testData).
  assert (Hold : forall row, In row rows -> (Table._id row =? id)%N = false).
  { intros row Hrow. apply N.eqb_neq. intros E. apply Hfresh.
    rewrite <- E. now apply in_map. }
  assert (Habsent : existsb (fun row => (Table._id row =? id)%N) rows = false).
  { destruct (existsb _ rows) eqn:E; [| reflexivity].
    apply existsb_exists in E as (row & Hrow & Hid).
    rewrite (Hold row Hrow) in Hid. discriminate. }
  split; [now apply db_get_none |].
  split.
  { unfold Table.get. rewrite db_get_app, (db_get_none rows id Hfresh).
    unfold Table.db_get. simpl. now rewrite N.eqb_refl. }
  split.
  { intros other Hne. unfold Table.get. rewrite db_get_app.
    destruct (Table.db_get rows other); [reflexivity |].
    unfold Table.db_get. simpl.
    destruct (N.eqb_spec id other); [congruence | reflexivity]. }
  split.
  { rewrite List.map_app. simpl.
    apply List.NoDup_app; [exact Hnd | repeat constructor; intros [] |].
    intros x Hx [<- | []]. exact (Hfresh Hx). }
  split.
  { unfold Table.list, Table.db_collect. now rewrite List.rev_app_distr. }
  split; [reflexivity |].
  unfold Table.remove, Table.db_delete.
  rewrite existsb_app, Habsent. simpl. rewrite N.eqb_refl. cbn [orb].
  rewrite List.filter_app. simpl. rewrite N.eqb_refl. simpl.
  rewrite app_nil_r. f_equal. apply filter_all.
  intros row Hrow. now rewrite (Hold row Hrow).
Qed.

Lemma X23_sample_create :
  let rows := [Table.mkRow 1 "a note" "note" 10 10 None;
               Table.mkRow 5 "another" "note" 20 20 None] in
  let id := fst (Table.create 30 "new" "note" (Some true) rows) in
  let rows' := snd (Table.create 30 "new" "note" (Some true) rows) in
  let block := Table.mkRow id "new" "note" 30 30 (Some true) in
  Table.get id rows = None /\
  Table.get id rows' = Some block /\
  (forall other, other <> id -> Table.get other rows' = Table.get other rows) /\
  List.NoDup (List.map Table._id rows') /\
  Table.list rows' = block :: Table.list rows /\
  Table.listAll rows' = Table.listAll rows ++ [block] /\
  Table.remove id rows' = Returns rows.
Proof.
  apply (X23_create_get_remove
           [Table.mkRow 1 "a note" "note" 10 10 None;
            Table.mkRow 5 "another" "note" 20 20 None]
           30 "new" "note" (Some true)).
  simpl. repeat constructor; simpl; intuition discriminate.
Defined.

(** ** The combined text of a merge *)

Lemma includes_concat (sep : string) (parts : list string) (x : string) :
  In x parts -> Js.includes (String.concat sep parts) x = true.
Proof.
  induction parts as [| y rest IH]; [intros [] |].
  intros Hin. apply includes_iff.
  destruct rest as [| z rest'].
  - destruct Hin as [<- | []]. exists "", "". simpl. now rewrite append_empty_r.
  - change (String.concat sep (y :: z :: rest'))
      with (y +:+ sep +:+ String.concat sep (z :: rest')).
    destruct Hin as [<- | Hin].
    + exists "", (sep +:+ String.concat sep (z :: rest')). reflexivity.
    + apply IH, includes_iff in Hin as (a & b & ->).
      exists (y +:+ sep +:+ a), b. now rewrite !append_assoc.
Qed.

Lemma includes_estimate (s x : string) :
  Js.includes s x = true -> Tokenizer.estimateTokens x <= Tokenizer.estimateTokens s.
Proof.
  intros H. apply includes_iff in H as (a & b & ->).
  apply estimateTokens_mono. rewrite !len_append.
  pose proof (len_nonneg a). pose proof (len_nonneg b). lia.
Qed.

(** X24.  The text that a merge sends to the backend contains every
    block: at position [i] (from 0) it has the header "## Block i+1
    (type)", an empty line and the content of the block; one block alone
    is sent without separator.  Hence the token estimate of the combined
    text, which the client reports as [originalTokens], is at least the
    estimate of the content of each block. *)
Theorem X24_combined_text_contains_every_block
    (blocks : list (string * string)) (i : nat) (type content : string) :
  blocks !! i = Some (type, content) ->
  let section :=
    "## Block " +:+ Js.toString (Z.of_nat i + 1) +:+ " (" +:+ type +:+ ")"
    +:+ LF +:+ LF +:+ content in
  Js.includes (combine blocks) section = true /\
  Js.includes (combine blocks) content = true /\
  Tokenizer.estimateTokens content <= Tokenizer.estimateTokens (combine blocks) /\
  (length blocks = 1%nat -> combine blocks = section).
Proof.
  intros Hi. cbv zeta.
  set (render := fun (index : nat) (b : string * string) =>
                   let '(type, content) := b in
                   "## Block " +:+ Js.toString (Z.of_nat index + 1) +:+ " (" +:+ type
                   +:+ ")" +:+ LF +:+ LF +:+ content).
  assert (Hsec : Js.includes (combine blocks) (render i (type, content)) = true).
  { unfold combine, Js.join. apply includes_concat.
    apply list_elem_of_In.
    exact (elem_of_lookup_imap_2 render blocks (type, content) i Hi). }
  assert (Hcon : Js.includes (combine blocks) content = true).
  { apply (includes_trans _ _ _ Hsec). apply includes_iff.
    exists ("## Block " +:+ Js.toString (Z.of_nat i + 1) +:+ " (" +:+ type +:+ ")"
            +:+ LF +:+ LF), "".
    unfold render. rewrite append_empty_r, !append_assoc. reflexivity. }
  split; [exact Hsec |]. split; [exact Hcon |].
  split; [now apply includes_estimate |].
  intros Hlen. destruct blocks as [| b [| b' rest]]; try discriminate.
  destruct i; [| discriminate]. injection Hi as ->. reflexivity.
Qed.

Lemma X24_sample_two_blocks :
  let blocks := [("note", "first"); ("code", "second")] in
  let section :=
    "## Block " +:+ Js.toString (Z.of_nat 1 + 1) +:+ " (" +:+ "code" +:+ ")"
    +:+ LF +:+ LF +:+ "second" in
  Js.includes (combine blocks) section = true /\
  Js.includes (combine blocks) "second" = true /\
  Tokenizer.estimateTokens "second" <= Tokenizer.estimateTokens (combine blocks) /\
  (length blocks = 1%nat -> combine blocks = section).
Proof.
  apply (X24_combined_text_contains_every_block
           [("note", "first"); ("code", "second")] 1 "code" "second").
  reflexivity.
Defined.

(** ** The confirmation of a delete *)

(** X25.  The dialog of [useConfirmDelete].  The hook tests its item for
    truth, not for [null].  Confirming when no item is requested, or when
    the requested item is one that JavaScript takes for false ([0], [""],
    [false]), calls nothing and changes nothing; for such an item the
    dialog is open with an empty title and description.  Confirming any
    other requested item calls [onDelete] once, with that item; when it
    returns the dialog is closed, when it throws the dialog stays open on
    the same item, and in both cases [isDeleting] is false again.  While
    the delete runs, [cancelDelete] does nothing; otherwise it closes the
    dialog.  A closed dialog has an empty title and description. *)
Theorem X25_confirmation_of_a_delete
    (T : Type) (truthy : T -> bool) (onDelete : T -> outcome unit)
    (getTitle getDescription : T -> string)
    (s : UseConfirmDelete.State T) (item : T) :
  let requested := UseConfirmDelete.requestDelete item s in
  let confirmed := UseConfirmDelete.confirmDelete truthy onDelete requested in
  (UseConfirmDelete.isOpen s = false ->
   UseConfirmDelete.confirmDelete truthy onDelete s = (s, []) /\
   UseConfirmDelete.title truthy getTitle s = "" /\
   UseConfirmDelete.description truthy getDescription s = "") /\
  UseConfirmDelete.isOpen requested = true /\
  UseConfirmDelete.title truthy getTitle requested
  = (if truthy item then getTitle item else "") /\
  UseConfirmDelete.description truthy getDescription requested
  = (if truthy item then getDescription item else "") /\
  snd confirmed = (if truthy item then [item] else []) /\
  (truthy item = false -> fst confirmed = requested) /\
  (truthy item = true ->
   UseConfirmDelete.isDeleting (fst confirmed) = false /\
   UseConfirmDelete.isOpen (fst confirmed)
   = match onDelete item with Returns _ => false | Throws _ => true end /\
   (forall message, onDelete item = Throws message ->
                    UseConfirmDelete.itemToDelete (fst confirmed) = Some item /\
                    UseConfirmDelete.cancelDelete (fst confirmed)
                    = UseConfirmDelete.initial) /\
   (forall deleting,
       UseConfirmDelete.confirmStart truthy requested = Some (item, deleting) ->
       UseConfirmDelete.isDeleting deleting = true /\
       UseConfirmDelete.cancelDelete deleting = deleting /\
       UseConfirmDelete.isOpen deleting = true)) /\
  (UseConfirmDelete.isDeleting s = false ->
   UseConfirmDelete.cancelDelete requested = UseConfirmDelete.initial).
Proof.
  cbv zeta. split.
  - unfold UseConfirmDelete.isOpen, UseConfirmDelete.confirmDelete,
      UseConfirmDelete.confirmStart, UseConfirmDelete.title,
      UseConfirmDelete.description, UseConfirmDelete.holds.
    destruct (UseConfirmDelete.itemToDelete s); [discriminate |].
    intros _. repeat split.
  - unfold UseConfirmDelete.confirmDelete, UseConfirmDelete.confirmStart,
      UseConfirmDelete.requestDelete, UseConfirmDelete.confirmEnd,
      UseConfirmDelete.title, UseConfirmDelete.description, UseConfirmDelete.holds.
    cbn [UseConfirmDelete.itemToDelete].
    split; [reflexivity |].
    split; [destruct (truthy item); reflexivity |].
    split; [destruct (truthy item); reflexivity |].
    split; [destruct (truthy item); reflexivity |].
    split; [intros ->; reflexivity |].
    split.
    + intros ->. cbn [fst].
      split; [destruct (onDelete item); reflexivity |].
      split; [destruct (onDelete item); reflexivity |].
      split.
      * intros message ->. split; reflexivity.
      * intros deleting [= <-]. repeat split.
    + intros Hs. unfold UseConfirmDelete.cancelDelete.
      cbn [UseConfirmDelete.isDeleting]. rewrite Hs. reflexivity.
Qed.

(** The items are numbers and the item requested is [0]: the dialog is
    open, untitled, and confirming does nothing; with the item [7] the
    delete is made.  ([truthy] of a number: it is not [0].) *)
Lemma X25_sample_item_zero :
  let truthy := fun n : Z => negb (n =? 0) in
  let onDelete := fun _ : Z => Returns tt in
  let getTitle := fun n : Z => "Delete " +:+ Js.toString n +:+ "?" in
  let requested := UseConfirmDelete.requestDelete 0 UseConfirmDelete.initial in
  UseConfirmDelete.isOpen requested = true /\
  UseConfirmDelete.title truthy getTitle requested = "" /\
  UseConfirmDelete.confirmDelete truthy onDelete requested = (requested, []) /\
  UseConfirmDelete.title truthy getTitle
    (UseConfirmDelete.requestDelete 7 UseConfirmDelete.initial) = "Delete 7?" /\
  UseConfirmDelete.confirmDelete truthy onDelete
    (UseConfirmDelete.requestDelete 7 UseConfirmDelete.initial)
  = (UseConfirmDelete.initial, [7]).
Proof.
  cbv zeta.
  pose proof (X25_confirmation_of_a_delete Z (fun n : Z => negb (n =? 0))
                (fun _ : Z => Returns tt)
                (fun n : Z => "Delete " +:+ Js.toString n +:+ "?")
                (fun _ : Z => "") UseConfirmDelete.initial 0)
    as (_ & Hopen & Htitle & _ & Hcalls & Hsame & _).
  split; [exact Hopen |]. split; [exact Htitle |].
  split; [| split; vm_compute; reflexivity].
  rewrite (surjective_pairing (UseConfirmDelete.confirmDelete _ _ _)).
  cbv zeta in Hcalls, Hsame. rewrite Hcalls, (Hsame eq_refl). reflexivity.
Defined.

(** ** The accumulation of the answer *)

Lemma fold_append (chunks : list string) (acc : string) :
  fold_left String.append chunks acc = acc +:+ fold_left String.append chunks "".
Proof.
  revert acc. induction chunks as [| c chunks IH]; intros acc.
  - simpl. now rewrite append_empty_r.
  - cbn [fold_left]. rewrite IH. rewrite (IH ("" +:+ c)).
    change ("" +:+ c) with c. now rewrite append_assoc.
Qed.

Lemma textOfParts_acc (parts : list ContentPart) (acc : string) :
  fold_left
    (fun acc part =>
       match part with
       | TextPart text => acc +:+ text
       | OtherPart => acc
       end) parts acc
  = acc +:+ Compression.textOfParts parts.
Proof.
  unfold Compression.textOfParts.
  revert acc. induction parts as [| p parts IH]; intros acc.
  - simpl. now rewrite append_empty_r.
  - cbn [fold_left]. rewrite IH. rewrite (IH match p with
                                              | TextPart text => "" +:+ text
                                              | OtherPart => ""
                                              end).
    destruct p; [| reflexivity].
    change ("" +:+ text) with text. now rewrite append_assoc.
Qed.

Lemma textOfMessages_acc (messages : list SdkMessage) (acc : string) :
  fold_left
    (fun acc message =>
       match message with
       | AssistantMessage (Some parts) => acc +:+ Compression.textOfParts parts
       | _ => acc
       end) messages acc
  = acc +:+ Compression.textOfMessages messages.
Proof.
  unfold Compression.textOfMessages.
  revert acc. induction messages as [| m messages IH]; intros acc.
  - simpl. now rewrite append_empty_r.
  - cbn [fold_left]. rewrite IH.
    rewrite (IH match m with
                | AssistantMessage (Some parts) => "" +:+ Compression.textOfParts parts
                | _ => ""
                end).
    destruct m as [[parts |] | |]; try reflexivity.
    change ("" +:+ Compression.textOfParts parts) with (Compression.textOfParts parts).
    now rewrite append_assoc.
Qed.

Lemma isBlank_append (a b : string) : isBlank (a +:+ b) = isBlank a && isBlank b.
Proof.
  induction a as [| c a IH]; [reflexivity |].
  rewrite append_cons. simpl. rewrite IH. now rewrite andb_assoc.
Qed.

(** X26.  The answer is accumulated in the order of arrival.  On the
    client the chunks of the stream are concatenated, and the result is
    blank exactly when every chunk is.  On the server only the text parts
    of the assistant messages count: the text of two runs of messages is
    the concatenation of their texts, a result message, any other message
    and an assistant message without content add nothing, and a part that
    is not a text is skipped. *)
Theorem X26_accumulation_of_the_answer
    (chunks chunks' : list string) (messages messages' : list SdkMessage)
    (parts parts' : list ContentPart) (text : string) :
  streamed (chunks ++ chunks') = streamed chunks +:+ streamed chunks' /\
  isBlank (streamed chunks) = forallb isBlank chunks /\
  Compression.textOfMessages (messages ++ messages')
  = Compression.textOfMessages messages +:+ Compression.textOfMessages messages' /\
  Compression.textOfMessages (AssistantMessage (Some parts) :: messages)
  = Compression.textOfParts parts +:+ Compression.textOfMessages messages /\
  Compression.textOfMessages (AssistantMessage None :: messages)
  = Compression.textOfMessages messages /\
  Compression.textOfMessages (ResultMessage :: messages)
  = Compression.textOfMessages messages /\
  Compression.textOfMessages (OtherMessage :: messages)
  = Compression.textOfMessages messages /\
  Compression.textOfParts (parts ++ parts')
  = Compression.textOfParts parts +:+ Compression.textOfParts parts' /\
  Compression.textOfParts (TextPart text :: parts)
  = text +:+ Compression.textOfParts parts /\
  Compression.textOfParts (OtherPart :: parts) = Compression.textOfParts parts.
Proof.
  split.
  { unfold streamed. rewrite fold_left_app. apply fold_append. }
  split.
  { unfold streamed. induction chunks as [| c chunks0 IH]; [reflexivity |].
    cbn [fold_left forallb]. rewrite fold_append, isBlank_append.
    change ("" +:+ c) with c. now rewrite IH. }
  split.
  { unfold Compression.textOfMessages at 1. rewrite fold_left_app.
    fold (Compression.textOfMessages messages). apply textOfMessages_acc. }
  split.
  { unfold Compression.textOfMessages at 1. cbn [fold_left].
    apply textOfMessages_acc. }
  split; [reflexivity |]. split; [reflexivity |]. split; [reflexivity |].
  split.
  { unfold Compression.textOfParts at 1. rewrite fold_left_app.
    fold (Compression.textOfParts parts). apply textOfParts_acc. }
  split.
  { unfold Compression.textOfParts at 1. cbn [fold_left]. apply textOfParts_acc. }
  reflexivity.
Qed.

(* ================================================================== *)
(** * The merge: failures, the deadline and the ratio gate *)
(* ================================================================== *)

(** ** The merge, step by step *)

Lemma allStored_iff (w : World) (blockIds : list BlockId) :
  existsb (fun b : option Doc => negb (bool_decide (is_Some b)))
    (List.map (fun blockId => store w !! blockId) blockIds) = false
  <-> allStored w blockIds.
Proof.
  unfold allStored. split.
  - intros H i Hi. destruct (store w !! i) eqn:E; [eauto |].
    assert (C : existsb (fun b : option Doc => negb (bool_decide (is_Some b)))
                  (List.map (fun blockId => store w !! blockId) blockIds) = true)
      by (apply some_missing; eauto).
    congruence.
  - intros H. destruct (existsb _ _) eqn:E; [| reflexivity].
    apply some_missing in E as (i & Hi & Hn).
    destruct (H i Hi) as [x Hx]. congruence.
Qed.

(** The merge action, once every block is stored and the counts add up to
    100 or more: the race, then the two checks of the answer. *)
Lemma mergeAction_valid (env : Env) (blockIds : list BlockId) (strategy : string)
    (w : World) :
  allStored w blockIds ->
  100 <= totalTokens (docsOf w blockIds) ->
  Compression.compressAndMergeWithClaudeCode env blockIds strategy w =
  let originalTokens := totalTokens (docsOf w blockIds) in
  match Compression.raceWithTimeout env (mergePromptFor (docsOf w blockIds) strategy) w with
  | (Ok answer, w1) =>
      let text := Js.trim answer in
      let compressedTokens := Tokenizer.estimateTokens text in
      let ratio := Js.div originalTokens compressedTokens in
      if Js.isEmpty text then (Err (ClaudeCodeFailed EmptyResponse), w1)
      else if Js.lt ratio 1.2%Q then (Err (ClaudeCodeFailed (RatioBelowMinimum ratio)), w1)
      else (Ok (Compression.mkMergeResult true text originalTokens compressedTokens
                  ratio (originalTokens - compressedTokens)), w1)
  | (Err e, w1) => (Err (ClaudeCodeFailed e), w1)
  end.
Proof.
  intros Hall Htok. cbv zeta.
  unfold Compression.compressAndMergeWithClaudeCode.
  unfold bind at 1.
  rewrite (proj2 (allStored_iff w blockIds) Hall).
  fold (docsOf w blockIds). fold (totalTokens (docsOf w blockIds)).
  destruct (Z.ltb_spec (totalTokens (docsOf w blockIds)) 100); [lia |].
  fold (mergePromptFor (docsOf w blockIds) strategy).
  unfold tryCatch, bind.
  destruct (Compression.raceWithTimeout env _ w) as [[answer | e] w1]; [| reflexivity].
  destruct (Js.isEmpty (Js.trim answer)); [reflexivity |].
  change (Compression.estimateTokens (Js.trim answer))
    with (Tokenizer.estimateTokens (Js.trim answer)).
  destruct (Js.lt _ _); reflexivity.
Qed.

Lemma mergeAction_missing (env : Env) (blockIds : list BlockId) (strategy : string)
    (w : World) :
  (exists blockId, In blockId blockIds /\ store w !! blockId = None) ->
  Compression.compressAndMergeWithClaudeCode env blockIds strategy w
  = (Err BlocksNotFound, w).
Proof.
  intros H. apply some_missing in H.
  unfold Compression.compressAndMergeWithClaudeCode.
  unfold bind at 1. now rewrite H.
Qed.

Lemma mergeAction_too_small (env : Env) (blockIds : list BlockId) (strategy : string)
    (w : World) :
  allStored w blockIds ->
  totalTokens (docsOf w blockIds) < 100 ->
  Compression.compressAndMergeWithClaudeCode env blockIds strategy w
  = (Err (CombinedTooFewTokens (totalTokens (docsOf w blockIds))), w).
Proof.
  intros Hall Htok.
  unfold Compression.compressAndMergeWithClaudeCode.
  unfold bind at 1.
  rewrite (proj2 (allStored_iff w blockIds) Hall).
  fold (docsOf w blockIds). fold (totalTokens (docsOf w blockIds)).
  destruct (Z.ltb_spec (totalTokens (docsOf w blockIds)) 100); [reflexivity | lia].
Qed.

(** The hook after the backend stage: the ratio gate, then the mutation. *)
Lemma settle_mutation (provider : Provider) (env : Env)
    (options : UseCompression.MergeOptions) (args : MergeArgs) (w1 : World) :
  UseCompression.settle
    (await newBlockId := Blocks.runCompressAndMerge env args in
     ret (mergedResult provider options args newBlockId)) w1
  = afterMutation provider env options args w1.
Proof.
  unfold UseCompression.settle, bind, Blocks.runCompressAndMerge, afterMutation, ret.
  destruct (compressAndMergeMutation env args (store w1)) as [[newBlockId s'] | message];
    reflexivity.
Qed.

(** The merge of the hook on the server path. *)
Lemma compressAndMerge_server (env : Env) (blocks : list CompressionService.Block)
    (options : UseCompression.MergeOptions) (previous : UseCompression.HookState)
    (w : World) :
  blocks <> [] ->
  UseCompression.compressAndMerge claude_code env blocks options previous w =
  match Compression.compressAndMergeWithClaudeCode env
          (List.map CompressionService._id blocks)
          (strategyName (mergeStrategy options)) w with
  | (Ok r, w1) =>
      if negb (Compression.m_success r) then
        (UseCompression.mkHookState false (Some ActionFailed) None, w1)
      else if Js.lt (Compression.m_compressionRatio r) 1.2%Q then
        (UseCompression.mkHookState false
           (Some (RatioBelowMinimum (Compression.m_compressionRatio r))) None, w1)
      else
        afterMutation claude_code env options
          (mkMergeArgs (List.map CompressionService._id blocks)
             (Compression.m_compressedContent r) (Compression.m_originalTokens r)
             (Compression.m_compressedTokens r) (Compression.m_compressionRatio r)
             (strategyName (mergeStrategy options))
             (UseCompression.targetZone options) (UseCompression.targetType options) 0)
          w1
  | (Err e, w1) => (UseCompression.mkHookState false (Some e) None, w1)
  end.
Proof.
  intros Hne. unfold UseCompression.compressAndMerge.
  destruct blocks as [| b blocks']; [congruence |].
  change (length (b :: blocks') =? 0)%nat with false. cbv iota.
  fold (mergeStrategy options).
  unfold UseCompression.settle at 1. unfold bind at 1 2.
  destruct (Compression.compressAndMergeWithClaudeCode env _ _ w) as [[r | e] w1];
    [| reflexivity].
  destruct (negb (Compression.m_success r)); [reflexivity |].
  unfold ret at 1. cbn [CompressionService.t_compressionRatio].
  destruct (Js.lt _ _); [reflexivity |].
  rewrite <- settle_mutation. reflexivity.
Qed.

(** The merge of the hook with a chat provider. *)
Lemma compressAndMerge_client (provider : Provider) (env : Env)
    (blocks : list CompressionService.Block)
    (options : UseCompression.MergeOptions) (previous : UseCompression.HookState)
    (w : World) :
  provider <> claude_code ->
  blocks <> [] ->
  UseCompression.compressAndMerge provider env blocks options previous w =
  match CompressionService.compressContent provider env (combinedOf blocks)
          (mergeStrategy options) "merged_blocks" w with
  | (Ok text, w1) =>
      let args :=
        mergeArgsFor blocks options text (Tokenizer.estimateTokens (combinedOf blocks)) in
      if Js.lt (ma_compressionRatio args) 1.2%Q then
        (UseCompression.mkHookState false
           (Some (RatioBelowMinimum (ma_compressionRatio args))) None, w1)
      else afterMutation provider env options args w1
  | (Err e, w1) => (UseCompression.mkHookState false (Some e) None, w1)
  end.
Proof.
  intros Hp Hne. unfold UseCompression.compressAndMerge.
  destruct blocks as [| b blocks']; [congruence |].
  change (length (b :: blocks') =? 0)%nat with false. cbv iota.
  fold (mergeStrategy options). fold (combinedOf (b :: blocks')).
  assert (Hstage :
            match provider with
            | claude_code =>
                await actionResult :=
                  Compression.compressAndMergeWithClaudeCode env
                    (List.map CompressionService._id (b :: blocks'))
                    (strategyName (mergeStrategy options)) in
                if negb (Compression.m_success actionResult) then throw ActionFailed
                else
                  ret (CompressionService.mkTextResult
                         (Compression.m_compressedContent actionResult)
                         (Compression.m_originalTokens actionResult)
                         (Compression.m_compressedTokens actionResult)
                         (Compression.m_compressionRatio actionResult))
            | _ =>
                CompressionService.compressText provider env (combinedOf (b :: blocks'))
                  (mergeStrategy options) "merged_blocks"
            end
            = CompressionService.compressText provider env (combinedOf (b :: blocks'))
                (mergeStrategy options) "merged_blocks")
    by (destruct provider; [reflexivity | reflexivity | congruence]).
  rewrite Hstage.
  unfold UseCompression.settle at 1. unfold bind at 1.
  rewrite compressText_cases.
  destruct (CompressionService.compressContent provider env _ _ _ w) as [[text | e] w1];
    [| reflexivity].
  cbv zeta. unfold mergeArgsFor. cbn [ma_compressionRatio CompressionService.t_compressionRatio].
  destruct (Js.lt _ _); [reflexivity |].
  rewrite <- settle_mutation. reflexivity.
Qed.

Lemma newEvents_same (w : World) : newEvents w w = [].
Proof. unfold newEvents. apply skipn_all. Qed.

Lemma mergeAction_late (env : Env) (blockIds : list BlockId) (strategy : string)
    (w : World) :
  allStored w blockIds ->
  100 <= totalTokens (docsOf w blockIds) ->
  missesDeadline (claudeQuery env (mergePromptFor (docsOf w blockIds) strategy)) ->
  Compression.compressAndMergeWithClaudeCode env blockIds strategy w
  = (Err (ClaudeCodeFailed TimedOut),
     logged w (EvClaudeQuery (mergePromptFor (docsOf w blockIds) strategy))).
Proof.
  intros Hall Htok Hlate.
  rewrite (mergeAction_valid _ _ _ _ Hall Htok). cbv zeta.
  now rewrite (raceWithTimeout_late _ _ _ Hlate).
Qed.

(** With an agent that is late whatever the prompt, the actions throw
    before the call, or throw the timeout after it. *)
Lemma single_action_always_late (env : Env) (blockId : BlockId) (strategy : string)
    (w : World) :
  (forall prompt, missesDeadline (claudeQuery env prompt)) ->
  exists e w',
    Compression.compressWithClaudeCode env blockId strategy w = (Err e, w') /\
    (w' = w \/
     e = ClaudeCodeFailed TimedOut /\ exists prompt, w' = logged w (EvClaudeQuery prompt)).
Proof.
  intros Hlate. unfold Compression.compressWithClaudeCode.
  unfold bind at 1. unfold Blocks.get. cbv beta iota.
  destruct (store w !! blockId) as [block |]; [| eexists _, _; split; [reflexivity | now left]].
  destruct (_ <? 100); [eexists _, _; split; [reflexivity | now left] |].
  destruct (Js.isEmpty (content block) || _);
    [eexists _, _; split; [reflexivity | now left] |].
  unfold tryCatch, bind. cbv beta zeta.
  rewrite (raceWithTimeout_late _ _ _ (Hlate _)).
  eexists _, _. split; [reflexivity |]. right. split; [reflexivity | eauto].
Qed.

Lemma merge_action_always_late (env : Env) (blockIds : list BlockId) (strategy : string)
    (w : World) :
  (forall prompt, missesDeadline (claudeQuery env prompt)) ->
  exists e w',
    Compression.compressAndMergeWithClaudeCode env blockIds strategy w = (Err e, w') /\
    (w' = w \/
     e = ClaudeCodeFailed TimedOut /\ exists prompt, w' = logged w (EvClaudeQuery prompt)).
Proof.
  intros Hlate. unfold Compression.compressAndMergeWithClaudeCode.
  unfold bind at 1. cbv beta iota.
  destruct (existsb _ _); [eexists _, _; split; [reflexivity | now left] |].
  destruct (_ <? 100); [eexists _, _; split; [reflexivity | now left] |].
  unfold tryCatch, bind. cbv beta zeta.
  rewrite (raceWithTimeout_late _ _ _ (Hlate _)).
  eexists _, _. split; [reflexivity |]. right. split; [reflexivity | eauto].
Qed.

Lemma afterMutation_error (provider : Provider) (env : Env)
    (options : UseCompression.MergeOptions) (args : MergeArgs) (w1 : World) :
  match UseCompression.error (fst (afterMutation provider env options args w1)) with
  | None => exists newBlockId s',
              compressAndMergeMutation env args (store w1) = Returns (newBlockId, s')
  | Some e => exists message,
                e = Thrown message /\
                compressAndMergeMutation env args (store w1) = Throws message
  end.
Proof.
  unfold afterMutation.
  destruct (compressAndMergeMutation env args (store w1)) as [[newBlockId s'] | message];
    cbn [fst UseCompression.error]; eauto.
Qed.

Lemma afterMutation_not_ratio (provider : Provider) (env : Env)
    (options : UseCompression.MergeOptions) (args : MergeArgs) (w1 : World) (x : Js.jsnum) :
  UseCompression.error (fst (afterMutation provider env options args w1))
  <> Some (RatioBelowMinimum x) /\
  UseCompression.error (fst (afterMutation provider env options args w1))
  <> Some (ClaudeCodeFailed (RatioBelowMinimum x)).
Proof.
  pose proof (afterMutation_error provider env options args w1) as H.
  destruct (UseCompression.error _) as [e |]; [| split; discriminate].
  destruct H as (message & -> & _). split; discriminate.
Qed.

(** The merge of the hook on the server path, once the agent has answered
    in time with a text that is not blank. *)
Lemma compressAndMerge_server_answered (env : Env)
    (blocks : list CompressionService.Block)
    (options : UseCompression.MergeOptions) (previous : UseCompression.HookState)
    (w : World) (text : string) :
  let blockIds := List.map CompressionService._id blocks in
  let strategy := strategyName (mergeStrategy options) in
  let prompt := mergePromptFor (docsOf w blockIds) strategy in
  let args := mergeArgsFor blocks options (Js.trim text) (totalTokens (docsOf w blockIds)) in
  blocks <> [] ->
  allStored w blockIds ->
  100 <= totalTokens (docsOf w blockIds) ->
  answersInTime (claudeQuery env prompt) text ->
  isBlank text = false ->
  Compression.compressAndMergeWithClaudeCode env blockIds strategy w
  = (if Js.lt (ma_compressionRatio args) 1.2%Q then
       Err (ClaudeCodeFailed (RatioBelowMinimum (ma_compressionRatio args)))
     else
       Ok (Compression.mkMergeResult true (Js.trim text) (ma_originalTokens args)
             (ma_compressedTokens args) (ma_compressionRatio args)
             (ma_originalTokens args - ma_compressedTokens args)),
     logged w (EvClaudeQuery prompt)) /\
  UseCompression.compressAndMerge claude_code env blocks options previous w
  = if Js.lt (ma_compressionRatio args) 1.2%Q then
      (UseCompression.mkHookState false
         (Some (ClaudeCodeFailed (RatioBelowMinimum (ma_compressionRatio args)))) None,
       logged w (EvClaudeQuery prompt))
    else afterMutation claude_code env options args (logged w (EvClaudeQuery prompt)).
Proof.
  intros blockIds strategy prompt args Hne Hall Htok Hans Htext.
  assert (E : Compression.compressAndMergeWithClaudeCode env blockIds strategy w
              = (if Js.lt (ma_compressionRatio args) 1.2%Q then
                   Err (ClaudeCodeFailed (RatioBelowMinimum (ma_compressionRatio args)))
                 else
                   Ok (Compression.mkMergeResult true (Js.trim text)
                         (ma_originalTokens args) (ma_compressedTokens args)
                         (ma_compressionRatio args)
                         (ma_originalTokens args - ma_compressedTokens args)),
                 logged w (EvClaudeQuery prompt))).
  { rewrite (mergeAction_valid _ _ _ _ Hall Htok). cbv zeta.
    fold prompt. rewrite (raceWithTimeout_in_time _ _ _ _ Hans).
    rewrite (trim_nonblank _ Htext).
    unfold args, mergeArgsFor.
    cbn [ma_compressionRatio ma_originalTokens ma_compressedTokens].
    destruct (Js.lt _ _); reflexivity. }
  split; [exact E |].
  rewrite (compressAndMerge_server _ _ _ _ _ Hne).
  fold blockIds strategy. rewrite E.
  destruct (Js.lt (ma_compressionRatio args) 1.2%Q) eqn:Hlt; [reflexivity |].
  cbn [Compression.m_success negb Compression.m_compressionRatio].
  rewrite Hlt. reflexivity.
Qed.

(** The merge of the hook with a chat provider, once the client has
    streamed its answer. *)
Lemma compressAndMerge_client_answered (provider : Provider) (env : Env)
    (blocks : list CompressionService.Block)
    (options : UseCompression.MergeOptions) (previous : UseCompression.HookState)
    (w : World) (chunks : list string) :
  let call := EvStreamChat provider (clientPrompt (combinedOf blocks) "merged_blocks") in
  let args :=
    mergeArgsFor blocks options (Js.trim (streamed chunks))
      (Tokenizer.estimateTokens (combinedOf blocks)) in
  provider <> claude_code ->
  blocks <> [] ->
  mergeStrategy options = semantic ->
  streamChat env provider (clientPrompt (combinedOf blocks) "merged_blocks")
  = Returns chunks ->
  UseCompression.compressAndMerge provider env blocks options previous w
  = if Js.lt (ma_compressionRatio args) 1.2%Q then
      (UseCompression.mkHookState false
         (Some (RatioBelowMinimum (ma_compressionRatio args))) None, logged w call)
    else afterMutation provider env options args (logged w call).
Proof.
  intros call args Hp Hne Hs Hstream.
  rewrite (compressAndMerge_client _ _ _ _ _ _ Hp Hne). rewrite Hs.
  rewrite (compressContent_streamed _ _ _ _ _ _ Hp Hstream). reflexivity.
Qed.

Lemma gate_iff (e : option Error) (wrap : Error -> Error) (ratio : Js.jsnum)
    (below : bool) :
  (below = true -> e = Some (wrap (RatioBelowMinimum ratio))) ->
  (below = false -> forall x, e <> Some (wrap (RatioBelowMinimum x))) ->
  (exists x, e = Some (wrap (RatioBelowMinimum x))) <-> below = true.
Proof.
  intros Ht Hf. destruct below.
  - split; [reflexivity | intros _; eexists; now apply Ht].
  - split; [intros [x Hx]; now apply (Hf eq_refl x) in Hx | discriminate].
Qed.

Lemma mergeAction_blank (env : Env) (blockIds : list BlockId) (strategy : string)
    (w : World) (text : string) :
  allStored w blockIds ->
  100 <= totalTokens (docsOf w blockIds) ->
  answersInTime (claudeQuery env (mergePromptFor (docsOf w blockIds) strategy)) text ->
  isBlank text = true ->
  Compression.compressAndMergeWithClaudeCode env blockIds strategy w
  = (Err (ClaudeCodeFailed EmptyResponse),
     logged w (EvClaudeQuery (mergePromptFor (docsOf w blockIds) strategy))).
Proof.
  intros Hall Htok Hans Hblank.
  rewrite (mergeAction_valid _ _ _ _ Hall Htok). cbv zeta.
  rewrite (raceWithTimeout_in_time _ _ _ _ Hans).
  now rewrite (trim_blank _ Hblank).
Qed.

Lemma afterMutation_store (provider : Provider) (env : Env)
    (options : UseCompression.MergeOptions) (args : MergeArgs) (w w1 : World)
    (call : Event) :
  w1 = logged w call ->
  let run := afterMutation provider env options args w1 in
  newEvents w (snd run) = [call; EvCompressAndMerge args] /\
  match compressAndMergeMutation env args (store w) with
  | Returns (newBlockId, s') =>
      fst run = UseCompression.mkHookState false None
                  (Some (mergedResult provider options args newBlockId))
      /\ store (snd run) = s'
  | Throws message =>
      fst run = UseCompression.mkHookState false (Some (Thrown message)) None
      /\ store (snd run) = store w
  end.
Proof.
  intros ->. cbv zeta. unfold afterMutation. cbn [store logged].
  destruct (compressAndMergeMutation env args (store w)) as [[newBlockId s'] | message];
    cbn [fst snd]; (split; [apply newEvents_logged2 | split; reflexivity]).
Qed.

(** A merge that reports no error has called the backend of the provider
    and then the mutation, which has returned. *)
Lemma compressAndMerge_success (provider : Provider) (env : Env)
    (blocks : list CompressionService.Block) (options : UseCompression.MergeOptions)
    (previous : UseCompression.HookState) (w : World) :
  let run := UseCompression.compressAndMerge provider env blocks options previous w in
  reportsFailure (fst run) = false ->
  exists call args newBlockId s',
    callOf provider call = true /\
    newEvents w (snd run) = [call; EvCompressAndMerge args] /\
    ma_blockIds args = List.map CompressionService._id blocks /\
    Js.lt (ma_compressionRatio args) 1.2%Q = false /\
    compressAndMergeMutation env args (store w) = Returns (newBlockId, s') /\
    fst run = UseCompression.mkHookState false None
                (Some (mergedResult provider options args newBlockId)) /\
    store (snd run) = s'.
Proof.
  cbv zeta. destruct blocks as [| b blocks']; [discriminate |].
  assert (Hne : b :: blocks' <> []) by discriminate.
  assert (Hstep : forall call args,
             callOf provider call = true ->
             ma_blockIds args = List.map CompressionService._id (b :: blocks') ->
             Js.lt (ma_compressionRatio args) 1.2%Q = false ->
             reportsFailure
               (fst (afterMutation provider env options args (logged w call))) = false ->
             exists call0 args0 newBlockId s',
               callOf provider call0 = true /\
               newEvents w (snd (afterMutation provider env options args (logged w call)))
               = [call0; EvCompressAndMerge args0] /\
               ma_blockIds args0 = List.map CompressionService._id (b :: blocks') /\
               Js.lt (ma_compressionRatio args0) 1.2%Q = false /\
               compressAndMergeMutation env args0 (store w) = Returns (newBlockId, s') /\
               fst (afterMutation provider env options args (logged w call))
               = UseCompression.mkHookState false None
                   (Some (mergedResult provider options args0 newBlockId)) /\
               store (snd (afterMutation provider env options args (logged w call))) = s').
  { intros call args Hcall Hids Hlt Hrep.
    destruct (afterMutation_store provider env options args w (logged w call) call eq_refl)
      as [Hev Hm].
    destruct (compressAndMergeMutation env args (store w)) as [[newBlockId s'] | message]
      eqn:Hmut; destruct Hm as [Hf Hs].
    - exists call, args, newBlockId, s'. repeat split; assumption.
    - rewrite Hf in Hrep. discriminate Hrep. }
  destruct (provider_cases provider) as [-> | Hp].
  - rewrite (compressAndMerge_server _ _ _ _ _ Hne).
    destruct (Compression.compressAndMergeWithClaudeCode env _ _ w) as [[r | e] w1] eqn:Ha;
      apply merge_action_trace in Ha; [| discriminate].
    destruct Ha as (Hsucc & Hlt & prompt & ->). rewrite Hsucc, Hlt.
    cbn [negb]. now apply Hstep.
  - rewrite (compressAndMerge_client _ _ _ _ _ _ Hp Hne).
    destruct (CompressionService.compressContent provider env _ _ _ w)
      as [[text | e] w1] eqn:Hc; [| discriminate].
    destruct (compressContent_ok_inv _ _ _ _ _ _ _ _ Hc) as (_ & _ & -> & _).
    cbv zeta. destruct (Js.lt _ _) eqn:Hlt; [discriminate |].
    apply Hstep; [now apply callOf_stream | reflexivity | exact Hlt].
Qed.

(** ** The three properties *)

(** C1, amended.  A merge over N source blocks has these checks and no
    other: the list of blocks is not empty; on the server path every
    block is stored, the token counts add up to 100 or more, the agent
    answers within the deadline, without throwing, with a text that is not
    blank, and the ratio is not below 1.2; with a chat provider the
    strategy is "semantic", the client answers without throwing and the
    ratio is not below 1.2; the mutation [blocks.compressAndMerge]
    returns.  When the backend call or one of these checks fails, the hook
    reports the error, the mutation is not run or has thrown, and the
    table of blocks is exactly as it was before the attempt: every source
    block is unchanged, nothing is inserted, deleted or patched.  When no
    check fails the mutation is run on the source blocks, whatever the
    quality of the answer: on a merge a quality below 0.6 is no failure,
    and with a chat provider neither is a blank answer. *)
Theorem C1_failed_merge_leaves_the_blocks_untouched
    (provider : Provider) (env : Env) (blocks : list CompressionService.Block)
    (options : UseCompression.MergeOptions) (previous : UseCompression.HookState)
    (w : World) :
  let blockIds := List.map CompressionService._id blocks in
  let originalTokens := totalTokens (docsOf w blockIds) in
  let prompt := mergePromptFor (docsOf w blockIds) (strategyName (mergeStrategy options)) in
  let clientCall :=
    EvStreamChat provider (clientPrompt (combinedOf blocks) "merged_blocks") in
  let failed e w' := (UseCompression.mkHookState false (Some e) None, w') in
  let run := UseCompression.compressAndMerge provider env blocks options previous w in
  (blocks = [] ->
   run = (UseCompression.mkHookState (UseCompression.isCompressing previous)
            (Some NoBlocksToMerge) (UseCompression.result previous), w)) /\
  (blocks <> [] -> backendFails provider env -> reportsFailure (fst run) = true) /\
  (blocks <> [] -> provider = claude_code ->
   ((exists blockId, In blockId blockIds /\ store w !! blockId = None) ->
    run = failed BlocksNotFound w) /\
   (allStored w blockIds -> originalTokens < 100 ->
    run = failed (CombinedTooFewTokens originalTokens) w) /\
   (allStored w blockIds -> 100 <= originalTokens ->
    missesDeadline (claudeQuery env prompt) ->
    run = failed (ClaudeCodeFailed TimedOut) (logged w (EvClaudeQuery prompt))) /\
   (allStored w blockIds -> 100 <= originalTokens ->
    forall elapsed message,
      claudeQuery env prompt = RunThrows elapsed message ->
      elapsed < Compression.timeoutMs ->
      run = failed (ClaudeCodeFailed (Thrown message)) (logged w (EvClaudeQuery prompt))) /\
   (allStored w blockIds -> 100 <= originalTokens ->
    forall text,
      answersInTime (claudeQuery env prompt) text ->
      let args := mergeArgsFor blocks options (Js.trim text) originalTokens in
      (isBlank text = true ->
       run = failed (ClaudeCodeFailed EmptyResponse) (logged w (EvClaudeQuery prompt))) /\
      (isBlank text = false -> Js.lt (ma_compressionRatio args) 1.2%Q = true ->
       run = failed (ClaudeCodeFailed (RatioBelowMinimum (ma_compressionRatio args)))
               (logged w (EvClaudeQuery prompt))) /\
      (isBlank text = false -> Js.lt (ma_compressionRatio args) 1.2%Q = false ->
       run = afterMutation provider env options args (logged w (EvClaudeQuery prompt))))) /\
  (blocks <> [] -> provider <> claude_code ->
   (mergeStrategy options <> semantic ->
    exists name, run = failed (NotImplemented name) w) /\
   (mergeStrategy options = semantic ->
    (forall message,
        streamChat env provider (clientPrompt (combinedOf blocks) "merged_blocks")
        = Throws message ->
        run = failed (Thrown message) (logged w clientCall)) /\
    (forall chunks,
        streamChat env provider (clientPrompt (combinedOf blocks) "merged_blocks")
        = Returns chunks ->
        let args :=
          mergeArgsFor blocks options (Js.trim (streamed chunks))
            (Tokenizer.estimateTokens (combinedOf blocks)) in
        (Js.lt (ma_compressionRatio args) 1.2%Q = true ->
         run = failed (RatioBelowMinimum (ma_compressionRatio args)) (logged w clientCall)) /\
        (Js.lt (ma_compressionRatio args) 1.2%Q = false ->
         run = afterMutation provider env options args (logged w clientCall))))) /\
  (forall (args : MergeArgs) (call : Event),
      let merged := afterMutation provider env options args (logged w call) in
      newEvents w (snd merged) = [call; EvCompressAndMerge args] /\
      match compressAndMergeMutation env args (store w) with
      | Returns (newBlockId, s') =>
          fst merged = UseCompression.mkHookState false None
                         (Some (mergedResult provider options args newBlockId))
          /\ store (snd merged) = s'
      | Throws message =>
          fst merged = UseCompression.mkHookState false (Some (Thrown message)) None
          /\ store (snd merged) = store w
      end) /\
  (reportsFailure (fst run) = true ->
   store (snd run) = store w /\
   Forall (fun b => store (snd run) !! CompressionService._id b
                    = store w !! CompressionService._id b) blocks /\
   (blocks <> [] -> UseCompression.result (fst run) = None)) /\
  (reportsFailure (fst run) = false ->
   exists call args newBlockId s',
     callOf provider call = true /\
     newEvents w (snd run) = [call; EvCompressAndMerge args] /\
     ma_blockIds args = blockIds /\
     Js.lt (ma_compressionRatio args) 1.2%Q = false /\
     compressAndMergeMutation env args (store w) = Returns (newBlockId, s') /\
     fst run = UseCompression.mkHookState false None
                 (Some (mergedResult provider options args newBlockId)) /\
     store (snd run) = s').
Proof.
  intros blockIds originalTokens prompt clientCall failed run.
  split; [| split; [| split; [| split; [| split; [| split]]]]].
  - intros ->. reflexivity.
  - intros _ Hf. subst run.
    destruct (UseCompression.compressAndMerge provider env blocks options previous w)
      as [h w'] eqn:E.
    exact (compressAndMerge_backend_failure _ _ _ _ _ _ _ _ E Hf).
  - intros Hne ->. subst run. rewrite (compressAndMerge_server _ _ _ _ _ Hne).
    fold blockIds. split; [| split; [| split; [| split]]].
    + intros Hmiss. now rewrite (mergeAction_missing _ _ _ _ Hmiss).
    + intros Hall Htok. now rewrite (mergeAction_too_small _ _ _ _ Hall Htok).
    + intros Hall Htok Hlate. now rewrite (mergeAction_late _ _ _ _ Hall Htok Hlate).
    + intros Hall Htok elapsed message Hq Ht.
      rewrite (mergeAction_valid _ _ _ _ Hall Htok). cbv zeta.
      now rewrite (raceWithTimeout_throws _ _ _ _ _ Hq Ht).
    + intros Hall Htok text Hans args. split; [| split].
      * intros Hblank. now rewrite (mergeAction_blank _ _ _ _ _ Hall Htok Hans Hblank).
      * intros Hblank Hlt.
        destruct (compressAndMerge_server_answered env blocks options previous w text
                    Hne Hall Htok Hans Hblank) as [Ha _].
        fold blockIds originalTokens prompt args in Ha. rewrite Ha, Hlt. reflexivity.
      * intros Hblank Hlt.
        destruct (compressAndMerge_server_answered env blocks options previous w text
                    Hne Hall Htok Hans Hblank) as [Ha _].
        fold blockIds originalTokens prompt args in Ha. rewrite Ha, Hlt.
        cbn [Compression.m_success negb Compression.m_compressionRatio].
        rewrite Hlt. reflexivity.
  - intros Hne Hp. subst run. rewrite (compressAndMerge_client _ _ _ _ _ _ Hp Hne).
    rewrite compressContent_cases. split.
    + intros Hs. destruct (mergeStrategy options); [contradiction | |];
        eexists; reflexivity.
    + intros ->. unfold streamedAnswer. cbv zeta.
      split.
      * intros message Hm.
        destruct provider; [| | contradiction]; now rewrite Hm.
      * intros chunks Hc.
        split; intros Hlt;
          (destruct provider; [| | contradiction]); rewrite Hc; cbv zeta;
          now rewrite Hlt.
  - intros args call.
    exact (afterMutation_store provider env options args w (logged w call) call eq_refl).
  - intros F. subst run.
    destruct (UseCompression.compressAndMerge provider env blocks options previous w)
      as [h w'] eqn:E.
    destruct (compressAndMerge_failure _ _ _ _ _ _ _ _ E F) as [Hres Hstore].
    cbn [fst snd] in *. split; [exact Hstore |]. split; [| exact Hres].
    apply Forall_forall. intros b _. now rewrite Hstore.
  - apply compressAndMerge_success.
Qed.

(** C2.  Every attempt with the local agent races the agent against a
    timer of 300000 ms, in [compressWithClaudeCode] and in
    [compressAndMergeWithClaudeCode] alike.  When the agent has not
    completed within the deadline, the action ends in the error "Claude
    Code compression failed: Compression timed out after 5 minutes": it is
    not a result, empty or otherwise; the hook ([compressSingle],
    respectively [compressAndMerge]) reports that error and no result; the
    table of blocks is as it was and no mutation has been run, so that no
    block is patched, inserted or deleted.  With an agent that is late
    whatever it is asked, every attempt ends in an error, changes nothing
    and runs no mutation, and the error is the timeout whenever the agent
    has been called. *)
Theorem C2_timeout_is_reported_and_touches_nothing (env : Env) (w : World) :
  Compression.timeoutMs = 300000 /\
  (forall (block : CompressionService.Block) (strategy : Strategy) (stored : Doc),
      store w !! CompressionService._id block = Some stored ->
      100 <= tokenCount (tokens stored) (content stored) ->
      isBlank (content stored) = false ->
      missesDeadline (claudeQuery env (promptFor stored (strategyName strategy))) ->
      exists w',
        Compression.compressWithClaudeCode env (CompressionService._id block)
          (strategyName strategy) w = (Err (ClaudeCodeFailed TimedOut), w')
        /\ UseCompression.compressSingle claude_code env block strategy w
           = (UseCompression.mkHookState false (Some (ClaudeCodeFailed TimedOut)) None, w')
        /\ store w' = store w
        /\ List.filter isMutation (newEvents w w') = []) /\
  (forall (blocks : list CompressionService.Block)
          (options : UseCompression.MergeOptions)
          (previous : UseCompression.HookState),
      let blockIds := List.map CompressionService._id blocks in
      let strategy := strategyName (mergeStrategy options) in
      let prompt := mergePromptFor (docsOf w blockIds) strategy in
      blocks <> [] ->
      allStored w blockIds ->
      100 <= totalTokens (docsOf w blockIds) ->
      missesDeadline (claudeQuery env prompt) ->
      exists w',
        Compression.compressAndMergeWithClaudeCode env blockIds strategy w
        = (Err (ClaudeCodeFailed TimedOut), w')
        /\ UseCompression.compressAndMerge claude_code env blocks options previous w
           = (UseCompression.mkHookState false (Some (ClaudeCodeFailed TimedOut)) None, w')
        /\ store w' = store w
        /\ newEvents w w' = [EvClaudeQuery prompt]
        /\ List.filter isMutation (newEvents w w') = []) /\
  ((forall prompt, missesDeadline (claudeQuery env prompt)) ->
   (forall (block : CompressionService.Block) (strategy : Strategy),
       let run := UseCompression.compressSingle claude_code env block strategy w in
       reportsFailure (fst run) = true /\
       UseCompression.result (fst run) = None /\
       store (snd run) = store w /\
       List.filter isMutation (newEvents w (snd run)) = [] /\
       (List.filter isBackendCall (newEvents w (snd run)) <> [] ->
        UseCompression.error (fst run) = Some (ClaudeCodeFailed TimedOut))) /\
   (forall (blocks : list CompressionService.Block)
           (options : UseCompression.MergeOptions)
           (previous : UseCompression.HookState),
       let run :=
         UseCompression.compressAndMerge claude_code env blocks options previous w in
       reportsFailure (fst run) = true /\
       (blocks <> [] -> UseCompression.result (fst run) = None) /\
       store (snd run) = store w /\
       List.filter isMutation (newEvents w (snd run)) = [] /\
       (List.filter isBackendCall (newEvents w (snd run)) <> [] ->
        UseCompression.error (fst run) = Some (ClaudeCodeFailed TimedOut)))).
Proof.
  split; [reflexivity |]. split; [| split].
  - intros block strategy stored Hget Htok Hblank Hlate.
    pose proof (compressWithClaudeCode_late env _ _ w stored Hget Htok Hblank Hlate) as E.
    eexists. split; [exact E |].
    split; [exact (compressSingle_server_error _ _ _ _ _ _ E) |].
    split; [reflexivity |].
    unfold logged. now rewrite newEvents_app.
  - intros blocks options previous blockIds strategy prompt Hne Hall Htok Hlate.
    pose proof (mergeAction_late env blockIds strategy w Hall Htok Hlate) as E.
    eexists. split; [exact E |]. split; [| split; [| split]].
    + rewrite (compressAndMerge_server _ _ _ _ _ Hne).
      fold blockIds strategy. now rewrite E.
    + reflexivity.
    + apply newEvents_logged.
    + now rewrite newEvents_logged.
  - intros Hlate. split.
    + intros block strategy run. subst run.
      destruct (single_action_always_late env (CompressionService._id block)
                  (strategyName strategy) w Hlate)
        as (e & w' & E & [-> | [-> [prompt ->]]]);
        rewrite (compressSingle_server_error _ _ _ _ _ _ E); cbn [fst snd].
      * rewrite newEvents_same. repeat split. intros H. now contradiction H.
      * rewrite newEvents_logged. repeat split.
    + intros blocks options previous run. subst run.
      destruct blocks as [| b blocks'].
      { cbn [fst snd UseCompression.compressAndMerge length Nat.eqb].
        rewrite newEvents_same. repeat split; try congruence.
        intros H. now contradiction H. }
      assert (Hne : b :: blocks' <> []) by discriminate.
      rewrite (compressAndMerge_server _ _ _ _ _ Hne).
      destruct (merge_action_always_late env
                  (List.map CompressionService._id (b :: blocks'))
                  (strategyName (mergeStrategy options)) w Hlate)
        as (e & w' & E & [-> | [-> [prompt ->]]]); rewrite E; cbn [fst snd].
      * rewrite newEvents_same. repeat split. intros H. now contradiction H.
      * rewrite newEvents_logged. repeat split.
Qed.

(** C3.  On every path an attempt that reaches the ratio gate is rejected
    by it exactly when the ratio [originalTokens / compressedTokens] is
    below 1.2, in integers when [5 * originalTokens < 6 *
    compressedTokens]: in [compressBlock], in [compressWithClaudeCode], in
    [compressAndMergeWithClaudeCode] and in the hook's [compressAndMerge],
    on the server path and with a chat provider.  A merge whose ratio is
    not below 1.2 goes on to the mutation [blocks.compressAndMerge].  A
    ratio of exactly 1.2 (1500 tokens against 1250) passes the gate, 1500
    against 1251 does not. *)
Theorem C3_ratio_gate_rejects_exactly_below_minimum :
  (forall (provider : Provider) (env : Env) (block : CompressionService.Block)
          (strategy : Strategy) (w w' : World) (compressedContent : string),
      CompressionService.valid (CompressionService.validateBlock block) = true ->
      CompressionService.compressContent provider env
        (CompressionService.content block) strategy (CompressionService.type block) w
        = (Ok compressedContent, w') ->
      let o := tokenCount (CompressionService.tokens block)
                 (CompressionService.content block) in
      let c := Tokenizer.estimateTokens compressedContent in
      exists r,
        CompressionService.compressBlock provider env block strategy w = (Ok r, w') /\
        ((exists x, Types.error r = Some (RatioBelowMinimum x))
         <-> Js.lt (Js.div o c) 1.2%Q = true) /\
        (Js.lt (Js.div o c) 1.2%Q = true <-> 0 < c /\ 5 * o < 6 * c) /\
        (Js.lt (Js.div o c) 1.2%Q = true -> Types.success r = false)) /\
  (forall (env : Env) (blockId : BlockId) (strategy : string) (w : World)
          (block : Doc) (text : string),
      store w !! blockId = Some block ->
      100 <= tokenCount (tokens block) (content block) ->
      isBlank (content block) = false ->
      answersInTime (claudeQuery env (promptFor block strategy)) text ->
      isBlank text = false ->
      let o := tokenCount (tokens block) (content block) in
      let c := Tokenizer.estimateTokens (Js.trim text) in
      let r := fst (Compression.compressWithClaudeCode env blockId strategy w) in
      ((exists x, r = Err (ClaudeCodeFailed (RatioBelowMinimum x)))
       <-> Js.lt (Js.div o c) 1.2%Q = true) /\
      (Js.lt (Js.div o c) 1.2%Q = true <-> 0 < c /\ 5 * o < 6 * c)) /\
  (forall (env : Env) (blocks : list CompressionService.Block)
          (options : UseCompression.MergeOptions)
          (previous : UseCompression.HookState) (w : World) (text : string),
      let blockIds := List.map CompressionService._id blocks in
      let strategy := strategyName (mergeStrategy options) in
      let prompt := mergePromptFor (docsOf w blockIds) strategy in
      blocks <> [] ->
      allStored w blockIds ->
      100 <= totalTokens (docsOf w blockIds) ->
      answersInTime (claudeQuery env prompt) text ->
      isBlank text = false ->
      let o := totalTokens (docsOf w blockIds) in
      let c := Tokenizer.estimateTokens (Js.trim text) in
      let action := Compression.compressAndMergeWithClaudeCode env blockIds strategy w in
      let run := UseCompression.compressAndMerge claude_code env blocks options previous w in
      ((exists x, fst action = Err (ClaudeCodeFailed (RatioBelowMinimum x)))
       <-> Js.lt (Js.div o c) 1.2%Q = true) /\
      ((exists x, UseCompression.error (fst run)
                  = Some (ClaudeCodeFailed (RatioBelowMinimum x)))
       <-> Js.lt (Js.div o c) 1.2%Q = true) /\
      (Js.lt (Js.div o c) 1.2%Q = true <-> 0 < c /\ 5 * o < 6 * c) /\
      (Js.lt (Js.div o c) 1.2%Q = true ->
       run = (UseCompression.mkHookState false
                (Some (ClaudeCodeFailed (RatioBelowMinimum (Js.div o c)))) None,
              logged w (EvClaudeQuery prompt))) /\
      (Js.lt (Js.div o c) 1.2%Q = false ->
       fst action
       = Ok (Compression.mkMergeResult true (Js.trim text) o c (Js.div o c) (o - c)) /\
       run = afterMutation claude_code env options
               (mergeArgsFor blocks options (Js.trim text) o)
               (logged w (EvClaudeQuery prompt)))) /\
  (forall (provider : Provider) (env : Env) (blocks : list CompressionService.Block)
          (options : UseCompression.MergeOptions)
          (previous : UseCompression.HookState) (w : World) (chunks : list string),
      let call := EvStreamChat provider (clientPrompt (combinedOf blocks) "merged_blocks") in
      provider <> claude_code ->
      blocks <> [] ->
      mergeStrategy options = semantic ->
      streamChat env provider (clientPrompt (combinedOf blocks) "merged_blocks")
      = Returns chunks ->
      let o := Tokenizer.estimateTokens (combinedOf blocks) in
      let c := Tokenizer.estimateTokens (Js.trim (streamed chunks)) in
      let run := UseCompression.compressAndMerge provider env blocks options previous w in
      ((exists x, UseCompression.error (fst run) = Some (RatioBelowMinimum x))
       <-> Js.lt (Js.div o c) 1.2%Q = true) /\
      (Js.lt (Js.div o c) 1.2%Q = true <-> 0 < c /\ 5 * o < 6 * c) /\
      (Js.lt (Js.div o c) 1.2%Q = true ->
       run = (UseCompression.mkHookState false
                (Some (RatioBelowMinimum (Js.div o c))) None, logged w call)) /\
      (Js.lt (Js.div o c) 1.2%Q = false ->
       run = afterMutation provider env options
               (mergeArgsFor blocks options (Js.trim (streamed chunks)) o)
               (logged w call))) /\
  Js.lt (Js.div 1500 1250) 1.2%Q = false /\
  Js.lt (Js.div 1500 1251) 1.2%Q = true.
Proof.
  split; [| split; [| split; [| split; [| split; reflexivity]]]].
  - intros provider env block strategy w w' cc Hv Hc o c.
    destruct (validateBlock_valid _ Hv) as [Ho _]. fold o in Ho.
    rewrite (compressBlock_scored _ _ _ _ _ _ _ Hv Hc).
    fold o c. eexists. split; [reflexivity |]. split; [| split].
    + destruct (Js.lt (Js.div o c) 1.2%Q) eqn:E.
      * split; [reflexivity | intros _; eexists; reflexivity].
      * split; [| discriminate]. intros [x Hx].
        destruct (Js.Qltb _ _); simpl in Hx; discriminate.
    + apply ratio_below_iff; [lia | apply estimateTokens_nonneg].
    + intros ->. reflexivity.
  - intros env blockId strategy w block text Hget Htok Hblank Hans Htext o c r.
    subst r.
    rewrite (compressWithClaudeCode_answered _ _ _ _ _ _ Hget Htok Hblank Hans Htext).
    cbv zeta. unfold compressArgsFor. simpl ca_compressionRatio. fold o c.
    split.
    + destruct (Js.lt (Js.div o c) 1.2%Q) eqn:E.
      * split; [reflexivity | intros _; eexists; reflexivity].
      * split; [| discriminate]. intros [x Hx].
        destruct (compressMutation env _ _); simpl in Hx; discriminate.
    + apply ratio_below_iff; [lia | apply estimateTokens_nonneg].
  - intros env blocks options previous w text blockIds strategy prompt
      Hne Hall Htok Hans Htext o c action run.
    destruct (compressAndMerge_server_answered env blocks options previous w text
                Hne Hall Htok Hans Htext) as [Ha Hr].
    fold blockIds strategy prompt in Ha, Hr. fold action in Ha. fold run in Hr.
    unfold mergeArgsFor in Ha, Hr.
    cbn [ma_compressionRatio ma_originalTokens ma_compressedTokens] in Ha, Hr.
    fold o c in Ha, Hr.
    fold (mergeArgsFor blocks options (Js.trim text) o) in Hr.
    split; [| split; [| split; [| split]]].
    + rewrite Ha. cbn [fst].
      destruct (Js.lt (Js.div o c) 1.2%Q).
      * split; [reflexivity | intros _; eexists; reflexivity].
      * split; [intros [x Hx]; discriminate | discriminate].
    + apply (gate_iff _ ClaudeCodeFailed (Js.div o c)).
      * intros Hlt. rewrite Hr, Hlt. reflexivity.
      * intros Hlt x. rewrite Hr, Hlt. apply afterMutation_not_ratio.
    + apply ratio_below_iff; [lia | apply estimateTokens_nonneg].
    + intros Hlt. rewrite Hr, Hlt. reflexivity.
    + intros Hlt. rewrite Ha, Hr, Hlt. split; reflexivity.
  - intros provider env blocks options previous w chunks call Hp Hne Hs Hstream o c run.
    pose proof (compressAndMerge_client_answered provider env blocks options previous
                  w chunks Hp Hne Hs Hstream) as Hr.
    fold call in Hr. fold run in Hr.
    unfold mergeArgsFor in Hr. cbn [ma_compressionRatio] in Hr. fold o c in Hr.
    fold (mergeArgsFor blocks options (Js.trim (streamed chunks)) o) in Hr.
    split; [| split; [| split]].
    + apply (gate_iff _ (fun e => e) (Js.div o c)).
      * intros Hlt. rewrite Hr, Hlt. reflexivity.
      * intros Hlt x. rewrite Hr, Hlt. apply afterMutation_not_ratio.
    + apply ratio_below_iff; [| apply estimateTokens_nonneg].
      assert (1 <= o); [| lia].
      apply estimate_positive, combine_nonempty.
      destruct blocks; [congruence | discriminate].
    + intros Hlt. rewrite Hr, Hlt. reflexivity.
    + intros Hlt. rewrite Hr, Hlt. reflexivity.
Qed.

(** C1, as stated, fails on both paths of the merge.  On the server path
    the agent answers "ok" to the three blocks: none of their 12
    important words is preserved, the quality is 0, and yet the hook
    reports no error and the mutation replaces the three blocks by one
    block of content "ok".  With a chat provider the client streams white
    space only: the answer is blank and the quality 0, and yet the three
    blocks are replaced by one block of empty content. *)
Lemma C1_counterexample_unchecked_merge :
  let server :=
    UseCompression.compressAndMerge claude_code (agentAnswering "ok" 1000)
      threeBlocks toWorking UseCompression.initial threeWorld in
  let client :=
    UseCompression.compressAndMerge ollama (streamAnswering ["  "])
      threeBlocks toWorking UseCompression.initial threeWorld in
  length (Compression.extractImportantWords (combinedOf threeBlocks)) = 12%nat /\
  Js.Qltb (Compression.estimateQuality (combinedOf threeBlocks) "ok") 0.6%Q = true /\
  reportsFailure (fst server) = false /\
  List.map (fun blockId => content <$> store (snd server) !! blockId)
    [1%N; 2%N; 3%N; 4%N] = [None; None; None; Some "ok"] /\
  isBlank (streamed ["  "]) = true /\
  Js.Qltb (Semantic.estimateQuality (combinedOf threeBlocks) "") 0.6%Q = true /\
  reportsFailure (fst client) = false /\
  List.map (fun blockId => content <$> store (snd client) !! blockId)
    [1%N; 2%N; 3%N; 4%N] = [None; None; None; Some ""] /\
  List.map (fun blockId => content <$> store threeWorld !! blockId)
    [1%N; 2%N; 3%N; 4%N]
  = [Some (content firstDoc); Some (content secondDoc); Some (content thirdDoc); None].
Proof. cbv zeta. repeat split; vm_compute; reflexivity. Qed.

(** ** The properties at the blocks of the boundary scenario *)

(** The three blocks are stored, and the sample agent answers in time. *)
Lemma threeWorld_stored :
  allStored threeWorld (List.map CompressionService._id threeBlocks).
Proof.
  intros blockId [<- | [<- | [<- | []]]]; eexists; vm_compute; reflexivity.
Defined.

Lemma agent_in_time (text prompt : string) :
  answersInTime (claudeQuery (agentAnswering text 1000) prompt) text.
Proof.
  exists 1000, [AssistantMessage (Some [TextPart text]); ResultMessage].
  split; [reflexivity |]. split; [reflexivity |].
  unfold Compression.textOfMessages, Compression.textOfParts. simpl.
  reflexivity.
Defined.

(** The agent answers the three blocks of 1500 tokens with 1251 tokens:
    the merge is rejected, the hook reports the ratio and sets no result,
    and the table is as it was. *)
Lemma C1_sample_rejected_merge :
  let env := agentAnswering (repeatChar "x" 5004) 1000 in
  let run :=
    UseCompression.compressAndMerge claude_code env threeBlocks toWorking
      UseCompression.initial threeWorld in
  let prompt :=
    mergePromptFor (docsOf threeWorld (List.map CompressionService._id threeBlocks))
      (strategyName (mergeStrategy toWorking)) in
  let args :=
    mergeArgsFor threeBlocks toWorking (Js.trim (repeatChar "x" 5004))
      (totalTokens (docsOf threeWorld (List.map CompressionService._id threeBlocks))) in
  ma_originalTokens args = 1500 /\
  ma_compressedTokens args = 1251 /\
  run = (UseCompression.mkHookState false
           (Some (ClaudeCodeFailed (RatioBelowMinimum (ma_compressionRatio args)))) None,
         logged threeWorld (EvClaudeQuery prompt)) /\
  store (snd run) = store threeWorld /\
  UseCompression.result (fst run) = None.
Proof.
  intros env run prompt args.
  pose proof (C1_failed_merge_leaves_the_blocks_untouched claude_code env threeBlocks
                toWorking UseCompression.initial threeWorld) as H.
  cbv zeta in H. destruct H as (_ & _ & Hserver & _ & _ & Hfailed & _).
  assert (Hne : threeBlocks <> []) by discriminate.
  destruct (Hserver Hne eq_refl) as (_ & _ & _ & _ & Hanswer).
  assert (Htok : 100 <= totalTokens
                          (docsOf threeWorld (List.map CompressionService._id threeBlocks)))
    by (vm_compute; discriminate).
  destruct (Hanswer threeWorld_stored Htok (repeatChar "x" 5004)
              (agent_in_time (repeatChar "x" 5004) _)) as (_ & Hbelow & _).
  assert (Hrun : run = (UseCompression.mkHookState false
                          (Some (ClaudeCodeFailed
                                   (RatioBelowMinimum (ma_compressionRatio args)))) None,
                        logged threeWorld (EvClaudeQuery prompt))).
  { apply Hbelow; vm_compute; reflexivity. }
  split; [vm_compute; reflexivity |]. split; [vm_compute; reflexivity |].
  split; [exact Hrun |].
  assert (F : reportsFailure (fst run) = true) by (rewrite Hrun; reflexivity).
  destruct (Hfailed F) as (Hstore & _ & Hres).
  split; [exact Hstore | exact (Hres Hne)].
Defined.

(** The agent completes after 300001 ms: the compression of the first
    block and the merge of the three blocks both end in the timeout, and
    the table is as it was. *)
Lemma C2_sample_late_agent :
  let env := agentAnswering "ok" 300001 in
  let block := blockOf 1%N firstDoc in
  let blockIds := List.map CompressionService._id threeBlocks in
  let prompt :=
    mergePromptFor (docsOf threeWorld blockIds) (strategyName (mergeStrategy toWorking)) in
  (exists w',
      Compression.compressWithClaudeCode env (CompressionService._id block)
        (strategyName semantic) threeWorld = (Err (ClaudeCodeFailed TimedOut), w')
      /\ UseCompression.compressSingle claude_code env block semantic threeWorld
         = (UseCompression.mkHookState false (Some (ClaudeCodeFailed TimedOut)) None, w')
      /\ store w' = store threeWorld
      /\ List.filter isMutation (newEvents threeWorld w') = []) /\
  (exists w',
      Compression.compressAndMergeWithClaudeCode env blockIds
        (strategyName (mergeStrategy toWorking)) threeWorld
      = (Err (ClaudeCodeFailed TimedOut), w')
      /\ UseCompression.compressAndMerge claude_code env threeBlocks toWorking
           UseCompression.initial threeWorld
         = (UseCompression.mkHookState false (Some (ClaudeCodeFailed TimedOut)) None, w')
      /\ store w' = store threeWorld
      /\ newEvents threeWorld w' = [EvClaudeQuery prompt]
      /\ List.filter isMutation (newEvents threeWorld w') = []) /\
  UseCompression.error
    (fst (UseCompression.compressAndMerge claude_code env threeBlocks toWorking
            UseCompression.initial threeWorld))
  = Some (ClaudeCodeFailed TimedOut).
Proof.
  intros env block blockIds prompt.
  destruct (C2_timeout_is_reported_and_touches_nothing env threeWorld)
    as (_ & Hsingle & Hmerge & Hevery).
  split; [| split].
  - apply (Hsingle block semantic firstDoc).
    + vm_compute. reflexivity.
    + vm_compute. discriminate.
    + reflexivity.
    + vm_compute. reflexivity.
  - apply (Hmerge threeBlocks toWorking UseCompression.initial).
    + discriminate.
    + exact threeWorld_stored.
    + vm_compute. discriminate.
    + vm_compute. reflexivity.
  - assert (Hlate : forall prompt0, missesDeadline (claudeQuery env prompt0))
      by (intros prompt0; vm_compute; reflexivity).
    destruct (proj2 (Hevery Hlate) threeBlocks toWorking UseCompression.initial)
      as (_ & _ & _ & _ & Hcalled).
    apply Hcalled. vm_compute. discriminate.
Defined.

(** The boundary of the ratio gate on each path: the three blocks of 1500
    tokens merged by the agent into 1250 tokens (accepted) and into 1251
    (rejected); the same blocks, whose combined text is estimated at 40
    tokens, merged by a chat client into 33 tokens (accepted) and into 34
    (rejected); one block of 1500 tokens compressed by the service and by
    the action. *)
Lemma C3_sample_boundary_ratios :
  let blockIds := List.map CompressionService._id threeBlocks in
  let o := totalTokens (docsOf threeWorld blockIds) in
  let prompt :=
    mergePromptFor (docsOf threeWorld blockIds) (strategyName (mergeStrategy toWorking)) in
  let accepted := repeatChar "x" 5000 in
  let rejected := repeatChar "x" 5004 in
  let merge text :=
    UseCompression.compressAndMerge claude_code (agentAnswering text 1000) threeBlocks
      toWorking UseCompression.initial threeWorld in
  let clientCall :=
    EvStreamChat ollama (clientPrompt (combinedOf threeBlocks) "merged_blocks") in
  let clientMerge text :=
    UseCompression.compressAndMerge ollama (streamAnswering [text]) threeBlocks
      toWorking UseCompression.initial threeWorld in
  (o = 1500 /\
   Tokenizer.estimateTokens (Js.trim accepted) = 1250 /\
   Tokenizer.estimateTokens (Js.trim rejected) = 1251) /\
  merge accepted
  = afterMutation claude_code (agentAnswering accepted 1000) toWorking
      (mergeArgsFor threeBlocks toWorking (Js.trim accepted) o)
      (logged threeWorld (EvClaudeQuery prompt)) /\
  merge rejected
  = (UseCompression.mkHookState false
       (Some (ClaudeCodeFailed
                (RatioBelowMinimum
                   (Js.div o (Tokenizer.estimateTokens (Js.trim rejected)))))) None,
     logged threeWorld (EvClaudeQuery prompt)) /\
  (Tokenizer.estimateTokens (combinedOf threeBlocks) = 40 /\
   Tokenizer.estimateTokens (Js.trim (streamed [repeatChar "y" 132])) = 33 /\
   Tokenizer.estimateTokens (Js.trim (streamed [repeatChar "y" 136])) = 34) /\
  clientMerge (repeatChar "y" 132)
  = afterMutation ollama (streamAnswering [repeatChar "y" 132]) toWorking
      (mergeArgsFor threeBlocks toWorking (Js.trim (streamed [repeatChar "y" 132]))
         (Tokenizer.estimateTokens (combinedOf threeBlocks)))
      (logged threeWorld clientCall) /\
  clientMerge (repeatChar "y" 136)
  = (UseCompression.mkHookState false
       (Some (RatioBelowMinimum
                (Js.div (Tokenizer.estimateTokens (combinedOf threeBlocks))
                   (Tokenizer.estimateTokens
                      (Js.trim (streamed [repeatChar "y" 136])))))) None,
     logged threeWorld clientCall) /\
  (exists r,
      CompressionService.compressBlock ollama (streamAnswering [repeatChar "x" 5000])
        boundaryBlock semantic sampleWorld
      = (Ok r, logged sampleWorld
                 (EvStreamChat ollama (clientPrompt "lorem ipsum dolor sit amet" "note")))
      /\ ((exists x, Types.error r = Some (RatioBelowMinimum x))
          <-> Js.lt (Js.div 1500 1250) 1.2%Q = true)
      /\ (Js.lt (Js.div 1500 1250) 1.2%Q = true <-> 0 < 1250 /\ 5 * 1500 < 6 * 1250)
      /\ (Js.lt (Js.div 1500 1250) 1.2%Q = true -> Types.success r = false)) /\
  ((exists x,
       fst (Compression.compressWithClaudeCode
              (agentAnswering (repeatChar "x" 5004) 1000) 7%N "semantic" boundaryWorld)
       = Err (ClaudeCodeFailed (RatioBelowMinimum x)))
   <-> Js.lt (Js.div 1500 1251) 1.2%Q = true).
Proof.
  intros blockIds o prompt accepted rejected merge clientCall clientMerge.
  destruct C3_ratio_gate_rejects_exactly_below_minimum
    as (Hblock & Hsingle & Hserver & Hclient & _).
  assert (Hne : threeBlocks <> []) by discriminate.
  assert (Htok : 100 <= totalTokens (docsOf threeWorld blockIds))
    by (vm_compute; discriminate).
  split; [split; [| split]; vm_compute; reflexivity |].
  split; [| split; [| split; [| split; [| split; [| split]]]]].
  - destruct (Hserver (agentAnswering accepted 1000) threeBlocks toWorking
                UseCompression.initial threeWorld accepted Hne threeWorld_stored Htok
                (agent_in_time accepted _) ltac:(vm_compute; reflexivity))
      as (_ & _ & _ & _ & Hpass).
    apply Hpass. vm_compute. reflexivity.
  - destruct (Hserver (agentAnswering rejected 1000) threeBlocks toWorking
                UseCompression.initial threeWorld rejected Hne threeWorld_stored Htok
                (agent_in_time rejected _) ltac:(vm_compute; reflexivity))
      as (_ & _ & _ & Hbelow & _).
    apply Hbelow. vm_compute. reflexivity.
  - split; [| split]; vm_compute; reflexivity.
  - destruct (Hclient ollama (streamAnswering [repeatChar "y" 132]) threeBlocks toWorking
                UseCompression.initial threeWorld [repeatChar "y" 132]
                ltac:(discriminate) Hne ltac:(reflexivity) ltac:(vm_compute; reflexivity))
      as (_ & _ & _ & Hpass).
    apply Hpass. vm_compute. reflexivity.
  - destruct (Hclient ollama (streamAnswering [repeatChar "y" 136]) threeBlocks toWorking
                UseCompression.initial threeWorld [repeatChar "y" 136]
                ltac:(discriminate) Hne ltac:(reflexivity) ltac:(vm_compute; reflexivity))
      as (_ & _ & Hbelow & _).
    apply Hbelow. vm_compute. reflexivity.
  - apply (Hblock ollama (streamAnswering [repeatChar "x" 5000]) boundaryBlock semantic
             sampleWorld
             (logged sampleWorld
                (EvStreamChat ollama (clientPrompt "lorem ipsum dolor sit amet" "note")))
             (repeatChar "x" 5000)).
    + vm_compute. reflexivity.
    + vm_compute. reflexivity.
  - apply (proj1 (Hsingle
             (agentAnswering (repeatChar "x" 5004) 1000) 7%N "semantic" boundaryWorld
             boundaryDoc (repeatChar "x" 5004)
             ltac:(vm_compute; reflexivity) ltac:(vm_compute; discriminate)
             ltac:(vm_compute; reflexivity)
             (agent_in_time (repeatChar "x" 5004) _)
             ltac:(vm_compute; reflexivity))).
Defined.
